(** * Greybus "AP" USB driver for ES2 controller chips (es2.c)

    A shallow embedding of the host-transport driver: the pool of CPort OUT
    urbs, the framing of outbound buffers, the completion callbacks, the
    status classifier and attach/detach.  Driver state, the USB core and the
    allocator are threaded through a state monad over [world]; what the
    driver does to the outside (allocations, submissions, upcalls into the
    greybus core, log lines) is recorded in [w_trace], newest event first.

    Data model: LP64 kernel (int and u32 are 32 bits, size_t and pointers
    64 bits); pointers are addresses in [Z], [NULL] is 0.  The [gfp_mask]
    arguments, the [hd] and [udev] back pointers and the [context] of a urb
    do not influence what is modelled and are left out: there is one bridge
    device.  Of the [usb_device] only its speed is read (by
    [usb_fill_int_urb]). *)

From Stdlib Require Import ZArith List Lia Bool.
From stdpp Require Import base list.
Import ListNotations.

Local Open Scope Z_scope.

(** ** Machine integers *)

Definition INT_MAX : Z := 2 ^ 31 - 1.
Definition U8_MAX : Z := 255.

Definition to_u8 (z : Z) : Z := z mod 2 ^ 8.
Definition to_u16 (z : Z) : Z := z mod 2 ^ 16.
Definition to_u32 (z : Z) : Z := z mod 2 ^ 32.
Definition to_size_t (z : Z) : Z := z mod 2 ^ 64.
(** Conversion to [int]: wrap-around modulo 2^32 into [-2^31, 2^31). *)
Definition to_int (z : Z) : Z := (z + 2 ^ 31) mod 2 ^ 32 - 2 ^ 31.

Abbreviation ptr := Z (only parsing).
Definition NULL : ptr := 0.

(** [ERR_PTR(error)] is [(void * )(long)error]. *)
Definition ERR_PTR (error : Z) : ptr := error mod 2 ^ 64.

(** [IS_ERR] of <linux/err.h>: the last [MAX_ERRNO] addresses stand for
    error codes. *)
Definition MAX_ERRNO : Z := 4095.
Definition IS_ERR (p : ptr) : bool :=
  to_size_t (- MAX_ERRNO) <=? to_size_t p.

(** Errno values of <linux/errno.h> (asm-generic numbering). *)
Definition ENOENT : Z := 2.
Definition EAGAIN : Z := 11.
Definition ENOMEM : Z := 12.
Definition EINVAL : Z := 22.
Definition EPROTO : Z := 71.
Definition EOVERFLOW : Z := 75.
Definition EILSEQ : Z := 84.
Definition ECONNRESET : Z := 104.
Definition ESHUTDOWN : Z := 108.
Definition EINPROGRESS : Z := 115.

(** Macros for making pointers explicitly opaque. *)
Definition conceal_urb (urb : ptr) : ptr := Z.lxor urb 0xbad.
Definition reveal_urb (cookie : ptr) : ptr := Z.lxor cookie 0xbad.

Definition NUM_CPORT_IN_URB : nat := 4.
Definition NUM_CPORT_OUT_URB : nat := 8.

(** ** USB data *)

Inductive pipe : Type :=
| nopipe
| sndbulkpipe (ep : Z)
| rcvbulkpipe (ep : Z)
| rcvintpipe (ep : Z).

Definition pipe_eqb (p q : pipe) : bool :=
  match p, q with
  | nopipe, nopipe => true
  | sndbulkpipe a, sndbulkpipe b => a =? b
  | rcvbulkpipe a, rcvbulkpipe b => a =? b
  | rcvintpipe a, rcvintpipe b => a =? b
  | _, _ => false
  end.

(** The completion handlers a urb of this driver can carry. *)
Inductive usb_complete_t : Type :=
| no_callback
| svc_in_callback_fn
| cport_in_callback_fn
| cport_out_callback_fn.

(** The fields of [struct urb] the driver reads or fills.  In <linux/usb.h>
    [transfer_buffer_length] and [actual_length] are [u32], [status] is
    [int]. *)
Record urb : Type := mk_urb {
  urb_pipe : pipe;
  transfer_buffer : ptr;
  transfer_buffer_length : Z;
  actual_length : Z;
  status : Z;
  interval : Z;
  complete : usb_complete_t
}.

Definition urb_zero : urb := mk_urb nopipe NULL 0 0 0 0 no_callback.

(** [enum usb_device_speed] of <linux/usb/ch9.h>, in its order. *)
Inductive usb_device_speed : Type :=
| USB_SPEED_UNKNOWN
| USB_SPEED_LOW
| USB_SPEED_FULL
| USB_SPEED_HIGH
| USB_SPEED_WIRELESS
| USB_SPEED_SUPER
| USB_SPEED_SUPER_PLUS.

Record usb_endpoint_descriptor : Type := mk_endpoint {
  bEndpointAddress : Z;
  bmAttributes : Z;
  bInterval : Z
}.

(** Endpoint helpers of <linux/usb/ch9.h>. *)
Definition USB_ENDPOINT_XFERTYPE_MASK : Z := 0x03.
Definition USB_ENDPOINT_XFER_BULK : Z := 2.
Definition USB_ENDPOINT_XFER_INT : Z := 3.
Definition USB_ENDPOINT_DIR_MASK : Z := 0x80.
Definition USB_DIR_IN : Z := 0x80.
Definition USB_DIR_OUT : Z := 0.

Definition usb_endpoint_dir_in (epd : usb_endpoint_descriptor) : bool :=
  Z.land (bEndpointAddress epd) USB_ENDPOINT_DIR_MASK =? USB_DIR_IN.
Definition usb_endpoint_dir_out (epd : usb_endpoint_descriptor) : bool :=
  Z.land (bEndpointAddress epd) USB_ENDPOINT_DIR_MASK =? USB_DIR_OUT.
Definition usb_endpoint_xfer_bulk (epd : usb_endpoint_descriptor) : bool :=
  Z.land (bmAttributes epd) USB_ENDPOINT_XFERTYPE_MASK =? USB_ENDPOINT_XFER_BULK.
Definition usb_endpoint_xfer_int (epd : usb_endpoint_descriptor) : bool :=
  Z.land (bmAttributes epd) USB_ENDPOINT_XFERTYPE_MASK =? USB_ENDPOINT_XFER_INT.
Definition usb_endpoint_is_int_in (epd : usb_endpoint_descriptor) : bool :=
  usb_endpoint_xfer_int epd && usb_endpoint_dir_in epd.
Definition usb_endpoint_is_bulk_in (epd : usb_endpoint_descriptor) : bool :=
  usb_endpoint_xfer_bulk epd && usb_endpoint_dir_in epd.
Definition usb_endpoint_is_bulk_out (epd : usb_endpoint_descriptor) : bool :=
  usb_endpoint_xfer_bulk epd && usb_endpoint_dir_out epd.

(** ** Driver state *)

(** [struct es1_ap_dev]; the spinlock is [true] while held. *)
Record es1_ap_dev : Type := mk_es1 {
  control_endpoint : Z;
  svc_endpoint : Z;
  cport_in_endpoint : Z;
  cport_out_endpoint : Z;
  svc_buffer : ptr;
  svc_urb : ptr;
  cport_in_urb : list ptr;
  cport_in_buffer : list ptr;
  cport_out_urb : list ptr;
  cport_out_urb_busy : list bool;
  cport_out_urb_lock : bool
}.

(** The private area of a freshly created host device is zero-filled. *)
Definition es1_zero : es1_ap_dev :=
  mk_es1 0 0 0 0 NULL NULL
    (replicate NUM_CPORT_IN_URB NULL) (replicate NUM_CPORT_IN_URB NULL)
    (replicate NUM_CPORT_OUT_URB NULL) (replicate NUM_CPORT_OUT_URB false)
    false.

(** ** Observable events *)

Inductive log_msg : Type :=
| log_null_buffer
| log_bad_buffer_size (size : Z)
| log_send_inbound
| log_cport_id_range (cport_id : Z)
| log_submit_error (retval : Z)
| log_no_free_urb
| log_overflow (actual : Z)
| log_unknown_status (st : Z)
| log_svc_in_dropped (st : Z)
| log_svc_in_submit (retval : Z)
| log_cport_in_dropped (st : Z)
| log_no_cport_id
| log_cport_in_submit (retval : Z)
| log_unknown_endpoint (addr : Z)
| log_not_enough_endpoints.

Inductive event : Type :=
| EvLog (m : log_msg)
| EvKmalloc (size : Z) (p : ptr)
| EvKfree (p : ptr)
| EvAllocUrb (p : ptr)
| EvFreeUrb (p : ptr)
| EvSubmit (u : ptr) (pi : pipe) (buf : ptr) (len : Z) (ret : Z)
| EvKill (u : ptr)
| EvDataRcvd (cport_id : Z) (data : ptr) (len : Z)
| EvSvcIn (data : ptr) (len : Z)
| EvDataSent (data : ptr) (st : Z)
| EvCreateHd (hd : ptr)
| EvRemoveHd (hd : ptr)
| EvGetDev
| EvPutDev.

Definition is_alloc_urb (e : event) : bool :=
  match e with EvAllocUrb _ => true | _ => false end.
Definition is_submit (e : event) : bool :=
  match e with EvSubmit _ _ _ _ _ => true | _ => false end.
Definition is_data_rcvd (e : event) : bool :=
  match e with EvDataRcvd _ _ _ => true | _ => false end.

(** Number of calls to [usb_alloc_urb] recorded in a trace. *)
Definition alloc_urb_calls (t : list event) : nat :=
  length (filter (fun e => is_alloc_urb e = true) t).

(** Number of calls to [usb_submit_urb], and of upcalls to
    [greybus_data_rcvd], recorded in a trace. *)
Definition submit_calls (t : list event) : nat :=
  length (filter (fun e => is_submit e = true) t).
Definition data_rcvd_calls (t : list event) : nat :=
  length (filter (fun e => is_data_rcvd e = true) t).

(** ** The world *)

Record world : Type := mk_world {
  w_es1 : es1_ap_dev;              (* hd_priv of the host device *)
  w_hd : ptr;                      (* the greybus host device, NULL if none *)
  w_intfdata : bool;               (* usb_get_intfdata(interface) != NULL *)
  w_mem : Z -> Z;                  (* byte-addressed buffer memory *)
  w_urbs : ptr -> urb;             (* the urb objects, by address *)
  w_inflight : pipe -> list ptr;   (* urbs queued on each endpoint *)
  w_heap_next : Z;                 (* next fresh allocator address *)
  w_live : list ptr;               (* allocations not yet freed *)
  w_udev_refs : Z;                 (* reference count of the usb_device *)
  w_alloc_script : list bool;      (* outcomes of the coming allocations *)
  w_submit_script : list Z;        (* results of the coming usb_submit_urb *)
  w_trace : list event
}.

Definition set_es1 (e : es1_ap_dev) (w : world) : world :=
  mk_world e (w_hd w) (w_intfdata w) (w_mem w) (w_urbs w) (w_inflight w)
    (w_heap_next w) (w_live w) (w_udev_refs w) (w_alloc_script w)
    (w_submit_script w) (w_trace w).
Definition set_hd (h : ptr) (w : world) : world :=
  mk_world (w_es1 w) h (w_intfdata w) (w_mem w) (w_urbs w) (w_inflight w)
    (w_heap_next w) (w_live w) (w_udev_refs w) (w_alloc_script w)
    (w_submit_script w) (w_trace w).
Definition set_intfdata (b : bool) (w : world) : world :=
  mk_world (w_es1 w) (w_hd w) b (w_mem w) (w_urbs w) (w_inflight w)
    (w_heap_next w) (w_live w) (w_udev_refs w) (w_alloc_script w)
    (w_submit_script w) (w_trace w).
Definition set_mem (m : Z -> Z) (w : world) : world :=
  mk_world (w_es1 w) (w_hd w) (w_intfdata w) m (w_urbs w) (w_inflight w)
    (w_heap_next w) (w_live w) (w_udev_refs w) (w_alloc_script w)
    (w_submit_script w) (w_trace w).
Definition set_urbs (us : ptr -> urb) (w : world) : world :=
  mk_world (w_es1 w) (w_hd w) (w_intfdata w) (w_mem w) us (w_inflight w)
    (w_heap_next w) (w_live w) (w_udev_refs w) (w_alloc_script w)
    (w_submit_script w) (w_trace w).
Definition set_inflight (q : pipe -> list ptr) (w : world) : world :=
  mk_world (w_es1 w) (w_hd w) (w_intfdata w) (w_mem w) (w_urbs w) q
    (w_heap_next w) (w_live w) (w_udev_refs w) (w_alloc_script w)
    (w_submit_script w) (w_trace w).
Definition set_heap (next : Z) (live : list ptr) (w : world) : world :=
  mk_world (w_es1 w) (w_hd w) (w_intfdata w) (w_mem w) (w_urbs w)
    (w_inflight w) next live (w_udev_refs w) (w_alloc_script w)
    (w_submit_script w) (w_trace w).
Definition set_udev_refs (n : Z) (w : world) : world :=
  mk_world (w_es1 w) (w_hd w) (w_intfdata w) (w_mem w) (w_urbs w)
    (w_inflight w) (w_heap_next w) (w_live w) n (w_alloc_script w)
    (w_submit_script w) (w_trace w).
Definition set_alloc_script (s : list bool) (w : world) : world :=
  mk_world (w_es1 w) (w_hd w) (w_intfdata w) (w_mem w) (w_urbs w)
    (w_inflight w) (w_heap_next w) (w_live w) (w_udev_refs w) s
    (w_submit_script w) (w_trace w).
Definition set_submit_script (s : list Z) (w : world) : world :=
  mk_world (w_es1 w) (w_hd w) (w_intfdata w) (w_mem w) (w_urbs w)
    (w_inflight w) (w_heap_next w) (w_live w) (w_udev_refs w)
    (w_alloc_script w) s (w_trace w).
Definition set_trace (t : list event) (w : world) : world :=
  mk_world (w_es1 w) (w_hd w) (w_intfdata w) (w_mem w) (w_urbs w)
    (w_inflight w) (w_heap_next w) (w_live w) (w_udev_refs w)
    (w_alloc_script w) (w_submit_script w) t.

(** ** The state monad *)

Definition M (A : Type) : Type := world -> A * world.

Definition ret {A : Type} (a : A) : M A := fun w => (a, w).
Definition bind {A B : Type} (c : M A) (k : A -> M B) : M B :=
  fun w => let (a, w') := c w in k a w'.

Notation "'let*' x ':=' c 'in' k" := (bind c (fun x => k))
  (at level 10, x name, c at level 100, k at level 200).
Notation "c ';;' k" := (bind c (fun _ => k))
  (at level 100, k at level 200, right associativity).

Definition get : M world := fun w => (w, w).
Definition modify (f : world -> world) : M unit := fun w => (tt, f w).
Definition emit (e : event) : M unit :=
  modify (fun w => set_trace (e :: w_trace w) w).
Definition dev_err (m : log_msg) : M unit := emit (EvLog m).
Definition pr_err (m : log_msg) : M unit := emit (EvLog m).

(** ** Memory *)

Definition load8 (m : Z -> Z) (a : Z) : Z := to_u8 (m a).
Definition store8 (m : Z -> Z) (a v : Z) : Z -> Z :=
  fun x => if x =? a then to_u8 v else m x.

(** The [n] bytes found at address [a]. *)
Definition read_bytes (m : Z -> Z) (a n : Z) : list Z :=
  map (fun i => load8 m (a + Z.of_nat i)) (seq 0 (Z.to_nat n)).

(** ** The allocator

    Every successful allocation returns a fresh address, aligned to eight
    bytes (ARCH_KMALLOC_MINALIGN), and may fail, returning [NULL]; whether
    it fails is read from [w_alloc_script] (an exhausted script means
    success). *)

Definition chunk (size : Z) : Z := 8 * (Z.max size 0 / 8 + 1).

Fixpoint remove_first (p : ptr) (l : list ptr) : list ptr :=
  match l with
  | [] => []
  | x :: l' => if x =? p then l' else x :: remove_first p l'
  end.

Definition next_alloc_ok (w : world) : bool :=
  match w_alloc_script w with [] => true | b :: _ => b end.

Definition heap_alloc (size : Z) : M ptr := fun w =>
  let w1 := set_alloc_script (tl (w_alloc_script w)) w in
  if next_alloc_ok w
  then let p := w_heap_next w in
       (p, set_heap (p + chunk size) (p :: w_live w) w1)
  else (NULL, w1).

Definition heap_free (p : ptr) : M unit :=
  modify (fun w => set_heap (w_heap_next w) (remove_first p (w_live w)) w).

Definition kmalloc (size : Z) : M ptr :=
  let* p := heap_alloc size in
  emit (EvKmalloc size p) ;;
  ret p.

(** [kfree(NULL)] is a no-op. *)
Definition kfree (p : ptr) : M unit :=
  if p =? NULL then ret tt else (heap_free p ;; emit (EvKfree p)).

(** ** The USB core *)

Definition update_urb (u : ptr) (f : urb -> urb) : M unit :=
  modify (fun w =>
    set_urbs (fun x => if x =? u then f (w_urbs w u) else w_urbs w x) w).

Definition read_urb (u : ptr) : M urb := fun w => (w_urbs w u, w).

(** [usb_fill_bulk_urb] takes the buffer length as an [int] and stores it in
    the [u32] field [transfer_buffer_length]. *)
Definition usb_fill_bulk_urb (u : ptr) (pi : pipe) (buf : ptr)
    (buffer_length : Z) (fn : usb_complete_t) : M unit :=
  update_urb u (fun r =>
    mk_urb pi buf (to_u32 buffer_length) (actual_length r) (status r)
      (interval r) fn).

(** The interval [usb_fill_int_urb] stores in a urb for a device of speed
    [speed]: for high-speed and SuperSpeed devices the [interval] argument
    is an exponent, which <linux/usb.h> first brings into the range 1..16
    ([clamp]) and then turns into [1 << (interval - 1)]; for the other
    speeds it is stored as it is. *)
Definition int_urb_interval (speed : usb_device_speed) (interval : Z) : Z :=
  match speed with
  | USB_SPEED_HIGH | USB_SPEED_SUPER | USB_SPEED_SUPER_PLUS =>
      Z.shiftl 1 (Z.min (Z.max interval 1) 16 - 1)
  | _ => interval
  end.

(** [usb_fill_int_urb]; [speed] is [dev->speed], the one field of the
    device it reads. *)
Definition usb_fill_int_urb (speed : usb_device_speed) (u : ptr) (pi : pipe)
    (buf : ptr) (buffer_length : Z) (fn : usb_complete_t) (ival : Z)
    : M unit :=
  update_urb u (fun r =>
    mk_urb pi buf (to_u32 buffer_length) (actual_length r) (status r)
      (int_urb_interval speed ival) fn).

Definition next_submit_result (w : world) : Z :=
  match w_submit_script w with [] => 0 | r :: _ => to_int r end.

Definition enqueue (pi : pipe) (u : ptr) (q : pipe -> list ptr)
    : pipe -> list ptr :=
  fun x => if pipe_eqb x pi then u :: q x else q x.

Definition dequeue (pi : pipe) (u : ptr) (q : pipe -> list ptr)
    : pipe -> list ptr :=
  fun x => if pipe_eqb x pi then remove_first u (q x) else q x.

Definition queued (u : ptr) (l : list ptr) : bool :=
  existsb (fun x => x =? u) l.

(** [usb_submit_urb]: the result, an [int], is read from [w_submit_script]
    (an exhausted script means 0); on success the urb is queued on its endpoint with status
    [-EINPROGRESS] and no bytes transferred. *)
Definition usb_submit_urb (u : ptr) : M Z := fun w =>
  let r := w_urbs w u in
  let retval := next_submit_result w in
  let w1 := set_submit_script (tl (w_submit_script w)) w in
  let w2 := set_trace (EvSubmit u (urb_pipe r) (transfer_buffer r)
                         (transfer_buffer_length r) retval :: w_trace w1) w1 in
  if retval =? 0
  then (retval,
        set_inflight (enqueue (urb_pipe r) u (w_inflight w2))
          (set_urbs (fun x => if x =? u
                              then mk_urb (urb_pipe r) (transfer_buffer r)
                                     (transfer_buffer_length r) 0
                                     (- EINPROGRESS) (interval r) (complete r)
                              else w_urbs w2 x) w2))
  else (retval, w2).

(** Modelled from the spec: the callbacks required from the upper layer
    ([on_data_received], [on_control_received], [on_send_complete]) are the
    greybus core functions [greybus_data_rcvd], [greybus_svc_in] and
    [greybus_data_sent], whose source is not part of these files; a call is
    recorded with its arguments. *)
Definition greybus_data_rcvd (cport_id : Z) (data : ptr) (len : Z) : M unit :=
  emit (EvDataRcvd cport_id data len).
Definition greybus_svc_in (data : ptr) (len : Z) : M unit :=
  emit (EvSvcIn data len).
Definition greybus_data_sent (data : ptr) (st : Z) : M unit :=
  emit (EvDataSent data st).

Definition usb_get_dev : M unit :=
  modify (fun w => set_udev_refs (w_udev_refs w + 1) w) ;; emit EvGetDev.
Definition usb_put_dev : M unit :=
  modify (fun w => set_udev_refs (w_udev_refs w - 1) w) ;; emit EvPutDev.

Definition modify_es1 (f : es1_ap_dev -> es1_ap_dev) : M unit :=
  modify (fun w => set_es1 (f (w_es1 w)) w).

Definition set_cport_out_urb_busy (l : list bool) (e : es1_ap_dev)
    : es1_ap_dev :=
  mk_es1 (control_endpoint e) (svc_endpoint e) (cport_in_endpoint e)
    (cport_out_endpoint e) (svc_buffer e) (svc_urb e) (cport_in_urb e)
    (cport_in_buffer e) (cport_out_urb e) l (cport_out_urb_lock e).
Definition set_cport_out_urb (l : list ptr) (e : es1_ap_dev) : es1_ap_dev :=
  mk_es1 (control_endpoint e) (svc_endpoint e) (cport_in_endpoint e)
    (cport_out_endpoint e) (svc_buffer e) (svc_urb e) (cport_in_urb e)
    (cport_in_buffer e) l (cport_out_urb_busy e) (cport_out_urb_lock e).
Definition set_cport_in_urb (l : list ptr) (e : es1_ap_dev) : es1_ap_dev :=
  mk_es1 (control_endpoint e) (svc_endpoint e) (cport_in_endpoint e)
    (cport_out_endpoint e) (svc_buffer e) (svc_urb e) l
    (cport_in_buffer e) (cport_out_urb e) (cport_out_urb_busy e)
    (cport_out_urb_lock e).
Definition set_cport_in_buffer (l : list ptr) (e : es1_ap_dev) : es1_ap_dev :=
  mk_es1 (control_endpoint e) (svc_endpoint e) (cport_in_endpoint e)
    (cport_out_endpoint e) (svc_buffer e) (svc_urb e) (cport_in_urb e)
    l (cport_out_urb e) (cport_out_urb_busy e) (cport_out_urb_lock e).
Definition set_svc (buf u : ptr) (e : es1_ap_dev) : es1_ap_dev :=
  mk_es1 (control_endpoint e) (svc_endpoint e) (cport_in_endpoint e)
    (cport_out_endpoint e) buf u (cport_in_urb e)
    (cport_in_buffer e) (cport_out_urb e) (cport_out_urb_busy e)
    (cport_out_urb_lock e).
Definition set_endpoints (ctl svc cin cout : Z) (e : es1_ap_dev)
    : es1_ap_dev :=
  mk_es1 ctl svc cin cout (svc_buffer e) (svc_urb e) (cport_in_urb e)
    (cport_in_buffer e) (cport_out_urb e) (cport_out_urb_busy e)
    (cport_out_urb_lock e).
Definition set_lock (b : bool) (e : es1_ap_dev) : es1_ap_dev :=
  mk_es1 (control_endpoint e) (svc_endpoint e) (cport_in_endpoint e)
    (cport_out_endpoint e) (svc_buffer e) (svc_urb e) (cport_in_urb e)
    (cport_in_buffer e) (cport_out_urb e) (cport_out_urb_busy e) b.

Definition spin_lock_irqsave : M unit := modify_es1 (set_lock true).
Definition spin_unlock_irqrestore : M unit := modify_es1 (set_lock false).

(** ** The driver *)

(** Constants and sizes declared in headers outside this file, and the
    speed of the USB device the bridge is. *)
Class Platform : Type := {
  CPORT_ID_BAD : Z;      (* greybus.h: the reserved inbound-only cport id *)
  PAGE_SIZE : Z;
  sizeof_svc_msg : Z;    (* sizeof(struct svc_msg), svc_msg.h *)
  sizeof_urb : Z;        (* sizeof(struct urb) *)
  sizeof_hd : Z;         (* sizeof(struct greybus_host_device) + hd_priv_size *)
  udev_speed : usb_device_speed   (* udev->speed *)
}.

Section Driver.

Context {P : Platform}.

Definition SZ_64K : Z := 65536.
Definition ES1_SVC_MSG_SIZE : Z := sizeof_svc_msg + SZ_64K.
Definition ES1_GBUF_MSG_SIZE_MAX : Z := PAGE_SIZE.

(** [hd_buffer_constraints]: headroom is [sizeof(u32)], of which one byte is
    used for the cport id. *)
Definition buffer_headroom : Z := 4.
Definition buffer_size_max : Z := ES1_GBUF_MSG_SIZE_MAX.

(** [usb_alloc_urb(0, gfp_mask)]: a zero-initialised urb, or [NULL]. *)
Definition usb_alloc_urb : M ptr :=
  let* p := heap_alloc sizeof_urb in
  (if p =? NULL then ret tt else update_urb p (fun _ => urb_zero)) ;;
  emit (EvAllocUrb p) ;;
  ret p.

(** [usb_free_urb(NULL)] is a no-op. *)
Definition usb_free_urb (u : ptr) : M unit :=
  if u =? NULL then ret tt else (heap_free u ;; emit (EvFreeUrb u)).

(** The loop of [next_free_urb], from index [i] with [n] iterations left:
    the urb found (or [NULL]) and the updated device. *)
Fixpoint next_free_urb_scan (e : es1_ap_dev) (i n : nat) : ptr * es1_ap_dev :=
  match n with
  | O => (NULL, e)
  | S n' =>
      match cport_out_urb_busy e !! i with
      | Some false =>
          (default NULL (cport_out_urb e !! i),
           set_cport_out_urb_busy (<[i:=true]> (cport_out_urb_busy e)) e)
      | _ => next_free_urb_scan e (S i) n'
      end
  end.

Definition next_free_urb : M ptr :=
  spin_lock_irqsave ;;
  let* u := (fun w =>
               let (u, e) := next_free_urb_scan (w_es1 w) 0 NUM_CPORT_OUT_URB in
               (u, set_es1 e w)) in
  spin_unlock_irqrestore ;;
  if negb (u =? NULL) then ret u
  else (dev_err log_no_free_urb ;; usb_alloc_urb).

(** The loop of [free_urb]: [NULL] if the urb was found in the pool (and its
    slot marked free), the urb itself otherwise. *)
Fixpoint free_urb_scan (e : es1_ap_dev) (u : ptr) (i n : nat)
    : ptr * es1_ap_dev :=
  match n with
  | O => (u, e)
  | S n' =>
      match cport_out_urb e !! i with
      | Some p =>
          if u =? p
          then (NULL,
                set_cport_out_urb_busy (<[i:=false]> (cport_out_urb_busy e)) e)
          else free_urb_scan e u (S i) n'
      | None => free_urb_scan e u (S i) n'
      end
  end.

Definition free_urb (u : ptr) : M unit :=
  spin_lock_irqsave ;;
  let* u' := (fun w =>
                let (u', e) := free_urb_scan (w_es1 w) u 0 NUM_CPORT_OUT_URB in
                (u', set_es1 e w)) in
  spin_unlock_irqrestore ;;
  usb_free_urb u'.

Definition buffer_send (cport_id : Z) (buffer : ptr) (buffer_size : Z)
    : M ptr :=
  if buffer =? NULL then
    (pr_err log_null_buffer ;; ret (ERR_PTR (- EINVAL)))
  else if buffer_size >? INT_MAX then
    (pr_err (log_bad_buffer_size buffer_size) ;; ret (ERR_PTR (- EINVAL)))
  else
    let transfer_buffer := buffer - 1 in
    let transfer_buffer_size := to_int (to_size_t (buffer_size + 1)) in
    if cport_id =? CPORT_ID_BAD then
      (pr_err log_send_inbound ;; ret (ERR_PTR (- EINVAL)))
    else if cport_id >? U8_MAX then
      (pr_err (log_cport_id_range cport_id) ;; ret (ERR_PTR (- EINVAL)))
    else
      modify (fun w => set_mem (store8 (w_mem w) transfer_buffer cport_id) w) ;;
      let* u := next_free_urb in
      if u =? NULL then ret (ERR_PTR (- ENOMEM))
      else
        let* w := get in
        usb_fill_bulk_urb u (sndbulkpipe (cport_out_endpoint (w_es1 w)))
          transfer_buffer transfer_buffer_size cport_out_callback_fn ;;
        let* retval := usb_submit_urb u in
        if negb (retval =? 0) then
          (pr_err (log_submit_error retval) ;;
           free_urb u ;;
           ret (ERR_PTR retval))
        else ret (conceal_urb u).

(** The statuses of the case group commented "device is gone, stop sending"
    (reached by [-EOVERFLOW] by falling through after its log line). *)
Definition device_gone_status (st : Z) : bool :=
  (st =? - EOVERFLOW) || (st =? - ECONNRESET) || (st =? - ENOENT) ||
  (st =? - ESHUTDOWN) || (st =? - EILSEQ) || (st =? - EPROTO).

Definition check_urb_status (u : ptr) : M Z :=
  let* r := read_urb u in
  let st := status r in
  if st =? 0 then ret 0
  else
    (if st =? - EOVERFLOW then dev_err (log_overflow (actual_length r))
     else ret tt) ;;
    if device_gone_status st then ret st
    else (dev_err (log_unknown_status st) ;; ret (- EAGAIN)).

(** The [exit:] label of [svc_in_callback]: resubmit the urb. *)
Definition svc_in_exit (u : ptr) : M unit :=
  let* retval := usb_submit_urb u in
  if negb (retval =? 0) then dev_err (log_svc_in_submit retval) else ret tt.

Definition svc_in_callback (u : ptr) : M unit :=
  let* st := check_urb_status u in
  if negb (st =? 0) then
    if (st =? - EAGAIN) || (st =? - EPROTO) then svc_in_exit u
    else dev_err (log_svc_in_dropped st)
  else
    let* r := read_urb u in
    greybus_svc_in (transfer_buffer r) (actual_length r) ;;
    svc_in_exit u.

(** The [exit:] label of [cport_in_callback]. *)
Definition cport_in_exit (u : ptr) : M unit :=
  let* retval := usb_submit_urb u in
  if negb (retval =? 0) then dev_err (log_cport_in_submit retval) else ret tt.

Definition cport_in_callback (u : ptr) : M unit :=
  let* st := check_urb_status u in
  if negb (st =? 0) then
    if (st =? - EAGAIN) || (st =? - EPROTO) then cport_in_exit u
    else dev_err (log_cport_in_dropped st)
  else
    let* r := read_urb u in
    if actual_length r =? 0 then
      (dev_err log_no_cport_id ;; cport_in_exit u)
    else
      let data := transfer_buffer r in
      let* w := get in
      let cport_id := to_u16 (load8 (w_mem w) data) in
      greybus_data_rcvd cport_id (data + 1) (to_u32 (actual_length r - 1)) ;;
      cport_in_exit u.

Definition cport_out_callback (u : ptr) : M unit :=
  let* st := check_urb_status u in
  let* r := read_urb u in
  let data := transfer_buffer r + 1 in
  greybus_data_sent data st ;;
  free_urb u.

(** The USB core hands a finished urb back: it leaves its endpoint queue,
    gets its final status and length, and its completion handler runs. *)
Definition run_complete (u : ptr) : M unit := fun w =>
  match complete (w_urbs w u) with
  | no_callback => (tt, w)
  | svc_in_callback_fn => svc_in_callback u w
  | cport_in_callback_fn => cport_in_callback u w
  | cport_out_callback_fn => cport_out_callback u w
  end.

Definition urb_done (u : ptr) (st actual : Z) : M unit :=
  let* r := read_urb u in
  modify (fun w => set_inflight (dequeue (urb_pipe r) u (w_inflight w)) w) ;;
  update_urb u (fun r =>
    mk_urb (urb_pipe r) (transfer_buffer r) (transfer_buffer_length r)
      (to_u32 actual) (to_int st) (interval r) (complete r)).

Definition usb_hcd_giveback_urb (u : ptr) (st actual : Z) : M unit :=
  urb_done u st actual ;;
  run_complete u.

(** [usb_kill_urb]: a no-op on [NULL]; a queued urb is cancelled, which
    completes it with [-ENOENT] before the call returns. *)
Definition usb_kill_urb (u : ptr) : M unit :=
  if u =? NULL then ret tt
  else
    emit (EvKill u) ;;
    let* w := get in
    if queued u (w_inflight w (urb_pipe (w_urbs w u)))
    then usb_hcd_giveback_urb u (- ENOENT) 0
    else ret tt.

Definition buffer_cancel (cookie : ptr) : M unit :=
  if negb (cookie =? NULL) then usb_kill_urb (reveal_urb cookie) else ret tt.

(** *** SVC messages

    [usb_control_msg] is the synchronous control transfer of the USB core:
    it returns the number of bytes transferred or a negative errno.  What it
    does is a parameter of [submit_svc]. *)
Record control_msg : Type := mk_control_msg {
  cm_endpoint : Z;       (* usb_sndctrlpipe(udev, endpoint) *)
  cm_request : Z;
  cm_requesttype : Z;
  cm_value : Z;
  cm_index : Z;
  cm_data : ptr;
  cm_size : Z;           (* __u16 *)
  cm_timeout : Z
}.

Definition ES1_TIMEOUT : Z := 500.
Definition USB_TYPE_VENDOR : Z := 0x40.
Definition USB_RECIP_INTERFACE : Z := 0x01.

(** The request [submit_svc] makes for the message at [svc_msg]. *)
Definition svc_request (e : es1_ap_dev) (svc_msg : ptr) : control_msg :=
  mk_control_msg (control_endpoint e) 0x01
    (Z.lor (Z.lor USB_DIR_OUT USB_TYPE_VENDOR) USB_RECIP_INTERFACE)
    0x00 0x00 svc_msg (to_u16 sizeof_svc_msg) ES1_TIMEOUT.

(** [retval != sizeof( *svc_msg)] compares an [int] with a [size_t]: the
    [int] is converted to [size_t]. *)
Definition submit_svc (usb_control_msg : control_msg -> M Z) (svc_msg : ptr)
    : M Z :=
  let* w := get in
  let* r := usb_control_msg (svc_request (w_es1 w) svc_msg) in
  let retval := to_int r in
  if negb (to_size_t retval =? to_size_t sizeof_svc_msg) then ret retval
  else ret 0.

(** *** Attach and detach *)

(** Modelled from the spec: [greybus_create_hd] and [greybus_remove_hd]
    belong to the greybus core, whose source is not part of these files.
    The bridge device record is "created on attach, destroyed on detach";
    creation allocates the host device with the driver's private area
    zero-filled, or fails with [NULL]. *)
Definition greybus_create_hd : M ptr :=
  let* hd := heap_alloc sizeof_hd in
  if hd =? NULL then ret NULL
  else
    modify (fun w => set_hd hd (set_es1 es1_zero w)) ;;
    emit (EvCreateHd hd) ;;
    ret hd.

Definition greybus_remove_hd : M unit :=
  let* w := get in
  heap_free (w_hd w) ;;
  emit (EvRemoveHd (w_hd w)) ;;
  modify (set_hd NULL).

(** First loop of [ap_disconnect]: the CPort OUT urbs, up to the first
    [NULL] entry. *)
Fixpoint disconnect_cport_out (i n : nat) : M unit :=
  match n with
  | O => ret tt
  | S n' =>
      let* w := get in
      let u := default NULL (cport_out_urb (w_es1 w) !! i) in
      if u =? NULL then ret tt
      else
        usb_kill_urb u ;;
        usb_free_urb u ;;
        modify_es1 (fun e => set_cport_out_urb (<[i:=NULL]> (cport_out_urb e)) e) ;;
        modify_es1 (fun e =>
          set_cport_out_urb_busy (<[i:=false]> (cport_out_urb_busy e)) e) ;;
        disconnect_cport_out (S i) n'
  end.

(** Second loop: the CPort IN urbs and their buffers. *)
Fixpoint disconnect_cport_in (i n : nat) : M unit :=
  match n with
  | O => ret tt
  | S n' =>
      let* w := get in
      let u := default NULL (cport_in_urb (w_es1 w) !! i) in
      if u =? NULL then ret tt
      else
        usb_kill_urb u ;;
        usb_free_urb u ;;
        let* w := get in
        kfree (default NULL (cport_in_buffer (w_es1 w) !! i)) ;;
        modify_es1 (fun e =>
          set_cport_in_buffer (<[i:=NULL]> (cport_in_buffer e)) e) ;;
        disconnect_cport_in (S i) n'
  end.

Definition ap_disconnect : M unit :=
  let* w := get in
  if negb (w_intfdata w) then ret tt
  else
    disconnect_cport_out 0 NUM_CPORT_OUT_URB ;;
    disconnect_cport_in 0 NUM_CPORT_IN_URB ;;
    let* w := get in
    usb_kill_urb (svc_urb (w_es1 w)) ;;
    let* w := get in
    usb_free_urb (svc_urb (w_es1 w)) ;;
    modify_es1 (fun e => set_svc (svc_buffer e) NULL e) ;;
    let* w := get in
    kfree (svc_buffer (w_es1 w)) ;;
    modify_es1 (fun e => set_svc NULL (svc_urb e) e) ;;
    modify (set_intfdata false) ;;
    greybus_remove_hd ;;
    usb_put_dev.

(** What the endpoint loop of [ap_probe] has found so far. *)
Record endpoints_found : Type := mk_found {
  int_in_found : bool;
  bulk_in_found : bool;
  bulk_out_found : bool;
  svc_interval : Z
}.

Fixpoint probe_endpoints (eps : list usb_endpoint_descriptor)
    (f : endpoints_found) : M endpoints_found :=
  match eps with
  | [] => ret f
  | endpoint :: rest =>
      if usb_endpoint_is_int_in endpoint then
        modify_es1 (fun e =>
          set_endpoints (control_endpoint e) (bEndpointAddress endpoint)
            (cport_in_endpoint e) (cport_out_endpoint e) e) ;;
        probe_endpoints rest
          (mk_found true (bulk_in_found f) (bulk_out_found f)
             (bInterval endpoint))
      else if usb_endpoint_is_bulk_in endpoint then
        modify_es1 (fun e =>
          set_endpoints (control_endpoint e) (svc_endpoint e)
            (bEndpointAddress endpoint) (cport_out_endpoint e) e) ;;
        probe_endpoints rest
          (mk_found (int_in_found f) true (bulk_out_found f) (svc_interval f))
      else if usb_endpoint_is_bulk_out endpoint then
        modify_es1 (fun e =>
          set_endpoints (control_endpoint e) (svc_endpoint e)
            (cport_in_endpoint e) (bEndpointAddress endpoint) e) ;;
        probe_endpoints rest
          (mk_found (int_in_found f) (bulk_in_found f) true (svc_interval f))
      else
        dev_err (log_unknown_endpoint (bEndpointAddress endpoint)) ;;
        probe_endpoints rest f
  end.

(** The loop allocating and submitting the CPort IN urbs; [false] stands for
    [goto error], and the second component is [retval]. *)
Fixpoint probe_cport_in (i n : nat) (retval : Z) : M (bool * Z) :=
  match n with
  | O => ret (true, retval)
  | S n' =>
      let* u := usb_alloc_urb in
      if u =? NULL then ret (false, retval)
      else
        let* buffer := kmalloc ES1_GBUF_MSG_SIZE_MAX in
        if buffer =? NULL then ret (false, retval)
        else
          let* w := get in
          usb_fill_bulk_urb u (rcvbulkpipe (cport_in_endpoint (w_es1 w)))
            buffer (to_int ES1_GBUF_MSG_SIZE_MAX) cport_in_callback_fn ;;
          modify_es1 (fun e => set_cport_in_urb (<[i:=u]> (cport_in_urb e)) e) ;;
          modify_es1 (fun e =>
            set_cport_in_buffer (<[i:=buffer]> (cport_in_buffer e)) e) ;;
          let* retval := usb_submit_urb u in
          if negb (retval =? 0) then ret (false, retval)
          else probe_cport_in (S i) n' retval
  end.

(** The loop allocating the CPort OUT urbs. *)
Fixpoint probe_cport_out (i n : nat) : M bool :=
  match n with
  | O => ret true
  | S n' =>
      let* u := usb_alloc_urb in
      if u =? NULL then ret false
      else
        modify_es1 (fun e => set_cport_out_urb (<[i:=u]> (cport_out_urb e)) e) ;;
        modify_es1 (fun e =>
          set_cport_out_urb_busy (<[i:=false]> (cport_out_urb_busy e)) e) ;;
        probe_cport_out (S i) n'
  end.

(** The [error:] label of [ap_probe]. *)
Definition probe_error (retval : Z) : M Z :=
  ap_disconnect ;; ret retval.

(** [ap_probe], on a device whose control endpoint has address [ep0] and
    whose interface lists the descriptors [eps]. *)
Definition ap_probe (ep0 : Z) (eps : list usb_endpoint_descriptor) : M Z :=
  let retval := - ENOMEM in
  usb_get_dev ;;
  let* hd := greybus_create_hd in
  if hd =? NULL then (usb_put_dev ;; ret (- ENOMEM))
  else
    modify_es1 (set_lock false) ;;
    modify (set_intfdata true) ;;
    modify_es1 (fun e =>
      set_endpoints ep0 (svc_endpoint e) (cport_in_endpoint e)
        (cport_out_endpoint e) e) ;;
    let* f := probe_endpoints eps (mk_found false false false 0) in
    if negb (int_in_found f) || negb (bulk_in_found f)
       || negb (bulk_out_found f)
    then (dev_err log_not_enough_endpoints ;; probe_error retval)
    else
      let* buf := kmalloc ES1_SVC_MSG_SIZE in
      modify_es1 (fun e => set_svc buf (svc_urb e) e) ;;
      if buf =? NULL then probe_error retval
      else
        let* u := usb_alloc_urb in
        modify_es1 (fun e => set_svc (svc_buffer e) u e) ;;
        if u =? NULL then probe_error retval
        else
          let* w := get in
          usb_fill_int_urb udev_speed u (rcvintpipe (svc_endpoint (w_es1 w)))
            (svc_buffer (w_es1 w)) (to_int ES1_SVC_MSG_SIZE)
            svc_in_callback_fn (svc_interval f) ;;
          let* retval := usb_submit_urb u in
          if negb (retval =? 0) then probe_error retval
          else
            let* r := probe_cport_in 0 NUM_CPORT_IN_URB retval in
            if negb (fst r) then probe_error (snd r)
            else
              let* ok := probe_cport_out 0 NUM_CPORT_OUT_URB in
              if negb ok then probe_error (snd r)
              else ret 0.

(** ** Specification vocabulary *)

(** The state of an attached device, as [ap_probe] leaves it and the pool
    operations keep it: eight distinct, allocated pool urbs, eight busy
    flags, the pool lock released. *)
Record dev_ok (w : world) : Prop := mk_dev_ok {
  ok_pool_len : length (cport_out_urb (w_es1 w)) = NUM_CPORT_OUT_URB;
  ok_busy_len : length (cport_out_urb_busy (w_es1 w)) = NUM_CPORT_OUT_URB;
  ok_nodup : NoDup (cport_out_urb (w_es1 w));
  ok_addr : Forall (fun u => 0 < u < w_heap_next w /\ u mod 8 = 0)
              (cport_out_urb (w_es1 w));
  ok_lock : cport_out_urb_lock (w_es1 w) = false;
  ok_heap : 0 < w_heap_next w /\ w_heap_next w mod 8 = 0
}.

(** The arguments [buffer_send] accepts. *)
Definition send_args_ok (cport_id : Z) (buffer : ptr) (buffer_size : Z)
    : Prop :=
  buffer <> NULL /\ 0 <= buffer_size <= INT_MAX /\
  cport_id <> CPORT_ID_BAD /\ 0 <= cport_id <= U8_MAX.

(** The state in which the urb [u] has been filled for sending. *)
Definition filled_for_send (u : ptr) (buf len : Z) (w : world) : world :=
  snd (usb_fill_bulk_urb u (sndbulkpipe (cport_out_endpoint (w_es1 w))) buf
         len cport_out_callback_fn w).

(** Some slot of the pool is free. *)
Definition slot_free (w : world) : Prop :=
  exists i : nat, cport_out_urb_busy (w_es1 w) !! i = Some false.

Fixpoint busy_count (l : list bool) : nat :=
  match l with
  | [] => O
  | b :: l' => if b then S (busy_count l') else busy_count l'
  end.

(** The urbs queued on the bulk-out endpoint: the sends in flight. *)
Definition out_pipe (w : world) : pipe :=
  sndbulkpipe (cport_out_endpoint (w_es1 w)).
Definition sends_in_flight (w : world) : list ptr :=
  w_inflight w (out_pipe w).

(** A history of the send path: the upper layer sends, the USB core
    completes a send that is in flight. *)
Inductive op : Type :=
| OpSend (cport_id : Z) (buffer : ptr) (buffer_size : Z)
| OpComplete (u : ptr) (st actual : Z).

Definition step (o : op) (w : world) : world :=
  match o with
  | OpSend c b s => snd (buffer_send c b s w)
  | OpComplete u st actual =>
      if queued u (sends_in_flight w)
      then snd (usb_hcd_giveback_urb u st actual w)
      else w
  end.

Definition run (ops : list op) (w : world) : world :=
  fold_left (fun w o => step o w) ops w.

(** Every send of the history is issued while fewer than
    [NUM_CPORT_OUT_URB] sends are in flight, so that the concurrent
    in-flight count, the new send included, never exceeds the pool. *)
Fixpoint within_capacity (ops : list op) (w : world) : bool :=
  match ops with
  | [] => true
  | o :: rest =>
      match o with
      | OpSend _ _ _ =>
          (length (sends_in_flight w) <? NUM_CPORT_OUT_URB)%nat
      | OpComplete _ _ _ => true
      end && within_capacity rest (step o w)
  end.

(** A history of the pool alone: acquire a urb, release a urb.  [owned]
    lists the urbs handed out and not released since. *)
Inductive pool_op : Type :=
| Acquire
| Release (u : ptr).

Fixpoint pool_run (ops : list pool_op) (owned : list ptr) (w : world)
    : list ptr * world :=
  match ops with
  | [] => (owned, w)
  | Acquire :: rest =>
      let (u, w') := next_free_urb w in
      pool_run rest (if u =? NULL then owned else u :: owned) w'
  | Release u :: rest =>
      let (_, w') := free_urb u w in
      pool_run rest (remove_first u owned) w'
  end.

(** The urbs handed out are pairwise distinct, and each of them that is a
    pool urb has its busy flag set. *)
Definition owned_ok (owned : list ptr) (w : world) : Prop :=
  NoDup owned /\
  forall u : ptr, u ∈ owned ->
    u < w_heap_next w /\
    forall j : nat, cport_out_urb (w_es1 w) !! j = Some u ->
                    cport_out_urb_busy (w_es1 w) !! j = Some true.

(** The invariant of the send path while no overflow urb is in use: the
    sends in flight are distinct busy pool urbs, filled for the bulk-out
    endpoint, and there are as many of them as busy flags set. *)
Definition send_inv (w : world) : Prop :=
  dev_ok w /\
  NoDup (sends_in_flight w) /\
  length (sends_in_flight w) = busy_count (cport_out_urb_busy (w_es1 w)) /\
  forall u : ptr, u ∈ sends_in_flight w ->
    (exists j : nat, cport_out_urb (w_es1 w) !! j = Some u /\
                     cport_out_urb_busy (w_es1 w) !! j = Some true) /\
    urb_pipe (w_urbs w u) = out_pipe w /\
    complete (w_urbs w u) = cport_out_callback_fn.

(** No send is in flight and no pool urb is marked busy. *)
Definition pool_idle (w : world) : Prop :=
  sends_in_flight w = [] /\
  busy_count (cport_out_urb_busy (w_es1 w)) = 0%nat.

(** What [ap_probe] keeps true from the creation of the host device up to
    the allocation of the pool: a sane allocator frontier, pool arrays of
    the right length with no busy flag set, the lock released, the
    interface bound, and nothing queued on a bulk-out endpoint. *)
Definition attach_inv (w : world) : Prop :=
  (0 < w_heap_next w /\ w_heap_next w mod 8 = 0) /\
  length (cport_out_urb (w_es1 w)) = NUM_CPORT_OUT_URB /\
  length (cport_out_urb_busy (w_es1 w)) = NUM_CPORT_OUT_URB /\
  busy_count (cport_out_urb_busy (w_es1 w)) = 0%nat /\
  cport_out_urb_lock (w_es1 w) = false /\
  w_intfdata w = true /\
  forall ep : Z, w_inflight w (sndbulkpipe ep) = [].

(** A pipe other than a bulk-out pipe. *)
Definition not_sndbulk (pi : pipe) : Prop :=
  match pi with sndbulkpipe _ => False | _ => True end.

(** The value [check_urb_status] returns for a urb whose status is [st]. *)
Definition classified (st : Z) : Z :=
  if st =? 0 then 0 else if device_gone_status st then st else - EAGAIN.

(** What [check_urb_status] logs for a urb whose status is [st] and whose
    [actual_length] is [actual]. *)
Definition status_logs (st actual : Z) : list event :=
  if st =? 0 then []
  else if st =? - EOVERFLOW then [EvLog (log_overflow actual)]
  else if device_gone_status st then []
  else [EvLog (log_unknown_status st)].

(** *** What the device record holds

    The arrays of the device record have their declared sizes. *)
Definition es1_wf (e : es1_ap_dev) : Prop :=
  length (cport_out_urb e) = NUM_CPORT_OUT_URB /\
  length (cport_out_urb_busy e) = NUM_CPORT_OUT_URB /\
  length (cport_in_urb e) = NUM_CPORT_IN_URB /\
  length (cport_in_buffer e) = NUM_CPORT_IN_URB.

(** The entries of an array of pointers before its first [NULL]: those the
    loops of [ap_disconnect] visit. *)
Fixpoint nonnull_prefix (l : list ptr) : list ptr :=
  match l with
  | [] => []
  | p :: l' => if p =? NULL then [] else p :: nonnull_prefix l'
  end.

Definition opt_ptr (p : ptr) : list ptr := if p =? NULL then [] else [p].

(** The CPort IN urbs before the first [NULL], each followed by its
    buffer. *)
Fixpoint in_held (urbs bufs : list ptr) : list ptr :=
  match urbs with
  | [] => []
  | u :: urbs' =>
      if u =? NULL then []
      else u :: opt_ptr (default NULL (head bufs))
             ++ in_held urbs' (tail bufs)
  end.

(** The allocations [ap_disconnect] gives back, in the order in which it
    does: the CPort OUT urbs, the CPort IN urbs and buffers, the SVC urb and
    buffer, and the host device. *)
Definition held (w : world) : list ptr :=
  nonnull_prefix (cport_out_urb (w_es1 w))
  ++ in_held (cport_in_urb (w_es1 w)) (cport_in_buffer (w_es1 w))
  ++ opt_ptr (svc_urb (w_es1 w))
  ++ opt_ptr (svc_buffer (w_es1 w))
  ++ [w_hd w].

(** The urbs [ap_disconnect] kills, in order. *)
Definition killed (w : world) : list ptr :=
  nonnull_prefix (cport_out_urb (w_es1 w))
  ++ nonnull_prefix (cport_in_urb (w_es1 w))
  ++ opt_ptr (svc_urb (w_es1 w)).

(** Freeing the allocations [ps], one after the other. *)
Definition release (ps live : list ptr) : list ptr :=
  fold_left (fun l p => remove_first p l) ps live.

(** Taking the urbs [us] off the queues of their endpoints. *)
Definition unqueue (w : world) (us : list ptr) (q : pipe -> list ptr)
    : pipe -> list ptr :=
  fold_left (fun q u => dequeue (urb_pipe (w_urbs w u)) u q) us q.

(** The receive urbs of the device carry a receive callback (or none). *)
Definition rx_urbs_ok (w : world) : Prop :=
  forall u : ptr,
    u ∈ nonnull_prefix (cport_in_urb (w_es1 w)) ++ opt_ptr (svc_urb (w_es1 w)) ->
    complete (w_urbs w u) <> cport_out_callback_fn.

(** Events other than an allocation or a submission. *)
Definition is_kmalloc (e : event) : bool :=
  match e with EvKmalloc _ _ => true | _ => false end.
Definition passive (e : event) : bool :=
  negb (is_submit e) && negb (is_alloc_urb e) && negb (is_kmalloc e).

(** What the teardown of the device leaves alone: the host device pointer,
    the binding of the interface, the reference count, the allocator
    frontier, and the endpoint and callback of every urb; and it neither
    allocates nor submits a urb. *)
Definition quiet (w w' : world) : Prop :=
  w_hd w' = w_hd w /\
  w_intfdata w' = w_intfdata w /\
  w_udev_refs w' = w_udev_refs w /\
  w_heap_next w' = w_heap_next w /\
  (forall x : ptr,
     complete (w_urbs w' x) = complete (w_urbs w x) /\
     urb_pipe (w_urbs w' x) = urb_pipe (w_urbs w x)) /\
  exists ev : list event,
    w_trace w' = ev ++ w_trace w /\ forallb passive ev = true.

(** *** A run of [ap_probe] *)

(** The last endpoint of a kind among the descriptors of the interface. *)
Fixpoint last_of_kind (kind : usb_endpoint_descriptor -> bool)
    (eps : list usb_endpoint_descriptor) : option usb_endpoint_descriptor :=
  match eps with
  | [] => None
  | e :: rest =>
      match last_of_kind kind rest with
      | Some x => Some x
      | None => if kind e then Some e else None
      end
  end.

(** An endpoint of none of the three kinds the driver uses, and the log
    lines the endpoint loop writes for the endpoints [eps] (newest
    first). *)
Definition endpoint_unknown (e : usb_endpoint_descriptor) : bool :=
  negb (usb_endpoint_is_int_in e) && negb (usb_endpoint_is_bulk_in e)
  && negb (usb_endpoint_is_bulk_out e).
Definition unknown_endpoint_logs (eps : list usb_endpoint_descriptor)
    : list event :=
  rev (map (fun e => EvLog (log_unknown_endpoint (bEndpointAddress e)))
         (filter (fun e => endpoint_unknown e = true) eps)).

(** The result of the latest [usb_submit_urb] recorded in a trace. *)
Fixpoint last_submit_result (t : list event) : option Z :=
  match t with
  | [] => None
  | EvSubmit _ _ _ _ r :: _ => Some r
  | _ :: t' => last_submit_result t'
  end.

(** An event other than a failed allocation or a failed submission. *)
Definition succeeded (e : event) : bool :=
  match e with
  | EvAllocUrb p => negb (p =? NULL)
  | EvKmalloc _ p => negb (p =? NULL)
  | EvSubmit _ _ _ _ r => r =? 0
  | _ => true
  end.

(** A failed allocation. *)
Definition failed_alloc (e : event) : bool :=
  match e with
  | EvAllocUrb p => p =? NULL
  | EvKmalloc _ p => p =? NULL
  | _ => false
  end.

(** The urbs whose allocation is directly followed by a failed [kmalloc]
    in a trace (newest event first). *)
Fixpoint lost_urbs (t : list event) : list ptr :=
  match t with
  | [] => []
  | EvKmalloc _ p :: t' =>
      match t' with
      | EvAllocUrb u :: _ => if p =? NULL then [u] else []
      | _ => []
      end ++ lost_urbs t'
  | _ :: t' => lost_urbs t'
  end.

(** The state of [ap_probe] once the host device exists.  [t] is the trace
    since the call, [pend] the allocations not yet stored in the device
    record, [us], [bs] and [os] the CPort IN urbs, CPort IN buffers and
    CPort OUT urbs stored so far: the arrays are filled from index 0, the
    objects of the device are distinct and below the allocator frontier,
    the live allocations are those of before the call, the pending ones and
    those the device record holds, and every CPort IN urb stored is filled
    for the bulk-in endpoint with its buffer and [cport_in_callback]. *)
Record probing (w0 : world) (t : list event) (pend us bs os : list ptr)
    (w : world) : Prop := mk_probing {
  pb_heap : 0 < w_heap_next w;
  pb_intf : w_intfdata w = true;
  pb_refs : w_udev_refs w = w_udev_refs w0 + 1;
  pb_trace : w_trace w = t ++ w_trace w0;
  pb_in : cport_in_urb (w_es1 w) =
          us ++ replicate (NUM_CPORT_IN_URB - length us) NULL;
  pb_buf : cport_in_buffer (w_es1 w) =
           bs ++ replicate (NUM_CPORT_IN_URB - length bs) NULL;
  pb_out : cport_out_urb (w_es1 w) =
           os ++ replicate (NUM_CPORT_OUT_URB - length os) NULL;
  pb_busy : length (cport_out_urb_busy (w_es1 w)) = NUM_CPORT_OUT_URB;
  pb_len : length bs = length us /\
           (length us <= NUM_CPORT_IN_URB)%nat /\
           (length os <= NUM_CPORT_OUT_URB)%nat;
  pb_nonnull : Forall (fun p => p <> NULL) (us ++ bs ++ os);
  pb_objs : NoDup (pend ++ held w) /\
            Forall (fun p => 0 < p < w_heap_next w) (pend ++ held w);
  pb_live : w_live w ≡ₚ pend ++ held w ++ w_live w0;
  pb_rx : forall (k : nat) (u b : ptr),
      us !! k = Some u -> bs !! k = Some b ->
      urb_pipe (w_urbs w u) = rcvbulkpipe (cport_in_endpoint (w_es1 w)) /\
      transfer_buffer (w_urbs w u) = b /\
      transfer_buffer_length (w_urbs w u) =
        to_u32 (to_int ES1_GBUF_MSG_SIZE_MAX) /\
      complete (w_urbs w u) = cport_in_callback_fn;
  pb_svc : svc_urb (w_es1 w) <> NULL ->
           complete (w_urbs w (svc_urb (w_es1 w))) <> cport_out_callback_fn
}.

(** The SVC urb is filled for the interrupt-in endpoint, with the SVC
    buffer, the interval [ival] and [svc_in_callback], and is queued there;
    the CPort IN urbs [us] are queued on the bulk-in endpoint. *)
Definition receiving (ival : Z) (us : list ptr) (w : world) : Prop :=
  let e := w_es1 w in
  svc_urb e <> NULL /\ svc_buffer e <> NULL /\
  urb_pipe (w_urbs w (svc_urb e)) = rcvintpipe (svc_endpoint e) /\
  transfer_buffer (w_urbs w (svc_urb e)) = svc_buffer e /\
  transfer_buffer_length (w_urbs w (svc_urb e)) =
    to_u32 (to_int ES1_SVC_MSG_SIZE) /\
  interval (w_urbs w (svc_urb e)) = ival /\
  complete (w_urbs w (svc_urb e)) = svc_in_callback_fn /\
  svc_urb e ∈ w_inflight w (rcvintpipe (svc_endpoint e)) /\
  forall u : ptr, u ∈ us -> u ∈ w_inflight w (rcvbulkpipe (cport_in_endpoint e)).

(** The endpoint numbers of two device records agree. *)
Definition same_endpoints (e e' : es1_ap_dev) : Prop :=
  control_endpoint e' = control_endpoint e /\
  svc_endpoint e' = svc_endpoint e /\
  cport_in_endpoint e' = cport_in_endpoint e /\
  cport_out_endpoint e' = cport_out_endpoint e.

(** The device is attached: the endpoint numbers are those of endpoint 0
    and of the last endpoint of each kind, the four CPort IN urbs and the
    eight CPort OUT urbs are stored, and the receive urbs are queued, the
    SVC urb with the interval that the [bInterval] of its endpoint gives on
    a device of this speed. *)
Definition attached (w0 : world) (ep0 : Z)
    (eps : list usb_endpoint_descriptor) (t : list event) (w : world)
    : Prop :=
  exists (e_svc e_in e_out : usb_endpoint_descriptor) (us bs os : list ptr),
    last_of_kind usb_endpoint_is_int_in eps = Some e_svc /\
    last_of_kind usb_endpoint_is_bulk_in eps = Some e_in /\
    last_of_kind usb_endpoint_is_bulk_out eps = Some e_out /\
    control_endpoint (w_es1 w) = ep0 /\
    svc_endpoint (w_es1 w) = bEndpointAddress e_svc /\
    cport_in_endpoint (w_es1 w) = bEndpointAddress e_in /\
    cport_out_endpoint (w_es1 w) = bEndpointAddress e_out /\
    probing w0 t [] us bs os w /\
    length us = NUM_CPORT_IN_URB /\ length os = NUM_CPORT_OUT_URB /\
    receiving (int_urb_interval udev_speed (bInterval e_svc)) us w.

(** [ap_probe] has given up after the events [t]: the interface is not
    bound, the host device is gone, the reference to the USB device has
    been dropped, the teardown has neither allocated nor submitted, and the
    allocations made since the call have been given back, the urbs
    [lost_urbs t] excepted. *)
Definition gave_up (w0 : world) (t : list event) (w : world) : Prop :=
  w_intfdata w = false /\
  w_hd w = NULL /\
  w_udev_refs w = w_udev_refs w0 /\
  w_live w ≡ₚ lost_urbs t ++ w_live w0 /\
  exists ev : list event,
    w_trace w = ev ++ t ++ w_trace w0 /\ forallb passive ev = true.

(** The endpoint queues hold each urb at most once, on the endpoint it is
    filled for. *)
Definition queues_ok (w : world) : Prop :=
  forall p : pipe,
    NoDup (w_inflight w p) /\
    forall u : ptr, u ∈ w_inflight w p -> urb_pipe (w_urbs w u) = p.

End Driver.

(** ** A concrete platform and device, for examples

    The bridge is taken to be a high-speed device. *)

Definition lp64 : Platform :=
  {| CPORT_ID_BAD := 65535; PAGE_SIZE := 4096; sizeof_svc_msg := 64;
     sizeof_urb := 192; sizeof_hd := 512; udev_speed := USB_SPEED_HIGH |}.

Definition world0 : world :=
  mk_world es1_zero NULL false (fun _ => 0) (fun _ => urb_zero) (fun _ => [])
    4096 [] 1 [] [] [].

(** One interrupt-in, one bulk-in and one bulk-out endpoint. *)
Definition es2_endpoints : list usb_endpoint_descriptor :=
  [mk_endpoint 0x81 3 10; mk_endpoint 0x82 2 0; mk_endpoint 0x03 2 0].

(** The device after a successful attach. *)
Definition world_attached : world :=
  snd (ap_probe (P := lp64) 0 es2_endpoints world0).

(** Its first CPort IN urb and first CPort OUT urb. *)
Definition rx_urb : ptr :=
  default NULL (cport_in_urb (w_es1 world_attached) !! 0%nat).
Definition tx_urb : ptr :=
  default NULL (cport_out_urb (w_es1 world_attached) !! 0%nat).

(** The attached device at the moment [rx_urb] completes with status [st]
    and [bytes] in its buffer. *)
Fixpoint store_bytes (m : Z -> Z) (a : Z) (bytes : list Z) : Z -> Z :=
  match bytes with
  | [] => m
  | b :: rest => store_bytes (store8 m a b) (a + 1) rest
  end.

Definition world_rx (st : Z) (bytes : list Z) : world :=
  let w := world_attached in
  snd (urb_done rx_urb st (Z.of_nat (length bytes))
         (set_mem (store_bytes (w_mem w) (transfer_buffer (w_urbs w rx_urb))
                     bytes) w)).

(** The attached device when the coming [usb_submit_urb] will fail with
    [retval]. *)
Definition world_submit_fails (retval : Z) : world :=
  set_submit_script [retval] world_attached.

(** An interface with a second bulk-in endpoint, and one without a bulk-out
    endpoint. *)
Definition two_bulk_in_endpoints : list usb_endpoint_descriptor :=
  [mk_endpoint 0x81 3 10; mk_endpoint 0x82 2 0; mk_endpoint 0x84 2 0;
   mk_endpoint 0x03 2 0].
Definition no_bulk_out_endpoints : list usb_endpoint_descriptor :=
  [mk_endpoint 0x81 3 10; mk_endpoint 0x82 2 0].

(** Ten sends of which at most eight are in flight at a time. *)
Definition ten_sends : list op :=
  map (fun c => OpSend c (100000 + 100 * c) 10) [1; 2; 3; 4; 5; 6; 7; 8]
  ++ [OpComplete tx_urb 0 11; OpSend 9 100900 10;
      OpComplete tx_urb (- ESHUTDOWN) 0; OpSend 10 101000 10].

(** The attached device at the moment its SVC urb completes with status
    [st] and [len] bytes. *)
Definition world_svc_rx (st len : Z) : world :=
  snd (urb_done (svc_urb (w_es1 world_attached)) st len world_attached).

(** The attached device with [rx_urb] alone on the endpoint queues. *)
Definition world_rx_queued : world :=
  set_inflight
    (fun p => if pipe_eqb p (urb_pipe (w_urbs world_attached rx_urb))
              then [rx_urb] else [])
    world_attached.

(** Attaching when the fifth allocation fails (the buffer of the first
    CPort IN urb), and when the fourth one does (the first CPort IN
    urb). *)
Definition world_no_in_buffer : world :=
  set_alloc_script [true; true; true; true; false] world0.
Definition world_no_in_urb : world :=
  set_alloc_script [true; true; true; false] world0.

(** The memory of the attached device once three bytes have arrived in the
    buffer of [rx_urb]. *)
Definition rx_memory : Z -> Z :=
  store_bytes (w_mem world_attached)
    (transfer_buffer (w_urbs world_attached rx_urb)) [7; 170; 187].

(** A control transfer that transfers the whole message. *)
Definition control_msg_sent (m : control_msg) : M Z := ret (cm_size m).

(** * Properties *)

Section Proofs.

Context {P : Platform}.

(** ** Integers and memory *)

(** The length computed by [buffer_send] passes through an [int] and ends
    in the [u32] field of the urb; for every accepted size the field holds
    [buffer_size + 1]. *)
Lemma transfer_length_exact (buffer_size : Z) :
  0 <= buffer_size <= INT_MAX ->
  to_u32 (to_int (to_size_t (buffer_size + 1))) = buffer_size + 1.
Proof.
  unfold INT_MAX, to_u32, to_int, to_size_t. intros Hs.
  rewrite (Z.mod_small (buffer_size + 1)) by lia.
  rewrite Zminus_mod_idemp_l.
  replace (buffer_size + 1 + 2 ^ 31 - 2 ^ 31) with (buffer_size + 1) by lia.
  apply Z.mod_small. lia.
Qed.

(** At the largest accepted size the [int] local itself is negative. *)
Lemma transfer_buffer_size_at_int_max :
  to_int (to_size_t (INT_MAX + 1)) = - 2 ^ 31.
Proof. reflexivity. Qed.

Lemma to_u8_small (z : Z) : 0 <= z <= U8_MAX -> to_u8 z = z.
Proof. unfold to_u8, U8_MAX. intros. apply Z.mod_small. lia. Qed.

Lemma load8_range (m : Z -> Z) (a : Z) : 0 <= load8 m a < 256.
Proof. unfold load8, to_u8. apply Z.mod_pos_bound. lia. Qed.

Lemma load8_store8_same (m : Z -> Z) (a v : Z) :
  load8 (store8 m a v) a = to_u8 v.
Proof.
  unfold load8, store8. rewrite Z.eqb_refl.
  unfold to_u8. apply Z.mod_mod. lia.
Qed.

Lemma load8_store8_other (m : Z -> Z) (a b v : Z) :
  b <> a -> load8 (store8 m a v) b = load8 m b.
Proof.
  intros Hne. unfold load8, store8.
  destruct (Z.eqb_spec b a); [contradiction | reflexivity].
Qed.

Lemma read_bytes_length (m : Z -> Z) (a n : Z) :
  length (read_bytes m a n) = Z.to_nat n.
Proof. unfold read_bytes. rewrite length_map, length_seq. reflexivity. Qed.

Lemma read_bytes_shift (m : Z -> Z) (a : Z) (k : nat) (start : nat) :
  map (fun i => load8 m (a + Z.of_nat i)) (seq (S start) k) =
  map (fun i => load8 m (a + 1 + Z.of_nat i)) (seq start k).
Proof.
  revert start. induction k as [|k IH]; intros start; [reflexivity|].
  cbn [seq map]. rewrite IH. f_equal. f_equal. lia.
Qed.

(** Reading [n + 1] bytes is reading the first and then the other [n]. *)
Lemma read_bytes_cons (m : Z -> Z) (a n : Z) :
  0 <= n ->
  read_bytes m a (n + 1) = load8 m a :: read_bytes m (a + 1) n.
Proof.
  intros Hn. unfold read_bytes.
  replace (Z.to_nat (n + 1)) with (S (Z.to_nat n)) by lia.
  cbn [seq map]. rewrite Z.add_0_r. f_equal. apply read_bytes_shift.
Qed.

(** Bytes at and after [b] do not see a store below [b]. *)
Lemma read_bytes_store8_below (m : Z -> Z) (a b v n : Z) :
  a < b ->
  read_bytes (store8 m a v) b n = read_bytes m b n.
Proof.
  intros Hlt. unfold read_bytes. apply map_ext. intros i.
  apply load8_store8_other. lia.
Qed.

(** ** The cookie *)

Lemma reveal_conceal (u : ptr) : reveal_urb (conceal_urb u) = u.
Proof.
  unfold reveal_urb, conceal_urb.
  rewrite Z.lxor_assoc, Z.lxor_nilpotent. apply Z.lxor_0_r.
Qed.

Lemma conceal_nonnull (u : ptr) : u mod 8 = 0 -> conceal_urb u <> NULL.
Proof.
  unfold conceal_urb, NULL. intros Hal Hz.
  apply Z.lxor_eq in Hz. subst u. discriminate Hal.
Qed.

(** ** Status classification and the receive callbacks *)

Ltac run_monad :=
  unfold dev_err, pr_err, greybus_data_rcvd, greybus_svc_in,
    greybus_data_sent, emit, modify, read_urb, get, bind, ret;
  cbn beta iota.

Lemma check_urb_status_eq (u : ptr) (w : world) :
  check_urb_status u w =
  let st := status (w_urbs w u) in
  if st =? 0 then (0, w)
  else if st =? - EOVERFLOW then
    (st, set_trace (EvLog (log_overflow (actual_length (w_urbs w u)))
                      :: w_trace w) w)
  else if device_gone_status st then (st, w)
  else (- EAGAIN, set_trace (EvLog (log_unknown_status st) :: w_trace w) w).
Proof.
  unfold check_urb_status. run_monad.
  destruct (status (w_urbs w u) =? 0); [reflexivity|].
  destruct (status (w_urbs w u) =? - EOVERFLOW) eqn:Hov.
  - unfold device_gone_status. rewrite Hov. reflexivity.
  - destruct (device_gone_status (status (w_urbs w u))); reflexivity.
Qed.

Lemma device_gone_cases (st : Z) :
  device_gone_status st = true <->
  st = - EOVERFLOW \/ st = - ECONNRESET \/ st = - ENOENT \/
  st = - ESHUTDOWN \/ st = - EILSEQ \/ st = - EPROTO.
Proof.
  unfold device_gone_status.
  rewrite !orb_true_iff, !Z.eqb_eq. tauto.
Qed.

Lemma device_gone_nonzero (st : Z) :
  device_gone_status st = true -> st <> 0 /\ st <> - EAGAIN.
Proof.
  rewrite device_gone_cases.
  unfold EOVERFLOW, ECONNRESET, ENOENT, ESHUTDOWN, EILSEQ, EPROTO, EAGAIN.
  lia.
Qed.


(** The [exit:] path of [cport_in_callback] calls [usb_submit_urb] once and
    logs its failure, if any. *)
Lemma cport_in_exit_trace (u : ptr) (w : world) :
  w_trace (snd (cport_in_exit u w)) =
  (if next_submit_result w =? 0 then []
   else [EvLog (log_cport_in_submit (next_submit_result w))]) ++
  EvSubmit u (urb_pipe (w_urbs w u)) (transfer_buffer (w_urbs w u))
    (transfer_buffer_length (w_urbs w u)) (next_submit_result w) :: w_trace w.
Proof.
  unfold cport_in_exit, usb_submit_urb. run_monad.
  destruct (next_submit_result w =? 0) eqn:Hr; cbn beta iota zeta;
    rewrite Hr; reflexivity.
Qed.

Lemma svc_in_exit_trace (u : ptr) (w : world) :
  w_trace (snd (svc_in_exit u w)) =
  (if next_submit_result w =? 0 then []
   else [EvLog (log_svc_in_submit (next_submit_result w))]) ++
  EvSubmit u (urb_pipe (w_urbs w u)) (transfer_buffer (w_urbs w u))
    (transfer_buffer_length (w_urbs w u)) (next_submit_result w) :: w_trace w.
Proof.
  unfold svc_in_exit, usb_submit_urb. run_monad.
  destruct (next_submit_result w =? 0) eqn:Hr; cbn beta iota zeta;
    rewrite Hr; reflexivity.
Qed.


Lemma submit_calls_exit (m : log_msg) (u : ptr) (pi : pipe)
    (buf len ret : Z) (t : list event) :
  submit_calls
    ((if ret =? 0 then [] else [EvLog m]) ++ EvSubmit u pi buf len ret :: t)
  = S (submit_calls t).
Proof. destruct (ret =? 0); reflexivity. Qed.

(** ** C4: statuses after which a receive urb is not resubmitted *)

(** C4 (as amended): when the completion status of a receive urb is one of
    the device-gone statuses other than -EPROTO (-EOVERFLOW, -ECONNRESET,
    -ENOENT, -ESHUTDOWN, -EILSEQ), [cport_in_callback] and [svc_in_callback]
    return without calling [usb_submit_urb], and the urb is queued on no
    endpoint by them. *)
Theorem device_gone_not_resubmitted (u : ptr) (w : world) :
  device_gone_status (status (w_urbs w u)) = true ->
  status (w_urbs w u) <> - EPROTO ->
  submit_calls (w_trace (snd (cport_in_callback u w))) = submit_calls (w_trace w)
  /\ w_inflight (snd (cport_in_callback u w)) = w_inflight w
  /\ submit_calls (w_trace (snd (svc_in_callback u w))) = submit_calls (w_trace w)
  /\ w_inflight (snd (svc_in_callback u w)) = w_inflight w.
Proof.
  intros Hgone Hproto.
  destruct (device_gone_nonzero _ Hgone) as [Hnz Hnag].
  unfold cport_in_callback, svc_in_callback, bind.
  rewrite check_urb_status_eq. cbn zeta. rewrite Hgone.
  apply Z.eqb_neq in Hnz, Hnag, Hproto. rewrite Hnz.
  destruct (status (w_urbs w u) =? - EOVERFLOW);
    cbn [negb orb]; rewrite Hnz, Hnag, Hproto; cbn [negb orb];
    repeat split; reflexivity.
Qed.

(** ** C9: an empty inbound frame *)

(** C9: on a successful completion with actual length zero,
    [cport_in_callback] makes no upcall to [greybus_data_rcvd], logs the
    missing cport id, and resubmits the urb with [usb_submit_urb]. *)
Theorem zero_length_dropped_and_resubmitted (u : ptr) (w : world) :
  status (w_urbs w u) = 0 ->
  actual_length (w_urbs w u) = 0 ->
  let w' := snd (cport_in_callback u w) in
  data_rcvd_calls (w_trace w') = data_rcvd_calls (w_trace w)
  /\ submit_calls (w_trace w') = S (submit_calls (w_trace w))
  /\ w_trace w' =
     (if next_submit_result w =? 0 then []
      else [EvLog (log_cport_in_submit (next_submit_result w))]) ++
     EvSubmit u (urb_pipe (w_urbs w u)) (transfer_buffer (w_urbs w u))
       (transfer_buffer_length (w_urbs w u)) (next_submit_result w)
     :: EvLog log_no_cport_id :: w_trace w.
Proof.
  intros Hst Hlen w'.
  assert (Htr : w_trace w' =
     (if next_submit_result w =? 0 then []
      else [EvLog (log_cport_in_submit (next_submit_result w))]) ++
     EvSubmit u (urb_pipe (w_urbs w u)) (transfer_buffer (w_urbs w u))
       (transfer_buffer_length (w_urbs w u)) (next_submit_result w)
     :: EvLog log_no_cport_id :: w_trace w).
  { subst w'. unfold cport_in_callback, bind.
    rewrite check_urb_status_eq. cbn zeta. rewrite Hst. cbn [Z.eqb negb].
    unfold read_urb. rewrite Hlen. cbn [Z.eqb].
    unfold dev_err, emit, modify.
    apply (cport_in_exit_trace u
             (set_trace (EvLog log_no_cport_id :: w_trace w) w)). }
  rewrite Htr. repeat split.
  - destruct (next_submit_result w =? 0); reflexivity.
  - rewrite submit_calls_exit. reflexivity.
Qed.

(** ** C1: framing *)

(** Receive half: a successful completion whose buffer holds the byte [C]
    followed by [payload] is handed to [greybus_data_rcvd] as cport [C] with
    the data pointer one past the buffer start and the length reduced by
    one; the bytes there are [payload].  The urb is then resubmitted. *)
Lemma cport_in_callback_delivers (u : ptr) (w : world) (C : Z)
    (payload : list Z) :
  status (w_urbs w u) = 0 ->
  1 <= actual_length (w_urbs w u) < 2 ^ 32 ->
  read_bytes (w_mem w) (transfer_buffer (w_urbs w u))
    (actual_length (w_urbs w u)) = C :: payload ->
  let b := transfer_buffer (w_urbs w u) in
  let n := actual_length (w_urbs w u) in
  let w' := snd (cport_in_callback u w) in
  w_trace w' =
    (if next_submit_result w =? 0 then []
     else [EvLog (log_cport_in_submit (next_submit_result w))]) ++
    EvSubmit u (urb_pipe (w_urbs w u)) b
      (transfer_buffer_length (w_urbs w u)) (next_submit_result w)
    :: EvDataRcvd C (b + 1) (n - 1) :: w_trace w
  /\ read_bytes (w_mem w') (b + 1) (n - 1) = payload
  /\ Z.of_nat (length payload) = n - 1.
Proof.
  intros Hst Hlen Hbuf b n w'.
  assert (Hsplit : read_bytes (w_mem w) b n =
                   load8 (w_mem w) b :: read_bytes (w_mem w) (b + 1) (n - 1)).
  { replace n with (n - 1 + 1) at 1 by lia. apply read_bytes_cons.
    subst n. lia. }
  fold b n in Hbuf. rewrite Hbuf in Hsplit.
  injection Hsplit as HC Hpay.
  assert (Hcid : to_u16 (load8 (w_mem w) b) = C).
  { rewrite <- HC. unfold to_u16. apply Z.mod_small.
    pose proof (load8_range (w_mem w) b). lia. }
  assert (Hw' : w' = snd (cport_in_exit u
                  (set_trace (EvDataRcvd C (b + 1) (n - 1) :: w_trace w) w))).
  { subst w'. unfold cport_in_callback, bind.
    rewrite check_urb_status_eq. cbn zeta. rewrite Hst. cbn [Z.eqb negb].
    unfold read_urb.
    destruct (Z.eqb_spec (actual_length (w_urbs w u)) 0) as [Hz|_]; [lia|].
    unfold get, greybus_data_rcvd, emit, modify. fold b n.
    rewrite Hcid. unfold to_u32. rewrite (Z.mod_small (n - 1)) by (subst n; lia).
    reflexivity. }
  split; [|split].
  - rewrite Hw'. apply cport_in_exit_trace.
  - rewrite Hw', Hpay. unfold cport_in_exit, usb_submit_urb. run_monad.
    destruct (next_submit_result _ =? 0) eqn:Hr; cbn beta iota zeta;
      rewrite Hr; reflexivity.
  - rewrite Hpay, read_bytes_length. subst n. lia.
Qed.

(** ** The pool scans *)

Lemma next_free_urb_scan_spec (e : es1_ap_dev) (n i : nat) :
  (exists j : nat,
      (i <= j < i + n)%nat /\
      cport_out_urb_busy e !! j = Some false /\
      (forall k : nat, (i <= k < j)%nat ->
                       cport_out_urb_busy e !! k <> Some false) /\
      next_free_urb_scan e i n =
        (default NULL (cport_out_urb e !! j),
         set_cport_out_urb_busy (<[j:=true]> (cport_out_urb_busy e)) e))
  \/ ((forall k : nat, (i <= k < i + n)%nat ->
                       cport_out_urb_busy e !! k <> Some false) /\
      next_free_urb_scan e i n = (NULL, e)).
Proof.
  revert i. induction n as [|n IH]; intros i.
  - right. split; [intros k Hk; lia | reflexivity].
  - cbn [next_free_urb_scan].
    destruct (cport_out_urb_busy e !! i) as [[|]|] eqn:Hi.
    1, 3: destruct (IH (S i)) as [(j & Hj & Hfree & Hfirst & Heq)|[Hnone Heq]];
      [ left; exists j; repeat split; try lia; try assumption;
        intros k Hk; destruct (decide (k = i)) as [->|Hne];
        [congruence | apply Hfirst; lia]
      | right; split; [|assumption];
        intros k Hk; destruct (decide (k = i)) as [->|Hne];
        [congruence | apply Hnone; lia] ].
    left. exists i. repeat split; try lia; assumption.
Qed.

Lemma free_urb_scan_spec (e : es1_ap_dev) (u : ptr) (n i : nat) :
  (exists j : nat,
      (i <= j < i + n)%nat /\
      cport_out_urb e !! j = Some u /\
      free_urb_scan e u i n =
        (NULL, set_cport_out_urb_busy (<[j:=false]> (cport_out_urb_busy e)) e))
  \/ ((forall k : nat, (i <= k < i + n)%nat -> cport_out_urb e !! k <> Some u) /\
      free_urb_scan e u i n = (u, e)).
Proof.
  revert i. induction n as [|n IH]; intros i.
  - right. split; [intros k Hk; lia | reflexivity].
  - cbn [free_urb_scan].
    destruct (cport_out_urb e !! i) as [p|] eqn:Hi.
    + destruct (Z.eqb_spec u p) as [->|Hne].
      * left. exists i. repeat split; try lia; assumption.
      * destruct (IH (S i)) as [(j & Hj & Hu & Heq)|[Hnone Heq]].
        -- left. exists j. repeat split; try lia; assumption.
        -- right. split; [|assumption].
           intros k Hk. destruct (decide (k = i)) as [->|Hki];
             [congruence | apply Hnone; lia].
    + destruct (IH (S i)) as [(j & Hj & Hu & Heq)|[Hnone Heq]].
      * left. exists j. repeat split; try lia; assumption.
      * right. split; [|assumption].
        intros k Hk. destruct (decide (k = i)) as [->|Hki];
          [congruence | apply Hnone; lia].
Qed.

(** Record bookkeeping. *)
Lemma set_es1_same (w : world) : set_es1 (w_es1 w) w = w.
Proof. destruct w; reflexivity. Qed.

Lemma unlock_lock_busy (l : list bool) (e : es1_ap_dev) :
  cport_out_urb_lock e = false ->
  set_lock false (set_cport_out_urb_busy l (set_lock true e)) =
  set_cport_out_urb_busy l e.
Proof. destruct e; cbn. intros ->. reflexivity. Qed.

Lemma unlock_lock (e : es1_ap_dev) :
  cport_out_urb_lock e = false -> set_lock false (set_lock true e) = e.
Proof. destruct e; cbn. intros ->. reflexivity. Qed.

(** [next_free_urb] in terms of its scan. *)
Lemma next_free_urb_eq (w : world) :
  next_free_urb w =
  let (u, e) := next_free_urb_scan (set_lock true (w_es1 w)) 0
                  NUM_CPORT_OUT_URB in
  let w1 := set_es1 (set_lock false e) w in
  if negb (u =? NULL) then (u, w1)
  else usb_alloc_urb (set_trace (EvLog log_no_free_urb :: w_trace w1) w1).
Proof.
  unfold next_free_urb, spin_lock_irqsave, spin_unlock_irqrestore, modify_es1.
  run_monad. cbn [w_es1 set_es1].
  destruct (next_free_urb_scan _ _ _) as [u e].
  cbn [w_es1 set_es1]. destruct (negb (u =? NULL)); reflexivity.
Qed.

Lemma free_urb_eq (u : ptr) (w : world) :
  free_urb u w =
  let (u', e) := free_urb_scan (set_lock true (w_es1 w)) u 0
                   NUM_CPORT_OUT_URB in
  usb_free_urb u' (set_es1 (set_lock false e) w).
Proof.
  unfold free_urb, spin_lock_irqsave, spin_unlock_irqrestore, modify_es1.
  run_monad. cbn [w_es1 set_es1].
  destruct (free_urb_scan _ _ _ _) as [u' e].
  cbn [w_es1 set_es1]. reflexivity.
Qed.

(** ** Acquiring and releasing on an attached device *)

Lemma slot_free_first (w : world) :
  dev_ok w -> slot_free w ->
  exists (j : nat) (u : ptr),
    cport_out_urb_busy (w_es1 w) !! j = Some false /\
    cport_out_urb (w_es1 w) !! j = Some u /\
    next_free_urb_scan (set_lock true (w_es1 w)) 0 NUM_CPORT_OUT_URB =
      (u, set_cport_out_urb_busy (<[j:=true]> (cport_out_urb_busy (w_es1 w)))
            (set_lock true (w_es1 w))).
Proof.
  intros Hok [i Hi].
  destruct (next_free_urb_scan_spec (set_lock true (w_es1 w))
              NUM_CPORT_OUT_URB 0)
    as [(j & Hj & Hfree & _ & Heq)|[Hnone _]].
  - cbn [cport_out_urb_busy cport_out_urb set_lock] in *.
    destruct (lookup_lt_is_Some_2 (cport_out_urb (w_es1 w)) j) as [u Hu].
    { rewrite (ok_pool_len _ Hok). lia. }
    exists j, u. rewrite Hu in Heq. auto.
  - exfalso. apply (Hnone i); [|exact Hi].
    apply lookup_lt_Some in Hi. rewrite (ok_busy_len _ Hok) in Hi. lia.
Qed.

Lemma pool_urb_facts (w : world) (j : nat) (u : ptr) :
  dev_ok w -> cport_out_urb (w_es1 w) !! j = Some u ->
  0 < u < w_heap_next w /\ u mod 8 = 0.
Proof.
  intros Hok Hu.
  exact (proj1 (Forall_lookup _ _) (ok_addr _ Hok) j u Hu).
Qed.

(** With a free slot, [next_free_urb] hands out the pool urb of the first
    free slot and marks it busy; nothing else changes. *)
Lemma next_free_urb_pool (w : world) :
  dev_ok w -> slot_free w ->
  exists (j : nat) (u : ptr),
    cport_out_urb_busy (w_es1 w) !! j = Some false /\
    cport_out_urb (w_es1 w) !! j = Some u /\
    next_free_urb w =
      (u, set_es1 (set_cport_out_urb_busy
                     (<[j:=true]> (cport_out_urb_busy (w_es1 w))) (w_es1 w)) w).
Proof.
  intros Hok Hfree.
  destruct (slot_free_first w Hok Hfree) as (j & u & Hj & Hu & Hscan).
  exists j, u. repeat split; try assumption.
  rewrite next_free_urb_eq, Hscan. cbn zeta.
  destruct (pool_urb_facts w j u Hok Hu) as [Hpos _].
  destruct (Z.eqb_spec u NULL) as [Hz|_]; [unfold NULL in Hz; lia|].
  cbn [negb]. rewrite unlock_lock_busy by apply (ok_lock _ Hok). reflexivity.
Qed.

(** With every slot busy, [next_free_urb] complains and falls back to
    [usb_alloc_urb]; the pool is not touched. *)
Lemma next_free_urb_full (w : world) :
  dev_ok w -> ~ slot_free w ->
  next_free_urb w =
  usb_alloc_urb (set_trace (EvLog log_no_free_urb :: w_trace w) w).
Proof.
  intros Hok Hfull.
  destruct (next_free_urb_scan_spec (set_lock true (w_es1 w))
              NUM_CPORT_OUT_URB 0)
    as [(j & _ & Hfree & _)|[_ Heq]].
  - exfalso. apply Hfull. exists j. exact Hfree.
  - rewrite next_free_urb_eq, Heq. cbn zeta. cbn [Z.eqb NULL negb].
    rewrite unlock_lock by apply (ok_lock _ Hok).
    rewrite set_es1_same. reflexivity.
Qed.

Lemma usb_alloc_urb_eq (w : world) :
  usb_alloc_urb w =
  let w1 := set_alloc_script (tl (w_alloc_script w)) w in
  if next_alloc_ok w then
    let p := w_heap_next w in
    let w2 := set_heap (p + chunk sizeof_urb) (p :: w_live w) w1 in
    let w3 := if p =? NULL then w2
              else set_urbs (fun x => if x =? p then urb_zero
                                      else w_urbs w2 x) w2 in
    (p, set_trace (EvAllocUrb p :: w_trace w3) w3)
  else (NULL, set_trace (EvAllocUrb NULL :: w_trace w1) w1).
Proof.
  unfold usb_alloc_urb, heap_alloc, update_urb. run_monad.
  destruct (next_alloc_ok w); cbn zeta; [|reflexivity].
  destruct (w_heap_next w =? NULL); reflexivity.
Qed.

Lemma chunk_pos (size : Z) : 0 < chunk size /\ chunk size mod 8 = 0.
Proof.
  unfold chunk. split.
  - assert (0 <= Z.max size 0 / 8) by (apply Z.div_pos; lia). lia.
  - rewrite Z.mul_comm. apply Z.mod_mul. lia.
Qed.

Ltac wsimpl :=
  cbn [w_es1 w_hd w_intfdata w_mem w_urbs w_inflight w_heap_next w_live
       w_udev_refs w_alloc_script w_submit_script w_trace
       set_es1 set_hd set_intfdata set_mem set_urbs set_inflight set_heap
       set_udev_refs set_alloc_script set_submit_script set_trace
       control_endpoint svc_endpoint cport_in_endpoint cport_out_endpoint
       svc_buffer svc_urb cport_in_urb cport_in_buffer cport_out_urb
       cport_out_urb_busy cport_out_urb_lock
       set_cport_out_urb_busy set_cport_out_urb set_cport_in_urb
       set_cport_in_buffer set_svc set_endpoints set_lock fst snd] in *.

(** [dev_ok] only looks at the pool and at the allocator frontier. *)
Lemma dev_ok_frame (w w' : world) :
  dev_ok w ->
  cport_out_urb (w_es1 w') = cport_out_urb (w_es1 w) ->
  length (cport_out_urb_busy (w_es1 w')) =
    length (cport_out_urb_busy (w_es1 w)) ->
  cport_out_urb_lock (w_es1 w') = false ->
  w_heap_next w <= w_heap_next w' ->
  w_heap_next w' mod 8 = 0 ->
  dev_ok w'.
Proof.
  intros [Hpl Hbl Hnd Haddr Hlock [Hpos Hal]] Hpool Hlen Hlock' Hle Hal'.
  constructor; rewrite ?Hpool, ?Hlen; try assumption.
  - eapply Forall_impl; [exact Haddr|]. cbn beta.
    intros u [[Hu0 Hu1] Hu8]. repeat split; [assumption | lia | assumption].
  - split; [lia | assumption].
Qed.

Lemma slot_free_dec (w : world) : dev_ok w -> slot_free w \/ ~ slot_free w.
Proof.
  intros Hok.
  destruct (next_free_urb_scan_spec (w_es1 w) NUM_CPORT_OUT_URB 0)
    as [(j & _ & Hfree & _)|[Hnone _]].
  - left. exists j. exact Hfree.
  - right. intros [i Hi]. apply (Hnone i); [|exact Hi].
    apply lookup_lt_Some in Hi. rewrite (ok_busy_len _ Hok) in Hi. lia.
Qed.

Lemma set_busy_same (e : es1_ap_dev) :
  set_cport_out_urb_busy (cport_out_urb_busy e) e = e.
Proof. destruct e; reflexivity. Qed.

(** Releasing a pool urb marks its slot free and frees nothing. *)
Lemma free_urb_pool (w : world) (j : nat) (u : ptr) :
  dev_ok w -> cport_out_urb (w_es1 w) !! j = Some u ->
  free_urb u w =
  (tt, set_es1 (set_cport_out_urb_busy
                  (<[j:=false]> (cport_out_urb_busy (w_es1 w))) (w_es1 w)) w).
Proof.
  intros Hok Hu. rewrite free_urb_eq.
  destruct (free_urb_scan_spec (set_lock true (w_es1 w)) u
              NUM_CPORT_OUT_URB 0) as [(j' & _ & Hu' & Heq)|[Hnone _]].
  - wsimpl. assert (j' = j) as ->.
    { eapply NoDup_lookup; [apply (ok_nodup _ Hok) | exact Hu' | exact Hu]. }
    rewrite Heq. wsimpl.
    pose proof (ok_lock _ Hok) as Hlock.
    destruct (w_es1 w); cbn in Hlock |- *; subst; reflexivity.
  - exfalso. wsimpl. apply (Hnone j); [|exact Hu].
    apply lookup_lt_Some in Hu. rewrite (ok_pool_len _ Hok) in Hu. lia.
Qed.

(** Releasing a urb that is not in the pool frees it. *)
Lemma free_urb_dynamic (w : world) (u : ptr) :
  dev_ok w -> u ∉ cport_out_urb (w_es1 w) ->
  free_urb u w = usb_free_urb u w.
Proof.
  intros Hok Hnot. rewrite free_urb_eq.
  destruct (free_urb_scan_spec (set_lock true (w_es1 w)) u
              NUM_CPORT_OUT_URB 0) as [(j' & _ & Hu' & _)|[_ Heq]].
  - exfalso. apply Hnot. wsimpl. eapply list_elem_of_lookup_2. exact Hu'.
  - rewrite Heq. rewrite unlock_lock by apply (ok_lock _ Hok).
    rewrite set_es1_same. reflexivity.
Qed.

Lemma fresh_not_in_pool (w : world) :
  dev_ok w -> w_heap_next w ∉ cport_out_urb (w_es1 w).
Proof.
  intros Hok Hin.
  pose proof (proj1 (Forall_forall _ _) (ok_addr _ Hok) _ Hin) as H.
  cbn beta in H. lia.
Qed.

(** ** [buffer_send] on accepted arguments *)

Lemma usb_submit_urb_fail (u : ptr) (w : world) (r : Z) :
  next_submit_result w = r -> r <> 0 ->
  usb_submit_urb u w =
  (r,
   set_trace (EvSubmit u (urb_pipe (w_urbs w u)) (transfer_buffer (w_urbs w u))
                (transfer_buffer_length (w_urbs w u)) r
              :: w_trace w)
     (set_submit_script (tl (w_submit_script w)) w)).
Proof.
  intros <- Hr. unfold usb_submit_urb.
  destruct (Z.eqb_spec (next_submit_result w) 0); [contradiction|reflexivity].
Qed.

Lemma usb_submit_urb_ok (u : ptr) (w : world) :
  next_submit_result w = 0 ->
  usb_submit_urb u w =
  (0,
   let r := w_urbs w u in
   let w2 := set_trace (EvSubmit u (urb_pipe r) (transfer_buffer r)
                          (transfer_buffer_length r) 0 :: w_trace w)
               (set_submit_script (tl (w_submit_script w)) w) in
   set_inflight (enqueue (urb_pipe r) u (w_inflight w))
     (set_urbs (fun x => if x =? u
                         then mk_urb (urb_pipe r) (transfer_buffer r)
                                (transfer_buffer_length r) 0 (- EINPROGRESS)
                                (interval r) (complete r)
                         else w_urbs w x) w2)).
Proof.
  intros Hr. unfold usb_submit_urb. rewrite Hr. reflexivity.
Qed.

Lemma set_busy_twice (l l' : list bool) (e : es1_ap_dev) :
  set_cport_out_urb_busy l (set_cport_out_urb_busy l' e) =
  set_cport_out_urb_busy l e.
Proof. reflexivity. Qed.

Lemma buffer_send_passes (cport_id buffer buffer_size : Z) (w : world) :
  buffer <> NULL /\ buffer_size <= INT_MAX /\
  cport_id <> CPORT_ID_BAD /\ cport_id <= U8_MAX ->
  buffer_send cport_id buffer buffer_size w =
  let (u, w1) := next_free_urb
                   (set_mem (store8 (w_mem w) (buffer - 1) cport_id) w) in
  if u =? NULL then (ERR_PTR (- ENOMEM), w1)
  else
    let w2 := filled_for_send u (buffer - 1)
                (to_int (to_size_t (buffer_size + 1))) w1 in
    let (retval, w3) := usb_submit_urb u w2 in
    if negb (retval =? 0)
    then (ERR_PTR retval,
          snd (free_urb u
                 (set_trace (EvLog (log_submit_error retval) :: w_trace w3) w3)))
    else (conceal_urb u, w3).
Proof.
  intros (Hbuf & Hsize & Hbad & Hid). unfold buffer_send.
  destruct (Z.eqb_spec buffer NULL) as [|_]; [contradiction|].
  destruct (Z.gtb_spec buffer_size INT_MAX) as [|_]; [lia|].
  destruct (Z.eqb_spec cport_id CPORT_ID_BAD) as [|_]; [contradiction|].
  destruct (Z.gtb_spec cport_id U8_MAX) as [|_]; [lia|].
  unfold filled_for_send. run_monad.
  destruct (next_free_urb _) as [u w1].
  destruct (u =? NULL); [reflexivity|].
  destruct (usb_fill_bulk_urb _ _ _ _ _ _) as [[] w2]. cbn [snd].
  destruct (usb_submit_urb u w2) as [retval w3].
  destruct (negb (retval =? 0)); [|reflexivity].
  run_monad. destruct (free_urb _ _) as [[] w4]. reflexivity.
Qed.

Lemma buffer_send_accepted (cport_id buffer buffer_size : Z) (w : world) :
  send_args_ok cport_id buffer buffer_size ->
  buffer_send cport_id buffer buffer_size w =
  let (u, w1) := next_free_urb
                   (set_mem (store8 (w_mem w) (buffer - 1) cport_id) w) in
  if u =? NULL then (ERR_PTR (- ENOMEM), w1)
  else
    let w2 := filled_for_send u (buffer - 1)
                (to_int (to_size_t (buffer_size + 1))) w1 in
    let (retval, w3) := usb_submit_urb u w2 in
    if negb (retval =? 0)
    then (ERR_PTR retval,
          snd (free_urb u
                 (set_trace (EvLog (log_submit_error retval) :: w_trace w3) w3)))
    else (conceal_urb u, w3).
Proof.
  intros (Hbuf & Hsize & Hbad & Hid). apply buffer_send_passes.
  repeat split; try assumption; lia.
Qed.

Lemma dev_ok_set_mem (m : Z -> Z) (w : world) : dev_ok w -> dev_ok (set_mem m w).
Proof.
  intros Hok. apply (dev_ok_frame w); try reflexivity; apply Hok.
Qed.

Lemma insert_false_true (l : list bool) (j : nat) :
  l !! j = Some false -> <[j:=false]> (<[j:=true]> l) = l.
Proof.
  intros Hj. rewrite list_insert_insert_eq. apply list_insert_id. exact Hj.
Qed.

Ltac submit_fails w Hret :=
  match goal with
  | |- context [usb_submit_urb ?a ?b] =>
      rewrite (usb_submit_urb_fail a b (next_submit_result w) eq_refl Hret)
  end.

(** ** C7: a failed submission leaves the pool as it was *)

(** C7: when [buffer_send] has obtained a urb and [usb_submit_urb] returns a
    nonzero error, the urb is released again before [buffer_send] returns
    that error as an [ERR_PTR]: the device record with its busy flags, the
    set of live allocations and the endpoint queues are as before the
    call. *)
Theorem submit_failure_releases_urb (cport_id buffer buffer_size : Z)
    (w : world) :
  dev_ok w ->
  send_args_ok cport_id buffer buffer_size ->
  slot_free w \/ next_alloc_ok w = true ->
  next_submit_result w <> 0 ->
  let res := buffer_send cport_id buffer buffer_size w in
  fst res = ERR_PTR (next_submit_result w)
  /\ w_es1 (snd res) = w_es1 w
  /\ w_live (snd res) = w_live w
  /\ w_inflight (snd res) = w_inflight w
  /\ submit_calls (w_trace (snd res)) = S (submit_calls (w_trace w)).
Proof.
  intros Hok Hargs Hurb Hret res. subst res.
  rewrite (buffer_send_accepted _ _ _ _ Hargs).
  pose proof (dev_ok_set_mem (store8 (w_mem w) (buffer - 1) cport_id) w Hok)
    as Hok0.
  assert (Hneg : negb (next_submit_result w =? 0) = true).
  { destruct (Z.eqb_spec (next_submit_result w) 0); [contradiction|reflexivity]. }
  destruct (slot_free_dec w Hok) as [Hfree|Hfull].
  - (* a pool urb *)
    destruct (next_free_urb_pool _ Hok0 Hfree) as (j & u & Hj & Hu & ->).
    destruct (pool_urb_facts _ j u Hok0 Hu) as [Hpos _].
    destruct (Z.eqb_spec u NULL) as [Hz|_]; [unfold NULL in Hz; lia|].
    cbn zeta. unfold filled_for_send, usb_fill_bulk_urb, update_urb, modify.
    cbn [snd]. submit_fails w Hret. rewrite Hneg.
    erewrite (free_urb_pool _ j u); cycle 1.
    { eapply (dev_ok_frame w); [exact Hok|reflexivity| |apply Hok|wsimpl; lia
                               |apply Hok].
      wsimpl. apply length_insert. }
    { exact Hu. }
    wsimpl. rewrite insert_false_true by exact Hj.
    rewrite set_busy_twice, set_busy_same.
    repeat split; reflexivity.
  - (* a dynamically allocated urb *)
    destruct Hurb as [Hfree|Halloc]; [contradiction|].
    rewrite (next_free_urb_full _ Hok0 Hfull), usb_alloc_urb_eq.
    cbn zeta. change (next_alloc_ok _) with (next_alloc_ok w).
    rewrite Halloc. wsimpl.
    pose proof (ok_heap _ Hok) as [Hpos Hal].
    destruct (Z.eqb_spec (w_heap_next w) NULL) as [Hz|_];
      [unfold NULL in Hz; lia|].
    unfold filled_for_send, usb_fill_bulk_urb, update_urb, modify.
    cbn [snd]. submit_fails w Hret. rewrite Hneg.
    rewrite free_urb_dynamic; cycle 1.
    { eapply (dev_ok_frame w); [exact Hok|reflexivity|reflexivity|apply Hok| |].
      - wsimpl. pose proof (chunk_pos sizeof_urb). lia.
      - wsimpl. destruct (chunk_pos sizeof_urb) as [_ Hc].
        rewrite Z.add_mod, Hal, Hc by lia. reflexivity. }
    { wsimpl. apply (fresh_not_in_pool w Hok). }
    unfold usb_free_urb.
    destruct (Z.eqb_spec (w_heap_next w) NULL) as [Hz|_];
      [unfold NULL in Hz; lia|].
    unfold heap_free. run_monad. wsimpl. cbn [remove_first].
    rewrite Z.eqb_refl. repeat split; reflexivity.
Qed.

(** ** C6: argument validation *)

(** C6: a null buffer, a size above INT_MAX, the cport id CPORT_ID_BAD or a
    cport id above 255 make [buffer_send] return [ERR_PTR(-EINVAL)]; the
    call only logs one line: no urb is acquired (the busy flags, the whole
    device record, are unchanged), [usb_alloc_urb] and [usb_submit_urb] are
    not called, and no byte of memory is written. *)
Theorem buffer_send_rejects_invalid (cport_id buffer buffer_size : Z)
    (w : world) :
  buffer = NULL \/ buffer_size > INT_MAX \/
  cport_id = CPORT_ID_BAD \/ cport_id > U8_MAX ->
  let res := buffer_send cport_id buffer buffer_size w in
  fst res = ERR_PTR (- EINVAL)
  /\ (exists m : log_msg, snd res = set_trace (EvLog m :: w_trace w) w)
  /\ cport_out_urb_busy (w_es1 (snd res)) = cport_out_urb_busy (w_es1 w)
  /\ alloc_urb_calls (w_trace (snd res)) = alloc_urb_calls (w_trace w)
  /\ submit_calls (w_trace (snd res)) = submit_calls (w_trace w).
Proof.
  intros Hbad res. subst res. unfold buffer_send.
  destruct (Z.eqb_spec buffer NULL) as [Hnull|Hnn].
  { run_monad. cbn [fst snd]. repeat split; eauto. }
  destruct (Z.gtb_spec buffer_size INT_MAX) as [Hbig|Hsmall].
  { run_monad. cbn [fst snd]. repeat split; eauto. }
  destruct (Z.eqb_spec cport_id CPORT_ID_BAD) as [Hinb|Hnb].
  { run_monad. cbn [fst snd]. repeat split; eauto. }
  destruct (Z.gtb_spec cport_id U8_MAX) as [Hrange|Hin].
  { run_monad. cbn [fst snd]. repeat split; eauto. }
  exfalso. destruct Hbad as [?|[?|[?|?]]]; [contradiction|lia|contradiction|lia].
Qed.

(** ** What acquiring and releasing leave alone *)

Lemma next_submit_result_set_urbs (f : Z -> urb) (w : world) :
  next_submit_result (set_urbs f w) = next_submit_result w.
Proof. reflexivity. Qed.

Lemma usb_alloc_urb_frame (w : world) :
  let res := usb_alloc_urb w in
  w_mem (snd res) = w_mem w
  /\ w_submit_script (snd res) = w_submit_script w
  /\ w_trace (snd res) = EvAllocUrb (fst res) :: w_trace w.
Proof.
  cbn zeta. rewrite usb_alloc_urb_eq. cbn zeta.
  destruct (next_alloc_ok w); [|repeat split; reflexivity].
  destruct (w_heap_next w =? NULL); repeat split; reflexivity.
Qed.

Lemma next_free_urb_frame (w : world) :
  let res := next_free_urb w in
  w_mem (snd res) = w_mem w
  /\ w_submit_script (snd res) = w_submit_script w
  /\ exists ev : list event,
       w_trace (snd res) = ev ++ w_trace w /\ submit_calls ev = 0%nat.
Proof.
  cbn zeta. rewrite next_free_urb_eq.
  destruct (next_free_urb_scan _ _ _) as [u e]. cbn zeta.
  destruct (negb (u =? NULL)).
  - repeat split; try reflexivity. exists []. split; reflexivity.
  - destruct (usb_alloc_urb_frame
                (set_trace (EvLog log_no_free_urb
                              :: w_trace (set_es1 (set_lock false e) w))
                   (set_es1 (set_lock false e) w))) as (Hm & Hs & Ht).
    rewrite Hm, Hs, Ht. repeat split; try reflexivity.
    eexists [_; _]. split; reflexivity.
Qed.

Lemma usb_free_urb_frame (u : ptr) (w : world) :
  let res := usb_free_urb u w in
  w_mem (snd res) = w_mem w
  /\ exists ev : list event,
       w_trace (snd res) = ev ++ w_trace w /\ submit_calls ev = 0%nat.
Proof.
  cbn zeta. unfold usb_free_urb, heap_free. run_monad.
  destruct (u =? NULL); cbn [snd]; split; try reflexivity.
  - exists []. split; reflexivity.
  - eexists [_]. split; reflexivity.
Qed.

Lemma free_urb_frame (u : ptr) (w : world) :
  let res := free_urb u w in
  w_mem (snd res) = w_mem w
  /\ exists ev : list event,
       w_trace (snd res) = ev ++ w_trace w /\ submit_calls ev = 0%nat.
Proof.
  cbn zeta. rewrite free_urb_eq.
  destruct (free_urb_scan _ _ _ _) as [u' e].
  apply (usb_free_urb_frame u' (set_es1 (set_lock false e) w)).
Qed.

(** Send half of the framing property: the cport id is stored in the byte
    before the buffer, and the urb handed to [usb_submit_urb] covers that
    byte and the payload; if no urb can be had the call fails with
    [-ENOMEM] before any submission. *)
Lemma buffer_send_frames (cport_id buffer buffer_size : Z) (w : world) :
  send_args_ok cport_id buffer buffer_size ->
  let res := buffer_send cport_id buffer buffer_size w in
  w_mem (snd res) = store8 (w_mem w) (buffer - 1) cport_id
  /\ read_bytes (w_mem (snd res)) (buffer - 1) (buffer_size + 1) =
     cport_id :: read_bytes (w_mem w) buffer buffer_size
  /\ ((fst res = ERR_PTR (- ENOMEM) /\
       submit_calls (w_trace (snd res)) = submit_calls (w_trace w))
      \/ exists (u : ptr) (pi : pipe) (pre post : list event),
           w_trace (snd res) =
             post ++ EvSubmit u pi (buffer - 1) (buffer_size + 1)
                       (next_submit_result w) :: pre
           /\ submit_calls post = 0%nat
           /\ submit_calls pre = submit_calls (w_trace w)
           /\ (next_submit_result w = 0 -> fst res = conceal_urb u)).
Proof.
  intros Hargs res. subst res.
  rewrite (buffer_send_accepted _ _ _ _ Hargs).
  destruct Hargs as (Hbuf & Hsize & Hbad & Hid).
  assert (Hbytes : read_bytes (store8 (w_mem w) (buffer - 1) cport_id)
                     (buffer - 1) (buffer_size + 1) =
                   cport_id :: read_bytes (w_mem w) buffer buffer_size).
  { rewrite read_bytes_cons by lia. rewrite load8_store8_same.
    rewrite to_u8_small by exact Hid.
    replace (buffer - 1 + 1) with buffer by lia.
    rewrite read_bytes_store8_below by lia. reflexivity. }
  pose proof (next_free_urb_frame
                (set_mem (store8 (w_mem w) (buffer - 1) cport_id) w))
    as (Hm1 & Hs1 & ev1 & Ht1 & Hc1).
  cbn zeta in Hm1, Hs1, Ht1.
  destruct (next_free_urb _) as [u w1]. cbn [fst snd] in *.
  destruct (u =? NULL).
  { cbn [fst snd]. rewrite Hm1. split; [reflexivity|].
    split; [exact Hbytes|]. left.
    split; [reflexivity|]. rewrite Ht1. unfold submit_calls in *.
    rewrite filter_app, length_app, Hc1. reflexivity. }
  cbn zeta. unfold filled_for_send, usb_fill_bulk_urb, update_urb, modify.
  cbn [snd].
  assert (Hr : next_submit_result w1 = next_submit_result w).
  { unfold next_submit_result. rewrite Hs1. reflexivity. }
  destruct (Z.eqb_spec (next_submit_result w) 0) as [Hz|Hnz].
  - match goal with
    | |- context [usb_submit_urb ?a ?b] =>
        rewrite (usb_submit_urb_ok a b)
          by (rewrite next_submit_result_set_urbs; congruence)
    end.
    cbn [Z.eqb negb fst snd]. wsimpl. rewrite Z.eqb_refl.
    cbn [urb_pipe transfer_buffer transfer_buffer_length].
    rewrite (transfer_length_exact _ Hsize), Hz.
    split; [exact Hm1|]. split; [rewrite Hm1; exact Hbytes|]. right.
    eexists u, _, _, []. cbn [app]. repeat split.
    rewrite Ht1. unfold submit_calls in *.
    rewrite filter_app, length_app, Hc1. reflexivity.
  - match goal with
    | |- context [usb_submit_urb ?a ?b] =>
        rewrite (usb_submit_urb_fail a b (next_submit_result w))
          by (try rewrite next_submit_result_set_urbs; congruence)
    end.
    destruct (Z.eqb_spec (next_submit_result w) 0) as [|_]; [contradiction|].
    cbn [negb fst snd].
    match goal with
    | |- context [free_urb u ?w2] =>
        pose proof (free_urb_frame u w2) as (Hm4 & ev4 & Ht4 & Hc4)
    end.
    cbn zeta in Hm4, Ht4. rewrite Hm4, Ht4. wsimpl. rewrite Z.eqb_refl.
    cbn [urb_pipe transfer_buffer transfer_buffer_length].
    rewrite (transfer_length_exact _ Hsize).
    split; [exact Hm1|]. split; [rewrite Hm1; exact Hbytes|]. right.
    eexists u, _, _, (ev4 ++ [_]). rewrite <- app_assoc. cbn [app].
    repeat split.
    + unfold submit_calls in *. rewrite filter_app, length_app, Hc4.
      reflexivity.
    + rewrite Ht1. unfold submit_calls in *.
      rewrite filter_app, length_app, Hc1. reflexivity.
    + intros H0. contradiction.
Qed.

Lemma next_free_urb_nonnull (w : world) :
  dev_ok w -> slot_free w \/ next_alloc_ok w = true ->
  0 < fst (next_free_urb w) /\ fst (next_free_urb w) mod 8 = 0.
Proof.
  intros Hok Hurb.
  destruct (slot_free_dec w Hok) as [Hfree|Hfull].
  - destruct (next_free_urb_pool w Hok Hfree) as (j & u & _ & Hu & ->).
    destruct (pool_urb_facts w j u Hok Hu) as [[Hpos _] Hal]. auto.
  - destruct Hurb as [Hfree|Halloc]; [contradiction|].
    rewrite (next_free_urb_full w Hok Hfull), usb_alloc_urb_eq.
    cbn zeta. change (next_alloc_ok _) with (next_alloc_ok w).
    rewrite Halloc. cbn [fst]. wsimpl. apply (ok_heap _ Hok).
Qed.

(** [next_free_urb] leaves the endpoint numbers alone. *)
Lemma next_free_urb_out_endpoint (w : world) :
  dev_ok w ->
  cport_out_endpoint (w_es1 (snd (next_free_urb w))) =
  cport_out_endpoint (w_es1 w).
Proof.
  intros Hok. destruct (slot_free_dec w Hok) as [Hfree|Hfull].
  - destruct (next_free_urb_pool w Hok Hfree) as (j & u & _ & _ & ->).
    reflexivity.
  - rewrite (next_free_urb_full w Hok Hfull), usb_alloc_urb_eq. cbn zeta.
    destruct (next_alloc_ok _); [|reflexivity].
    destruct (_ =? NULL); reflexivity.
Qed.

(** On an attached device, when a urb can be had (a slot of the pool is
    free, or [usb_alloc_urb] succeeds), an accepted send is submitted, once:
    on the bulk-out endpoint, from the byte before the buffer, for
    [buffer_size + 1] bytes.  The result is the cookie of the urb if the
    submission succeeds, and the error of the submission otherwise. *)
Lemma buffer_send_submits (cport_id buffer buffer_size : Z) (w : world) :
  dev_ok w ->
  send_args_ok cport_id buffer buffer_size ->
  slot_free w \/ next_alloc_ok w = true ->
  let res := buffer_send cport_id buffer buffer_size w in
  exists (us : ptr) (pre post : list event),
    w_trace (snd res) =
      post ++ EvSubmit us (sndbulkpipe (cport_out_endpoint (w_es1 w)))
                (buffer - 1) (buffer_size + 1) (next_submit_result w)
        :: pre ++ w_trace w
    /\ us <> NULL
    /\ submit_calls post = 0%nat
    /\ submit_calls pre = 0%nat
    /\ (next_submit_result w = 0 -> post = [] /\ fst res = conceal_urb us)
    /\ (next_submit_result w <> 0 ->
        fst res = ERR_PTR (next_submit_result w)).
Proof.
  intros Hok Hargs Hurb res. subst res.
  rewrite (buffer_send_accepted _ _ _ _ Hargs).
  destruct Hargs as (Hbuf & Hsize & Hbad & Hid).
  pose proof (dev_ok_set_mem (store8 (w_mem w) (buffer - 1) cport_id) w Hok)
    as Hok0.
  pose proof (next_free_urb_nonnull _ Hok0 Hurb) as [Hpos _].
  pose proof (next_free_urb_out_endpoint _ Hok0) as Hep.
  pose proof (next_free_urb_frame
                (set_mem (store8 (w_mem w) (buffer - 1) cport_id) w))
    as (_ & Hs1 & ev1 & Ht1 & Hc1).
  cbn zeta in Hs1, Ht1.
  destruct (next_free_urb _) as [u w1]. cbn [fst snd] in *. wsimpl.
  assert (Hnn : u <> NULL) by (unfold NULL; lia).
  destruct (Z.eqb_spec u NULL) as [|_]; [contradiction|].
  cbn zeta. unfold filled_for_send, usb_fill_bulk_urb, update_urb, modify.
  cbn [snd].
  assert (Hr : next_submit_result w1 = next_submit_result w).
  { unfold next_submit_result. rewrite Hs1. reflexivity. }
  destruct (Z.eqb_spec (next_submit_result w) 0) as [Hz|Hnz].
  - match goal with
    | |- context [usb_submit_urb ?a ?b] =>
        rewrite (usb_submit_urb_ok a b)
          by (rewrite next_submit_result_set_urbs; congruence)
    end.
    cbn [Z.eqb negb fst snd]. wsimpl. rewrite Z.eqb_refl.
    cbn [urb_pipe transfer_buffer transfer_buffer_length].
    rewrite (transfer_length_exact _ Hsize), Hz, Hep, Ht1.
    exists u, ev1, []. cbn [app].
    split; [reflexivity|]. split; [exact Hnn|]. split; [reflexivity|].
    split; [exact Hc1|]. split; [intros _; split; reflexivity|].
    intros H. exfalso. apply H. reflexivity.
  - match goal with
    | |- context [usb_submit_urb ?a ?b] =>
        rewrite (usb_submit_urb_fail a b (next_submit_result w))
          by (try rewrite next_submit_result_set_urbs; congruence)
    end.
    destruct (Z.eqb_spec (next_submit_result w) 0) as [|_]; [contradiction|].
    cbn [negb fst snd].
    match goal with
    | |- context [free_urb u ?w2] =>
        pose proof (free_urb_frame u w2) as (_ & ev4 & Ht4 & Hc4)
    end.
    cbn zeta in Ht4. rewrite Ht4. wsimpl. rewrite Z.eqb_refl.
    cbn [urb_pipe transfer_buffer transfer_buffer_length].
    rewrite (transfer_length_exact _ Hsize), Hep, Ht1.
    exists u, ev1, (ev4 ++ [EvLog (log_submit_error (next_submit_result w))]).
    rewrite <- app_assoc. cbn [app].
    split; [reflexivity|]. split; [exact Hnn|].
    split.
    { unfold submit_calls in *. rewrite filter_app, length_app, Hc4.
      reflexivity. }
    split; [exact Hc1|]. split; [intros H; contradiction|].
    intros _. reflexivity.
Qed.

(** C1: framing round trip.  Send: on an attached device, for every payload
    (the [buffer_size] bytes at [buffer]) and cport id accepted by
    [buffer_send], when a urb can be had (a slot of the pool is free or
    [usb_alloc_urb] succeeds), the cport id is written into the byte at
    [buffer - 1], and nowhere else, and exactly one urb is handed to
    [usb_submit_urb]: on the bulk-out endpoint, with that address as
    transfer buffer and [buffer_size + 1] as length, so that the bytes
    transferred are the cport id followed by the payload; the result is the
    cookie of that urb, or the error of the submission.  Receive: for every
    successful completion whose buffer holds the byte [C] followed by
    [payload], of total length at least one, [cport_in_callback] calls
    [greybus_data_rcvd] with cport id [C], the data pointer one past the
    start of the buffer and the total length minus one, and those bytes are
    [payload]. *)
Theorem framing_round_trip (cport_id buffer buffer_size : Z) (w : world)
    (u : ptr) (wr : world) (C : Z) (payload : list Z) :
  dev_ok w ->
  send_args_ok cport_id buffer buffer_size ->
  slot_free w \/ next_alloc_ok w = true ->
  status (w_urbs wr u) = 0 ->
  1 <= actual_length (w_urbs wr u) < 2 ^ 32 ->
  read_bytes (w_mem wr) (transfer_buffer (w_urbs wr u))
    (actual_length (w_urbs wr u)) = C :: payload ->
  (let res := buffer_send cport_id buffer buffer_size w in
   w_mem (snd res) = store8 (w_mem w) (buffer - 1) cport_id
   /\ read_bytes (w_mem (snd res)) (buffer - 1) (buffer_size + 1) =
      cport_id :: read_bytes (w_mem w) buffer buffer_size
   /\ exists (us : ptr) (pre post : list event),
        w_trace (snd res) =
          post ++ EvSubmit us (sndbulkpipe (cport_out_endpoint (w_es1 w)))
                    (buffer - 1) (buffer_size + 1) (next_submit_result w)
            :: pre ++ w_trace w
        /\ us <> NULL
        /\ submit_calls post = 0%nat
        /\ submit_calls pre = 0%nat
        /\ (next_submit_result w = 0 ->
            post = [] /\ fst res = conceal_urb us)
        /\ (next_submit_result w <> 0 ->
            fst res = ERR_PTR (next_submit_result w)))
  /\
  (let b := transfer_buffer (w_urbs wr u) in
   let n := actual_length (w_urbs wr u) in
   let wr' := snd (cport_in_callback u wr) in
   w_trace wr' =
     (if next_submit_result wr =? 0 then []
      else [EvLog (log_cport_in_submit (next_submit_result wr))]) ++
     EvSubmit u (urb_pipe (w_urbs wr u)) b
       (transfer_buffer_length (w_urbs wr u)) (next_submit_result wr)
     :: EvDataRcvd C (b + 1) (n - 1) :: w_trace wr
   /\ read_bytes (w_mem wr') (b + 1) (n - 1) = payload
   /\ Z.of_nat (length payload) = n - 1).
Proof.
  intros Hok Hargs Hurb Hst Hlen Hbuf. split.
  - destruct (buffer_send_frames cport_id buffer buffer_size w Hargs)
      as (Hm & Hb & _).
    split; [exact Hm|]. split; [exact Hb|].
    apply buffer_send_submits; assumption.
  - apply cport_in_callback_delivers; assumption.
Qed.

(** ** C8: cancellation *)

(** Killing a urb that is queued for sending completes it with [-ENOENT]:
    the upper layer is told so, and the urb is released. *)
Lemma kill_sent_urb (u : ptr) (w : world) :
  u <> NULL ->
  complete (w_urbs w u) = cport_out_callback_fn ->
  queued u (w_inflight w (urb_pipe (w_urbs w u))) = true ->
  exists post : list event,
    w_trace (snd (usb_kill_urb u w)) =
      post ++ EvDataSent (transfer_buffer (w_urbs w u) + 1) (- ENOENT)
        :: EvKill u :: w_trace w
    /\ submit_calls post = 0%nat.
Proof.
  intros Hnn Hcb Hq. unfold usb_kill_urb.
  destruct (Z.eqb_spec u NULL) as [|_]; [contradiction|].
  run_monad. wsimpl. rewrite Hq.
  unfold usb_hcd_giveback_urb, urb_done, update_urb. run_monad.
  unfold run_complete. wsimpl. rewrite Z.eqb_refl. cbn [complete].
  rewrite Hcb. unfold cport_out_callback, bind. rewrite check_urb_status_eq.
  cbn zeta. wsimpl. rewrite Z.eqb_refl. cbn [status actual_length].
  change (to_int (- ENOENT)) with (- ENOENT).
  change (- ENOENT =? 0) with false.
  change (- ENOENT =? - EOVERFLOW) with false.
  change (device_gone_status (- ENOENT)) with true.
  cbn iota. run_monad. wsimpl. rewrite Z.eqb_refl. cbn [transfer_buffer].
  match goal with
  | |- context [free_urb u ?w2] =>
      pose proof (free_urb_frame u w2) as (_ & ev & Ht & Hc)
  end.
  cbn zeta in Ht. rewrite Ht. wsimpl. exists ev. split; [reflexivity|exact Hc].
Qed.

Lemma pipe_eqb_refl (p : pipe) : pipe_eqb p p = true.
Proof. destruct p; cbn; try reflexivity; apply Z.eqb_refl. Qed.

(** C8: [buffer_cancel(NULL)] does nothing; the XOR encoding of the cookie
    is its own inverse; and the cookie returned by a successful
    [buffer_send] is non-null and decodes to the urb of that send, which
    [buffer_cancel] kills: the transfer is cancelled and completes with
    [-ENOENT], reported for the caller's buffer. *)
Theorem buffer_cancel_decodes_cookie (cport_id buffer buffer_size : Z)
    (w : world) :
  dev_ok w ->
  send_args_ok cport_id buffer buffer_size ->
  slot_free w \/ next_alloc_ok w = true ->
  next_submit_result w = 0 ->
  let res := buffer_send cport_id buffer buffer_size w in
  buffer_cancel NULL w = (tt, w)
  /\ (forall p : ptr, reveal_urb (conceal_urb p) = p)
  /\ exists (u : ptr) (pi : pipe),
       hd_error (w_trace (snd res)) =
         Some (EvSubmit u pi (buffer - 1) (buffer_size + 1) 0)
       /\ fst res = conceal_urb u
       /\ fst res <> NULL
       /\ reveal_urb (fst res) = u
       /\ buffer_cancel (fst res) (snd res) = usb_kill_urb u (snd res)
       /\ exists post : list event,
            w_trace (snd (buffer_cancel (fst res) (snd res))) =
              post ++ EvDataSent buffer (- ENOENT) :: EvKill u
                :: w_trace (snd res)
            /\ submit_calls post = 0%nat.
Proof.
  intros Hok Hargs Hurb Hret res.
  split; [reflexivity|]. split; [exact reveal_conceal|].
  subst res. rewrite (buffer_send_accepted _ _ _ _ Hargs).
  pose proof (dev_ok_set_mem (store8 (w_mem w) (buffer - 1) cport_id) w Hok)
    as Hok0.
  pose proof (next_free_urb_nonnull _ Hok0 Hurb) as [Hpos Hal].
  pose proof (next_free_urb_frame
                (set_mem (store8 (w_mem w) (buffer - 1) cport_id) w))
    as (_ & Hs1 & _).
  cbn zeta in Hs1.
  destruct (next_free_urb _) as [u w1]. cbn [fst snd] in *.
  destruct (Z.eqb_spec u NULL) as [Hz|Hnn]; [unfold NULL in Hz; lia|].
  cbn zeta. unfold filled_for_send, usb_fill_bulk_urb, update_urb, modify.
  cbn [snd].
  assert (Hr : next_submit_result w1 = 0).
  { unfold next_submit_result in *. rewrite Hs1. exact Hret. }
  match goal with
  | |- context [usb_submit_urb ?a ?b] =>
      rewrite (usb_submit_urb_ok a b)
        by (rewrite next_submit_result_set_urbs; exact Hr)
  end.
  cbn [Z.eqb negb fst snd]. cbn zeta.
  destruct Hargs as (Hbuf & Hsize & Hbad & Hid).
  exists u, (sndbulkpipe (cport_out_endpoint (w_es1 w1))).
  assert (Hcookie : conceal_urb u <> NULL) by (apply conceal_nonnull; exact Hal).
  repeat split.
  - wsimpl. rewrite Z.eqb_refl.
    cbn [urb_pipe transfer_buffer transfer_buffer_length hd_error].
    rewrite (transfer_length_exact _ Hsize). reflexivity.
  - exact Hcookie.
  - apply reveal_conceal.
  - unfold buffer_cancel.
    destruct (Z.eqb_spec (conceal_urb u) NULL) as [|_]; [contradiction|].
    cbn [negb]. rewrite reveal_conceal. reflexivity.
  - unfold buffer_cancel.
    destruct (Z.eqb_spec (conceal_urb u) NULL) as [|_]; [contradiction|].
    cbn [negb]. rewrite reveal_conceal.
    match goal with
    | |- context [usb_kill_urb u ?w2] =>
        destruct (kill_sent_urb u w2 Hnn) as (post & Ht & Hc)
    end.
    + wsimpl. rewrite Z.eqb_refl. reflexivity.
    + wsimpl. rewrite Z.eqb_refl. cbn [urb_pipe]. unfold enqueue.
      rewrite pipe_eqb_refl. cbn [queued existsb]. rewrite Z.eqb_refl.
      reflexivity.
    + exists post. split; [|exact Hc]. rewrite Ht. wsimpl.
      rewrite Z.eqb_refl. cbn [transfer_buffer].
      replace (buffer - 1 + 1) with buffer by lia. reflexivity.
Qed.

(** ** C3: mutual exclusion on the pool *)

Lemma remove_first_subset (u x : ptr) (l : list ptr) :
  x ∈ remove_first u l -> x ∈ l.
Proof.
  induction l as [|y l IH]; cbn [remove_first]; [auto|].
  destruct (y =? u); rewrite ?elem_of_cons; intuition.
Qed.

Lemma remove_first_NoDup (u : ptr) (l : list ptr) :
  NoDup l -> NoDup (remove_first u l) /\ u ∉ remove_first u l.
Proof.
  induction l as [|y l IH]; cbn [remove_first]; intros Hnd.
  - split; [constructor | apply not_elem_of_nil].
  - apply NoDup_cons in Hnd as [Hy Hnd]. destruct (IH Hnd) as [IH1 IH2].
    destruct (Z.eqb_spec y u) as [->|Hne].
    + split; assumption.
    + split.
      * apply NoDup_cons. split; [|exact IH1].
        intros Hin. apply Hy. eapply remove_first_subset. exact Hin.
      * apply not_elem_of_cons. split; [congruence | exact IH2].
Qed.

Lemma remove_first_length (u : ptr) (l : list ptr) :
  u ∈ l -> S (length (remove_first u l)) = length l.
Proof.
  induction l as [|y l IH]; cbn [remove_first].
  - intros H. apply elem_of_nil in H. contradiction.
  - intros H. destruct (Z.eqb_spec y u) as [->|Hne]; [reflexivity|].
    apply elem_of_cons in H as [->|H]; [contradiction|].
    cbn [length]. rewrite IH by exact H. reflexivity.
Qed.


Lemma insert_true_keeps_true (l : list bool) (i j : nat) :
  l !! i = Some true -> <[j:=true]> l !! i = Some true.
Proof.
  intros Hi. destruct (decide (j = i)) as [->|Hne].
  - apply list_lookup_insert_eq. eapply lookup_lt_Some. exact Hi.
  - rewrite list_lookup_insert_ne by exact Hne. exact Hi.
Qed.

(** Acquiring and releasing keep the device well formed. *)
Lemma next_free_urb_dev_ok (w : world) :
  dev_ok w -> dev_ok (snd (next_free_urb w)).
Proof.
  intros Hok. destruct (slot_free_dec w Hok) as [Hfree|Hfull].
  - destruct (next_free_urb_pool w Hok Hfree) as (j & u & _ & _ & ->).
    cbn [snd]. apply (dev_ok_frame w _ Hok); wsimpl;
      [reflexivity | apply length_insert | apply Hok | lia | apply Hok].
  - rewrite (next_free_urb_full w Hok Hfull), usb_alloc_urb_eq. cbn zeta.
    destruct (ok_heap _ Hok) as [Hpos Hal].
    destruct (chunk_pos sizeof_urb) as [Hcp Hc].
    destruct (next_alloc_ok _); cbn [snd].
    + destruct (w_heap_next _ =? NULL);
        apply (dev_ok_frame w _ Hok); wsimpl;
        try reflexivity; try apply Hok; try lia;
        rewrite Z.add_mod, Hal, Hc by lia; reflexivity.
    + apply (dev_ok_frame w _ Hok); wsimpl;
        try reflexivity; try apply Hok; lia.
Qed.

Lemma usb_free_urb_es1 (u : ptr) (w : world) :
  w_es1 (snd (usb_free_urb u w)) = w_es1 w
  /\ w_heap_next (snd (usb_free_urb u w)) = w_heap_next w.
Proof.
  unfold usb_free_urb, heap_free. run_monad.
  destruct (u =? NULL); split; reflexivity.
Qed.

Lemma free_urb_dev_ok (u : ptr) (w : world) :
  dev_ok w -> dev_ok (snd (free_urb u w)).
Proof.
  intros Hok. destruct (decide (u ∈ cport_out_urb (w_es1 w))) as [Hin|Hnot].
  - apply list_elem_of_lookup_1 in Hin as [j Hj].
    rewrite (free_urb_pool w j u Hok Hj). cbn [snd].
    apply (dev_ok_frame w _ Hok); wsimpl;
      [reflexivity | apply length_insert | apply Hok | lia | apply Hok].
  - rewrite (free_urb_dynamic w u Hok Hnot).
    destruct (usb_free_urb_es1 u w) as [He Hh].
    apply (dev_ok_frame w _ Hok); rewrite ?He, ?Hh;
      try reflexivity; try apply Hok; lia.
Qed.

Lemma acquire_keeps_owned (owned : list ptr) (w : world) :
  dev_ok w -> owned_ok owned w ->
  owned_ok (if fst (next_free_urb w) =? NULL then owned
            else fst (next_free_urb w) :: owned)
    (snd (next_free_urb w)).
Proof.
  intros Hok [Hnd Hown].
  destruct (slot_free_dec w Hok) as [Hfree|Hfull].
  - destruct (next_free_urb_pool w Hok Hfree) as (j & u & Hj & Hu & ->).
    cbn [fst snd].
    destruct (pool_urb_facts w j u Hok Hu) as [[Hpos Hlt] _].
    destruct (Z.eqb_spec u NULL) as [Hz|_]; [unfold NULL in Hz; lia|].
    split.
    + apply NoDup_cons. split; [|exact Hnd].
      intros Hin. destruct (Hown u Hin) as [_ Hb].
      specialize (Hb j Hu). congruence.
    + intros x Hx. wsimpl. apply elem_of_cons in Hx as [->|Hx].
      * split; [exact Hlt|]. intros i Hi.
        assert (i = j) as ->
          by (eapply NoDup_lookup; [apply (ok_nodup _ Hok)|exact Hi|exact Hu]).
        apply list_lookup_insert_eq. eapply lookup_lt_Some. exact Hj.
      * destruct (Hown x Hx) as [Hxlt Hb]. split; [exact Hxlt|].
        intros i Hi. apply insert_true_keeps_true. apply Hb. exact Hi.
  - rewrite (next_free_urb_full w Hok Hfull), usb_alloc_urb_eq. cbn zeta.
    destruct (ok_heap _ Hok) as [Hpos Hal].
    destruct (chunk_pos sizeof_urb) as [Hcp _].
    unfold owned_ok. destruct (next_alloc_ok _); cbn [fst snd]; wsimpl.
    + destruct (Z.eqb_spec (w_heap_next w) NULL) as [Hz|_];
        [unfold NULL in Hz; lia|]. wsimpl.
      split.
      * apply NoDup_cons. split; [|exact Hnd].
        intros Hin. destruct (Hown _ Hin) as [Hlt _]. lia.
      * intros x Hx. apply elem_of_cons in Hx as [->|Hx].
        -- split; [lia|]. intros i Hi. exfalso.
           apply (fresh_not_in_pool w Hok).
           eapply list_elem_of_lookup_2. exact Hi.
        -- destruct (Hown x Hx) as [Hxlt Hb]. split; [lia | exact Hb].
    + cbn [Z.eqb NULL]. split; [exact Hnd|exact Hown].
Qed.

Lemma release_keeps_owned (u : ptr) (owned : list ptr) (w : world) :
  dev_ok w -> owned_ok owned w ->
  owned_ok (remove_first u owned) (snd (free_urb u w)).
Proof.
  intros Hok [Hnd Hown].
  destruct (remove_first_NoDup u owned Hnd) as [Hnd' Hnot].
  split; [exact Hnd'|].
  intros x Hx. pose proof (remove_first_subset _ _ _ Hx) as Hx0.
  destruct (Hown x Hx0) as [Hxlt Hb].
  destruct (decide (u ∈ cport_out_urb (w_es1 w))) as [Hin|Hout].
  - apply list_elem_of_lookup_1 in Hin as [j Hj].
    rewrite (free_urb_pool w j u Hok Hj). cbn [snd]. wsimpl.
    split; [exact Hxlt|]. intros i Hi.
    assert (i <> j) as Hne.
    { intros ->. assert (x = u) by congruence. subst x. contradiction. }
    rewrite list_lookup_insert_ne by congruence. apply Hb. exact Hi.
  - rewrite (free_urb_dynamic w u Hok Hout).
    destruct (usb_free_urb_es1 u w) as [-> ->]. split; assumption.
Qed.

Lemma pool_run_owned (ops : list pool_op) (owned : list ptr) (w : world) :
  dev_ok w -> owned_ok owned w ->
  dev_ok (snd (pool_run ops owned w))
  /\ owned_ok (fst (pool_run ops owned w)) (snd (pool_run ops owned w)).
Proof.
  revert owned w. induction ops as [|o ops IH]; intros owned w Hok Hown.
  - split; assumption.
  - destruct o as [|u]; cbn [pool_run].
    + pose proof (next_free_urb_dev_ok w Hok) as Hok'.
      pose proof (acquire_keeps_owned owned w Hok Hown) as Hown'.
      destruct (next_free_urb w) as [x w']. cbn [fst snd] in *.
      apply IH; assumption.
    + pose proof (free_urb_dev_ok u w Hok) as Hok'.
      pose proof (release_keeps_owned u owned w Hok Hown) as Hown'.
      destruct (free_urb u w) as [[] w']. cbn [fst snd] in *.
      apply IH; assumption.
Qed.

(** C3: on an attached device, [next_free_urb] returns a pool urb only from
    a slot whose busy flag is false, and leaves that flag true and the lock
    released; [free_urb] of a pool urb sets its flag back to false; and over
    any sequence of acquire and release operations the urbs handed out and
    not released since are pairwise distinct: no urb has two owners. *)
Theorem pool_mutual_exclusion (ops : list pool_op) (w : world) :
  dev_ok w ->
  (forall (j : nat) (u : ptr),
     cport_out_urb (w_es1 w) !! j = Some u ->
     fst (next_free_urb w) = u ->
     cport_out_urb_busy (w_es1 w) !! j = Some false
     /\ cport_out_urb_busy (w_es1 (snd (next_free_urb w))) !! j = Some true
     /\ cport_out_urb_lock (w_es1 (snd (next_free_urb w))) = false)
  /\ (forall (j : nat) (u : ptr),
        cport_out_urb (w_es1 w) !! j = Some u ->
        cport_out_urb_busy (w_es1 (snd (free_urb u w))) !! j = Some false
        /\ cport_out_urb_lock (w_es1 (snd (free_urb u w))) = false)
  /\ NoDup (fst (pool_run ops [] w)).
Proof.
  intros Hok. split; [|split].
  - intros j u Hu Hres.
    destruct (slot_free_dec w Hok) as [Hfree|Hfull].
    + destruct (next_free_urb_pool w Hok Hfree) as (j' & u' & Hj' & Hu' & Heq).
      rewrite Heq in Hres |- *. cbn [fst snd] in *. subst u'.
      assert (j' = j) as ->
        by (eapply NoDup_lookup; [apply (ok_nodup _ Hok)|exact Hu'|exact Hu]).
      wsimpl. repeat split; [exact Hj'| |apply Hok].
      apply list_lookup_insert_eq. eapply lookup_lt_Some. exact Hj'.
    + exfalso. rewrite (next_free_urb_full w Hok Hfull), usb_alloc_urb_eq in Hres.
      cbn zeta in Hres. destruct (pool_urb_facts w j u Hok Hu) as [[Hpos Hlt] _].
      destruct (next_alloc_ok _); cbn [fst] in Hres; wsimpl;
        [|unfold NULL in Hres]; lia.
  - intros j u Hu. rewrite (free_urb_pool w j u Hok Hu). cbn [snd]. wsimpl.
    split; [|apply Hok].
    apply list_lookup_insert_eq. apply lookup_lt_Some in Hu.
    rewrite (ok_busy_len _ Hok). rewrite (ok_pool_len _ Hok) in Hu. exact Hu.
  - apply (pool_run_owned ops [] w Hok).
    split; [constructor|]. intros u Hu. apply elem_of_nil in Hu. contradiction.
Qed.

(** ** C2: the pool against dynamic allocation *)


Lemma busy_count_lt_free (l : list bool) :
  (busy_count l < length l)%nat -> exists j : nat, l !! j = Some false.
Proof.
  induction l as [|[|] l IH]; cbn [busy_count length]; intros Hlt.
  - lia.
  - destruct IH as [j Hj]; [lia|]. exists (S j). exact Hj.
  - exists O. reflexivity.
Qed.

Lemma busy_count_insert_true (l : list bool) (j : nat) :
  l !! j = Some false -> busy_count (<[j:=true]> l) = S (busy_count l).
Proof.
  revert j. induction l as [|b l IH]; intros j Hj; [discriminate|].
  destruct j as [|j]; cbn in Hj.
  - injection Hj as ->. reflexivity.
  - cbn [busy_count]. change (<[S j:=true]> (b :: l)) with (b :: <[j:=true]> l).
    cbn [busy_count]. rewrite (IH j Hj). destruct b; reflexivity.
Qed.

Lemma busy_count_insert_false (l : list bool) (j : nat) :
  l !! j = Some true -> S (busy_count (<[j:=false]> l)) = busy_count l.
Proof.
  revert j. induction l as [|b l IH]; intros j Hj; [discriminate|].
  destruct j as [|j]; cbn in Hj.
  - injection Hj as ->. reflexivity.
  - change (<[S j:=false]> (b :: l)) with (b :: <[j:=false]> l).
    cbn [busy_count]. destruct b; rewrite <- (IH j Hj); reflexivity.
Qed.

Lemma alloc_urb_calls_cons (e : event) (t : list event) :
  is_alloc_urb e = false -> alloc_urb_calls (e :: t) = alloc_urb_calls t.
Proof.
  intros He. unfold alloc_urb_calls. rewrite filter_cons.
  destruct (decide (is_alloc_urb e = true)) as [Ht|_]; [congruence|reflexivity].
Qed.

Lemma submit_calls_cons (e : event) (t : list event) :
  is_submit e = false -> submit_calls (e :: t) = submit_calls t.
Proof.
  intros He. unfold submit_calls. rewrite filter_cons.
  destruct (decide (is_submit e = true)) as [Ht|_]; [congruence|reflexivity].
Qed.

Lemma alloc_urb_calls_alloc (p : ptr) (t : list event) :
  alloc_urb_calls (EvAllocUrb p :: t) = S (alloc_urb_calls t).
Proof.
  unfold alloc_urb_calls. rewrite filter_cons.
  destruct (decide (is_alloc_urb (EvAllocUrb p) = true)) as [_|Hf];
    [reflexivity | exfalso; apply Hf; reflexivity].
Qed.

(** A send that takes the pool urb [u] of slot [j] and is submitted. *)
Lemma send_pool_submitted (cport_id buffer buffer_size : Z) (w : world)
    (j : nat) (u : ptr) :
  buffer <> NULL /\ buffer_size <= INT_MAX /\
  cport_id <> CPORT_ID_BAD /\ cport_id <= U8_MAX ->
  u <> NULL ->
  next_free_urb (set_mem (store8 (w_mem w) (buffer - 1) cport_id) w) =
    (u, set_es1 (set_cport_out_urb_busy
                   (<[j:=true]> (cport_out_urb_busy (w_es1 w))) (w_es1 w))
          (set_mem (store8 (w_mem w) (buffer - 1) cport_id) w)) ->
  next_submit_result w = 0 ->
  let res := buffer_send cport_id buffer buffer_size w in
  w_heap_next (snd res) = w_heap_next w /\
  (forall x : ptr, x <> u -> w_urbs (snd res) x = w_urbs w x) /\
  urb_pipe (w_urbs (snd res) u) = out_pipe w /\
  complete (w_urbs (snd res) u) = cport_out_callback_fn /\
  alloc_urb_calls (w_trace (snd res)) = alloc_urb_calls (w_trace w) /\
  fst res = conceal_urb u /\
  w_es1 (snd res) =
    set_cport_out_urb_busy (<[j:=true]> (cport_out_urb_busy (w_es1 w)))
      (w_es1 w) /\
  w_inflight (snd res) = enqueue (out_pipe w) u (w_inflight w).
Proof.
  intros Hargs Hnn Hnext Hz. cbn zeta.
  rewrite (buffer_send_passes _ _ _ _ Hargs), Hnext.
  destruct (Z.eqb_spec u NULL) as [|_]; [contradiction|].
  cbn zeta. unfold filled_for_send, usb_fill_bulk_urb, update_urb, modify.
  cbn [snd].
  match goal with
  | |- context [usb_submit_urb ?a ?b] =>
      rewrite (usb_submit_urb_ok a b) by exact Hz
  end.
  cbn [Z.eqb negb fst snd]. cbn zeta. wsimpl. rewrite Z.eqb_refl.
  cbn [urb_pipe complete]. unfold out_pipe.
  split; [reflexivity|]. split.
  { intros x Hx. destruct (Z.eqb_spec x u); [contradiction|reflexivity]. }
  split; [reflexivity|]. split; [reflexivity|]. split; [reflexivity|].
  split; [reflexivity|]. split; reflexivity.
Qed.

(** A send that takes the pool urb [u] of slot [j] and fails to submit. *)
Lemma send_pool_failed (cport_id buffer buffer_size : Z) (w : world)
    (j : nat) (u : ptr) :
  dev_ok w ->
  buffer <> NULL /\ buffer_size <= INT_MAX /\
  cport_id <> CPORT_ID_BAD /\ cport_id <= U8_MAX ->
  u <> NULL ->
  cport_out_urb_busy (w_es1 w) !! j = Some false ->
  cport_out_urb (w_es1 w) !! j = Some u ->
  next_free_urb (set_mem (store8 (w_mem w) (buffer - 1) cport_id) w) =
    (u, set_es1 (set_cport_out_urb_busy
                   (<[j:=true]> (cport_out_urb_busy (w_es1 w))) (w_es1 w))
          (set_mem (store8 (w_mem w) (buffer - 1) cport_id) w)) ->
  next_submit_result w <> 0 ->
  let res := buffer_send cport_id buffer buffer_size w in
  w_heap_next (snd res) = w_heap_next w /\
  (forall x : ptr, x <> u -> w_urbs (snd res) x = w_urbs w x) /\
  urb_pipe (w_urbs (snd res) u) = out_pipe w /\
  complete (w_urbs (snd res) u) = cport_out_callback_fn /\
  alloc_urb_calls (w_trace (snd res)) = alloc_urb_calls (w_trace w) /\
  fst res = ERR_PTR (next_submit_result w) /\
  w_es1 (snd res) = w_es1 w /\
  w_inflight (snd res) = w_inflight w.
Proof.
  intros Hok Hargs Hnn Hj Hu Hnext Hnz. cbn zeta.
  rewrite (buffer_send_passes _ _ _ _ Hargs), Hnext.
  destruct (Z.eqb_spec u NULL) as [|_]; [contradiction|].
  cbn zeta. unfold filled_for_send, usb_fill_bulk_urb, update_urb, modify.
  assert (Hneg : negb (next_submit_result w =? 0) = true).
  { destruct (Z.eqb_spec (next_submit_result w) 0); [contradiction|reflexivity]. }
  cbn [snd]. submit_fails w Hnz. rewrite Hneg.
  erewrite (free_urb_pool _ j u); cycle 1.
  { eapply (dev_ok_frame w); [exact Hok|reflexivity| |apply Hok|wsimpl; lia
                             |apply Hok].
    wsimpl. apply length_insert. }
  { exact Hu. }
  wsimpl. rewrite insert_false_true by exact Hj.
  rewrite set_busy_twice, set_busy_same. rewrite Z.eqb_refl.
  cbn [urb_pipe complete]. unfold out_pipe.
  split; [reflexivity|]. split.
  { intros x Hx. destruct (Z.eqb_spec x u); [contradiction|reflexivity]. }
  split; [reflexivity|]. split; [reflexivity|]. split; [reflexivity|].
  split; [reflexivity|]. split; reflexivity.
Qed.

(** What a send does when the pool has a free slot. *)
Lemma send_pool_effect (cport_id buffer buffer_size : Z) (w : world) :
  dev_ok w ->
  buffer <> NULL /\ buffer_size <= INT_MAX /\
  cport_id <> CPORT_ID_BAD /\ cport_id <= U8_MAX ->
  slot_free w ->
  exists (j : nat) (u : ptr),
    cport_out_urb_busy (w_es1 w) !! j = Some false /\
    cport_out_urb (w_es1 w) !! j = Some u /\
    let res := buffer_send cport_id buffer buffer_size w in
    w_heap_next (snd res) = w_heap_next w /\
    (forall x : ptr, x <> u -> w_urbs (snd res) x = w_urbs w x) /\
    urb_pipe (w_urbs (snd res) u) = out_pipe w /\
    complete (w_urbs (snd res) u) = cport_out_callback_fn /\
    alloc_urb_calls (w_trace (snd res)) = alloc_urb_calls (w_trace w) /\
    ((next_submit_result w = 0 /\
      fst res = conceal_urb u /\
      w_es1 (snd res) =
        set_cport_out_urb_busy (<[j:=true]> (cport_out_urb_busy (w_es1 w)))
          (w_es1 w) /\
      w_inflight (snd res) = enqueue (out_pipe w) u (w_inflight w))
     \/ (next_submit_result w <> 0 /\
         fst res = ERR_PTR (next_submit_result w) /\
         w_es1 (snd res) = w_es1 w /\
         w_inflight (snd res) = w_inflight w)).
Proof.
  intros Hok Hargs Hfree.
  pose proof (dev_ok_set_mem (store8 (w_mem w) (buffer - 1) cport_id) w Hok)
    as Hok0.
  destruct (next_free_urb_pool _ Hok0 Hfree) as (j & u & Hj & Hu & Hnext).
  exists j, u. split; [exact Hj|]. split; [exact Hu|].
  destruct (pool_urb_facts _ j u Hok0 Hu) as [Hpos _].
  assert (Hnn : u <> NULL) by (unfold NULL; lia).
  destruct (Z.eq_dec (next_submit_result w) 0) as [Hz|Hnz].
  - destruct (send_pool_submitted cport_id buffer buffer_size w j u
                Hargs Hnn Hnext Hz)
      as (H1 & H2 & H3 & H4 & H5 & H6 & H7 & H8).
    cbn zeta. auto 10.
  - destruct (send_pool_failed cport_id buffer buffer_size w j u
                Hok Hargs Hnn Hj Hu Hnext Hnz)
      as (H1 & H2 & H3 & H4 & H5 & H6 & H7 & H8).
    cbn zeta. split; [exact H1|]. split; [exact H2|]. split; [exact H3|].
    split; [exact H4|]. split; [exact H5|]. right. auto.
Qed.

(** What the completion of a pool urb sent on the bulk-out endpoint does. *)
Lemma complete_effect (u st actual : Z) (w : world) (j : nat) :
  dev_ok w ->
  cport_out_urb (w_es1 w) !! j = Some u ->
  urb_pipe (w_urbs w u) = out_pipe w ->
  complete (w_urbs w u) = cport_out_callback_fn ->
  let w' := snd (usb_hcd_giveback_urb u st actual w) in
  w_es1 w' =
    set_cport_out_urb_busy (<[j:=false]> (cport_out_urb_busy (w_es1 w)))
      (w_es1 w)
  /\ w_inflight w' = dequeue (out_pipe w) u (w_inflight w)
  /\ w_heap_next w' = w_heap_next w
  /\ (forall x : ptr, x <> u -> w_urbs w' x = w_urbs w x)
  /\ alloc_urb_calls (w_trace w') = alloc_urb_calls (w_trace w).
Proof.
  intros Hok Hu Hpipe Hcb w'. subst w'.
  unfold usb_hcd_giveback_urb, urb_done, update_urb. run_monad.
  unfold run_complete. wsimpl. rewrite Z.eqb_refl. cbn [complete].
  rewrite Hcb. unfold cport_out_callback, bind. rewrite check_urb_status_eq.
  cbn zeta. wsimpl. rewrite Z.eqb_refl. cbn [status actual_length].
  rewrite Hpipe.
  assert (Hfree : forall w2 : world,
            w_es1 w2 = w_es1 w -> w_heap_next w2 = w_heap_next w ->
            free_urb u w2 =
            (tt, set_es1
                   (set_cport_out_urb_busy
                      (<[j:=false]> (cport_out_urb_busy (w_es1 w))) (w_es1 w))
                   w2)).
  { intros w2 He Hh. rewrite (free_urb_pool w2 j u).
    - rewrite He. reflexivity.
    - apply (dev_ok_frame w _ Hok); rewrite ?He, ?Hh;
        try reflexivity; apply Hok.
    - rewrite He. exact Hu. }
  destruct (to_int st =? 0); [|destruct (to_int st =? - EOVERFLOW);
                               [|destruct (device_gone_status (to_int st))]];
    run_monad; wsimpl;
    match goal with
    | |- context [free_urb u ?w2] =>
        rewrite (Hfree w2 eq_refl eq_refl)
    end; wsimpl;
    (repeat split;
     [intros x Hx; destruct (Z.eqb_spec x u); [contradiction|reflexivity]]).
Qed.

Lemma enqueue_same (p : pipe) (u : ptr) (q : pipe -> list ptr) :
  enqueue p u q p = u :: q p.
Proof. unfold enqueue. rewrite pipe_eqb_refl. reflexivity. Qed.

Lemma dequeue_same (p : pipe) (u : ptr) (q : pipe -> list ptr) :
  dequeue p u q p = remove_first u (q p).
Proof. unfold dequeue. rewrite pipe_eqb_refl. reflexivity. Qed.

Lemma queued_elem_of (u : ptr) (l : list ptr) : queued u l = true -> u ∈ l.
Proof.
  unfold queued. induction l as [|x l IH]; cbn [existsb]; [discriminate|].
  intros H. apply orb_true_iff in H as [H|H].
  - apply Z.eqb_eq in H. subst. apply elem_of_cons. left. reflexivity.
  - apply elem_of_cons. right. apply IH. exact H.
Qed.

Lemma buffer_send_rejected (cport_id buffer buffer_size : Z) (w : world) :
  buffer = NULL \/ buffer_size > INT_MAX \/
  cport_id = CPORT_ID_BAD \/ cport_id > U8_MAX ->
  exists m : log_msg,
    buffer_send cport_id buffer buffer_size w =
    (ERR_PTR (- EINVAL), set_trace (EvLog m :: w_trace w) w).
Proof.
  intros Hbad. unfold buffer_send.
  destruct (Z.eqb_spec buffer NULL) as [Hnull|Hnn]; [run_monad; eauto|].
  destruct (Z.gtb_spec buffer_size INT_MAX) as [Hbig|Hsmall];
    [run_monad; eauto|].
  destruct (Z.eqb_spec cport_id CPORT_ID_BAD) as [Hinb|Hnb];
    [run_monad; eauto|].
  destruct (Z.gtb_spec cport_id U8_MAX) as [Hrange|Hin]; [run_monad; eauto|].
  exfalso. destruct Hbad as [?|[?|[?|?]]]; [contradiction|lia|contradiction|lia].
Qed.

Lemma send_guards_dec (cport_id buffer buffer_size : Z) :
  (buffer <> NULL /\ buffer_size <= INT_MAX /\
   cport_id <> CPORT_ID_BAD /\ cport_id <= U8_MAX)
  \/ (buffer = NULL \/ buffer_size > INT_MAX \/
      cport_id = CPORT_ID_BAD \/ cport_id > U8_MAX).
Proof.
  destruct (Z.eq_dec buffer NULL); [right; auto|].
  destruct (Z_gt_dec buffer_size INT_MAX); [right; auto|].
  destruct (Z.eq_dec cport_id CPORT_ID_BAD); [right; auto|].
  destruct (Z_gt_dec cport_id U8_MAX); [right; auto|].
  left. repeat split; try assumption; lia.
Qed.

(** [send_inv] only looks at the device record, the bulk-out queue, the
    allocator frontier and the urbs in flight. *)
Lemma send_inv_ext (w w' : world) :
  send_inv w ->
  w_es1 w' = w_es1 w ->
  w_inflight w' = w_inflight w ->
  w_heap_next w' = w_heap_next w ->
  (forall x : ptr, x ∈ sends_in_flight w -> w_urbs w' x = w_urbs w x) ->
  send_inv w'.
Proof.
  intros (Hok & Hnd & Hlen & Hin) He Hq Hh Hurbs.
  unfold send_inv, sends_in_flight, out_pipe in *.
  rewrite He, Hq. refine (conj _ (conj Hnd (conj Hlen _))).
  - apply (dev_ok_frame w _ Hok); rewrite ?He, ?Hh;
      try reflexivity; try apply Hok; lia.
  - intros u Hu. rewrite Hurbs by assumption. apply Hin. assumption.
Qed.

Lemma free_slot_not_in_flight (w : world) (j : nat) (u : ptr) :
  send_inv w ->
  cport_out_urb_busy (w_es1 w) !! j = Some false ->
  cport_out_urb (w_es1 w) !! j = Some u ->
  u ∉ sends_in_flight w.
Proof.
  intros (Hok & _ & _ & Hin) Hj Hu Hu_in.
  destruct (Hin u Hu_in) as [(j' & Hu' & Hb') _].
  assert (j' = j) as ->
    by (eapply NoDup_lookup; [apply (ok_nodup _ Hok)|exact Hu'|exact Hu]).
  congruence.
Qed.

Lemma send_inv_step_send (cport_id buffer buffer_size : Z) (w : world) :
  send_inv w ->
  (length (sends_in_flight w) < NUM_CPORT_OUT_URB)%nat ->
  send_inv (snd (buffer_send cport_id buffer buffer_size w))
  /\ alloc_urb_calls (w_trace (snd (buffer_send cport_id buffer buffer_size w)))
     = alloc_urb_calls (w_trace w).
Proof.
  intros Hinv Hcap.
  destruct (send_guards_dec cport_id buffer buffer_size) as [Hargs|Hbad].
  - pose proof Hinv as (Hok & Hnd & Hlen & Hin).
    assert (Hfree : slot_free w).
    { apply busy_count_lt_free. rewrite <- Hlen, (ok_busy_len _ Hok).
      exact Hcap. }
    destruct (send_pool_effect cport_id buffer buffer_size w Hok Hargs Hfree)
      as (j & u & Hj & Hu & Heff).
    cbn zeta in Heff.
    destruct Heff as (Hh & Hurbs & Hpipe & Hcb & Hallocs & Hcase).
    pose proof (free_slot_not_in_flight w j u Hinv Hj Hu) as Hnotin.
    split; [|exact Hallocs].
    destruct Hcase as [(Hz & _ & He & Hq)|(Hnz & _ & He & Hq)].
    + (* submitted *)
      unfold send_inv, sends_in_flight, out_pipe in *.
      rewrite He, Hq. wsimpl. rewrite enqueue_same.
      refine (conj _ (conj _ (conj _ _))).
      * apply (dev_ok_frame w _ Hok); rewrite ?He, ?Hh; wsimpl;
          [reflexivity|apply length_insert|apply Hok|lia|apply Hok].
      * apply NoDup_cons. split; assumption.
      * cbn [length]. rewrite busy_count_insert_true by exact Hj.
        rewrite Hlen. reflexivity.
      * intros x Hx. apply elem_of_cons in Hx as [->|Hx].
        -- split; [|split; [exact Hpipe|exact Hcb]].
           exists j. split; [exact Hu|].
           apply list_lookup_insert_eq. eapply lookup_lt_Some. exact Hj.
        -- rewrite Hurbs by (intros ->; contradiction).
           destruct (Hin x Hx) as [(j' & Hu' & Hb') Hrest].
           split; [|exact Hrest].
           exists j'. split; [exact Hu'|].
           apply insert_true_keeps_true. exact Hb'.
    + (* submission failed *)
      apply (send_inv_ext w); try assumption.
      intros x Hx. apply Hurbs. intros ->. contradiction.
  - destruct (buffer_send_rejected cport_id buffer buffer_size w Hbad)
      as [m ->].
    cbn [snd]. split; [|reflexivity].
    apply (send_inv_ext w); try assumption; reflexivity.
Qed.

Lemma send_inv_step_complete (u st actual : Z) (w : world) :
  send_inv w ->
  send_inv (step (OpComplete u st actual) w)
  /\ alloc_urb_calls (w_trace (step (OpComplete u st actual) w))
     = alloc_urb_calls (w_trace w).
Proof.
  intros Hinv. cbn [step].
  destruct (queued u (sends_in_flight w)) eqn:Hq; [|split; [exact Hinv|reflexivity]].
  apply queued_elem_of in Hq.
  pose proof Hinv as (Hok & Hnd & Hlen & Hin).
  destruct (Hin u Hq) as ((j & Hu & Hb) & Hpipe & Hcb).
  destruct (complete_effect u st actual w j Hok Hu Hpipe Hcb)
    as (He & Hqueue & Hh & Hurbs & Hallocs).
  split; [|exact Hallocs].
  destruct (remove_first_NoDup u _ Hnd) as [Hnd' Hnot].
  unfold send_inv, sends_in_flight, out_pipe in *.
  rewrite He, Hqueue. wsimpl. rewrite dequeue_same.
  refine (conj _ (conj Hnd' (conj _ _))).
  - apply (dev_ok_frame w _ Hok); rewrite ?He, ?Hh; wsimpl;
      [reflexivity|apply length_insert|apply Hok|lia|apply Hok].
  - pose proof (remove_first_length u _ Hq) as H1.
    pose proof (busy_count_insert_false _ j Hb) as H2. lia.
  - intros x Hx. pose proof (remove_first_subset _ _ _ Hx) as Hx0.
    assert (x <> u) as Hne by (intros ->; contradiction).
    rewrite Hurbs by exact Hne.
    destruct (Hin x Hx0) as [(j' & Hu' & Hb') Hrest].
    split; [|exact Hrest]. exists j'. split; [exact Hu'|].
    rewrite list_lookup_insert_ne; [exact Hb'|].
    intros ->. congruence.
Qed.

Lemma run_within_capacity (ops : list op) (w : world) :
  send_inv w -> within_capacity ops w = true ->
  send_inv (run ops w)
  /\ alloc_urb_calls (w_trace (run ops w)) = alloc_urb_calls (w_trace w).
Proof.
  revert w. induction ops as [|o ops IH]; intros w Hinv Hcap.
  - split; [exact Hinv|reflexivity].
  - cbn [within_capacity] in Hcap. apply andb_true_iff in Hcap as [Hnow Hrest].
    change (run (o :: ops) w) with (run ops (step o w)).
    assert (Hstep : send_inv (step o w)
                    /\ alloc_urb_calls (w_trace (step o w)) =
                       alloc_urb_calls (w_trace w)).
    { destruct o as [c b s|u st actual].
      - apply send_inv_step_send; [exact Hinv|].
        apply Nat.ltb_lt. exact Hnow.
      - apply send_inv_step_complete. exact Hinv. }
    destruct Hstep as [Hinv' Hallocs].
    destruct (IH (step o w) Hinv' Hrest) as [Hfin Hcount].
    split; [exact Hfin|]. rewrite Hcount. exact Hallocs.
Qed.

Lemma idle_send_inv (w : world) : dev_ok w -> pool_idle w -> send_inv w.
Proof.
  intros Hok [Hq Hb]. unfold send_inv. rewrite Hq, Hb.
  refine (conj Hok (conj _ (conj eq_refl _))); [constructor|].
  intros u Hu. apply elem_of_nil in Hu. contradiction.
Qed.

Lemma next_submit_result_range (w : world) :
  - 2 ^ 31 <= next_submit_result w < 2 ^ 31.
Proof.
  unfold next_submit_result. destruct (w_submit_script w) as [|r l]; [lia|].
  unfold to_int. pose proof (Z.mod_pos_bound (r + 2 ^ 31) (2 ^ 32)). lia.
Qed.

Lemma ERR_PTR_int_inj (r e : Z) :
  - 2 ^ 31 <= r < 2 ^ 31 -> - 2 ^ 31 <= e < 2 ^ 31 ->
  ERR_PTR r = ERR_PTR e -> r = e.
Proof.
  unfold ERR_PTR. intros Hr He Heq.
  assert (Hm : forall z, - 2 ^ 31 <= z < 2 ^ 31 ->
                         z mod 2 ^ 64 = if z <? 0 then z + 2 ^ 64 else z).
  { intros z Hz. destruct (Z.ltb_spec z 0).
    - rewrite <- (Z_mod_plus_full z 1 (2 ^ 64)). apply Z.mod_small. lia.
    - apply Z.mod_small. lia. }
  rewrite (Hm r Hr), (Hm e He) in Heq.
  destruct (Z.ltb_spec r 0), (Z.ltb_spec e 0); lia.
Qed.

(** A cookie is odd, an aligned pointer and [ERR_PTR(-ENOMEM)] are even. *)
Lemma conceal_odd (u : ptr) : u mod 8 = 0 -> Z.odd (conceal_urb u) = true.
Proof.
  intros Hal. unfold conceal_urb.
  rewrite <- Z.bit0_odd, Z.lxor_spec, !Z.bit0_odd.
  rewrite (Z_div_mod_eq_full u 8), Hal, Z.add_0_r, Z.odd_mul. reflexivity.
Qed.

Lemma conceal_not_enomem (u : ptr) :
  u mod 8 = 0 -> conceal_urb u <> ERR_PTR (- ENOMEM).
Proof.
  intros Hal Heq. apply conceal_odd in Hal. rewrite Heq in Hal.
  discriminate Hal.
Qed.

(** The three ways [buffer_send] can end on accepted arguments. *)
Lemma buffer_send_result (cport_id buffer buffer_size : Z) (w : world) :
  dev_ok w ->
  send_args_ok cport_id buffer buffer_size ->
  let res := buffer_send cport_id buffer buffer_size w in
  (~ slot_free w /\ next_alloc_ok w = false /\ fst res = ERR_PTR (- ENOMEM))
  \/ ((slot_free w \/ next_alloc_ok w = true) /\
      next_submit_result w <> 0 /\ fst res = ERR_PTR (next_submit_result w))
  \/ ((slot_free w \/ next_alloc_ok w = true) /\
      next_submit_result w = 0 /\
      exists u : ptr, u mod 8 = 0 /\ fst res = conceal_urb u).
Proof.
  intros Hok Hargs res. subst res.
  rewrite (buffer_send_accepted _ _ _ _ Hargs).
  pose proof (dev_ok_set_mem (store8 (w_mem w) (buffer - 1) cport_id) w Hok)
    as Hok0.
  assert (Hcases : (~ slot_free w /\ next_alloc_ok w = false)
                   \/ (slot_free w \/ next_alloc_ok w = true)).
  { destruct (slot_free_dec w Hok) as [?|?]; [right; left; assumption|].
    destruct (next_alloc_ok w); [right; right; reflexivity | left; auto]. }
  destruct Hcases as [[Hfull Hfail]|Hurb].
  - left. rewrite (next_free_urb_full _ Hok0 Hfull), usb_alloc_urb_eq.
    cbn zeta. change (next_alloc_ok _) with (next_alloc_ok w). rewrite Hfail.
    cbn [Z.eqb NULL fst]. auto.
  - right.
    pose proof (next_free_urb_nonnull _ Hok0 Hurb) as [Hpos Hal].
    pose proof (next_free_urb_frame
                  (set_mem (store8 (w_mem w) (buffer - 1) cport_id) w))
      as (_ & Hs1 & _).
    cbn zeta in Hs1.
    destruct (next_free_urb _) as [u w1]. cbn [fst snd] in *.
    destruct (Z.eqb_spec u NULL) as [Hz|Hnn]; [unfold NULL in Hz; lia|].
    cbn zeta. unfold filled_for_send, usb_fill_bulk_urb, update_urb, modify.
    cbn [snd].
    assert (Hr : next_submit_result w1 = next_submit_result w).
    { unfold next_submit_result. rewrite Hs1. reflexivity. }
    destruct (Z.eqb_spec (next_submit_result w) 0) as [Hz|Hnz].
    + right. split; [exact Hurb|]. split; [exact Hz|]. exists u.
      split; [exact Hal|].
      match goal with
      | |- context [usb_submit_urb ?a ?b] =>
          rewrite (usb_submit_urb_ok a b)
            by (rewrite next_submit_result_set_urbs; congruence)
      end.
      reflexivity.
    + left. split; [exact Hurb|]. split; [exact Hnz|].
      match goal with
      | |- context [usb_submit_urb ?a ?b] =>
          rewrite (usb_submit_urb_fail a b (next_submit_result w))
            by (try rewrite next_submit_result_set_urbs; congruence)
      end.
      destruct (Z.eqb_spec (next_submit_result w) 0) as [|_]; [contradiction|].
      reflexivity.
Qed.

Lemma next_free_urb_dichotomy (w : world) :
  dev_ok w ->
  (slot_free w ->
   fst (next_free_urb w) ∈ cport_out_urb (w_es1 w)
   /\ w_trace (snd (next_free_urb w)) = w_trace w)
  /\ (~ slot_free w ->
      w_trace (snd (next_free_urb w)) =
        EvAllocUrb (fst (next_free_urb w)) :: EvLog log_no_free_urb
          :: w_trace w).
Proof.
  intros Hok. split.
  - intros Hfree.
    destruct (next_free_urb_pool w Hok Hfree) as (j & u & _ & Hu & ->).
    cbn [fst snd]. split; [|reflexivity].
    eapply list_elem_of_lookup_2. exact Hu.
  - intros Hfull. rewrite (next_free_urb_full w Hok Hfull).
    destruct (usb_alloc_urb_frame
                (set_trace (EvLog log_no_free_urb :: w_trace w) w))
      as (_ & _ & Ht).
    exact Ht.
Qed.

(** C2 (as amended): on an attached device, [next_free_urb] returns a pool
    urb, without calling [usb_alloc_urb], if and only if some slot is free
    at the time of the scan; with no slot free it logs the shortage and
    calls [usb_alloc_urb].  On accepted arguments [buffer_send] returns
    [ERR_PTR(-ENOMEM)] exactly when that dynamic allocation fails or when
    [usb_submit_urb] itself fails with [-ENOMEM], which is passed through.
    And in a history of sends and completions from an idle pool in which
    every send is issued with fewer than eight sends in flight,
    [usb_alloc_urb] is never called. *)
Theorem pool_before_dynamic_allocation (w : world)
    (cport_id buffer buffer_size : Z) (ops : list op) (w0 : world) :
  dev_ok w ->
  send_args_ok cport_id buffer buffer_size ->
  dev_ok w0 -> pool_idle w0 -> within_capacity ops w0 = true ->
  (slot_free w <->
     fst (next_free_urb w) ∈ cport_out_urb (w_es1 w)
     /\ alloc_urb_calls (w_trace (snd (next_free_urb w))) =
        alloc_urb_calls (w_trace w))
  /\ (~ slot_free w ->
      w_trace (snd (next_free_urb w)) =
        EvAllocUrb (fst (next_free_urb w)) :: EvLog log_no_free_urb
          :: w_trace w)
  /\ (fst (buffer_send cport_id buffer buffer_size w) = ERR_PTR (- ENOMEM) <->
        (~ slot_free w /\ next_alloc_ok w = false)
        \/ ((slot_free w \/ next_alloc_ok w = true) /\
            next_submit_result w = - ENOMEM))
  /\ alloc_urb_calls (w_trace (run ops w0)) = alloc_urb_calls (w_trace w0).
Proof.
  intros Hok Hargs Hok0 Hidle Hcap.
  destruct (next_free_urb_dichotomy w Hok) as [Hpool Hdyn].
  split; [|split; [exact Hdyn|split]].
  - split.
    + intros Hfree. destruct (Hpool Hfree) as [Hin Ht].
      split; [exact Hin|]. rewrite Ht. reflexivity.
    + intros [_ Hcount]. destruct (slot_free_dec w Hok) as [|Hfull]; [assumption|].
      exfalso. rewrite (Hdyn Hfull), alloc_urb_calls_alloc in Hcount.
      rewrite alloc_urb_calls_cons in Hcount by reflexivity. lia.
  - pose proof (buffer_send_result cport_id buffer buffer_size w Hok Hargs)
      as Hres.
    cbn zeta in Hres.
    pose proof (next_submit_result_range w) as Hrange.
    split.
    + intros Heq.
      destruct Hres as [(Hfull & Hfail & _)|[(Hurb & Hnz & Hr)|(Hurb & Hz & u & Hal & Hr)]].
      * left. auto.
      * right. split; [exact Hurb|]. rewrite Hr in Heq.
        apply ERR_PTR_int_inj in Heq; [exact Heq|exact Hrange|].
        unfold ENOMEM. lia.
      * exfalso. rewrite Hr in Heq. exact (conceal_not_enomem u Hal Heq).
    + intros [[Hfull Hfail]|[Hurb Hsub]].
      * destruct Hres as [(_ & _ & Hr)|[([Hfree|Halloc] & _)|([Hfree|Halloc] & _)]];
          try contradiction; try congruence.
      * destruct Hres as [(Hfull & Hfail & _)|[(_ & _ & Hr)|(_ & Hz & _)]].
        -- destruct Hurb; [contradiction|congruence].
        -- rewrite Hr, Hsub. reflexivity.
        -- exfalso. rewrite Hsub in Hz. discriminate Hz.
  - apply (run_within_capacity ops w0); [|exact Hcap].
    apply idle_send_inv; assumption.
Qed.

(** ** C5 and C4: what the classifier returns and what the callbacks do *)

Lemma cport_in_exit_calls (u : ptr) (w : world) :
  submit_calls (w_trace (snd (cport_in_exit u w))) = S (submit_calls (w_trace w)).
Proof. rewrite cport_in_exit_trace, submit_calls_exit. reflexivity. Qed.

Lemma svc_in_exit_calls (u : ptr) (w : world) :
  submit_calls (w_trace (snd (svc_in_exit u w))) = S (submit_calls (w_trace w)).
Proof. rewrite svc_in_exit_trace, submit_calls_exit. reflexivity. Qed.

(** The receive callbacks resubmit exactly on success, on [-EPROTO] and on
    the statuses the classifier does not know. *)
Lemma receive_resubmits (u : ptr) (w : world) :
  let st := status (w_urbs w u) in
  let n := if (st =? 0) || (st =? - EPROTO) || negb (device_gone_status st)
           then S (submit_calls (w_trace w)) else submit_calls (w_trace w) in
  submit_calls (w_trace (snd (cport_in_callback u w))) = n
  /\ submit_calls (w_trace (snd (svc_in_callback u w))) = n.
Proof.
  cbn zeta. unfold cport_in_callback, svc_in_callback, bind.
  rewrite check_urb_status_eq. cbn zeta.
  remember (status (w_urbs w u)) as st eqn:Hst.
  destruct (Z.eqb_spec st 0) as [Hz|Hnz].
  { cbn [orb negb Z.eqb]. unfold read_urb.
    destruct (actual_length (w_urbs w u) =? 0); run_monad;
      rewrite cport_in_exit_calls, svc_in_exit_calls; split; reflexivity. }
  destruct (Z.eqb_spec st (- EOVERFLOW)) as [Hov|Hnov].
  { subst st. rewrite Hov. cbn. split; reflexivity. }
  destruct (device_gone_status st) eqn:Hgone.
  - destruct (device_gone_nonzero st Hgone) as [_ Hnag].
    apply Z.eqb_neq in Hnz, Hnag. rewrite Hnz, Hnag. cbn [negb orb].
    destruct (st =? - EPROTO);
      [rewrite cport_in_exit_calls, svc_in_exit_calls|];
      split; reflexivity.
  - cbn [negb orb]. rewrite orb_true_r. change (- EAGAIN =? 0) with false.
    change (- EAGAIN =? - EAGAIN) with true. cbn [negb orb].
    rewrite cport_in_exit_calls, svc_in_exit_calls. split; reflexivity.
Qed.

(** C5 (as amended): [check_urb_status] returns 0 for status 0; returns the
    status unchanged for -EOVERFLOW (after logging the actual length),
    -ECONNRESET, -ENOENT, -ESHUTDOWN, -EILSEQ and -EPROTO; and returns
    -EAGAIN, with a diagnostic log, for every other status.  The receive
    callbacks resubmit the urb exactly when the status is 0, -EPROTO or
    unknown to the classifier (so not on -EOVERFLOW); the send callback
    reports the classified status to [greybus_data_sent]. *)
Theorem check_urb_status_classification (u : ptr) (w : world) :
  let st := status (w_urbs w u) in
  let resubmitted :=
    if (st =? 0) || (st =? - EPROTO) || negb (device_gone_status st)
    then S (submit_calls (w_trace w)) else submit_calls (w_trace w) in
  check_urb_status u w =
    (if st =? 0 then (0, w)
     else if st =? - EOVERFLOW then
       (- EOVERFLOW,
        set_trace (EvLog (log_overflow (actual_length (w_urbs w u)))
                     :: w_trace w) w)
     else if (st =? - ECONNRESET) || (st =? - ENOENT) || (st =? - ESHUTDOWN)
             || (st =? - EILSEQ) || (st =? - EPROTO) then (st, w)
     else (- EAGAIN, set_trace (EvLog (log_unknown_status st) :: w_trace w) w))
  /\ submit_calls (w_trace (snd (cport_in_callback u w))) = resubmitted
  /\ submit_calls (w_trace (snd (svc_in_callback u w))) = resubmitted
  /\ exists post : list event,
       w_trace (snd (cport_out_callback u w)) =
         post ++ EvDataSent (transfer_buffer (w_urbs w u) + 1)
                   (fst (check_urb_status u w))
           :: w_trace (snd (check_urb_status u w))
       /\ submit_calls post = 0%nat.
Proof.
  cbn zeta. split; [|split; [apply receive_resubmits
                            |split; [apply receive_resubmits|]]].
  - rewrite check_urb_status_eq. cbn zeta.
    destruct (Z.eqb_spec (status (w_urbs w u)) 0) as [|_]; [reflexivity|].
    destruct (Z.eqb_spec (status (w_urbs w u)) (- EOVERFLOW)) as [->|Hnov];
      [reflexivity|].
    unfold device_gone_status. apply Z.eqb_neq in Hnov. rewrite Hnov.
    reflexivity.
  - unfold cport_out_callback, bind.
    assert (Hurbs : w_urbs (snd (check_urb_status u w)) = w_urbs w).
    { rewrite check_urb_status_eq. cbn zeta.
      destruct (_ =? 0); [reflexivity|].
      destruct (_ =? - EOVERFLOW); [reflexivity|].
      destruct (device_gone_status _); reflexivity. }
    destruct (check_urb_status u w) as [st w1]. cbn [fst snd] in *.
    unfold read_urb. rewrite Hurbs. run_monad.
    match goal with
    | |- context [free_urb u ?w2] =>
        pose proof (free_urb_frame u w2) as (_ & ev & Ht & Hc)
    end.
    cbn zeta in Ht. exists ev. rewrite Ht. split; [reflexivity|exact Hc].
Qed.

(** ** C10: attach *)

Lemma endpoint_kinds_exclusive (e : usb_endpoint_descriptor) :
  (usb_endpoint_is_int_in e = true -> usb_endpoint_is_bulk_in e = false
                                      /\ usb_endpoint_is_bulk_out e = false)
  /\ (usb_endpoint_is_bulk_in e = true -> usb_endpoint_is_bulk_out e = false).
Proof.
  unfold usb_endpoint_is_int_in, usb_endpoint_is_bulk_in,
    usb_endpoint_is_bulk_out, usb_endpoint_xfer_int, usb_endpoint_xfer_bulk,
    usb_endpoint_dir_in, usb_endpoint_dir_out.
  unfold USB_ENDPOINT_XFER_INT, USB_ENDPOINT_XFER_BULK, USB_DIR_IN, USB_DIR_OUT.
  destruct (Z.eqb_spec (Z.land (bmAttributes e) USB_ENDPOINT_XFERTYPE_MASK) 3)
    as [->|_];
  destruct (Z.eqb_spec (Z.land (bmAttributes e) USB_ENDPOINT_XFERTYPE_MASK) 2)
    as [H2|_]; try discriminate H2;
  destruct (Z.eqb_spec (Z.land (bEndpointAddress e) USB_ENDPOINT_DIR_MASK) 128)
    as [->|_];
  cbn; split; intros; try split; congruence.
Qed.

(** The endpoint loop records which kinds it has seen; besides the
    endpoint numbers in the device record it only writes log lines. *)
Lemma probe_endpoints_spec (eps : list usb_endpoint_descriptor)
    (f : endpoints_found) (w : world) :
  let res := probe_endpoints eps f w in
  int_in_found (fst res) = int_in_found f || existsb usb_endpoint_is_int_in eps
  /\ bulk_in_found (fst res) =
       bulk_in_found f || existsb usb_endpoint_is_bulk_in eps
  /\ bulk_out_found (fst res) =
       bulk_out_found f || existsb usb_endpoint_is_bulk_out eps
  /\ (exists (a b c d : Z) (logs : list event),
        snd res =
          set_trace (logs ++ w_trace w)
            (set_es1 (set_endpoints a b c d (w_es1 w)) w)
        /\ alloc_urb_calls logs = 0%nat /\ submit_calls logs = 0%nat).
Proof.
  revert f w. induction eps as [|e eps IH]; intros f w; cbn zeta.
  - cbn [probe_endpoints existsb ret fst snd]. rewrite !orb_false_r.
    repeat split. exists (control_endpoint (w_es1 w)), (svc_endpoint (w_es1 w)),
      (cport_in_endpoint (w_es1 w)), (cport_out_endpoint (w_es1 w)), [].
    destruct w as [e1 ?]; destruct e1; repeat split; reflexivity.
  - cbn [probe_endpoints existsb].
    destruct (endpoint_kinds_exclusive e) as [Hint Hbulk].
    destruct (usb_endpoint_is_int_in e) eqn:Hii.
    { destruct (Hint eq_refl) as [-> ->]. unfold modify_es1. run_monad.
      match goal with
      | |- context [probe_endpoints eps ?f' ?w'] =>
          destruct (IH f' w') as (H1 & H2 & H3 & a & b & c & d & logs & H4 & H5)
      end.
      cbn zeta in *. rewrite H1, H2, H3, H4. cbn [int_in_found bulk_in_found
        bulk_out_found]. rewrite orb_true_r. cbn [orb].
      repeat split. exists a, b, c, d, logs. repeat split; apply H5. }
    destruct (usb_endpoint_is_bulk_in e) eqn:Hbi.
    { rewrite (Hbulk eq_refl). unfold modify_es1. run_monad.
      match goal with
      | |- context [probe_endpoints eps ?f' ?w'] =>
          destruct (IH f' w') as (H1 & H2 & H3 & a & b & c & d & logs & H4 & H5)
      end.
      cbn zeta in *. rewrite H1, H2, H3, H4. cbn [int_in_found bulk_in_found
        bulk_out_found]. rewrite orb_true_r. cbn [orb].
      repeat split. exists a, b, c, d, logs. repeat split; apply H5. }
    destruct (usb_endpoint_is_bulk_out e) eqn:Hbo.
    { unfold modify_es1. run_monad.
      match goal with
      | |- context [probe_endpoints eps ?f' ?w'] =>
          destruct (IH f' w') as (H1 & H2 & H3 & a & b & c & d & logs & H4 & H5)
      end.
      cbn zeta in *. rewrite H1, H2, H3, H4. cbn [int_in_found bulk_in_found
        bulk_out_found]. rewrite orb_true_r. cbn [orb].
      repeat split. exists a, b, c, d, logs. repeat split; apply H5. }
    run_monad.
    match goal with
    | |- context [probe_endpoints eps ?f' ?w'] =>
        destruct (IH f' w') as (H1 & H2 & H3 & a & b & c & d & logs & H4 & H5)
    end.
    cbn zeta in *. rewrite H1, H2, H3, H4. cbn [orb].
    repeat split.
    exists a, b, c, d, (logs ++ [EvLog (log_unknown_endpoint (bEndpointAddress e))]).
    wsimpl. rewrite <- app_assoc. cbn [app].
    destruct H5 as [H5 H6]. unfold alloc_urb_calls, submit_calls in *.
    rewrite !filter_app, !length_app, H5, H6. repeat split.
Qed.

Lemma disconnect_cport_out_null (i n : nat) (w : world) :
  cport_out_urb (w_es1 w) !! i = Some NULL ->
  disconnect_cport_out i (S n) w = (tt, w).
Proof.
  intros H. cbn [disconnect_cport_out]. run_monad. rewrite H. reflexivity.
Qed.

Lemma disconnect_cport_in_null (i n : nat) (w : world) :
  cport_in_urb (w_es1 w) !! i = Some NULL ->
  disconnect_cport_in i (S n) w = (tt, w).
Proof.
  intros H. cbn [disconnect_cport_in]. run_monad. rewrite H. reflexivity.
Qed.

(** Detaching a device that has been given no urb and no buffer yet only
    drops the host device and the reference to the USB device. *)
Lemma ap_disconnect_bare (w : world) :
  w_intfdata w = true ->
  cport_out_urb (w_es1 w) !! 0%nat = Some NULL ->
  cport_in_urb (w_es1 w) !! 0%nat = Some NULL ->
  svc_urb (w_es1 w) = NULL ->
  svc_buffer (w_es1 w) = NULL ->
  let w' := snd (ap_disconnect w) in
  w_trace w' = EvPutDev :: EvRemoveHd (w_hd w) :: w_trace w
  /\ w_live w' = remove_first (w_hd w) (w_live w)
  /\ w_udev_refs w' = w_udev_refs w - 1
  /\ w_intfdata w' = false
  /\ w_hd w' = NULL.
Proof.
  intros Hintf Hout Hin Hsu Hsb. cbn zeta.
  unfold ap_disconnect. run_monad. rewrite Hintf. cbn [negb].
  unfold NUM_CPORT_OUT_URB, NUM_CPORT_IN_URB.
  rewrite (disconnect_cport_out_null _ _ _ Hout).
  rewrite (disconnect_cport_in_null _ _ _ Hin).
  unfold usb_kill_urb, usb_free_urb, kfree, modify_es1.
  rewrite Hsu. cbn [Z.eqb NULL]. run_monad. rewrite Hsu. cbn [Z.eqb NULL].
  run_monad. wsimpl. rewrite Hsb. cbn [Z.eqb NULL]. run_monad.
  unfold greybus_remove_hd, usb_put_dev, heap_free. run_monad. wsimpl.
  repeat split.
Qed.

(** Without one of the three endpoint kinds, [ap_probe] gives up before any
    urb or buffer is allocated and undoes what it has done. *)
Lemma ap_probe_missing_endpoint (ep0 : Z) (eps : list usb_endpoint_descriptor)
    (w : world) :
  0 < w_heap_next w ->
  existsb usb_endpoint_is_int_in eps && existsb usb_endpoint_is_bulk_in eps
    && existsb usb_endpoint_is_bulk_out eps = false ->
  let res := ap_probe ep0 eps w in
  fst res = - ENOMEM
  /\ w_live (snd res) = w_live w
  /\ w_udev_refs (snd res) = w_udev_refs w
  /\ alloc_urb_calls (w_trace (snd res)) = alloc_urb_calls (w_trace w)
  /\ submit_calls (w_trace (snd res)) = submit_calls (w_trace w)
  /\ (next_alloc_ok w = true ->
      w_intfdata (snd res) = false /\ w_hd (snd res) = NULL /\
      exists logs : list event,
        w_trace (snd res) =
          EvPutDev :: EvRemoveHd (w_heap_next w)
            :: EvLog log_not_enough_endpoints
            :: logs ++ EvCreateHd (w_heap_next w) :: EvGetDev :: w_trace w).
Proof.
  intros Hheap Hmissing res. subst res.
  unfold ap_probe, usb_get_dev, usb_put_dev, greybus_create_hd, heap_alloc,
    modify_es1.
  run_monad. wsimpl.
  destruct (next_alloc_ok _) eqn:Halloc; cbn [Z.eqb NULL]; run_monad; wsimpl.
  2: { repeat split; try reflexivity; lia. }
  assert (Hnn : (w_heap_next w =? NULL) = false)
    by (apply Z.eqb_neq; unfold NULL; lia).
  cbn beta iota. wsimpl. rewrite Hnn. cbn beta iota. wsimpl.
  rewrite Hnn. cbn beta iota. wsimpl.
  match goal with
  | |- context [probe_endpoints eps ?f0 ?w1] =>
      pose proof (probe_endpoints_spec eps f0 w1) as Hspec;
      cbn zeta in Hspec;
      destruct Hspec as (H1 & H2 & H3 & a & b & c & d & logs & H4 & H5 & H6);
      destruct (probe_endpoints eps f0 w1) as [f w2]
  end.
  cbn [fst snd int_in_found bulk_in_found bulk_out_found orb] in H1, H2, H3, H4.
  subst w2. rewrite H1, H2, H3.
  assert (Hcond : negb (existsb usb_endpoint_is_int_in eps)
                  || negb (existsb usb_endpoint_is_bulk_in eps)
                  || negb (existsb usb_endpoint_is_bulk_out eps) = true).
  { destruct (existsb usb_endpoint_is_int_in eps),
             (existsb usb_endpoint_is_bulk_in eps),
             (existsb usb_endpoint_is_bulk_out eps); cbn in *; congruence. }
  rewrite Hcond. unfold probe_error. run_monad. wsimpl.
  match goal with
  | |- context [ap_disconnect ?w3] =>
      destruct (ap_disconnect_bare w3)
        as (Ht & Hl & Hr & Hi & Hh); try reflexivity;
      destruct (ap_disconnect w3) as [[] w4]
  end.
  cbn [fst snd] in *. wsimpl. rewrite Ht, Hl, Hr, Hi, Hh.
  cbn [remove_first]. rewrite Z.eqb_refl.
  split; [reflexivity|]. split; [reflexivity|]. split; [lia|].
  split; [|split].
  - rewrite !alloc_urb_calls_cons by reflexivity.
    unfold alloc_urb_calls in *. rewrite filter_app, length_app, H5.
    reflexivity.
  - rewrite !submit_calls_cons by reflexivity.
    unfold submit_calls in *. rewrite filter_app, length_app, H6.
    reflexivity.
  - intros _. split; [reflexivity|]. split; [reflexivity|].
    exists logs. reflexivity.
Qed.

(** C10 (as amended): [ap_probe] returns 0 only if the interface lists at
    least one interrupt-in, one bulk-in and one bulk-out endpoint (the
    control endpoint is taken from endpoint 0 without a check; further
    endpoints of a kind are accepted, the last one winning).  If one of
    the three kinds is missing it logs that, runs [ap_disconnect] and
    returns -ENOMEM: the host device created and the reference taken on the
    USB device are given back, and no urb was allocated or submitted. *)
Theorem ap_probe_requires_endpoints (ep0 : Z)
    (eps : list usb_endpoint_descriptor) (w : world) :
  0 < w_heap_next w ->
  let res := ap_probe ep0 eps w in
  (fst res = 0 ->
   existsb usb_endpoint_is_int_in eps = true
   /\ existsb usb_endpoint_is_bulk_in eps = true
   /\ existsb usb_endpoint_is_bulk_out eps = true)
  /\ (existsb usb_endpoint_is_int_in eps && existsb usb_endpoint_is_bulk_in eps
        && existsb usb_endpoint_is_bulk_out eps = false ->
      fst res = - ENOMEM
      /\ w_live (snd res) = w_live w
      /\ w_udev_refs (snd res) = w_udev_refs w
      /\ alloc_urb_calls (w_trace (snd res)) = alloc_urb_calls (w_trace w)
      /\ submit_calls (w_trace (snd res)) = submit_calls (w_trace w)
      /\ (next_alloc_ok w = true ->
          w_intfdata (snd res) = false /\ w_hd (snd res) = NULL /\
          exists logs : list event,
            w_trace (snd res) =
              EvPutDev :: EvRemoveHd (w_heap_next w)
                :: EvLog log_not_enough_endpoints
                :: logs ++ EvCreateHd (w_heap_next w) :: EvGetDev
                :: w_trace w)).
Proof.
  intros Hheap res. split.
  - intros Hzero.
    destruct (existsb usb_endpoint_is_int_in eps
              && existsb usb_endpoint_is_bulk_in eps
              && existsb usb_endpoint_is_bulk_out eps) eqn:Hall.
    + apply andb_true_iff in Hall as [Hall Hbo].
      apply andb_true_iff in Hall as [Hii Hbi]. auto.
    + exfalso.
      destruct (ap_probe_missing_endpoint ep0 eps w Hheap Hall) as [Hret _].
      subst res. rewrite Hret in Hzero. discriminate Hzero.
  - intros Hmissing. apply ap_probe_missing_endpoint; assumption.
Qed.

(** ** Attach establishes the invariant of the pool *)

Lemma attach_inv_ext (w w' : world) :
  attach_inv w ->
  cport_out_urb (w_es1 w') = cport_out_urb (w_es1 w) ->
  cport_out_urb_busy (w_es1 w') = cport_out_urb_busy (w_es1 w) ->
  cport_out_urb_lock (w_es1 w') = cport_out_urb_lock (w_es1 w) ->
  w_intfdata w' = w_intfdata w ->
  (w_heap_next w' = w_heap_next w
   \/ exists size : Z, w_heap_next w' = w_heap_next w + chunk size) ->
  (forall ep : Z, w_inflight w' (sndbulkpipe ep) = w_inflight w (sndbulkpipe ep)) ->
  attach_inv w'.
Proof.
  intros ([Hpos Hal] & Hpl & Hbl & Hbc & Hlock & Hintf & Hq)
    Hpool Hbusy Hlock' Hintf' Hheap Hq'.
  unfold attach_inv. rewrite Hpool, Hbusy, Hlock', Hintf'.
  refine (conj _ (conj Hpl (conj Hbl (conj Hbc (conj Hlock (conj Hintf _)))))).
  - destruct Hheap as [->|[size ->]]; [split; assumption|].
    destruct (chunk_pos size) as [Hcp Hc]. split; [lia|].
    rewrite Z.add_mod, Hal, Hc by lia. reflexivity.
  - intros ep. rewrite Hq'. apply Hq.
Qed.

Lemma heap_alloc_attach_inv (size : Z) (w : world) :
  attach_inv w -> attach_inv (snd (heap_alloc size w)).
Proof.
  intros Hinv. unfold heap_alloc.
  destruct (next_alloc_ok w); cbn [snd];
    apply (attach_inv_ext w _ Hinv); try reflexivity; wsimpl; eauto.
Qed.

Lemma kmalloc_attach_inv (size : Z) (w : world) :
  attach_inv w -> attach_inv (snd (kmalloc size w)).
Proof.
  intros Hinv. unfold kmalloc. run_monad.
  pose proof (heap_alloc_attach_inv size w Hinv) as H.
  destruct (heap_alloc size w) as [p w1]. cbn [snd] in *.
  apply (attach_inv_ext w1 _ H); try reflexivity; wsimpl; eauto.
Qed.

Lemma usb_alloc_urb_attach_inv (w : world) :
  attach_inv w -> attach_inv (snd (usb_alloc_urb w)).
Proof.
  intros Hinv. rewrite usb_alloc_urb_eq. cbn zeta.
  destruct (next_alloc_ok w); cbn [snd];
    [destruct (w_heap_next w =? NULL)|];
    apply (attach_inv_ext w _ Hinv); try reflexivity; wsimpl; eauto.
Qed.

(** Submitting a urb whose pipe is not a bulk-out pipe. *)
Lemma usb_submit_urb_attach_inv (u : ptr) (w : world) :
  attach_inv w -> not_sndbulk (urb_pipe (w_urbs w u)) ->
  attach_inv (snd (usb_submit_urb u w)).
Proof.
  intros Hinv Hpipe. unfold usb_submit_urb.
  destruct (next_submit_result w =? 0); cbn [snd];
    apply (attach_inv_ext w _ Hinv); try reflexivity; wsimpl; eauto.
  intros ep. unfold enqueue.
  destruct (urb_pipe (w_urbs w u)); cbn [pipe_eqb] in *;
    try reflexivity; contradiction.
Qed.

Lemma ap_disconnect_intfdata (w : world) :
  w_intfdata (snd (ap_disconnect w)) = false.
Proof.
  unfold ap_disconnect, bind, get.
  destruct (w_intfdata w) eqn:Hintf; cbn [negb]; [|exact Hintf].
  destruct (disconnect_cport_out _ _ w) as [[] w1].
  destruct (disconnect_cport_in _ _ w1) as [[] w2].
  destruct (usb_kill_urb _ w2) as [[] w3].
  destruct (usb_free_urb _ w3) as [[] w4].
  destruct (modify_es1 _ w4) as [[] w5].
  destruct (kfree _ w5) as [[] w6].
  destruct (modify_es1 _ w6) as [[] w7].
  unfold greybus_remove_hd, usb_put_dev, heap_free. run_monad. reflexivity.
Qed.

Lemma probe_error_intfdata (retval : Z) (w : world) :
  w_intfdata (snd (probe_error retval w)) = false.
Proof.
  unfold probe_error, bind, ret.
  pose proof (ap_disconnect_intfdata w) as H.
  destruct (ap_disconnect w) as [[] w1]. exact H.
Qed.

(** The CPort IN loop keeps [attach_inv], or ends in [goto error]. *)
Lemma probe_cport_in_attach_inv (n i : nat) (retval : Z) (w : world) :
  attach_inv w ->
  attach_inv (snd (probe_cport_in i n retval w)).
Proof.
  revert i retval w. induction n as [|n IH]; intros i retval w Hinv;
    [exact Hinv|].
  cbn [probe_cport_in]. unfold bind at 1.
  pose proof (usb_alloc_urb_attach_inv w Hinv) as H1.
  destruct (usb_alloc_urb w) as [u w1]. cbn [snd] in H1.
  destruct (u =? NULL); [exact H1|].
  unfold bind at 1.
  pose proof (kmalloc_attach_inv ES1_GBUF_MSG_SIZE_MAX w1 H1) as H2.
  destruct (kmalloc ES1_GBUF_MSG_SIZE_MAX w1) as [buffer w2]. cbn [snd] in H2.
  destruct (buffer =? NULL); [exact H2|].
  unfold usb_fill_bulk_urb, update_urb, modify_es1. run_monad.
  match goal with
  | |- context [usb_submit_urb u ?w3] =>
      assert (H3 : attach_inv (snd (usb_submit_urb u w3)));
      [ apply usb_submit_urb_attach_inv;
        [ apply (attach_inv_ext w2 _ H2); try reflexivity; wsimpl; eauto
        | wsimpl; rewrite Z.eqb_refl; exact I ]
      | destruct (usb_submit_urb u w3) as [rv w4] ]
  end.
  cbn [snd] in H3. destruct (negb (rv =? 0)); [exact H3|].
  apply IH. exact H3.
Qed.

Lemma busy_count_insert_false_zero (l : list bool) (i : nat) :
  busy_count l = 0%nat -> busy_count (<[i:=false]> l) = 0%nat.
Proof.
  revert i. induction l as [|b l IH]; intros i H; [reflexivity|].
  destruct b; [discriminate H|]. cbn [busy_count] in H.
  destruct i as [|i]; [exact H|].
  change (<[S i:=false]> (false :: l)) with (false :: <[i:=false]> l).
  cbn [busy_count]. apply IH. exact H.
Qed.

(** The CPort OUT loop: once the first [i] slots hold distinct allocated
    urbs, a run of the remaining [n] iterations that does not end in
    [goto error] leaves a well-formed, idle pool. *)
Lemma probe_cport_out_dev_ok (n i : nat) (w : world) :
  attach_inv w ->
  (i + n = NUM_CPORT_OUT_URB)%nat ->
  NoDup (take i (cport_out_urb (w_es1 w))) ->
  Forall (fun u => 0 < u < w_heap_next w /\ u mod 8 = 0)
    (take i (cport_out_urb (w_es1 w))) ->
  fst (probe_cport_out i n w) = true ->
  dev_ok (snd (probe_cport_out i n w))
  /\ pool_idle (snd (probe_cport_out i n w)).
Proof.
  revert i w. induction n as [|n IH]; intros i w Hinv Hin Hnd Haddr Hok.
  - destruct Hinv as (Hheap & Hpl & Hbl & Hbc & Hlock & Hintf & Hq).
    cbn [probe_cport_out ret snd].
    rewrite take_ge in Hnd, Haddr by lia.
    split; [constructor; assumption|].
    split; [apply Hq | exact Hbc].
  - cbn [probe_cport_out] in Hok |- *. unfold bind in Hok |- *.
    rewrite usb_alloc_urb_eq in Hok |- *. cbn zeta in Hok |- *.
    pose proof Hinv as ([Hpos Hal] & Hpl & Hbl & Hbc & Hlock & Hintf & Hq).
    destruct (next_alloc_ok w); [|discriminate Hok].
    destruct (Z.eqb_spec (w_heap_next w) NULL) as [Hz|_];
      [unfold NULL in Hz; lia|].
    unfold modify_es1 in Hok |- *. run_monad. wsimpl.
    destruct (chunk_pos sizeof_urb) as [Hcp Hc].
    apply IH; [| lia | | | exact Hok].
    + unfold attach_inv. wsimpl. rewrite !length_insert.
      refine (conj _ (conj Hpl (conj Hbl (conj _ (conj Hlock
                (conj Hintf Hq)))))).
      * split; [lia|]. rewrite Z.add_mod, Hal, Hc by lia. reflexivity.
      * apply busy_count_insert_false_zero. exact Hbc.
    + wsimpl.
      rewrite (take_S_r _ _ (w_heap_next w))
        by (apply list_lookup_insert_eq; lia).
      rewrite take_insert_ge by lia.
      apply NoDup_app. split; [exact Hnd|]. split.
      * intros x Hx Hx'. apply list_elem_of_singleton in Hx'. subst x.
        pose proof (proj1 (Forall_forall _ _) Haddr _ Hx) as Hlt.
        cbn beta in Hlt. lia.
      * apply NoDup_singleton.
    + wsimpl.
      rewrite (take_S_r _ _ (w_heap_next w))
        by (apply list_lookup_insert_eq; lia).
      rewrite take_insert_ge by lia.
      apply Forall_app. split.
      * eapply Forall_impl; [exact Haddr|]. cbn beta.
        intros x [[Hx0 Hx1] Hx8]. repeat split; [assumption|lia|assumption].
      * apply Forall_singleton. repeat split; [assumption|lia|assumption].
Qed.

(** A run of [ap_probe] that returns 0 and leaves the interface bound has
    allocated the whole pool: the device is well formed and its pool idle.
    (A run that fails after the first submission also returns 0, but only
    after [ap_disconnect] has unbound the interface.) *)
Lemma ap_probe_attached (ep0 : Z) (eps : list usb_endpoint_descriptor)
    (w : world) :
  0 < w_heap_next w -> w_heap_next w mod 8 = 0 ->
  (forall ep : Z, w_inflight w (sndbulkpipe ep) = []) ->
  fst (ap_probe ep0 eps w) = 0 ->
  w_intfdata (snd (ap_probe ep0 eps w)) = true ->
  dev_ok (snd (ap_probe ep0 eps w)) /\ pool_idle (snd (ap_probe ep0 eps w)).
Proof.
  intros Hpos Hal Hq.
  assert (Herr : forall rv W,
            fst (probe_error rv W) = 0 ->
            w_intfdata (snd (probe_error rv W)) = true ->
            dev_ok (snd (probe_error rv W))
            /\ pool_idle (snd (probe_error rv W))).
  { intros rv W _ H. rewrite probe_error_intfdata in H. discriminate H. }
  unfold ap_probe, usb_get_dev, usb_put_dev, greybus_create_hd, heap_alloc,
    modify_es1.
  run_monad. wsimpl.
  destruct (next_alloc_ok _); cbn [Z.eqb NULL]; run_monad; wsimpl;
    [|intros H; discriminate H].
  assert (Hnn : (w_heap_next w =? NULL) = false)
    by (apply Z.eqb_neq; unfold NULL; lia).
  cbn beta iota. wsimpl. rewrite Hnn. cbn beta iota. wsimpl.
  rewrite Hnn. cbn beta iota. wsimpl.
  match goal with
  | |- context [probe_endpoints eps ?f0 ?w1] =>
      pose proof (probe_endpoints_spec eps f0 w1) as Hspec;
      cbn zeta in Hspec;
      destruct Hspec as (_ & _ & _ & a & b & c & d & logs & H4 & _);
      destruct (probe_endpoints eps f0 w1) as [f w2]
  end.
  cbn [fst snd] in H4. wsimpl.
  assert (H2 : attach_inv w2).
  { subst w2. unfold attach_inv. wsimpl.
    destruct (chunk_pos sizeof_hd) as [Hcp Hc].
    refine (conj _ (conj eq_refl (conj eq_refl (conj eq_refl
              (conj eq_refl (conj eq_refl Hq)))))).
    split; [lia|]. rewrite Z.add_mod, Hal, Hc by lia. reflexivity. }
  clear H4.
  destruct (negb (int_in_found f) || negb (bulk_in_found f)
            || negb (bulk_out_found f)); [apply Herr|].
  (* the SVC buffer *)
  pose proof (kmalloc_attach_inv ES1_SVC_MSG_SIZE w2 H2) as H3.
  destruct (kmalloc ES1_SVC_MSG_SIZE w2) as [buf w3]. cbn [snd] in H3.
  destruct (buf =? NULL); [apply Herr|].
  (* the SVC urb *)
  match goal with
  | |- context [usb_alloc_urb ?w4] =>
      assert (H4 : attach_inv w4)
        by (apply (attach_inv_ext w3 _ H3); try reflexivity; wsimpl; eauto);
      pose proof (usb_alloc_urb_attach_inv w4 H4) as H5;
      destruct (usb_alloc_urb w4) as [u w5]
  end.
  cbn [snd] in H5. destruct (u =? NULL); [apply Herr|].
  unfold usb_fill_int_urb, update_urb. run_monad. wsimpl.
  match goal with
  | |- context [usb_submit_urb u ?w6] =>
      assert (H6 : attach_inv (snd (usb_submit_urb u w6)));
      [ apply usb_submit_urb_attach_inv;
        [ apply (attach_inv_ext w5 _ H5); try reflexivity; wsimpl; eauto
        | wsimpl; rewrite Z.eqb_refl; exact I ]
      | destruct (usb_submit_urb u w6) as [rv w7] ]
  end.
  cbn [snd] in H6. destruct (negb (rv =? 0)); [apply Herr|].
  (* the CPort IN urbs *)
  pose proof (probe_cport_in_attach_inv NUM_CPORT_IN_URB 0 rv w7 H6) as H7.
  destruct (probe_cport_in 0 NUM_CPORT_IN_URB rv w7) as [r w8].
  cbn [fst snd] in *. destruct (negb (fst r)); [apply Herr|].
  (* the CPort OUT urbs *)
  pose proof (probe_cport_out_dev_ok NUM_CPORT_OUT_URB 0 w8 H7 eq_refl) as H8.
  destruct (probe_cport_out 0 NUM_CPORT_OUT_URB w8) as [ok w9].
  cbn [fst snd] in *. destruct ok; cbn [negb]; [|apply Herr].
  intros _ _. apply H8; [constructor | constructor | reflexivity].
Qed.

(** ** The pool invariant while the device is attached

    [dev_ok] holds after a successful attach ([ap_probe_attached]) and every
    entry point of the running driver keeps it. *)

Lemma dev_ok_same (w w' : world) :
  dev_ok w -> w_es1 w' = w_es1 w -> w_heap_next w' = w_heap_next w ->
  dev_ok w'.
Proof.
  intros Hok He Hh.
  apply (dev_ok_frame w _ Hok); rewrite ?He, ?Hh;
    try reflexivity; try apply Hok; lia.
Qed.

Lemma usb_submit_urb_same (u : ptr) (w : world) :
  w_es1 (snd (usb_submit_urb u w)) = w_es1 w
  /\ w_heap_next (snd (usb_submit_urb u w)) = w_heap_next w.
Proof.
  unfold usb_submit_urb. destruct (next_submit_result w =? 0);
    split; reflexivity.
Qed.

Lemma check_urb_status_same (u : ptr) (w : world) :
  w_es1 (snd (check_urb_status u w)) = w_es1 w
  /\ w_heap_next (snd (check_urb_status u w)) = w_heap_next w
  /\ w_urbs (snd (check_urb_status u w)) = w_urbs w.
Proof.
  rewrite check_urb_status_eq. cbn zeta.
  destruct (_ =? 0); [repeat split|].
  destruct (_ =? - EOVERFLOW); [repeat split|].
  destruct (device_gone_status _); repeat split.
Qed.

Lemma buffer_send_dev_ok (cport_id buffer buffer_size : Z) (w : world) :
  dev_ok w -> dev_ok (snd (buffer_send cport_id buffer buffer_size w)).
Proof.
  intros Hok.
  destruct (send_guards_dec cport_id buffer buffer_size) as [Hargs|Hbad].
  - rewrite (buffer_send_passes _ _ _ _ Hargs).
    pose proof (next_free_urb_dev_ok _
                  (dev_ok_set_mem (store8 (w_mem w) (buffer - 1) cport_id)
                     w Hok)) as H1.
    destruct (next_free_urb _) as [u w1]. cbn [snd] in H1.
    destruct (u =? NULL); [exact H1|]. cbn zeta.
    assert (H2 : dev_ok (filled_for_send u (buffer - 1)
                           (to_int (to_size_t (buffer_size + 1))) w1))
      by (apply (dev_ok_same w1 _ H1); reflexivity).
    destruct (usb_submit_urb_same u
                (filled_for_send u (buffer - 1)
                   (to_int (to_size_t (buffer_size + 1))) w1)) as [He Hh].
    destruct (usb_submit_urb u _) as [rv w3]. cbn [snd] in He, Hh.
    assert (H3 : dev_ok w3) by (apply (dev_ok_same _ _ H2); assumption).
    destruct (negb (rv =? 0)); [|exact H3].
    cbn [snd]. apply free_urb_dev_ok.
    apply (dev_ok_same w3 _ H3); reflexivity.
  - destruct (buffer_send_rejected cport_id buffer buffer_size w Hbad)
      as [m ->].
    apply (dev_ok_same w _ Hok); reflexivity.
Qed.

Lemma run_complete_dev_ok (u : ptr) (w : world) :
  dev_ok w -> dev_ok (snd (run_complete u w)).
Proof.
  intros Hok. unfold run_complete.
  destruct (complete (w_urbs w u)); [exact Hok| | |].
  - (* svc_in_callback *)
    unfold svc_in_callback, bind.
    destruct (check_urb_status_same u w) as (He & Hh & _).
    destruct (check_urb_status u w) as [st w1]. cbn [snd] in He, Hh.
    assert (H1 : dev_ok w1) by (apply (dev_ok_same w _ Hok); assumption).
    assert (Hexit : forall w2, dev_ok w2 -> dev_ok (snd (svc_in_exit u w2))).
    { intros w2 H2. unfold svc_in_exit, bind.
      destruct (usb_submit_urb_same u w2) as [He2 Hh2].
      destruct (usb_submit_urb u w2) as [rv w3]. cbn [snd] in He2, Hh2.
      destruct (negb (rv =? 0)); run_monad;
        apply (dev_ok_same w2 _ H2); assumption. }
    destruct (negb (st =? 0)).
    + destruct ((st =? - EAGAIN) || (st =? - EPROTO)); [apply Hexit; exact H1|].
      run_monad. apply (dev_ok_same w1 _ H1); reflexivity.
    + run_monad. apply Hexit. apply (dev_ok_same w1 _ H1); reflexivity.
  - (* cport_in_callback *)
    unfold cport_in_callback, bind.
    destruct (check_urb_status_same u w) as (He & Hh & _).
    destruct (check_urb_status u w) as [st w1]. cbn [snd] in He, Hh.
    assert (H1 : dev_ok w1) by (apply (dev_ok_same w _ Hok); assumption).
    assert (Hexit : forall w2, dev_ok w2 -> dev_ok (snd (cport_in_exit u w2))).
    { intros w2 H2. unfold cport_in_exit, bind.
      destruct (usb_submit_urb_same u w2) as [He2 Hh2].
      destruct (usb_submit_urb u w2) as [rv w3]. cbn [snd] in He2, Hh2.
      destruct (negb (rv =? 0)); run_monad;
        apply (dev_ok_same w2 _ H2); assumption. }
    destruct (negb (st =? 0)).
    + destruct ((st =? - EAGAIN) || (st =? - EPROTO)); [apply Hexit; exact H1|].
      run_monad. apply (dev_ok_same w1 _ H1); reflexivity.
    + unfold read_urb. destruct (actual_length (w_urbs w1 u) =? 0);
        run_monad; apply Hexit; apply (dev_ok_same w1 _ H1); reflexivity.
  - (* cport_out_callback *)
    unfold cport_out_callback, bind.
    destruct (check_urb_status_same u w) as (He & Hh & _).
    destruct (check_urb_status u w) as [st w1]. cbn [snd] in He, Hh.
    assert (H1 : dev_ok w1) by (apply (dev_ok_same w _ Hok); assumption).
    run_monad. apply free_urb_dev_ok.
    apply (dev_ok_same w1 _ H1); reflexivity.
Qed.

Lemma usb_kill_urb_dev_ok (u : ptr) (w : world) :
  dev_ok w -> dev_ok (snd (usb_kill_urb u w)).
Proof.
  intros Hok. unfold usb_kill_urb.
  destruct (u =? NULL); [exact Hok|]. run_monad. wsimpl.
  destruct (queued u _).
  - unfold usb_hcd_giveback_urb, urb_done, update_urb. run_monad.
    apply run_complete_dev_ok. apply (dev_ok_same w _ Hok); reflexivity.
  - apply (dev_ok_same w _ Hok); reflexivity.
Qed.

Lemma buffer_cancel_dev_ok (cookie : ptr) (w : world) :
  dev_ok w -> dev_ok (snd (buffer_cancel cookie w)).
Proof.
  intros Hok. unfold buffer_cancel.
  destruct (negb (cookie =? NULL)); [|exact Hok].
  apply usb_kill_urb_dev_ok. exact Hok.
Qed.

Lemma usb_hcd_giveback_urb_dev_ok (u st actual : Z) (w : world) :
  dev_ok w -> dev_ok (snd (usb_hcd_giveback_urb u st actual w)).
Proof.
  intros Hok. unfold usb_hcd_giveback_urb, urb_done, update_urb. run_monad.
  apply run_complete_dev_ok. apply (dev_ok_same w _ Hok); reflexivity.
Qed.

(** * Further properties of the driver *)

(** ** SVC messages *)

(** X1: [submit_svc] makes one control transfer, with the request built by
    [svc_request], and leaves the state as the transfer left it.  It returns
    0 exactly when the transfer reports the size of the message or reports
    that nothing was transferred; every other result, a negative errno or
    the byte count of a short transfer, is returned as it is. *)
Theorem submit_svc_result (usb_control_msg : control_msg -> M Z)
    (svc_msg : ptr) (w : world) :
  0 < sizeof_svc_msg < 2 ^ 31 ->
  let sent := usb_control_msg (svc_request (w_es1 w) svc_msg) w in
  let r := to_int (fst sent) in
  let res := submit_svc usb_control_msg svc_msg w in
  snd res = snd sent
  /\ (r = sizeof_svc_msg -> fst res = 0)
  /\ (r <> sizeof_svc_msg -> fst res = r)
  /\ (fst res = 0 <-> r = sizeof_svc_msg \/ r = 0).
Proof.
  intros Hsize. cbn zeta. unfold submit_svc. run_monad.
  destruct (usb_control_msg (svc_request (w_es1 w) svc_msg) w) as [r0 w1].
  cbn [fst snd].
  assert (Hr : - 2 ^ 31 <= to_int r0 < 2 ^ 31).
  { unfold to_int. pose proof (Z.mod_pos_bound (r0 + 2 ^ 31) (2 ^ 32)). lia. }
  assert (Hcmp : (to_size_t (to_int r0) =? to_size_t sizeof_svc_msg) = true
                 <-> to_int r0 = sizeof_svc_msg).
  { rewrite Z.eqb_eq. unfold to_size_t.
    rewrite (Z.mod_small sizeof_svc_msg) by lia.
    destruct (Z.ltb_spec (to_int r0) 0) as [Hneg|Hpos].
    - rewrite <- (Z_mod_plus_full (to_int r0) 1 (2 ^ 64)).
      rewrite Z.mod_small by lia. lia.
    - rewrite Z.mod_small by lia. reflexivity. }
  destruct (Z.eq_dec (to_int r0) sizeof_svc_msg) as [He|Hne].
  - rewrite (proj2 Hcmp He). cbn [negb fst snd].
    split; [reflexivity|]. split; [reflexivity|].
    split; [contradiction|]. split; [auto | reflexivity].
  - assert (Hb : (to_size_t (to_int r0) =? to_size_t sizeof_svc_msg) = false).
    { apply not_true_is_false. intros H. apply Hcmp in H. contradiction. }
    rewrite Hb. cbn [negb fst snd].
    split; [reflexivity|]. split; [contradiction|]. split; [reflexivity|].
    split; [auto | intros [H|H]; [contradiction | exact H]].
Qed.

(** ** The pool is first-fit *)

(** X2: [next_free_urb] hands out the urb of the lowest free slot: when slot
    [j] is free and every slot below it is busy, the result is the urb of
    slot [j], and the only change is that its busy flag is set. *)
Theorem next_free_urb_first_fit (w : world) (j : nat) (u : ptr) :
  dev_ok w ->
  cport_out_urb (w_es1 w) !! j = Some u ->
  cport_out_urb_busy (w_es1 w) !! j = Some false ->
  (forall k : nat, (k < j)%nat ->
                   cport_out_urb_busy (w_es1 w) !! k = Some true) ->
  next_free_urb w =
    (u, set_es1 (set_cport_out_urb_busy
                   (<[j:=true]> (cport_out_urb_busy (w_es1 w))) (w_es1 w)) w).
Proof.
  intros Hok Hu Hj Hbelow.
  destruct (next_free_urb_scan_spec (set_lock true (w_es1 w))
              NUM_CPORT_OUT_URB 0)
    as [(j' & Hj' & Hfree & Hfirst & Heq)|[Hnone _]]; wsimpl.
  - assert (j' = j) as ->.
    { destruct (Nat.lt_trichotomy j' j) as [Hlt|[Heq'|Hgt]].
      - rewrite (Hbelow j' Hlt) in Hfree. discriminate Hfree.
      - exact Heq'.
      - exfalso. apply (Hfirst j); [lia | exact Hj]. }
    rewrite Hu in Heq. change (default NULL (Some u)) with u in Heq.
    rewrite next_free_urb_eq, Heq. cbn zeta.
    destruct (pool_urb_facts w j u Hok Hu) as [Hpos _].
    destruct (Z.eqb_spec u NULL) as [Hz|_]; [unfold NULL in Hz; lia|].
    cbn [negb]. rewrite unlock_lock_busy by apply (ok_lock _ Hok).
    reflexivity.
  - exfalso. apply (Hnone j); [|exact Hj].
    apply lookup_lt_Some in Hj. rewrite (ok_busy_len _ Hok) in Hj. lia.
Qed.

(** ** SVC messages coming in *)

(** X3: On a successful completion [svc_in_callback] hands the buffer and the
    length of the urb to [greybus_svc_in], whatever the length (zero
    included), and then resubmits the urb, logging a failed resubmission. *)
Theorem svc_in_callback_delivers (u : ptr) (w : world) :
  status (w_urbs w u) = 0 ->
  let w' := snd (svc_in_callback u w) in
  w_trace w' =
    (if next_submit_result w =? 0 then []
     else [EvLog (log_svc_in_submit (next_submit_result w))]) ++
    EvSubmit u (urb_pipe (w_urbs w u)) (transfer_buffer (w_urbs w u))
      (transfer_buffer_length (w_urbs w u)) (next_submit_result w)
    :: EvSvcIn (transfer_buffer (w_urbs w u)) (actual_length (w_urbs w u))
    :: w_trace w
  /\ w_mem w' = w_mem w
  /\ w_es1 w' = w_es1 w.
Proof.
  intros Hst w'. subst w'. unfold svc_in_callback, bind.
  rewrite check_urb_status_eq. cbn zeta. rewrite Hst. cbn [Z.eqb negb].
  run_monad.
  split; [|split].
  - apply (svc_in_exit_trace u
             (set_trace (EvSvcIn (transfer_buffer (w_urbs w u))
                           (actual_length (w_urbs w u)) :: w_trace w) w)).
  - unfold svc_in_exit, usb_submit_urb. run_monad.
    destruct (next_submit_result _ =? 0) eqn:Hr; cbn beta iota zeta;
      rewrite Hr; reflexivity.
  - unfold svc_in_exit, usb_submit_urb. run_monad.
    destruct (next_submit_result _ =? 0) eqn:Hr; cbn beta iota zeta;
      rewrite Hr; reflexivity.
Qed.
(** ** A send and its completion *)

Lemma check_urb_status_classified (u : ptr) (w : world) :
  fst (check_urb_status u w) = classified (status (w_urbs w u)).
Proof.
  rewrite check_urb_status_eq. unfold classified. cbn zeta.
  destruct (status (w_urbs w u) =? 0); [reflexivity|].
  destruct (Z.eqb_spec (status (w_urbs w u)) (- EOVERFLOW)) as [->|_];
    [reflexivity|].
  destruct (device_gone_status _); reflexivity.
Qed.

(** A send whose arguments are accepted, which gets a urb and whose
    submission succeeds returns the cookie of that urb, in the state the
    submission of the filled urb leaves. *)
Lemma buffer_send_ok (cport_id buffer buffer_size : Z) (w : world) :
  send_args_ok cport_id buffer buffer_size ->
  let r0 := next_free_urb
              (set_mem (store8 (w_mem w) (buffer - 1) cport_id) w) in
  fst r0 <> NULL ->
  next_submit_result w = 0 ->
  buffer_send cport_id buffer buffer_size w =
    (conceal_urb (fst r0),
     snd (usb_submit_urb (fst r0)
            (filled_for_send (fst r0) (buffer - 1)
               (to_int (to_size_t (buffer_size + 1))) (snd r0)))).
Proof.
  intros Hargs r0 Hnn Hr. subst r0.
  rewrite (buffer_send_accepted _ _ _ _ Hargs).
  pose proof (next_free_urb_frame
                (set_mem (store8 (w_mem w) (buffer - 1) cport_id) w))
    as (_ & Hs1 & _).
  cbn zeta in Hs1.
  destruct (next_free_urb _) as [u w1]. cbn [fst snd] in *.
  destruct (Z.eqb_spec u NULL) as [|_]; [contradiction|].
  cbn zeta.
  assert (Hr2 : next_submit_result
                  (filled_for_send u (buffer - 1)
                     (to_int (to_size_t (buffer_size + 1))) w1) = 0).
  { unfold filled_for_send, usb_fill_bulk_urb, update_urb, modify. cbn [snd].
    rewrite next_submit_result_set_urbs. unfold next_submit_result.
    rewrite Hs1. exact Hr. }
  rewrite (usb_submit_urb_ok _ _ Hr2). reflexivity.
Qed.

(** The state a successful submission of the urb filled for sending
    leaves. *)
Lemma sent_state (u : ptr) (buf len : Z) (w1 : world) :
  next_submit_result w1 = 0 ->
  let w3 := snd (usb_submit_urb u (filled_for_send u buf len w1)) in
  w_es1 w3 = w_es1 w1
  /\ w_live w3 = w_live w1
  /\ w_heap_next w3 = w_heap_next w1
  /\ w_submit_script w3 = tl (w_submit_script w1)
  /\ w_urbs w3 u =
       mk_urb (out_pipe w1) buf (to_u32 len) 0 (- EINPROGRESS)
         (interval (w_urbs w1 u)) cport_out_callback_fn
  /\ w_inflight w3 = enqueue (out_pipe w1) u (w_inflight w1)
  /\ w_trace w3 =
       EvSubmit u (out_pipe w1) buf (to_u32 len) 0 :: w_trace w1.
Proof.
  intros Hr. cbn zeta.
  assert (Hr2 : next_submit_result (filled_for_send u buf len w1) = 0).
  { unfold filled_for_send, usb_fill_bulk_urb, update_urb, modify. cbn [snd].
    rewrite next_submit_result_set_urbs. exact Hr. }
  rewrite (usb_submit_urb_ok _ _ Hr2). cbn [snd]. cbn zeta.
  unfold filled_for_send, usb_fill_bulk_urb, update_urb, modify, out_pipe.
  cbn [snd]. wsimpl. rewrite Z.eqb_refl.
  cbn [urb_pipe transfer_buffer transfer_buffer_length interval complete].
  split; [reflexivity|]. split; [reflexivity|]. split; [reflexivity|].
  split; [reflexivity|]. split; [reflexivity|]. split; reflexivity.
Qed.

(** The completion of a urb that carries [cport_out_callback]: the USB core
    takes it off its queue and records status and length, the callback
    classifies the status, reports it for the caller's buffer, and releases
    the urb with [free_urb]. *)
Lemma giveback_out (u st actual : Z) (w : world) :
  complete (w_urbs w u) = cport_out_callback_fn ->
  exists (wa : world) (logs : list event),
    usb_hcd_giveback_urb u st actual w = free_urb u wa
    /\ w_es1 wa = w_es1 w
    /\ w_live wa = w_live w
    /\ w_heap_next wa = w_heap_next w
    /\ w_submit_script wa = w_submit_script w
    /\ (forall p : pipe,
          w_inflight wa p = dequeue (urb_pipe (w_urbs w u)) u (w_inflight w) p)
    /\ w_trace wa =
         EvDataSent (transfer_buffer (w_urbs w u) + 1) (classified (to_int st))
           :: logs ++ w_trace w
    /\ submit_calls logs = 0%nat
    /\ alloc_urb_calls logs = 0%nat
    /\ logs = status_logs (to_int st) (to_u32 actual).
Proof.
  intros Hcb.
  unfold usb_hcd_giveback_urb, urb_done, update_urb. run_monad.
  unfold run_complete. wsimpl. rewrite Z.eqb_refl. cbn [complete].
  rewrite Hcb. unfold cport_out_callback, bind. rewrite check_urb_status_eq.
  cbn zeta. wsimpl. rewrite Z.eqb_refl. cbn [status actual_length].
  unfold classified, status_logs.
  destruct (to_int st =? 0).
  - run_monad. wsimpl. rewrite Z.eqb_refl. cbn [transfer_buffer].
    eexists _, []. split; [reflexivity|]. wsimpl.
    repeat (split; [reflexivity|]). reflexivity.
  - destruct (Z.eqb_spec (to_int st) (- EOVERFLOW)) as [Hov|Hnov].
    + rewrite Hov. change (device_gone_status (- EOVERFLOW)) with true.
      cbn iota. run_monad. wsimpl. rewrite Z.eqb_refl. cbn [transfer_buffer].
      eexists _, [_]. split; [reflexivity|]. wsimpl.
      repeat (split; [reflexivity|]). reflexivity.
    + destruct (device_gone_status (to_int st)).
      * run_monad. wsimpl. rewrite Z.eqb_refl. cbn [transfer_buffer].
        eexists _, []. split; [reflexivity|]. wsimpl.
        repeat (split; [reflexivity|]). reflexivity.
      * run_monad. wsimpl. rewrite Z.eqb_refl. cbn [transfer_buffer].
        eexists _, [_]. split; [reflexivity|]. wsimpl.
        repeat (split; [reflexivity|]). reflexivity.
Qed.

(** What a submitted send followed by its completion leaves behind. *)
Lemma send_completion_state (cport_id buffer buffer_size : Z)
    (w : world) (st actual : Z) :
  dev_ok w ->
  send_args_ok cport_id buffer buffer_size ->
  slot_free w \/ next_alloc_ok w = true ->
  next_submit_result w = 0 ->
  let res := buffer_send cport_id buffer buffer_size w in
  let w' := snd (usb_hcd_giveback_urb (reveal_urb (fst res)) st actual
                   (snd res)) in
  w_es1 w' = w_es1 w
  /\ w_live w' = w_live w
  /\ (forall p : pipe, w_inflight w' p = w_inflight w p)
  /\ (exists post : list event,
        w_trace w' =
          post ++ EvDataSent buffer (classified (to_int st))
            :: status_logs (to_int st) (to_u32 actual) ++ w_trace (snd res)
        /\ (slot_free w -> post = [])
        /\ (~ slot_free w -> post = [EvFreeUrb (reveal_urb (fst res))]))
  /\ dev_ok w'
  /\ w_submit_script w' = tl (w_submit_script w)
  /\ fst res =
       conceal_urb
         (fst (next_free_urb
                 (set_mem (store8 (w_mem w) (buffer - 1) cport_id) w))).
Proof.
  intros Hok Hargs Hurb Hr. cbn zeta.
  pose proof (dev_ok_set_mem (store8 (w_mem w) (buffer - 1) cport_id) w Hok)
    as Hok0.
  pose proof (next_free_urb_nonnull _ Hok0 Hurb) as [Hpos Hal].
  assert (Hnn : fst (next_free_urb
                       (set_mem (store8 (w_mem w) (buffer - 1) cport_id) w))
                <> NULL) by (unfold NULL; lia).
  pose proof (buffer_send_ok _ _ _ _ Hargs Hnn Hr) as Hsend.
  pose proof (next_free_urb_dev_ok _ Hok0) as Hok1.
  pose proof (next_free_urb_frame
                (set_mem (store8 (w_mem w) (buffer - 1) cport_id) w))
    as (_ & Hs1 & _).
  cbn zeta in Hs1.
  assert (Hcase :
    let r0 := next_free_urb
                (set_mem (store8 (w_mem w) (buffer - 1) cport_id) w) in
    w_inflight (snd r0) = w_inflight w
    /\ ((exists j : nat,
           cport_out_urb_busy (w_es1 w) !! j = Some false /\
           cport_out_urb (w_es1 w) !! j = Some (fst r0) /\
           w_es1 (snd r0) =
             set_cport_out_urb_busy
               (<[j:=true]> (cport_out_urb_busy (w_es1 w))) (w_es1 w) /\
           w_live (snd r0) = w_live w)
        \/ (~ slot_free w /\
            (fst r0 ∉ cport_out_urb (w_es1 w)) /\
            w_es1 (snd r0) = w_es1 w /\
            w_live (snd r0) = fst r0 :: w_live w))).
  { cbn zeta. destruct (slot_free_dec w Hok) as [Hfree|Hfull].
    - destruct (next_free_urb_pool _ Hok0 Hfree) as (j & u & Hj & Hu & ->).
      cbn [fst snd]. wsimpl. split; [reflexivity|]. left. exists j. auto.
    - destruct Hurb as [|Halloc]; [contradiction|].
      rewrite (next_free_urb_full _ Hok0 Hfull), usb_alloc_urb_eq.
      cbn zeta. change (next_alloc_ok _) with (next_alloc_ok w).
      rewrite Halloc. cbn [fst snd]. wsimpl.
      split; [destruct (w_heap_next w =? NULL); reflexivity|]. right.
      split; [exact Hfull|].
      split; [apply (fresh_not_in_pool w Hok)|].
      destruct (w_heap_next w =? NULL); wsimpl; split; reflexivity. }
  cbn zeta in Hcase.
  destruct (next_free_urb _) as [u w1]. cbn [fst snd] in *.
  destruct Hcase as [Hq1 Hcase].
  assert (Hunn : (u =? NULL) = false) by (apply Z.eqb_neq; exact Hnn).
  assert (Hr1 : next_submit_result w1 = 0).
  { unfold next_submit_result. rewrite Hs1. exact Hr. }
  pose proof (sent_state u (buffer - 1)
                (to_int (to_size_t (buffer_size + 1))) w1 Hr1) as Hsent3.
  cbn zeta in Hsent3. revert Hsend Hsent3.
  generalize (snd (usb_submit_urb u
                     (filled_for_send u (buffer - 1)
                        (to_int (to_size_t (buffer_size + 1))) w1))).
  intros w3 Hsend (He3 & Hl3 & Hh3 & Hs3 & Hu3 & Hq3 & Ht3).
  rewrite Hsend. cbn [fst snd]. rewrite reveal_conceal.
  assert (Hcb : complete (w_urbs w3 u) = cport_out_callback_fn)
    by (rewrite Hu3; reflexivity).
  destruct (giveback_out u st actual w3 Hcb)
    as (wa & logs & Hgb & Hea & Hla & Hha & Hsa & Hqa & Hta & _ & _ & Hlogs).
  subst logs. rewrite Hgb.
  assert (Hoka : dev_ok wa).
  { apply (dev_ok_same w1 _ Hok1); congruence. }
  assert (Hqueue : forall p : pipe, w_inflight wa p = w_inflight w p).
  { intros p. rewrite Hqa, Hu3, Hq3, Hq1. cbn [urb_pipe].
    unfold dequeue, enqueue. destruct (pipe_eqb p (out_pipe w1)); [|reflexivity].
    cbn [remove_first]. rewrite Z.eqb_refl. reflexivity. }
  assert (Hsent : w_trace wa =
                  EvDataSent buffer (classified (to_int st))
                    :: status_logs (to_int st) (to_u32 actual) ++ w_trace w3).
  { rewrite Hta, Hu3. cbn [transfer_buffer].
    replace (buffer - 1 + 1) with buffer by lia. reflexivity. }
  destruct Hcase as [(j & Hj & Hu & He1 & Hl1)|(Hfull & Hnot & He1 & Hl1)].
  - assert (Hua : cport_out_urb (w_es1 wa) !! j = Some u).
    { rewrite Hea, He3, He1. exact Hu. }
    pose proof (free_urb_dev_ok u wa Hoka) as Hokf.
    rewrite (free_urb_pool wa j u Hoka Hua) in Hokf |- *. cbn [snd] in *.
    wsimpl.
    split; [|split; [congruence|split; [exact Hqueue|split;
              [|split; [exact Hokf|split; [congruence|reflexivity]]]]]].
    + rewrite Hea, He3, He1. wsimpl. rewrite (insert_false_true _ _ Hj).
      clear. destruct (w_es1 w); reflexivity.
    + exists []. split; [exact Hsent|]. split; [reflexivity|].
      intros Hfull. exfalso. apply Hfull. exists j. exact Hj.
  - assert (Hnota : u ∉ cport_out_urb (w_es1 wa)).
    { rewrite Hea, He3, He1. exact Hnot. }
    pose proof (free_urb_dev_ok u wa Hoka) as Hokf.
    rewrite (free_urb_dynamic wa u Hoka Hnota) in Hokf |- *.
    revert Hokf. unfold usb_free_urb, heap_free. rewrite Hunn. run_monad.
    intros Hokf. wsimpl.
    split; [congruence|]. split; [|split; [exact Hqueue|split;
              [|split; [exact Hokf|split; [congruence|reflexivity]]]]].
    + rewrite Hla, Hl3, Hl1. cbn [remove_first]. rewrite Z.eqb_refl.
      reflexivity.
    + exists [EvFreeUrb u]. rewrite Hsent.
      split; [reflexivity|]. split; [intros Hfree; contradiction|].
      intros _. reflexivity.
Qed.

(** X4: A send that is submitted and then completes, with whatever status,
    leaves the device record (the busy flags of the pool included), the
    live allocations and the endpoint queues as they were before the send:
    the slot of a pool urb is free again, a dynamically allocated urb has
    been freed.  The completion is reported once, for the buffer the caller
    passed, with the classified status: what the completion adds to the
    trace is the log line of [check_urb_status], if any, one call of
    [greybus_data_sent], and the [usb_free_urb] of a dynamically allocated
    urb. *)
Theorem send_completion_restores (cport_id buffer buffer_size : Z)
    (w : world) (st actual : Z) :
  dev_ok w ->
  send_args_ok cport_id buffer buffer_size ->
  slot_free w \/ next_alloc_ok w = true ->
  next_submit_result w = 0 ->
  let res := buffer_send cport_id buffer buffer_size w in
  let w' := snd (usb_hcd_giveback_urb (reveal_urb (fst res)) st actual
                   (snd res)) in
  w_es1 w' = w_es1 w
  /\ w_live w' = w_live w
  /\ (forall p : pipe, w_inflight w' p = w_inflight w p)
  /\ exists post : list event,
       w_trace w' =
         post ++ EvDataSent buffer (classified (to_int st))
           :: status_logs (to_int st) (to_u32 actual) ++ w_trace (snd res)
       /\ (slot_free w -> post = [])
       /\ (~ slot_free w -> post = [EvFreeUrb (reveal_urb (fst res))]).
Proof.
  intros Hok Hargs Hurb Hr.
  destruct (send_completion_state cport_id buffer buffer_size w st actual
              Hok Hargs Hurb Hr) as (He & Hl & Hq & Ht & _).
  cbn zeta. auto.
Qed.

(** ** Cookies name urbs, not sends *)

(** With a free slot, which urb [next_free_urb] hands out depends on the
    device record only. *)
Lemma next_free_urb_fst_es1 (wA wB : world) :
  dev_ok wA -> slot_free wA -> w_es1 wB = w_es1 wA ->
  fst (next_free_urb wB) = fst (next_free_urb wA)
  /\ fst (next_free_urb wA) <> NULL.
Proof.
  intros Hok Hfree He.
  destruct (slot_free_first wA Hok Hfree) as (j & u & Hj & Hu & Hscan).
  rewrite !next_free_urb_eq, He, Hscan. cbn zeta.
  destruct (pool_urb_facts wA j u Hok Hu) as [Hpos _].
  destruct (Z.eqb_spec u NULL) as [Hz|Hnz]; [unfold NULL in Hz; lia|].
  cbn [negb fst]. split; [reflexivity|exact Hnz].
Qed.

(** X5: Once a pooled send has completed, the next send gets the same urb and
    so the same cookie; cancelling with the cookie of the first send then
    aborts the second: its buffer is reported with [-ENOENT]. *)
Theorem cookie_reused_after_completion
    (cport_id1 buffer1 buffer_size1 cport_id2 buffer2 buffer_size2 : Z)
    (st actual : Z) (w : world) :
  dev_ok w ->
  slot_free w ->
  send_args_ok cport_id1 buffer1 buffer_size1 ->
  send_args_ok cport_id2 buffer2 buffer_size2 ->
  next_submit_result w = 0 ->
  next_submit_result (set_submit_script (tl (w_submit_script w)) w) = 0 ->
  let res1 := buffer_send cport_id1 buffer1 buffer_size1 w in
  let w' := snd (usb_hcd_giveback_urb (reveal_urb (fst res1)) st actual
                   (snd res1)) in
  let res2 := buffer_send cport_id2 buffer2 buffer_size2 w' in
  fst res2 = fst res1
  /\ exists post : list event,
       w_trace (snd (buffer_cancel (fst res1) (snd res2))) =
         post ++ EvDataSent buffer2 (- ENOENT)
           :: EvKill (reveal_urb (fst res1)) :: w_trace (snd res2)
       /\ submit_calls post = 0%nat.
Proof.
  intros Hok Hfree Hargs1 Hargs2 Hr1 Hr2.
  destruct (send_completion_state cport_id1 buffer1 buffer_size1 w st actual
              Hok Hargs1 (or_introl Hfree) Hr1)
    as (He & _ & _ & _ & Hok' & Hs' & Hcookie1).
  cbn zeta in *.
  revert He Hok' Hs'.
  generalize (snd (usb_hcd_giveback_urb
                     (reveal_urb (fst (buffer_send cport_id1 buffer1
                                         buffer_size1 w)))
                     st actual
                     (snd (buffer_send cport_id1 buffer1 buffer_size1 w)))).
  intros w' He Hok' Hs'. rewrite Hcookie1. clear Hcookie1.
  pose proof (dev_ok_set_mem (store8 (w_mem w) (buffer1 - 1) cport_id1) w Hok)
    as HokA.
  pose proof (dev_ok_set_mem (store8 (w_mem w') (buffer2 - 1) cport_id2) w'
                Hok') as HokB.
  destruct (next_free_urb_fst_es1
              (set_mem (store8 (w_mem w) (buffer1 - 1) cport_id1) w)
              (set_mem (store8 (w_mem w') (buffer2 - 1) cport_id2) w')
              HokA Hfree He) as [Hsame Hnn].
  rewrite <- Hsame in Hnn |- *. clear Hsame.
  assert (Hfree' : slot_free w').
  { destruct Hfree as [i Hi]. exists i. rewrite He. exact Hi. }
  pose proof (next_free_urb_nonnull _ HokB (or_introl Hfree')) as [_ Hal].
  assert (Hr' : next_submit_result w' = 0).
  { unfold next_submit_result in Hr2 |- *. rewrite Hs'. exact Hr2. }
  pose proof (buffer_send_ok _ _ _ _ Hargs2 Hnn Hr') as Hsend.
  pose proof (next_free_urb_frame
                (set_mem (store8 (w_mem w') (buffer2 - 1) cport_id2) w'))
    as (_ & Hs1 & _).
  cbn zeta in Hs1, Hsend.
  destruct (next_free_urb
              (set_mem (store8 (w_mem w') (buffer2 - 1) cport_id2) w'))
    as [u w1].
  cbn [fst snd] in *.
  assert (Hr1' : next_submit_result w1 = 0).
  { unfold next_submit_result in Hr' |- *. rewrite Hs1. exact Hr'. }
  pose proof (sent_state u (buffer2 - 1)
                (to_int (to_size_t (buffer_size2 + 1))) w1 Hr1') as Hsent3.
  cbn zeta in Hsent3. revert Hsend Hsent3.
  generalize (snd (usb_submit_urb u
                     (filled_for_send u (buffer2 - 1)
                        (to_int (to_size_t (buffer_size2 + 1))) w1))).
  intros w3 Hsend (_ & _ & _ & _ & Hu3 & Hq3 & _).
  rewrite Hsend. cbn [fst snd]. split; [reflexivity|].
  unfold buffer_cancel.
  destruct (Z.eqb_spec (conceal_urb u) NULL) as [Hz|_];
    [exfalso; exact (conceal_nonnull u Hal Hz)|].
  cbn [negb]. rewrite reveal_conceal.
  destruct (kill_sent_urb u w3 Hnn) as (post & Ht & Hc).
  - rewrite Hu3. reflexivity.
  - rewrite Hu3, Hq3. cbn [urb_pipe]. unfold enqueue.
    rewrite pipe_eqb_refl. cbn [queued existsb]. rewrite Z.eqb_refl.
    reflexivity.
  - exists post. split; [|exact Hc]. rewrite Ht, Hu3. cbn [transfer_buffer].
    replace (buffer2 - 1 + 1) with buffer2 by lia. reflexivity.
Qed.

(** ** Error pointers and cookies *)

Lemma ERR_PTR_is_err (e : Z) :
  - MAX_ERRNO <= e < 0 -> IS_ERR (ERR_PTR e) = true.
Proof.
  unfold IS_ERR, ERR_PTR, to_size_t, MAX_ERRNO. intros He.
  rewrite Z.mod_mod by lia.
  rewrite <- (Z_mod_plus_full e 1 (2 ^ 64)).
  rewrite (Z.mod_small (e + 1 * 2 ^ 64)) by lia.
  apply Z.leb_le.
  match goal with |- ?a <= _ => change a with (2 ^ 64 - 4095) end. lia.
Qed.

(** Concealing a pointer changes its low twelve bits only, so a pointer
    below the last page stays below it. *)
Lemma conceal_not_err (u : ptr) :
  0 <= u < 2 ^ 64 - 4096 -> IS_ERR (conceal_urb u) = false.
Proof.
  intros Hu. unfold IS_ERR, conceal_urb, to_size_t, MAX_ERRNO.
  match goal with |- (?a <=? _) = _ => change a with (2 ^ 64 - 4095) end.
  assert (Hnn : 0 <= Z.lxor u 2989) by (apply Z.lxor_nonneg; lia).
  assert (Hhi : Z.lxor u 2989 / 2 ^ 12 = u / 2 ^ 12).
  { rewrite <- !Z.shiftr_div_pow2 by lia. rewrite Z.shiftr_lxor.
    change (Z.shiftr 2989 12) with 0. apply Z.lxor_0_r. }
  assert (Hq : u / 2 ^ 12 < 2 ^ 52 - 1).
  { apply Z.div_lt_upper_bound; lia. }
  pose proof (Z.mod_pos_bound (Z.lxor u 2989) (2 ^ 12) ltac:(lia)) as Hm.
  pose proof (Z_div_mod_eq_full (Z.lxor u 2989) (2 ^ 12)) as Hd.
  rewrite Hhi in Hd.
  rewrite Z.mod_small by lia. apply Z.leb_gt. lia.
Qed.

Lemma next_free_urb_below (w : world) :
  dev_ok w -> fst (next_free_urb w) <= w_heap_next w.
Proof.
  intros Hok. destruct (slot_free_dec w Hok) as [Hfree|Hfull].
  - destruct (next_free_urb_pool w Hok Hfree) as (j & u & _ & Hu & ->).
    destruct (pool_urb_facts w j u Hok Hu) as [[_ Hlt] _]. cbn [fst]. lia.
  - rewrite (next_free_urb_full w Hok Hfull), usb_alloc_urb_eq. cbn zeta.
    destruct (ok_heap _ Hok) as [Hpos _].
    destruct (next_alloc_ok _); cbn [fst]; wsimpl; unfold NULL; lia.
Qed.

(** X6: The result of [buffer_send] tells success from failure: when the
    allocator never reaches the last page of the address space and
    [usb_submit_urb] returns 0 or a negative errno, the result is an error
    pointer ([IS_ERR]) exactly when the send was not submitted; otherwise it
    is a cookie, which is not [NULL] either. *)
Theorem send_result_error_or_cookie (cport_id buffer buffer_size : Z)
    (w : world) :
  dev_ok w ->
  0 <= cport_id -> 0 <= buffer_size ->
  w_heap_next w < 2 ^ 64 - 4096 ->
  - MAX_ERRNO <= next_submit_result w <= 0 ->
  let res := buffer_send cport_id buffer buffer_size w in
  (IS_ERR (fst res) = false <->
     send_args_ok cport_id buffer buffer_size
     /\ (slot_free w \/ next_alloc_ok w = true)
     /\ next_submit_result w = 0)
  /\ (IS_ERR (fst res) = false -> fst res <> NULL).
Proof.
  intros Hok Hc Hs Hheap Hret. cbn zeta.
  assert (Hres :
    (exists e : Z, - MAX_ERRNO <= e < 0 /\
       fst (buffer_send cport_id buffer buffer_size w) = ERR_PTR e /\
       ~ (send_args_ok cport_id buffer buffer_size
          /\ (slot_free w \/ next_alloc_ok w = true)
          /\ next_submit_result w = 0))
    \/ (exists u : ptr, 0 < u < 2 ^ 64 - 4096 /\ u mod 8 = 0 /\
          fst (buffer_send cport_id buffer buffer_size w) = conceal_urb u /\
          (send_args_ok cport_id buffer buffer_size
           /\ (slot_free w \/ next_alloc_ok w = true)
           /\ next_submit_result w = 0))).
  { destruct (send_guards_dec cport_id buffer buffer_size)
      as [(Hb & Hsz & Hbad & Hid)|Hrej].
    - assert (Hargs : send_args_ok cport_id buffer buffer_size).
      { unfold send_args_ok. repeat split; try assumption; lia. }
      destruct (buffer_send_result cport_id buffer buffer_size w Hok Hargs)
        as [(Hfull & Hfail & Hres)|[(Hurb & Hnz & Hres)|(Hurb & Hz & _)]].
      + left. exists (- ENOMEM). split; [unfold MAX_ERRNO, ENOMEM; lia|].
        split; [exact Hres|]. intros (_ & [Hfree|Halloc] & _);
          [contradiction | congruence].
      + left. exists (next_submit_result w). split; [lia|].
        split; [exact Hres|]. intros (_ & _ & Hzero). contradiction.
      + right.
        pose proof (dev_ok_set_mem (store8 (w_mem w) (buffer - 1) cport_id)
                      w Hok) as Hok0.
        pose proof (next_free_urb_nonnull _ Hok0 Hurb) as [Hpos Hal].
        pose proof (next_free_urb_below _ Hok0) as Hle.
        assert (Hnn : fst (next_free_urb
                             (set_mem (store8 (w_mem w) (buffer - 1) cport_id)
                                w)) <> NULL) by (unfold NULL; lia).
        pose proof (buffer_send_ok _ _ _ _ Hargs Hnn Hz) as Hsend.
        apply (f_equal fst) in Hsend. cbn [fst] in Hsend.
        eexists. split; [|split; [exact Hal|split; [exact Hsend|auto]]].
        wsimpl. lia.
    - left. exists (- EINVAL). split; [unfold MAX_ERRNO, EINVAL; lia|].
      destruct (buffer_send_rejected cport_id buffer buffer_size w Hrej)
        as [m ->].
      split; [reflexivity|]. intros ((Hb & Hsz & Hbad & Hid) & _).
      destruct Hrej as [?|[?|[?|?]]]; [contradiction|lia|contradiction|lia]. }
  destruct Hres as [(e & He & -> & Hnot)|(u & Hu & Hal & -> & Hyes)].
  - rewrite (ERR_PTR_is_err e He). split; [|discriminate].
    split; [discriminate | intros H; contradiction].
  - rewrite (conceal_not_err u) by lia. split; [|intros _].
    + split; [intros _; exact Hyes | reflexivity].
    + apply conceal_nonnull. exact Hal.
Qed.

(** ** The busy flags and the sends in flight *)

(** X7: Starting from an idle pool, as long as every send is issued with fewer
    than eight sends in flight, the busy flags mirror the bulk-out queue:
    the urbs in flight are pairwise distinct pool urbs, each with its busy
    flag set, and there are as many of them as busy flags set. *)
Theorem busy_flags_track_sends (ops : list op) (w0 : world) :
  dev_ok w0 -> pool_idle w0 -> within_capacity ops w0 = true ->
  let w := run ops w0 in
  dev_ok w
  /\ NoDup (sends_in_flight w)
  /\ length (sends_in_flight w) = busy_count (cport_out_urb_busy (w_es1 w))
  /\ forall u : ptr, u ∈ sends_in_flight w ->
       exists j : nat, cport_out_urb (w_es1 w) !! j = Some u /\
                       cport_out_urb_busy (w_es1 w) !! j = Some true.
Proof.
  intros Hok Hidle Hcap. cbn zeta.
  destruct (run_within_capacity ops w0 (idle_send_inv w0 Hok Hidle) Hcap)
    as [(Hok' & Hnd & Hlen & Hin) _].
  split; [exact Hok'|]. split; [exact Hnd|]. split; [exact Hlen|].
  intros u Hu. exact (proj1 (Hin u Hu)).
Qed.

(** ** Detach *)

Lemma quiet_refl (w : world) : quiet w w.
Proof.
  unfold quiet. repeat (split; [reflexivity|]).
  split; [intros x; split; reflexivity|].
  exists []. split; reflexivity.
Qed.

Lemma passive_calls (ev : list event) :
  forallb passive ev = true ->
  submit_calls ev = 0%nat /\ alloc_urb_calls ev = 0%nat.
Proof.
  induction ev as [|e ev IH]; [split; reflexivity|].
  cbn [forallb]. intros H. apply andb_true_iff in H as [He Hev].
  destruct (IH Hev) as [Hs Ha].
  unfold passive in He. apply andb_true_iff in He as [He _].
  apply andb_true_iff in He as [H1 H2].
  apply negb_true_iff in H1, H2.
  rewrite submit_calls_cons, alloc_urb_calls_cons by assumption. auto.
Qed.

Lemma submit_calls_app (a b : list event) :
  submit_calls (a ++ b) = (submit_calls a + submit_calls b)%nat.
Proof. unfold submit_calls. rewrite filter_app, length_app. reflexivity. Qed.

Lemma alloc_urb_calls_app (a b : list event) :
  alloc_urb_calls (a ++ b) = (alloc_urb_calls a + alloc_urb_calls b)%nat.
Proof. unfold alloc_urb_calls. rewrite filter_app, length_app. reflexivity. Qed.

Lemma quiet_trans (w1 w2 w3 : world) :
  quiet w1 w2 -> quiet w2 w3 -> quiet w1 w3.
Proof.
  intros (Hh & Hi & Hr & Hn & Hu & ev & Ht & Hp)
         (Hh' & Hi' & Hr' & Hn' & Hu' & ev' & Ht' & Hp').
  unfold quiet. rewrite Hh', Hi', Hr', Hn'.
  repeat (split; [assumption|]).
  split.
  - intros x. destruct (Hu x) as [H1 H2]. destruct (Hu' x) as [H3 H4].
    split; congruence.
  - exists (ev' ++ ev). rewrite Ht', Ht, app_assoc.
    split; [reflexivity|]. rewrite forallb_app, Hp, Hp'. reflexivity.
Qed.

Lemma remove_first_not_queued (u : ptr) (l : list ptr) :
  queued u l = false -> remove_first u l = l.
Proof.
  unfold queued. induction l as [|x l IH]; cbn [existsb remove_first];
    [reflexivity|].
  intros H. apply orb_false_iff in H as [H1 H2]. rewrite H1.
  f_equal. apply IH. exact H2.
Qed.

(** Releasing a urb of the pool frees nothing, whatever the state of the
    flags. *)
Lemma free_urb_member (u : ptr) (w : world) :
  u ∈ cport_out_urb (w_es1 w) ->
  (length (cport_out_urb (w_es1 w)) <= NUM_CPORT_OUT_URB)%nat ->
  exists l : list bool,
    length l = length (cport_out_urb_busy (w_es1 w)) /\
    free_urb u w =
      (tt, set_es1 (set_lock false (set_cport_out_urb_busy l (w_es1 w))) w).
Proof.
  intros Hin Hlen. rewrite free_urb_eq.
  destruct (free_urb_scan_spec (set_lock true (w_es1 w)) u
              NUM_CPORT_OUT_URB 0) as [(j & _ & _ & Heq)|[Hnone _]].
  - rewrite Heq. wsimpl.
    exists (<[j:=false]> (cport_out_urb_busy (w_es1 w))).
    split; [apply length_insert|]. reflexivity.
  - exfalso. apply list_elem_of_lookup_1 in Hin as [j Hj]. wsimpl.
    apply (Hnone j); [|exact Hj]. apply lookup_lt_Some in Hj. lia.
Qed.

(** Killing a urb of the device: the urb leaves the queue of its endpoint
    and its callback runs with [-ENOENT], which makes a receive callback
    drop the urb and the send callback release it; nothing is allocated,
    freed or submitted. *)
Lemma usb_kill_urb_effect (u : ptr) (w : world) :
  u <> NULL ->
  complete (w_urbs w u) <> cport_out_callback_fn
  \/ (u ∈ cport_out_urb (w_es1 w) /\
      (length (cport_out_urb (w_es1 w)) <= NUM_CPORT_OUT_URB)%nat) ->
  let w' := snd (usb_kill_urb u w) in
  quiet w w'
  /\ w_live w' = w_live w
  /\ (forall p : pipe,
        w_inflight w' p = dequeue (urb_pipe (w_urbs w u)) u (w_inflight w) p)
  /\ cport_out_urb (w_es1 w') = cport_out_urb (w_es1 w)
  /\ length (cport_out_urb_busy (w_es1 w')) =
     length (cport_out_urb_busy (w_es1 w))
  /\ cport_in_urb (w_es1 w') = cport_in_urb (w_es1 w)
  /\ cport_in_buffer (w_es1 w') = cport_in_buffer (w_es1 w)
  /\ svc_urb (w_es1 w') = svc_urb (w_es1 w)
  /\ svc_buffer (w_es1 w') = svc_buffer (w_es1 w).
Proof.
  intros Hnn Hcb. cbn zeta. unfold usb_kill_urb.
  destruct (Z.eqb_spec u NULL) as [|_]; [contradiction|].
  run_monad. wsimpl.
  destruct (queued u (w_inflight w (urb_pipe (w_urbs w u)))) eqn:Hq.
  2:{ cbn [snd]. wsimpl. split; [|split; [reflexivity|split]].
      - unfold quiet. wsimpl. repeat (split; [reflexivity|]).
        split; [intros x; split; reflexivity|].
        exists [EvKill u]. split; reflexivity.
      - intros p. unfold dequeue. destruct (pipe_eqb p _) eqn:Hp; [|reflexivity].
        destruct p, (urb_pipe (w_urbs w u)); cbn in Hp; try discriminate Hp;
          try (apply Z.eqb_eq in Hp; subst);
          symmetry; apply remove_first_not_queued; exact Hq.
      - repeat (split; [reflexivity|]). reflexivity. }
  unfold usb_hcd_giveback_urb, urb_done, update_urb. run_monad.
  unfold run_complete. wsimpl. rewrite Z.eqb_refl. cbn [complete].
  assert (Hmod : forall x : ptr,
            complete (if x =? u
                      then mk_urb (urb_pipe (w_urbs w u))
                             (transfer_buffer (w_urbs w u))
                             (transfer_buffer_length (w_urbs w u))
                             (to_u32 0) (to_int (- ENOENT))
                             (interval (w_urbs w u)) (complete (w_urbs w u))
                      else w_urbs w x) = complete (w_urbs w x)
            /\ urb_pipe (if x =? u
                      then mk_urb (urb_pipe (w_urbs w u))
                             (transfer_buffer (w_urbs w u))
                             (transfer_buffer_length (w_urbs w u))
                             (to_u32 0) (to_int (- ENOENT))
                             (interval (w_urbs w u)) (complete (w_urbs w u))
                      else w_urbs w x) = urb_pipe (w_urbs w x)).
  { intros x. destruct (Z.eqb_spec x u) as [->|_]; split; reflexivity. }
  assert (Hent : forall w2 : world,
            status (w_urbs w2 u) = - ENOENT ->
            check_urb_status u w2 = (- ENOENT, w2)).
  { intros w2 Hst. rewrite check_urb_status_eq. cbn zeta. rewrite Hst.
    reflexivity. }
  destruct (complete (w_urbs w u)) eqn:Hc.
  - (* no callback *)
    cbn [snd]. wsimpl. split; [|split; [reflexivity|split; [reflexivity|]]].
    + unfold quiet. wsimpl. repeat (split; [reflexivity|]).
      split; [exact Hmod|].
      exists [EvKill u]. split; reflexivity.
    + repeat (split; [reflexivity|]). reflexivity.
  - (* svc_in_callback *)
    unfold svc_in_callback, bind.
    rewrite Hent by (wsimpl; rewrite Z.eqb_refl; reflexivity).
    change (- ENOENT =? 0) with false.
    change (- ENOENT =? - EAGAIN) with false.
    change (- ENOENT =? - EPROTO) with false. cbn [negb orb].
    run_monad. cbn [snd]. wsimpl.
    split; [|split; [reflexivity|split; [reflexivity|]]].
    + unfold quiet. wsimpl. repeat (split; [reflexivity|]).
      split; [exact Hmod|].
      eexists [_; _]. split; reflexivity.
    + repeat (split; [reflexivity|]). reflexivity.
  - (* cport_in_callback *)
    unfold cport_in_callback, bind.
    rewrite Hent by (wsimpl; rewrite Z.eqb_refl; reflexivity).
    change (- ENOENT =? 0) with false.
    change (- ENOENT =? - EAGAIN) with false.
    change (- ENOENT =? - EPROTO) with false. cbn [negb orb].
    run_monad. cbn [snd]. wsimpl.
    split; [|split; [reflexivity|split; [reflexivity|]]].
    + unfold quiet. wsimpl. repeat (split; [reflexivity|]).
      split; [exact Hmod|].
      eexists [_; _]. split; reflexivity.
    + repeat (split; [reflexivity|]). reflexivity.
  - (* cport_out_callback *)
    destruct Hcb as [Hcb|[Hin Hlen]]; [contradiction|].
    unfold cport_out_callback, bind.
    rewrite Hent by (wsimpl; rewrite Z.eqb_refl; reflexivity).
    run_monad. wsimpl.
    match goal with
    | |- context [free_urb u ?w2] =>
        destruct (free_urb_member u w2 Hin Hlen) as (l & Hl & ->)
    end.
    cbn [snd]. wsimpl.
    split; [|split; [reflexivity|split; [reflexivity|]]].
    + unfold quiet. wsimpl. repeat (split; [reflexivity|]).
      split; [exact Hmod|].
      eexists [_; _]. split; reflexivity.
    + split; [reflexivity|]. split; [exact Hl|].
      repeat (split; [reflexivity|]). reflexivity.
Qed.

Lemma nonnull_prefix_drop (l : list ptr) (i : nat) (u : ptr) :
  l !! i = Some u -> u <> NULL ->
  nonnull_prefix (drop i l) = u :: nonnull_prefix (drop (S i) l).
Proof.
  intros Hl Hnn. rewrite (drop_S _ _ _ Hl). cbn [nonnull_prefix].
  destruct (Z.eqb_spec u NULL); [contradiction|reflexivity].
Qed.

Lemma nonnull_prefix_drop_null (l : list ptr) (i : nat) :
  default NULL (l !! i) = NULL -> nonnull_prefix (drop i l) = [].
Proof.
  destruct (l !! i) as [u|] eqn:H.
  - intros Hu. change (default NULL (Some u)) with u in Hu. subst u.
    rewrite (drop_S _ _ _ H). reflexivity.
  - intros _. rewrite drop_ge; [reflexivity|]. apply lookup_ge_None. exact H.
Qed.

Lemma default_lookup_nonnull (l : list ptr) (i : nat) :
  default NULL (l !! i) <> NULL ->
  l !! i = Some (default NULL (l !! i)).
Proof.
  destruct (l !! i) as [u|]; [reflexivity|]. intros H. contradiction H.
  reflexivity.
Qed.

Lemma unqueue_ext (w w' : world) (us : list ptr) (q q' : pipe -> list ptr) :
  (forall x : ptr, urb_pipe (w_urbs w' x) = urb_pipe (w_urbs w x)) ->
  (forall p : pipe, q' p = q p) ->
  forall p : pipe, unqueue w' us q' p = unqueue w us q p.
Proof.
  intros Hpipe. revert q q'. induction us as [|u us IH]; intros q q' Hq p.
  - apply Hq.
  - cbn [unqueue fold_left]. apply IH. intros p'. rewrite Hpipe.
    unfold dequeue. rewrite Hq. reflexivity.
Qed.

Lemma unqueue_app (w : world) (us vs : list ptr) (q : pipe -> list ptr) :
  unqueue w (us ++ vs) q = unqueue w vs (unqueue w us q).
Proof. unfold unqueue. apply fold_left_app. Qed.

Lemma release_app (ps qs live : list ptr) :
  release (ps ++ qs) live = release qs (release ps live).
Proof. unfold release. apply fold_left_app. Qed.

(** The first loop of [ap_disconnect] kills and frees the CPort OUT urbs
    up to the first [NULL] entry. *)
Lemma disconnect_cport_out_effect (n i : nat) (w : world) :
  (length (cport_out_urb (w_es1 w)) <= NUM_CPORT_OUT_URB)%nat ->
  (length (cport_out_urb (w_es1 w)) <= i + n)%nat ->
  let us := nonnull_prefix (drop i (cport_out_urb (w_es1 w))) in
  let w' := snd (disconnect_cport_out i n w) in
  quiet w w'
  /\ w_live w' = release us (w_live w)
  /\ (forall p : pipe, w_inflight w' p = unqueue w us (w_inflight w) p)
  /\ length (cport_out_urb (w_es1 w')) = length (cport_out_urb (w_es1 w))
  /\ length (cport_out_urb_busy (w_es1 w')) =
     length (cport_out_urb_busy (w_es1 w))
  /\ cport_in_urb (w_es1 w') = cport_in_urb (w_es1 w)
  /\ cport_in_buffer (w_es1 w') = cport_in_buffer (w_es1 w)
  /\ svc_urb (w_es1 w') = svc_urb (w_es1 w)
  /\ svc_buffer (w_es1 w') = svc_buffer (w_es1 w).
Proof.
  revert i w. induction n as [|n IH]; intros i w Hlen8 Hlen; cbn zeta.
  - cbn [disconnect_cport_out ret snd].
    rewrite drop_ge by lia. cbn [nonnull_prefix release unqueue fold_left].
    split; [apply quiet_refl|]. repeat (split; [reflexivity|]). reflexivity.
  - cbn [disconnect_cport_out]. run_monad.
    destruct (Z.eqb_spec (default NULL (cport_out_urb (w_es1 w) !! i)) NULL)
      as [Hnull|Hnn].
    + rewrite (nonnull_prefix_drop_null _ _ Hnull).
      cbn [snd release unqueue fold_left].
      split; [apply quiet_refl|]. repeat (split; [reflexivity|]). reflexivity.
    + pose proof (default_lookup_nonnull _ _ Hnn) as Hu.
      set (u := default NULL (cport_out_urb (w_es1 w) !! i)) in *.
      rewrite (nonnull_prefix_drop _ _ _ Hu Hnn).
      assert (Hin : u ∈ cport_out_urb (w_es1 w))
        by (eapply list_elem_of_lookup_2; exact Hu).
      pose proof (usb_kill_urb_effect u w Hnn (or_intror (conj Hin Hlen8)))
        as HK.
      cbn zeta in HK.
      destruct (usb_kill_urb u w) as [[] w1]. cbn [snd] in HK.
      destruct HK as (Hq1 & Hl1 & Hf1 & Ho1 & Hb1 & Hi1 & Hib1 & Hs1 & Hsb1).
      unfold usb_free_urb, heap_free, modify_es1.
      destruct (Z.eqb_spec u NULL) as [|_]; [contradiction|].
      run_monad.
      match goal with
      | |- context [disconnect_cport_out (S i) n ?w3'] => set (w3 := w3')
      end.
      assert (F1 : quiet w w3).
      { apply (quiet_trans _ _ _ Hq1). subst w3. unfold quiet.
        cbn [w_hd w_intfdata w_udev_refs w_heap_next w_urbs w_trace
             set_es1 set_trace set_heap].
        repeat (split; [reflexivity|]).
        split; [intros x; split; reflexivity|].
        exists [EvFreeUrb u]. split; reflexivity. }
      assert (F2 : w_live w3 = remove_first u (w_live w))
        by (subst w3; cbn [w_live set_es1 set_trace set_heap];
            rewrite Hl1; reflexivity).
      assert (F3 : forall p : pipe,
                w_inflight w3 p =
                dequeue (urb_pipe (w_urbs w u)) u (w_inflight w) p)
        by (subst w3; exact Hf1).
      assert (F4 : cport_out_urb (w_es1 w3) =
                   <[i:=NULL]> (cport_out_urb (w_es1 w)))
        by (subst w3; cbn [w_es1 set_es1 set_trace set_heap cport_out_urb
                           set_cport_out_urb set_cport_out_urb_busy];
            rewrite Ho1; reflexivity).
      assert (F5 : length (cport_out_urb_busy (w_es1 w3)) =
                   length (cport_out_urb_busy (w_es1 w)))
        by (subst w3; cbn [w_es1 set_es1 set_trace set_heap cport_out_urb_busy
                           set_cport_out_urb set_cport_out_urb_busy];
            rewrite length_insert; exact Hb1).
      assert (F6 : cport_in_urb (w_es1 w3) = cport_in_urb (w_es1 w)
                   /\ cport_in_buffer (w_es1 w3) = cport_in_buffer (w_es1 w)
                   /\ svc_urb (w_es1 w3) = svc_urb (w_es1 w)
                   /\ svc_buffer (w_es1 w3) = svc_buffer (w_es1 w)).
      { subst w3. cbn [w_es1 set_es1 set_trace set_heap cport_in_urb
                       cport_in_buffer svc_urb svc_buffer
                       set_cport_out_urb set_cport_out_urb_busy].
        auto. }
      destruct F6 as (F6 & F7 & F8 & F9).
      clearbody w3.
      pose proof (IH (S i) w3) as HI. cbn zeta in HI.
      rewrite F4, length_insert in HI. specialize (HI Hlen8 ltac:(lia)).
      rewrite drop_insert_lt in HI by lia.
      destruct (disconnect_cport_out (S i) n w3) as [[] w']. cbn [snd] in *.
      destruct HI as (Hq' & Hl' & Hf' & Ho' & Hb' & Hi' & Hib' & Hs' & Hsb').
      split; [|split; [|split; [|split; [congruence|split; [congruence|
                split; [congruence|split; [congruence|
                split; congruence]]]]]]].
      * exact (quiet_trans _ _ _ F1 Hq').
      * rewrite Hl', F2. reflexivity.
      * intros p. rewrite Hf'. cbn [unqueue fold_left].
        apply unqueue_ext; [intros x; apply F1 | exact F3].
Qed.

Lemma tail_drop_S (l : list ptr) (i : nat) : tail (drop i l) = drop (S i) l.
Proof.
  revert l. induction i as [|i IH]; intros [|x l]; try reflexivity.
  apply (IH l).
Qed.

Lemma head_drop_lookup (l : list ptr) (i : nat) : head (drop i l) = l !! i.
Proof.
  rewrite head_lookup, lookup_drop. f_equal. lia.
Qed.

Lemma in_held_drop (urbs bufs : list ptr) (i : nat) (u : ptr) :
  urbs !! i = Some u -> u <> NULL ->
  in_held (drop i urbs) (drop i bufs) =
  u :: opt_ptr (default NULL (bufs !! i))
    ++ in_held (drop (S i) urbs) (drop (S i) bufs).
Proof.
  intros Hu Hnn. rewrite (drop_S _ _ _ Hu). cbn [in_held].
  destruct (Z.eqb_spec u NULL); [contradiction|].
  rewrite head_drop_lookup, tail_drop_S. reflexivity.
Qed.

Lemma in_held_drop_null (urbs bufs : list ptr) (i : nat) :
  default NULL (urbs !! i) = NULL ->
  in_held (drop i urbs) (drop i bufs) = [].
Proof.
  destruct (urbs !! i) as [u|] eqn:H.
  - intros Hu. change (default NULL (Some u)) with u in Hu. subst u.
    rewrite (drop_S _ _ _ H). reflexivity.
  - intros _. rewrite (drop_ge urbs); [reflexivity|].
    apply lookup_ge_None. exact H.
Qed.

(** The second loop of [ap_disconnect] kills and frees the CPort IN urbs
    up to the first [NULL] entry, and frees their buffers. *)
Lemma disconnect_cport_in_effect (n i : nat) (w : world) :
  (length (cport_in_urb (w_es1 w)) <= i + n)%nat ->
  (forall x : ptr,
     x ∈ nonnull_prefix (drop i (cport_in_urb (w_es1 w))) ->
     complete (w_urbs w x) <> cport_out_callback_fn) ->
  let us := nonnull_prefix (drop i (cport_in_urb (w_es1 w))) in
  let ps := in_held (drop i (cport_in_urb (w_es1 w)))
              (drop i (cport_in_buffer (w_es1 w))) in
  let w' := snd (disconnect_cport_in i n w) in
  quiet w w'
  /\ w_live w' = release ps (w_live w)
  /\ (forall p : pipe, w_inflight w' p = unqueue w us (w_inflight w) p)
  /\ cport_out_urb (w_es1 w') = cport_out_urb (w_es1 w)
  /\ length (cport_out_urb_busy (w_es1 w')) =
     length (cport_out_urb_busy (w_es1 w))
  /\ cport_in_urb (w_es1 w') = cport_in_urb (w_es1 w)
  /\ length (cport_in_buffer (w_es1 w')) =
     length (cport_in_buffer (w_es1 w))
  /\ svc_urb (w_es1 w') = svc_urb (w_es1 w)
  /\ svc_buffer (w_es1 w') = svc_buffer (w_es1 w).
Proof.
  revert i w. induction n as [|n IH]; intros i w Hlen Hcb; cbn zeta.
  - cbn [disconnect_cport_in ret snd].
    rewrite (drop_ge (cport_in_urb (w_es1 w))) by lia.
    cbn [nonnull_prefix in_held release unqueue fold_left].
    split; [apply quiet_refl|]. repeat (split; [reflexivity|]). reflexivity.
  - cbn [disconnect_cport_in]. run_monad.
    destruct (Z.eqb_spec (default NULL (cport_in_urb (w_es1 w) !! i)) NULL)
      as [Hnull|Hnn].
    + rewrite (nonnull_prefix_drop_null _ _ Hnull),
        (in_held_drop_null _ _ _ Hnull).
      cbn [snd release unqueue fold_left].
      split; [apply quiet_refl|]. repeat (split; [reflexivity|]). reflexivity.
    + pose proof (default_lookup_nonnull _ _ Hnn) as Hu.
      set (u := default NULL (cport_in_urb (w_es1 w) !! i)) in *.
      rewrite (nonnull_prefix_drop _ _ _ Hu Hnn) in Hcb |- *.
      rewrite (in_held_drop _ _ _ _ Hu Hnn).
      assert (Hcbu : complete (w_urbs w u) <> cport_out_callback_fn).
      { apply Hcb. apply elem_of_cons. left. reflexivity. }
      pose proof (usb_kill_urb_effect u w Hnn (or_introl Hcbu)) as HK.
      cbn zeta in HK.
      destruct (usb_kill_urb u w) as [[] w1]. cbn [snd] in HK.
      destruct HK as (Hq1 & Hl1 & Hf1 & Ho1 & Hb1 & Hi1 & Hib1 & Hs1 & Hsb1).
      unfold usb_free_urb, heap_free, modify_es1.
      destruct (Z.eqb_spec u NULL) as [|_]; [contradiction|].
      run_monad.
      cbn [w_es1 set_es1 set_trace set_heap].
      rewrite Hib1.
      set (b := default NULL (cport_in_buffer (w_es1 w) !! i)).
      match goal with |- context [kfree b ?W0] => set (w1' := W0) end.
      assert (Hk : exists w2 : world,
                kfree b w1' = (tt, w2)
                /\ quiet w1 w2
                /\ w_live w2 = release (opt_ptr b) (remove_first u (w_live w))
                /\ w_inflight w2 = w_inflight w1
                /\ w_es1 w2 = w_es1 w1).
      { subst w1'. unfold kfree, opt_ptr, heap_free.
        destruct (b =? NULL); run_monad; eexists; (split; [reflexivity|]).
        - cbn [w_live w_inflight w_es1 set_trace set_heap release fold_left].
          rewrite Hl1. split; [|auto]. unfold quiet.
          cbn [w_hd w_intfdata w_udev_refs w_heap_next w_urbs w_trace
               set_trace set_heap].
          repeat (split; [reflexivity|]).
          split; [intros x; split; reflexivity|].
          exists [EvFreeUrb u]. split; reflexivity.
        - cbn [w_live w_inflight w_es1 set_trace set_heap release fold_left].
          rewrite Hl1. split; [|auto]. unfold quiet.
          cbn [w_hd w_intfdata w_udev_refs w_heap_next w_urbs w_trace
               set_trace set_heap].
          repeat (split; [reflexivity|]).
          split; [intros x; split; reflexivity|].
          exists [EvKfree b; EvFreeUrb u].
          split; reflexivity. }
      clearbody w1'. destruct Hk as (w2 & -> & Hq2 & Hl2 & Hf2 & He2).
      match goal with
      | |- context [disconnect_cport_in (S i) n ?w3'] => set (w3 := w3')
      end.
      assert (F1 : quiet w w3).
      { apply (quiet_trans _ _ _ Hq1). apply (quiet_trans _ _ _ Hq2).
        subst w3. unfold quiet.
        cbn [w_hd w_intfdata w_udev_refs w_heap_next w_urbs w_trace set_es1].
        repeat (split; [reflexivity|]).
        split; [intros x; split; reflexivity|].
        exists []. split; reflexivity. }
      assert (F2 : w_live w3 =
                   release (opt_ptr b) (remove_first u (w_live w)))
        by (subst w3; exact Hl2).
      assert (F3 : forall p : pipe,
                w_inflight w3 p =
                dequeue (urb_pipe (w_urbs w u)) u (w_inflight w) p)
        by (subst w3; cbn [w_inflight set_es1]; rewrite Hf2; exact Hf1).
      assert (F4 : cport_in_buffer (w_es1 w3) =
                   <[i:=NULL]> (cport_in_buffer (w_es1 w)))
        by (subst w3; cbn [w_es1 set_es1 cport_in_buffer set_cport_in_buffer];
            rewrite He2, Hib1; reflexivity).
      assert (F6 : cport_in_urb (w_es1 w3) = cport_in_urb (w_es1 w)
                   /\ cport_out_urb (w_es1 w3) = cport_out_urb (w_es1 w)
                   /\ length (cport_out_urb_busy (w_es1 w3)) =
                      length (cport_out_urb_busy (w_es1 w))
                   /\ svc_urb (w_es1 w3) = svc_urb (w_es1 w)
                   /\ svc_buffer (w_es1 w3) = svc_buffer (w_es1 w)).
      { subst w3. cbn [w_es1 set_es1 cport_in_urb cport_out_urb
                       cport_out_urb_busy svc_urb svc_buffer
                       set_cport_in_buffer].
        rewrite He2. auto. }
      destruct F6 as (F5 & F6 & F7 & F8 & F9).
      clearbody w3.
      pose proof (IH (S i) w3) as HI. cbn zeta in HI.
      rewrite F5, F4 in HI. specialize (HI ltac:(lia)).
      rewrite drop_insert_lt in HI by lia.
      assert (Hcb3 : forall x : ptr,
                x ∈ nonnull_prefix (drop (S i) (cport_in_urb (w_es1 w))) ->
                complete (w_urbs w3 x) <> cport_out_callback_fn).
      { intros x Hx. destruct F1 as (_ & _ & _ & _ & Hurbs & _).
        rewrite (proj1 (Hurbs x)). apply Hcb. apply elem_of_cons. right.
        exact Hx. }
      specialize (HI Hcb3).
      destruct (disconnect_cport_in (S i) n w3) as [[] w']. cbn [snd] in *.
      destruct HI as (Hq' & Hl' & Hf' & Ho' & Hb' & Hi' & Hib' & Hs' & Hsb').
      rewrite length_insert in Hib'.
      split; [|split; [|split; [|split; [congruence|split; [congruence|
                split; [congruence|split; [congruence|
                split; congruence]]]]]]].
      * exact (quiet_trans _ _ _ F1 Hq').
      * rewrite Hl', F2.
        change (u :: opt_ptr b ++ ?r) with ([u] ++ opt_ptr b ++ r).
        rewrite !release_app. reflexivity.
      * intros p. rewrite Hf'. cbn [unqueue fold_left].
        apply unqueue_ext; [intros x; apply F1 | exact F3].
Qed.

(** [ap_disconnect] on a bound interface: the loops, then the SVC urb and
    buffer, the host device and the reference to the USB device. *)
Lemma ap_disconnect_effect (w : world) :
  w_intfdata w = true ->
  es1_wf (w_es1 w) ->
  rx_urbs_ok w ->
  let w' := snd (ap_disconnect w) in
  w_live w' = release (held w) (w_live w)
  /\ (forall p : pipe,
        w_inflight w' p = unqueue w (killed w) (w_inflight w) p)
  /\ w_intfdata w' = false
  /\ w_hd w' = NULL
  /\ w_udev_refs w' = w_udev_refs w - 1
  /\ w_heap_next w' = w_heap_next w
  /\ exists ev : list event,
       w_trace w' = EvPutDev :: EvRemoveHd (w_hd w) :: ev ++ w_trace w
       /\ forallb passive ev = true.
Proof.
  intros Hintf (Hlo & Hlb & Hli & Hlib) Hrx. cbn zeta.
  remember (snd (ap_disconnect w)) as wf eqn:Hwf.
  unfold ap_disconnect in Hwf. unfold bind at 1, get at 1 in Hwf.
  rewrite Hintf in Hwf. cbn [negb] in Hwf. unfold bind at 1 in Hwf.
  (* the CPort OUT urbs *)
  pose proof (disconnect_cport_out_effect NUM_CPORT_OUT_URB 0 w
                ltac:(lia) ltac:(cbn [Nat.add]; lia)) as H1.
  cbn zeta in H1. rewrite drop_0 in H1.
  destruct (disconnect_cport_out 0 NUM_CPORT_OUT_URB w) as [[] w1].
  cbn [snd] in H1.
  destruct H1 as (Hq1 & Hl1 & Hf1 & Ho1 & Hb1 & Hi1 & Hib1 & Hs1 & Hsb1).
  (* the CPort IN urbs *)
  unfold bind at 1 in Hwf.
  pose proof (disconnect_cport_in_effect NUM_CPORT_IN_URB 0 w1) as H2.
  cbn zeta in H2. rewrite !drop_0, Hi1, Hib1 in H2.
  specialize (H2 ltac:(cbn [Nat.add]; lia)).
  assert (Hcb1 : forall x : ptr,
            x ∈ nonnull_prefix (cport_in_urb (w_es1 w)) ->
            complete (w_urbs w1 x) <> cport_out_callback_fn).
  { intros x Hx. destruct Hq1 as (_ & _ & _ & _ & Hurbs & _).
    rewrite (proj1 (Hurbs x)). apply Hrx. apply elem_of_app. left. exact Hx. }
  specialize (H2 Hcb1).
  destruct (disconnect_cport_in 0 NUM_CPORT_IN_URB w1) as [[] w2].
  cbn [snd] in H2.
  destruct H2 as (Hq2 & Hl2 & Hf2 & Ho2 & Hb2 & Hi2 & Hib2 & Hs2 & Hsb2).
  pose proof (quiet_trans _ _ _ Hq1 Hq2) as Hq12.
  (* the SVC urb *)
  unfold bind at 1, get at 1 in Hwf. unfold bind at 1 in Hwf.
  assert (H3 : exists w3 : world,
            usb_kill_urb (svc_urb (w_es1 w2)) w2 = (tt, w3)
            /\ quiet w2 w3 /\ w_live w3 = w_live w2
            /\ (forall p : pipe,
                  w_inflight w3 p =
                  unqueue w (opt_ptr (svc_urb (w_es1 w))) (w_inflight w2) p)
            /\ svc_urb (w_es1 w3) = svc_urb (w_es1 w)
            /\ svc_buffer (w_es1 w3) = svc_buffer (w_es1 w)).
  { rewrite Hs2, Hs1. unfold opt_ptr.
    destruct (Z.eqb_spec (svc_urb (w_es1 w)) NULL) as [Hz|Hnz].
    - rewrite Hz. exists w2. split; [reflexivity|].
      split; [apply quiet_refl|]. split; [reflexivity|].
      split; [intros p; reflexivity|]. split; congruence.
    - assert (Hcb : complete (w_urbs w2 (svc_urb (w_es1 w)))
                    <> cport_out_callback_fn).
      { destruct Hq12 as (_ & _ & _ & _ & Hurbs & _).
        rewrite (proj1 (Hurbs _)). apply Hrx. apply elem_of_app. right.
        unfold opt_ptr. destruct (Z.eqb_spec (svc_urb (w_es1 w)) NULL);
          [contradiction|].
        apply elem_of_cons. left. reflexivity. }
      pose proof (usb_kill_urb_effect _ w2 Hnz (or_introl Hcb)) as HK.
      cbn zeta in HK.
      destruct (usb_kill_urb (svc_urb (w_es1 w)) w2) as [[] w3].
      cbn [snd] in HK.
      destruct HK as (Hq3 & Hl3 & Hf3 & _ & _ & _ & _ & Hs3 & Hsb3).
      exists w3. split; [reflexivity|]. split; [exact Hq3|].
      split; [exact Hl3|]. split; [|split; congruence].
      intros p. rewrite Hf3. cbn [unqueue fold_left].
      destruct Hq12 as (_ & _ & _ & _ & Hurbs & _).
      rewrite (proj2 (Hurbs _)). reflexivity. }
  destruct H3 as (w3 & Hk3 & Hq3 & Hl3 & Hf3 & Hs3 & Hsb3).
  rewrite Hk3 in Hwf. clear Hk3.
  pose proof (quiet_trans _ _ _ Hq12 Hq3) as Hq13.
  unfold greybus_remove_hd, usb_put_dev, usb_free_urb, kfree, heap_free,
    modify_es1 in Hwf.
  revert Hwf. run_monad. rewrite Hs3.
  destruct Hq13 as (Hhd & Hif & Hrefs & Hheap & _ & ev & Ht & Hpv).
  unfold held, killed. rewrite !release_app, !unqueue_app, <- Hl1, <- Hl2.
  assert (Hfq : forall p : pipe,
            w_inflight w3 p =
            unqueue w (opt_ptr (svc_urb (w_es1 w)))
              (unqueue w (nonnull_prefix (cport_in_urb (w_es1 w)))
                 (unqueue w (nonnull_prefix (cport_out_urb (w_es1 w)))
                    (w_inflight w))) p).
  { intros p. rewrite Hf3.
    apply unqueue_ext; [intros x; reflexivity|]. intros p'. rewrite Hf2.
    apply unqueue_ext; [intros x; apply Hq1 | exact Hf1]. }
  unfold opt_ptr in Hfq |- *.
  destruct (svc_urb (w_es1 w) =? NULL);
    cbn [w_es1 set_es1 set_svc set_trace set_heap svc_buffer svc_urb];
    rewrite Hsb3;
    destruct (svc_buffer (w_es1 w) =? NULL);
    intros ->; wsimpl; cbn [release fold_left];
    rewrite ?Hl3, Hhd, Hrefs, Hheap, Ht;
    (split; [reflexivity|]); (split; [exact Hfq|]);
    repeat (split; [reflexivity|]).
  - exists ev. auto.
  - exists (EvKfree (svc_buffer (w_es1 w)) :: ev). auto.
  - exists (EvFreeUrb (svc_urb (w_es1 w)) :: ev). auto.
  - exists (EvKfree (svc_buffer (w_es1 w))
              :: EvFreeUrb (svc_urb (w_es1 w)) :: ev). auto.
Qed.

(** ** Attach: the device record while it is filled *)

Lemma nonnull_prefix_shape (os : list ptr) (k : nat) :
  Forall (fun p => p <> NULL) os ->
  nonnull_prefix (os ++ replicate k NULL) = os.
Proof.
  induction 1 as [|p os Hp _ IH]; cbn [app nonnull_prefix].
  - destruct k; reflexivity.
  - destruct (Z.eqb_spec p NULL); [contradiction|]. rewrite IH. reflexivity.
Qed.

Lemma in_held_shape (us bs : list ptr) (k k' : nat) :
  length bs = length us -> Forall (fun p => p <> NULL) us ->
  in_held (us ++ replicate k NULL) (bs ++ replicate k' NULL) = in_held us bs.
Proof.
  revert bs. induction us as [|u us IH]; intros [|b bs] Hlen Hnn;
    try discriminate Hlen.
  - cbn [app in_held]. destruct k; reflexivity.
  - inversion Hnn as [|? ? Hu Hus]; subst.
    change ((u :: us) ++ replicate k NULL) with (u :: (us ++ replicate k NULL)).
    change ((b :: bs) ++ replicate k' NULL)
      with (b :: (bs ++ replicate k' NULL)).
    cbn [in_held head tail].
    destruct (Z.eqb_spec u NULL); [contradiction|].
    rewrite IH by (try assumption; injection Hlen; auto). reflexivity.
Qed.

Lemma in_held_snoc (us bs : list ptr) (u b : ptr) :
  length bs = length us -> Forall (fun p => p <> NULL) us -> u <> NULL ->
  in_held (us ++ [u]) (bs ++ [b]) = in_held us bs ++ u :: opt_ptr b.
Proof.
  revert bs. induction us as [|x us IH]; intros [|y bs] Hlen Hnn Hu;
    try discriminate Hlen.
  - cbn [app in_held head tail].
    destruct (Z.eqb_spec u NULL); [contradiction|].
    rewrite app_nil_r. reflexivity.
  - inversion Hnn as [|? ? Hx Hus]; subst.
    change ((x :: us) ++ [u]) with (x :: (us ++ [u])).
    change ((y :: bs) ++ [b]) with (y :: (bs ++ [b])).
    cbn [in_held head tail].
    destruct (Z.eqb_spec x NULL); [contradiction|].
    rewrite IH by (try assumption; injection Hlen; auto).
    rewrite <- app_comm_cons, <- app_assoc. reflexivity.
Qed.

Lemma in_held_urbs (us bs : list ptr) (u : ptr) :
  Forall (fun p => p <> NULL) us -> u ∈ us -> u ∈ in_held us bs.
Proof.
  revert bs. induction us as [|x us IH]; intros bs Hnn Hu.
  - apply elem_of_nil in Hu. contradiction.
  - inversion Hnn as [|? ? Hx Hus]; subst. cbn [in_held].
    destruct (Z.eqb_spec x NULL); [contradiction|].
    apply elem_of_cons in Hu as [->|Hu]; [apply elem_of_cons; left; reflexivity|].
    apply elem_of_cons. right. apply elem_of_app. right. apply IH; assumption.
Qed.

Lemma insert_at_end (l : list ptr) (n : nat) (x : ptr) :
  (length l < n)%nat ->
  <[length l:=x]> (l ++ replicate (n - length l) NULL) =
  (l ++ [x]) ++ replicate (n - length (l ++ [x])) NULL.
Proof.
  intros Hlt. rewrite insert_app_r_alt by lia. rewrite Nat.sub_diag.
  rewrite length_app. cbn [length].
  replace (n - length l)%nat with (S (n - (length l + 1))) by lia.
  cbn [replicate]. rewrite <- app_assoc. reflexivity.
Qed.

Lemma held_shape (w : world) (us bs os : list ptr) :
  cport_in_urb (w_es1 w) =
    us ++ replicate (NUM_CPORT_IN_URB - length us) NULL ->
  cport_in_buffer (w_es1 w) =
    bs ++ replicate (NUM_CPORT_IN_URB - length bs) NULL ->
  cport_out_urb (w_es1 w) =
    os ++ replicate (NUM_CPORT_OUT_URB - length os) NULL ->
  length bs = length us ->
  Forall (fun p => p <> NULL) (us ++ bs ++ os) ->
  held w = os ++ in_held us bs ++ opt_ptr (svc_urb (w_es1 w))
           ++ opt_ptr (svc_buffer (w_es1 w)) ++ [w_hd w].
Proof.
  intros Hin Hbuf Hout Hlen Hnn.
  apply Forall_app in Hnn as [Hus Hnn]. apply Forall_app in Hnn as [Hbs Hos].
  unfold held. rewrite Hin, Hbuf, Hout.
  rewrite nonnull_prefix_shape by assumption.
  rewrite in_held_shape by assumption. reflexivity.
Qed.

(** The fields of [probing] that speak of the objects of the device follow
    their multiset. *)
Lemma objs_moved (w0 w w' : world) (pend pend' : list ptr) :
  pend' ++ held w' ≡ₚ pend ++ held w ->
  w_heap_next w' = w_heap_next w ->
  w_live w' = w_live w ->
  NoDup (pend ++ held w) /\
  Forall (fun p => 0 < p < w_heap_next w) (pend ++ held w) ->
  w_live w ≡ₚ pend ++ held w ++ w_live w0 ->
  (NoDup (pend' ++ held w') /\
   Forall (fun p => 0 < p < w_heap_next w') (pend' ++ held w'))
  /\ w_live w' ≡ₚ pend' ++ held w' ++ w_live w0.
Proof.
  intros Hperm Hh Hl [Hnd Hb] Hlive. rewrite Hh, Hl.
  split; [split|].
  - rewrite Hperm. exact Hnd.
  - rewrite Hperm. exact Hb.
  - rewrite Hlive, !app_assoc, Hperm. reflexivity.
Qed.

Section Probing.

Variables (w0 : world) (t : list event) (pend us bs os : list ptr) (w : world).
Hypothesis Hpb : probing w0 t pend us bs os w.

Lemma probing_nonnull :
  Forall (fun p => p <> NULL) us /\ Forall (fun p => p <> NULL) bs
  /\ Forall (fun p => p <> NULL) os.
Proof.
  pose proof (pb_nonnull _ _ _ _ _ _ _ Hpb) as H.
  apply Forall_app in H as [H1 H]. apply Forall_app in H as [H2 H3]. auto.
Qed.

Lemma probing_held :
  held w = os ++ in_held us bs ++ opt_ptr (svc_urb (w_es1 w))
           ++ opt_ptr (svc_buffer (w_es1 w)) ++ [w_hd w].
Proof.
  apply held_shape; apply Hpb.
Qed.

Lemma probing_wf : es1_wf (w_es1 w).
Proof.
  destruct (pb_len _ _ _ _ _ _ _ Hpb) as (Hl & Hu & Ho).
  unfold es1_wf.
  rewrite (pb_out _ _ _ _ _ _ _ Hpb), (pb_in _ _ _ _ _ _ _ Hpb),
    (pb_buf _ _ _ _ _ _ _ Hpb), !length_app, !length_replicate.
  split; [lia|]. split; [apply (pb_busy _ _ _ _ _ _ _ Hpb)|]. lia.
Qed.

Lemma probing_rx_urbs_ok : rx_urbs_ok w.
Proof.
  destruct probing_nonnull as (Hus & Hbs & Hos).
  intros u Hu. rewrite (pb_in _ _ _ _ _ _ _ Hpb) in Hu.
  rewrite nonnull_prefix_shape in Hu by assumption.
  apply elem_of_app in Hu as [Hu|Hu].
  - apply list_elem_of_lookup_1 in Hu as [k Hk].
    destruct (lookup_lt_is_Some_2 bs k) as [b Hb].
    { rewrite (proj1 (pb_len _ _ _ _ _ _ _ Hpb)).
      eapply lookup_lt_Some. exact Hk. }
    destruct (pb_rx _ _ _ _ _ _ _ Hpb k u b Hk Hb) as (_ & _ & _ & Hc).
    rewrite Hc. discriminate.
  - unfold opt_ptr in Hu.
    destruct (Z.eqb_spec (svc_urb (w_es1 w)) NULL) as [|Hnn];
      [apply elem_of_nil in Hu; contradiction|].
    apply list_elem_of_singleton in Hu. subst u.
    apply (pb_svc _ _ _ _ _ _ _ Hpb). exact Hnn.
Qed.

(** The stored urbs and the SVC urb are among the objects held. *)
Lemma probing_urb_held (u : ptr) :
  u ∈ us \/ (u = svc_urb (w_es1 w) /\ u <> NULL) -> u ∈ held w.
Proof.
  destruct probing_nonnull as (Hus & Hbs & Hos).
  rewrite probing_held. intros [Hu|[-> Hnn]].
  - apply elem_of_app. right. apply elem_of_app. left.
    apply in_held_urbs; assumption.
  - apply elem_of_app. right. apply elem_of_app. right.
    apply elem_of_app. left. unfold opt_ptr.
    destruct (Z.eqb_spec (svc_urb (w_es1 w)) NULL); [contradiction|].
    apply elem_of_cons. left. reflexivity.
Qed.

Lemma probing_below (u : ptr) :
  u ∈ pend ++ held w -> 0 < u < w_heap_next w.
Proof.
  intros Hu. destruct (pb_objs _ _ _ _ _ _ _ Hpb) as [_ Hb].
  exact (proj1 (Forall_forall _ _) Hb u Hu).
Qed.

(** A step that changes nothing the invariant looks at, but the trace. *)
Lemma probing_same (ev : list event) (w' : world) :
  w_heap_next w' = w_heap_next w ->
  w_intfdata w' = w_intfdata w ->
  w_udev_refs w' = w_udev_refs w ->
  w_hd w' = w_hd w ->
  w_live w' = w_live w ->
  w_trace w' = ev ++ w_trace w ->
  cport_in_urb (w_es1 w') = cport_in_urb (w_es1 w) ->
  cport_in_buffer (w_es1 w') = cport_in_buffer (w_es1 w) ->
  cport_out_urb (w_es1 w') = cport_out_urb (w_es1 w) ->
  length (cport_out_urb_busy (w_es1 w')) =
    length (cport_out_urb_busy (w_es1 w)) ->
  svc_urb (w_es1 w') = svc_urb (w_es1 w) ->
  svc_buffer (w_es1 w') = svc_buffer (w_es1 w) ->
  cport_in_endpoint (w_es1 w') = cport_in_endpoint (w_es1 w) ->
  (forall x : ptr, x ∈ us ->
     urb_pipe (w_urbs w' x) = urb_pipe (w_urbs w x) /\
     transfer_buffer (w_urbs w' x) = transfer_buffer (w_urbs w x) /\
     transfer_buffer_length (w_urbs w' x) =
       transfer_buffer_length (w_urbs w x) /\
     complete (w_urbs w' x) = complete (w_urbs w x)) ->
  (svc_urb (w_es1 w) <> NULL ->
   complete (w_urbs w' (svc_urb (w_es1 w))) <> cport_out_callback_fn) ->
  probing w0 (ev ++ t) pend us bs os w'.
Proof.
  intros Hh Hi Hr Hhd Hl Ht Hin Hbuf Hout Hbusy Hsu Hsb Hep Hurbs Hsvc.
  assert (Hheld : held w' = held w).
  { unfold held. rewrite Hin, Hbuf, Hout, Hsu, Hsb, Hhd. reflexivity. }
  destruct Hpb as [H1 H2 H3 H4 H5 H6 H7 H8 H9 H10 H11 H12 H13 H14].
  constructor; rewrite ?Hh, ?Hi, ?Hr, ?Hl, ?Hin, ?Hbuf, ?Hout, ?Hbusy, ?Hsu,
    ?Hsb, ?Hep, ?Hheld; try assumption.
  - rewrite Ht, H4, app_assoc. reflexivity.
  - intros k u b Hu Hb. destruct (Hurbs u) as (E1 & E2 & E3 & E4).
    { eapply list_elem_of_lookup_2. exact Hu. }
    rewrite E1, E2, E3, E4. apply (H13 k u b Hu Hb).
Qed.

(** A successful allocation: the new object is pending. *)
Lemma probing_alloc (ev : event) (size : Z) (w' : world) :
  w_heap_next w' = w_heap_next w + chunk size ->
  w_live w' = w_heap_next w :: w_live w ->
  w_trace w' = ev :: w_trace w ->
  w_intfdata w' = w_intfdata w ->
  w_udev_refs w' = w_udev_refs w ->
  w_hd w' = w_hd w ->
  w_es1 w' = w_es1 w ->
  (forall x : ptr, x <> w_heap_next w -> w_urbs w' x = w_urbs w x) ->
  probing w0 (ev :: t) (w_heap_next w :: pend) us bs os w'.
Proof.
  intros Hh Hl Ht Hi Hr Hhd He Hurbs.
  assert (Hheld : held w' = held w).
  { unfold held. rewrite He, Hhd. reflexivity. }
  destruct (chunk_pos size) as [Hcp _].
  assert (Hfresh : forall u : ptr, u ∈ pend ++ held w -> u <> w_heap_next w).
  { intros u Hu. pose proof (probing_below u Hu). lia. }
  destruct Hpb as [H1 H2 H3 H4 H5 H6 H7 H8 H9 H10 [H11 H11'] H12 H13 H14].
  constructor; rewrite ?Hh, ?Hi, ?Hr, ?Hl, ?He, ?Hheld; try assumption.
  - lia.
  - rewrite Ht, H4. reflexivity.
  - split.
    + cbn [app]. apply NoDup_cons. split; [|exact H11].
      intros Hin. exact (Hfresh _ Hin eq_refl).
    + cbn [app]. apply Forall_cons. split; [lia|].
      eapply Forall_impl; [exact H11'|]. cbn beta. intros x Hx. lia.
  - cbn [app]. rewrite H12. reflexivity.
  - intros k u b Hu Hb. rewrite Hurbs; [apply (H13 k u b Hu Hb)|].
    apply Hfresh. apply elem_of_app. right. apply probing_urb_held. left.
    eapply list_elem_of_lookup_2. exact Hu.
  - intros Hnn. rewrite Hurbs; [apply H14; exact Hnn|].
    apply Hfresh. apply elem_of_app. right. apply probing_urb_held. right.
    split; [reflexivity|exact Hnn].
Qed.

End Probing.

Lemma opt_ptr_nonnull (p : ptr) : p <> NULL -> opt_ptr p = [p].
Proof.
  intros Hp. unfold opt_ptr. destruct (Z.eqb_spec p NULL); [contradiction|].
  reflexivity.
Qed.

(** A step that stores pending objects in the device record. *)
Lemma probing_store (w0 : world) (t : list event)
    (pend us bs os pend' us' bs' os' : list ptr) (w w' : world) :
  probing w0 t pend us bs os w ->
  w_heap_next w' = w_heap_next w ->
  w_intfdata w' = w_intfdata w ->
  w_udev_refs w' = w_udev_refs w ->
  w_live w' = w_live w ->
  w_trace w' = w_trace w ->
  cport_in_urb (w_es1 w') =
    us' ++ replicate (NUM_CPORT_IN_URB - length us') NULL ->
  cport_in_buffer (w_es1 w') =
    bs' ++ replicate (NUM_CPORT_IN_URB - length bs') NULL ->
  cport_out_urb (w_es1 w') =
    os' ++ replicate (NUM_CPORT_OUT_URB - length os') NULL ->
  length (cport_out_urb_busy (w_es1 w')) = NUM_CPORT_OUT_URB ->
  length bs' = length us' /\
    (length us' <= NUM_CPORT_IN_URB)%nat /\
    (length os' <= NUM_CPORT_OUT_URB)%nat ->
  Forall (fun p => p <> NULL) (us' ++ bs' ++ os') ->
  pend' ++ held w' ≡ₚ pend ++ held w ->
  (forall (k : nat) (u b : ptr),
      us' !! k = Some u -> bs' !! k = Some b ->
      urb_pipe (w_urbs w' u) = rcvbulkpipe (cport_in_endpoint (w_es1 w')) /\
      transfer_buffer (w_urbs w' u) = b /\
      transfer_buffer_length (w_urbs w' u) =
        to_u32 (to_int ES1_GBUF_MSG_SIZE_MAX) /\
      complete (w_urbs w' u) = cport_in_callback_fn) ->
  (svc_urb (w_es1 w') <> NULL ->
   complete (w_urbs w' (svc_urb (w_es1 w'))) <> cport_out_callback_fn) ->
  probing w0 t pend' us' bs' os' w'.
Proof.
  intros Hpb Hh Hi Hr Hl Ht Hin Hbuf Hout Hbusy Hlen Hnn Hperm Hrx Hsvc.
  destruct (objs_moved w0 w w' pend pend' Hperm Hh Hl
              (pb_objs _ _ _ _ _ _ _ Hpb) (pb_live _ _ _ _ _ _ _ Hpb))
    as [Hobjs Hlive].
  constructor; try assumption.
  - rewrite Hh. apply Hpb.
  - rewrite Hi. apply Hpb.
  - rewrite Hr. apply Hpb.
  - rewrite Ht. apply Hpb.
Qed.

(** [es1->svc_buffer = kmalloc(...)], when the allocation succeeded. *)
Lemma probing_store_svc_buffer (w0 : world) (t : list event)
    (pend us bs os : list ptr) (p : ptr) (w : world) :
  probing w0 t (p :: pend) us bs os w ->
  svc_buffer (w_es1 w) = NULL -> p <> NULL ->
  probing w0 t pend us bs os
    (set_es1 (set_svc p (svc_urb (w_es1 w)) (w_es1 w)) w).
Proof.
  intros Hpb Hnull Hp.
  apply (probing_store w0 t (p :: pend) us bs os pend us bs os w);
    try reflexivity; try apply Hpb.
  - rewrite (probing_held _ _ _ _ _ _ _ Hpb), Hnull.
    rewrite (held_shape _ us bs os); try apply Hpb.
    cbn [w_es1 w_hd set_es1 svc_urb svc_buffer set_svc].
    rewrite (opt_ptr_nonnull p Hp).
    change (opt_ptr NULL) with (@nil Z). solve_Permutation.
Qed.

(** [es1->svc_urb = usb_alloc_urb(...)], when the allocation succeeded. *)
Lemma probing_store_svc_urb (w0 : world) (t : list event)
    (pend us bs os : list ptr) (p : ptr) (w : world) :
  probing w0 t (p :: pend) us bs os w ->
  svc_urb (w_es1 w) = NULL -> p <> NULL ->
  complete (w_urbs w p) <> cport_out_callback_fn ->
  probing w0 t pend us bs os
    (set_es1 (set_svc (svc_buffer (w_es1 w)) p (w_es1 w)) w).
Proof.
  intros Hpb Hnull Hp Hcb.
  apply (probing_store w0 t (p :: pend) us bs os pend us bs os w);
    try reflexivity; try apply Hpb.
  - rewrite (probing_held _ _ _ _ _ _ _ Hpb), Hnull.
    rewrite (held_shape _ us bs os); try apply Hpb.
    cbn [w_es1 w_hd set_es1 svc_urb svc_buffer set_svc].
    rewrite (opt_ptr_nonnull p Hp).
    change (opt_ptr NULL) with (@nil Z). solve_Permutation.
  - cbn [w_es1 set_es1 svc_urb set_svc w_urbs]. intros _. exact Hcb.
Qed.

(** A CPort IN urb is filled and stored with its buffer. *)
Lemma probing_store_in (w0 : world) (t : list event)
    (pend us bs os : list ptr) (u b : ptr) (w w' : world) :
  probing w0 t (b :: u :: pend) us bs os w ->
  (length us < NUM_CPORT_IN_URB)%nat -> u <> NULL -> b <> NULL ->
  w_heap_next w' = w_heap_next w ->
  w_intfdata w' = w_intfdata w ->
  w_udev_refs w' = w_udev_refs w ->
  w_hd w' = w_hd w ->
  w_live w' = w_live w ->
  w_trace w' = w_trace w ->
  cport_in_urb (w_es1 w') = <[length us:=u]> (cport_in_urb (w_es1 w)) ->
  cport_in_buffer (w_es1 w') = <[length us:=b]> (cport_in_buffer (w_es1 w)) ->
  cport_out_urb (w_es1 w') = cport_out_urb (w_es1 w) ->
  cport_out_urb_busy (w_es1 w') = cport_out_urb_busy (w_es1 w) ->
  svc_urb (w_es1 w') = svc_urb (w_es1 w) ->
  svc_buffer (w_es1 w') = svc_buffer (w_es1 w) ->
  cport_in_endpoint (w_es1 w') = cport_in_endpoint (w_es1 w) ->
  urb_pipe (w_urbs w' u) = rcvbulkpipe (cport_in_endpoint (w_es1 w)) ->
  transfer_buffer (w_urbs w' u) = b ->
  transfer_buffer_length (w_urbs w' u) =
    to_u32 (to_int ES1_GBUF_MSG_SIZE_MAX) ->
  complete (w_urbs w' u) = cport_in_callback_fn ->
  (forall x : ptr, x <> u -> w_urbs w' x = w_urbs w x) ->
  probing w0 t pend (us ++ [u]) (bs ++ [b]) os w'.
Proof.
  intros Hpb Hlt Hu Hb Hh Hi Hr Hhd Hl Ht Hin Hbuf Hout Hbusy Hsu Hsb Hep
    Hf1 Hf2 Hf3 Hf4 Hurbs.
  destruct (probing_nonnull _ _ _ _ _ _ _ Hpb) as (Hus & Hbs & Hos).
  destruct (pb_len _ _ _ _ _ _ _ Hpb) as (Hlen & Hlu & Hlo).
  assert (Hin' : cport_in_urb (w_es1 w') =
                 (us ++ [u])
                 ++ replicate (NUM_CPORT_IN_URB - length (us ++ [u])) NULL).
  { rewrite Hin, (pb_in _ _ _ _ _ _ _ Hpb). apply insert_at_end. exact Hlt. }
  assert (Hbuf' : cport_in_buffer (w_es1 w') =
                  (bs ++ [b])
                  ++ replicate (NUM_CPORT_IN_URB - length (bs ++ [b])) NULL).
  { rewrite Hbuf, (pb_buf _ _ _ _ _ _ _ Hpb), <- Hlen. apply insert_at_end.
    lia. }
  assert (Hout' : cport_out_urb (w_es1 w') =
                  os ++ replicate (NUM_CPORT_OUT_URB - length os) NULL).
  { rewrite Hout. apply Hpb. }
  assert (Hlen' : length (bs ++ [b]) = length (us ++ [u]))
    by (rewrite !length_app, Hlen; reflexivity).
  assert (Hnn' : Forall (fun p => p <> NULL) ((us ++ [u]) ++ (bs ++ [b]) ++ os)).
  { repeat (apply Forall_app; split); try assumption;
      apply Forall_singleton; assumption. }
  assert (Hfresh : forall x : ptr, x ∈ held w -> x <> u).
  { intros x Hx ->. destruct (pb_objs _ _ _ _ _ _ _ Hpb) as [Hnd _].
    change ((b :: u :: pend) ++ held w) with (b :: u :: (pend ++ held w)) in Hnd.
    apply NoDup_cons in Hnd as [_ Hnd]. apply NoDup_cons in Hnd as [Hnot _].
    apply Hnot. apply elem_of_app. right. exact Hx. }
  apply (probing_store w0 t (b :: u :: pend) us bs os pend (us ++ [u])
           (bs ++ [b]) os w); try assumption.
  - rewrite Hbusy. apply Hpb.
  - split; [exact Hlen'|]. rewrite length_app. cbn [length]. lia.
  - rewrite (probing_held _ _ _ _ _ _ _ Hpb).
    rewrite (held_shape w' (us ++ [u]) (bs ++ [b]) os Hin' Hbuf' Hout' Hlen'
               Hnn').
    rewrite Hsu, Hsb, Hhd, (in_held_snoc _ _ _ _ Hlen Hus Hu),
      (opt_ptr_nonnull b Hb).
    solve_Permutation.
  - intros k x y Hx Hy. rewrite Hep.
    destruct (decide (k < length us)%nat) as [Hk|Hk].
    + rewrite lookup_app_l in Hx by exact Hk.
      rewrite lookup_app_l in Hy by lia.
      rewrite Hurbs; [apply (pb_rx _ _ _ _ _ _ _ Hpb k x y Hx Hy)|].
      apply Hfresh. apply (probing_urb_held _ _ _ _ _ _ _ Hpb). left.
      eapply list_elem_of_lookup_2. exact Hx.
    + assert (k = length us) as ->.
      { apply lookup_lt_Some in Hx. rewrite length_app in Hx.
        cbn [length] in Hx. lia. }
      rewrite list_lookup_middle in Hx by reflexivity.
      rewrite list_lookup_middle in Hy by (symmetry; exact Hlen).
      injection Hx as <-. injection Hy as <-. auto.
  - rewrite Hsu. intros Hnn. rewrite Hurbs; [apply Hpb; exact Hnn|].
    apply Hfresh. apply (probing_urb_held _ _ _ _ _ _ _ Hpb). right.
    split; [reflexivity|exact Hnn].
Qed.

(** A CPort OUT urb is stored in the pool. *)
Lemma probing_store_out (w0 : world) (t : list event)
    (pend us bs os : list ptr) (p : ptr) (w w' : world) :
  probing w0 t (p :: pend) us bs os w ->
  (length os < NUM_CPORT_OUT_URB)%nat -> p <> NULL ->
  w_heap_next w' = w_heap_next w ->
  w_intfdata w' = w_intfdata w ->
  w_udev_refs w' = w_udev_refs w ->
  w_hd w' = w_hd w ->
  w_live w' = w_live w ->
  w_trace w' = w_trace w ->
  cport_in_urb (w_es1 w') = cport_in_urb (w_es1 w) ->
  cport_in_buffer (w_es1 w') = cport_in_buffer (w_es1 w) ->
  cport_out_urb (w_es1 w') = <[length os:=p]> (cport_out_urb (w_es1 w)) ->
  length (cport_out_urb_busy (w_es1 w')) =
    length (cport_out_urb_busy (w_es1 w)) ->
  svc_urb (w_es1 w') = svc_urb (w_es1 w) ->
  svc_buffer (w_es1 w') = svc_buffer (w_es1 w) ->
  cport_in_endpoint (w_es1 w') = cport_in_endpoint (w_es1 w) ->
  w_urbs w' = w_urbs w ->
  probing w0 t pend us bs (os ++ [p]) w'.
Proof.
  intros Hpb Hlt Hp Hh Hi Hr Hhd Hl Ht Hin Hbuf Hout Hbusy Hsu Hsb Hep Hurbs.
  destruct (probing_nonnull _ _ _ _ _ _ _ Hpb) as (Hus & Hbs & Hos).
  destruct (pb_len _ _ _ _ _ _ _ Hpb) as (Hlen & Hlu & Hlo).
  assert (Hin' : cport_in_urb (w_es1 w') =
                 us ++ replicate (NUM_CPORT_IN_URB - length us) NULL)
    by (rewrite Hin; apply Hpb).
  assert (Hbuf' : cport_in_buffer (w_es1 w') =
                  bs ++ replicate (NUM_CPORT_IN_URB - length bs) NULL)
    by (rewrite Hbuf; apply Hpb).
  assert (Hout' : cport_out_urb (w_es1 w') =
                  (os ++ [p])
                  ++ replicate (NUM_CPORT_OUT_URB - length (os ++ [p])) NULL).
  { rewrite Hout, (pb_out _ _ _ _ _ _ _ Hpb). apply insert_at_end. exact Hlt. }
  assert (Hnn' : Forall (fun p => p <> NULL) (us ++ bs ++ os ++ [p])).
  { repeat (apply Forall_app; split); try assumption.
    apply Forall_singleton. assumption. }
  apply (probing_store w0 t (p :: pend) us bs os pend us bs (os ++ [p]) w);
    try assumption.
  - rewrite Hbusy. apply Hpb.
  - split; [exact Hlen|]. rewrite length_app. cbn [length]. lia.
  - rewrite (probing_held _ _ _ _ _ _ _ Hpb).
    rewrite (held_shape w' us bs (os ++ [p]) Hin' Hbuf' Hout' Hlen Hnn').
    rewrite Hsu, Hsb, Hhd. solve_Permutation.
  - intros k x y Hx Hy. rewrite Hep, Hurbs.
    apply (pb_rx _ _ _ _ _ _ _ Hpb k x y Hx Hy).
  - rewrite Hsu, Hurbs. apply Hpb.
Qed.

(** *** What detach gives back *)

Lemma remove_first_perm (p : ptr) (l : list ptr) :
  p ∈ l -> l ≡ₚ p :: remove_first p l.
Proof.
  induction l as [|x l IH]; cbn [remove_first]; intros Hin.
  - apply elem_of_nil in Hin. contradiction.
  - destruct (Z.eqb_spec x p) as [->|Hne]; [reflexivity|].
    apply elem_of_cons in Hin as [->|Hin]; [contradiction|].
    rewrite (IH Hin) at 1. apply Permutation_swap.
Qed.

Lemma release_perm (ps l rest : list ptr) :
  l ≡ₚ ps ++ rest -> release ps l ≡ₚ rest.
Proof.
  revert l. induction ps as [|p ps IH]; intros l Hl; cbn [release fold_left].
  - exact Hl.
  - apply IH. cbn [app] in Hl.
    assert (Hin : p ∈ l).
    { rewrite Hl. apply elem_of_cons. left. reflexivity. }
    rewrite (remove_first_perm p l Hin) in Hl.
    apply Permutation_cons_inv in Hl. exact Hl.
Qed.

Lemma dequeue_keeps (w : world) (u : ptr) (q : pipe -> list ptr) :
  (forall p : pipe,
     NoDup (q p) /\ forall x : ptr, x ∈ q p -> urb_pipe (w_urbs w x) = p) ->
  let q' := dequeue (urb_pipe (w_urbs w u)) u q in
  (forall p : pipe,
     NoDup (q' p) /\ forall x : ptr, x ∈ q' p -> urb_pipe (w_urbs w x) = p)
  /\ (forall (p : pipe) (x : ptr), x ∈ q' p -> x ∈ q p)
  /\ (forall p : pipe, u ∉ q' p).
Proof.
  intros Hq. cbn zeta.
  assert (Hsub : forall (p : pipe) (x : ptr),
            x ∈ dequeue (urb_pipe (w_urbs w u)) u q p -> x ∈ q p).
  { intros p x. unfold dequeue.
    destruct (pipe_eqb p (urb_pipe (w_urbs w u))); [|auto].
    apply remove_first_subset. }
  split; [|split; [exact Hsub|]].
  - intros p. destruct (Hq p) as [Hnd Hpipe]. split.
    + unfold dequeue. destruct (pipe_eqb p (urb_pipe (w_urbs w u)));
        [|exact Hnd].
      apply remove_first_NoDup. exact Hnd.
    + intros x Hx. apply Hpipe. apply Hsub. exact Hx.
  - intros p Hin. destruct (Hq p) as [Hnd Hpipe].
    pose proof (Hpipe u (Hsub p u Hin)) as Hp. subst p.
    rewrite dequeue_same in Hin.
    apply (proj2 (remove_first_NoDup u _ Hnd)). exact Hin.
Qed.

Lemma unqueue_clears (w : world) (us : list ptr) (q : pipe -> list ptr) :
  (forall p : pipe,
     NoDup (q p) /\ forall x : ptr, x ∈ q p -> urb_pipe (w_urbs w x) = p) ->
  (forall (p : pipe) (x : ptr), x ∈ unqueue w us q p -> x ∈ q p)
  /\ (forall (p : pipe) (u : ptr), u ∈ us -> u ∉ unqueue w us q p).
Proof.
  revert q. induction us as [|u us IH]; intros q Hq; cbn [unqueue fold_left].
  - split; [auto|]. intros p u Hu. apply elem_of_nil in Hu. contradiction.
  - destruct (dequeue_keeps w u q Hq) as (Hq' & Hsub & Hgone).
    cbn zeta in Hq', Hsub, Hgone.
    destruct (IH _ Hq') as [IHsub IHgone]. split.
    + intros p x Hx. apply Hsub. apply IHsub. exact Hx.
    + intros p x Hx Hin. apply elem_of_cons in Hx as [->|Hx].
      * apply (Hgone p). apply IHsub. exact Hin.
      * apply (IHgone p x Hx). exact Hin.
Qed.

(** X8: [ap_disconnect] gives back what the device record refers to, and only
    that: on a bound interface whose live allocations are those of the
    device record and [rest], exactly [rest] stays allocated.  The
    interface is unbound, the host device removed and one reference to the
    USB device dropped; nothing is allocated or submitted on the way. *)
Theorem ap_disconnect_releases (w : world) (rest : list ptr) :
  w_intfdata w = true ->
  es1_wf (w_es1 w) ->
  rx_urbs_ok w ->
  w_live w ≡ₚ held w ++ rest ->
  let w' := snd (ap_disconnect w) in
  w_live w' ≡ₚ rest
  /\ w_intfdata w' = false
  /\ w_hd w' = NULL
  /\ w_udev_refs w' = w_udev_refs w - 1
  /\ w_heap_next w' = w_heap_next w
  /\ exists ev : list event,
       w_trace w' = ev ++ w_trace w /\ forallb passive ev = true.
Proof.
  intros Hintf Hwf Hrx Hlive.
  destruct (ap_disconnect_effect w Hintf Hwf Hrx)
    as (Hl & _ & Hi & Hhd & Hr & Hh & ev & Ht & Hp).
  cbn zeta. rewrite Hl.
  split; [apply release_perm; exact Hlive|].
  repeat (split; [assumption|]).
  exists (EvPutDev :: EvRemoveHd (w_hd w) :: ev).
  split; [exact Ht|]. cbn [forallb]. rewrite Hp. reflexivity.
Qed.

(** X9: After [ap_disconnect] none of the urbs of the device record is left on
    an endpoint queue, and no urb has been put on one. *)
Theorem ap_disconnect_unqueues (w : world) :
  w_intfdata w = true ->
  es1_wf (w_es1 w) ->
  rx_urbs_ok w ->
  queues_ok w ->
  let w' := snd (ap_disconnect w) in
  (forall (p : pipe) (u : ptr), u ∈ killed w -> u ∉ w_inflight w' p)
  /\ (forall (p : pipe) (u : ptr), u ∈ w_inflight w' p -> u ∈ w_inflight w p).
Proof.
  intros Hintf Hwf Hrx Hq.
  destruct (ap_disconnect_effect w Hintf Hwf Hrx) as (_ & Hf & _).
  destruct (unqueue_clears w (killed w) (w_inflight w) Hq) as [Hsub Hgone].
  cbn zeta. split.
  - intros p u Hu. rewrite Hf. apply Hgone. exact Hu.
  - intros p u. rewrite Hf. apply Hsub.
Qed.

(** X10: Detaching twice is harmless: after [ap_disconnect] the interface is
    unbound, and a further [ap_disconnect] changes nothing. *)
Theorem ap_disconnect_twice (w : world) :
  ap_disconnect (snd (ap_disconnect w)) = (tt, snd (ap_disconnect w)).
Proof.
  pose proof (ap_disconnect_intfdata w) as H.
  generalize dependent (snd (ap_disconnect w)). intros w' H.
  unfold ap_disconnect at 1. unfold bind at 1, get at 1. rewrite H.
  reflexivity.
Qed.

(** ** Attach: the endpoints *)

Lemma unknown_endpoint_logs_cons (e : usb_endpoint_descriptor)
    (rest : list usb_endpoint_descriptor) :
  unknown_endpoint_logs (e :: rest) =
  unknown_endpoint_logs rest
  ++ (if endpoint_unknown e
      then [EvLog (log_unknown_endpoint (bEndpointAddress e))] else []).
Proof.
  unfold unknown_endpoint_logs. rewrite filter_cons.
  destruct (decide (endpoint_unknown e = true)) as [H|H].
  - rewrite H. reflexivity.
  - apply not_true_is_false in H. rewrite H, app_nil_r. reflexivity.
Qed.

Lemma unknown_endpoint_logs_succeeded (eps : list usb_endpoint_descriptor) :
  forallb succeeded (unknown_endpoint_logs eps) = true
  /\ forallb passive (unknown_endpoint_logs eps) = true.
Proof.
  induction eps as [|e eps [IH1 IH2]]; [split; reflexivity|].
  rewrite unknown_endpoint_logs_cons, !forallb_app, IH1, IH2.
  destruct (endpoint_unknown e); split; reflexivity.
Qed.

(** The endpoint loop: what it leaves in the device record and in
    [svc_interval], and what it logs. *)
Lemma probe_endpoints_run (eps : list usb_endpoint_descriptor)
    (f : endpoints_found) (w : world) :
  let res := probe_endpoints eps f w in
  let pick (kind : usb_endpoint_descriptor -> bool)
           (field : usb_endpoint_descriptor -> Z) (d : Z) : Z :=
    match last_of_kind kind eps with Some e => field e | None => d end in
  snd res =
    set_trace (unknown_endpoint_logs eps ++ w_trace w)
      (set_es1
         (set_endpoints (control_endpoint (w_es1 w))
            (pick usb_endpoint_is_int_in bEndpointAddress
               (svc_endpoint (w_es1 w)))
            (pick usb_endpoint_is_bulk_in bEndpointAddress
               (cport_in_endpoint (w_es1 w)))
            (pick usb_endpoint_is_bulk_out bEndpointAddress
               (cport_out_endpoint (w_es1 w)))
            (w_es1 w)) w)
  /\ svc_interval (fst res) =
       pick usb_endpoint_is_int_in bInterval (svc_interval f).
Proof.
  revert f w. induction eps as [|e eps IH]; intros f w; cbn zeta.
  - cbn [probe_endpoints last_of_kind ret fst snd]. split; [|reflexivity].
    destruct w as [e1 ?]; destruct e1; reflexivity.
  - cbn [probe_endpoints last_of_kind].
    rewrite unknown_endpoint_logs_cons. unfold endpoint_unknown.
    destruct (endpoint_kinds_exclusive e) as [Hint Hbulk].
    destruct (usb_endpoint_is_int_in e) eqn:Hii.
    { destruct (Hint eq_refl) as [-> ->]. unfold modify_es1. run_monad.
      match goal with
      | |- context [probe_endpoints eps ?f' ?w'] =>
          destruct (IH f' w') as [H1 H2]
      end.
      cbn zeta in H1, H2. rewrite H1, H2. cbn [negb andb]. wsimpl.
      rewrite app_nil_r.
      destruct (last_of_kind usb_endpoint_is_int_in eps);
        destruct (last_of_kind usb_endpoint_is_bulk_in eps);
        destruct (last_of_kind usb_endpoint_is_bulk_out eps);
        split; reflexivity. }
    destruct (usb_endpoint_is_bulk_in e) eqn:Hbi.
    { rewrite (Hbulk eq_refl). unfold modify_es1. run_monad.
      match goal with
      | |- context [probe_endpoints eps ?f' ?w'] =>
          destruct (IH f' w') as [H1 H2]
      end.
      cbn zeta in H1, H2. rewrite H1, H2. cbn [negb andb]. wsimpl.
      rewrite app_nil_r.
      destruct (last_of_kind usb_endpoint_is_int_in eps);
        destruct (last_of_kind usb_endpoint_is_bulk_in eps);
        destruct (last_of_kind usb_endpoint_is_bulk_out eps);
        split; reflexivity. }
    destruct (usb_endpoint_is_bulk_out e) eqn:Hbo.
    { unfold modify_es1. run_monad.
      match goal with
      | |- context [probe_endpoints eps ?f' ?w'] =>
          destruct (IH f' w') as [H1 H2]
      end.
      cbn zeta in H1, H2. rewrite H1, H2. cbn [negb andb]. wsimpl.
      rewrite app_nil_r.
      destruct (last_of_kind usb_endpoint_is_int_in eps);
        destruct (last_of_kind usb_endpoint_is_bulk_in eps);
        destruct (last_of_kind usb_endpoint_is_bulk_out eps);
        split; reflexivity. }
    run_monad.
    match goal with
    | |- context [probe_endpoints eps ?f' ?w'] =>
        destruct (IH f' w') as [H1 H2]
    end.
    cbn zeta in H1, H2. rewrite H1, H2. cbn [negb andb]. wsimpl.
    rewrite <- app_assoc. cbn [app].
    destruct (last_of_kind usb_endpoint_is_int_in eps);
      destruct (last_of_kind usb_endpoint_is_bulk_in eps);
      destruct (last_of_kind usb_endpoint_is_bulk_out eps);
      split; reflexivity.
Qed.

(** X11: When the interface lists several endpoints of a kind, the endpoint
    loop of [ap_probe] keeps the last one: the device record ends with the
    address of the last interrupt-in, bulk-in and bulk-out endpoint (or the
    value it had, if there is none), [svc_interval] with the interval of
    the last interrupt-in endpoint; the control endpoint is not touched,
    and one line is logged for each endpoint of another kind, in order. *)
Theorem probe_endpoints_last_wins (eps : list usb_endpoint_descriptor)
    (f : endpoints_found) (w : world) :
  let res := probe_endpoints eps f w in
  let e' := w_es1 (snd res) in
  let pick (kind : usb_endpoint_descriptor -> bool)
           (field : usb_endpoint_descriptor -> Z) (d : Z) : Z :=
    match last_of_kind kind eps with Some e => field e | None => d end in
  svc_endpoint e' =
    pick usb_endpoint_is_int_in bEndpointAddress (svc_endpoint (w_es1 w))
  /\ svc_interval (fst res) =
       pick usb_endpoint_is_int_in bInterval (svc_interval f)
  /\ cport_in_endpoint e' =
       pick usb_endpoint_is_bulk_in bEndpointAddress
         (cport_in_endpoint (w_es1 w))
  /\ cport_out_endpoint e' =
       pick usb_endpoint_is_bulk_out bEndpointAddress
         (cport_out_endpoint (w_es1 w))
  /\ control_endpoint e' = control_endpoint (w_es1 w)
  /\ w_trace (snd res) = unknown_endpoint_logs eps ++ w_trace w.
Proof.
  destruct (probe_endpoints_run eps f w) as [H1 H2]. cbn zeta in *.
  rewrite H1, H2. wsimpl. repeat split.
Qed.

(** ** Attach: the steps of [ap_probe] *)

Lemma usb_alloc_urb_probing (w0 : world) (t : list event)
    (pend us bs os : list ptr) (w : world) :
  probing w0 t pend us bs os w ->
  let res := usb_alloc_urb w in
  w_es1 (snd res) = w_es1 w
  /\ w_inflight (snd res) = w_inflight w
  /\ (forall x : ptr, x <> w_heap_next w ->
                      w_urbs (snd res) x = w_urbs w x)
  /\ ((fst res = NULL
       /\ probing w0 (EvAllocUrb NULL :: t) pend us bs os (snd res))
      \/ (fst res = w_heap_next w /\ fst res <> NULL
          /\ probing w0 (EvAllocUrb (fst res) :: t) (fst res :: pend) us bs os
               (snd res)
          /\ w_urbs (snd res) (fst res) = urb_zero)).
Proof.
  intros Hpb. cbn zeta. rewrite usb_alloc_urb_eq. cbn zeta.
  pose proof (pb_heap _ _ _ _ _ _ _ Hpb) as Hpos.
  assert (Hnn : (w_heap_next w =? NULL) = false)
    by (apply Z.eqb_neq; unfold NULL; lia).
  destruct (next_alloc_ok w); rewrite ?Hnn; wsimpl.
  - split; [reflexivity|]. split; [reflexivity|]. split.
    { intros x Hx. apply Z.eqb_neq in Hx. rewrite Hx. reflexivity. }
    right. split; [reflexivity|]. split; [unfold NULL; lia|].
    split; [|rewrite Z.eqb_refl; reflexivity].
    apply (probing_alloc _ _ _ _ _ _ _ Hpb (EvAllocUrb (w_heap_next w))
             sizeof_urb); try reflexivity.
    intros x Hx. wsimpl. apply Z.eqb_neq in Hx. rewrite Hx. reflexivity.
  - split; [reflexivity|]. split; [reflexivity|]. split; [reflexivity|].
    left. split; [reflexivity|].
    apply (probing_same _ _ _ _ _ _ _ Hpb [EvAllocUrb NULL]);
      try reflexivity.
    + intros x _. repeat split.
    + apply Hpb.
Qed.

Lemma kmalloc_probing (w0 : world) (t : list event)
    (pend us bs os : list ptr) (size : Z) (w : world) :
  probing w0 t pend us bs os w ->
  let res := kmalloc size w in
  w_es1 (snd res) = w_es1 w
  /\ w_inflight (snd res) = w_inflight w
  /\ w_urbs (snd res) = w_urbs w
  /\ ((fst res = NULL
       /\ probing w0 (EvKmalloc size NULL :: t) pend us bs os (snd res))
      \/ (fst res = w_heap_next w /\ fst res <> NULL
          /\ probing w0 (EvKmalloc size (fst res) :: t) (fst res :: pend)
               us bs os (snd res))).
Proof.
  intros Hpb. cbn zeta. unfold kmalloc, heap_alloc. run_monad.
  pose proof (pb_heap _ _ _ _ _ _ _ Hpb) as Hpos.
  destruct (next_alloc_ok w); wsimpl.
  - split; [reflexivity|]. split; [reflexivity|]. split; [reflexivity|].
    right. split; [reflexivity|]. split; [unfold NULL; lia|].
    apply (probing_alloc _ _ _ _ _ _ _ Hpb
             (EvKmalloc size (w_heap_next w)) size); reflexivity.
  - split; [reflexivity|]. split; [reflexivity|]. split; [reflexivity|].
    left. split; [reflexivity|].
    apply (probing_same _ _ _ _ _ _ _ Hpb [EvKmalloc size NULL]);
      try reflexivity.
    + intros x _. repeat split.
    + apply Hpb.
Qed.

Lemma usb_submit_urb_probing (w0 : world) (t : list event)
    (pend us bs os : list ptr) (u : ptr) (w : world) :
  probing w0 t pend us bs os w ->
  let res := usb_submit_urb u w in
  fst res = next_submit_result w
  /\ w_es1 (snd res) = w_es1 w
  /\ (forall x : ptr,
        urb_pipe (w_urbs (snd res) x) = urb_pipe (w_urbs w x)
        /\ transfer_buffer (w_urbs (snd res) x) = transfer_buffer (w_urbs w x)
        /\ transfer_buffer_length (w_urbs (snd res) x) =
             transfer_buffer_length (w_urbs w x)
        /\ interval (w_urbs (snd res) x) = interval (w_urbs w x)
        /\ complete (w_urbs (snd res) x) = complete (w_urbs w x))
  /\ (forall (p : pipe) (x : ptr),
        x ∈ w_inflight w p -> x ∈ w_inflight (snd res) p)
  /\ (fst res = 0 -> u ∈ w_inflight (snd res) (urb_pipe (w_urbs w u)))
  /\ probing w0
       (EvSubmit u (urb_pipe (w_urbs w u)) (transfer_buffer (w_urbs w u))
          (transfer_buffer_length (w_urbs w u)) (fst res) :: t)
       pend us bs os (snd res).
Proof.
  intros Hpb. cbn zeta.
  assert (Hfields : forall (r : Z) (x : ptr),
            let w' := snd (usb_submit_urb u w) in
            urb_pipe (w_urbs w' x) = urb_pipe (w_urbs w x)
            /\ transfer_buffer (w_urbs w' x) = transfer_buffer (w_urbs w x)
            /\ transfer_buffer_length (w_urbs w' x) =
                 transfer_buffer_length (w_urbs w x)
            /\ interval (w_urbs w' x) = interval (w_urbs w x)
            /\ complete (w_urbs w' x) = complete (w_urbs w x)).
  { intros _ x. cbn zeta. unfold usb_submit_urb.
    destruct (next_submit_result w =? 0); wsimpl; [|repeat split].
    destruct (Z.eqb_spec x u) as [->|_]; repeat split. }
  specialize (Hfields 0). cbn zeta in Hfields.
  revert Hfields.
  destruct (Z.eq_dec (next_submit_result w) 0) as [Hr|Hr].
  - rewrite (usb_submit_urb_ok u w Hr). cbn zeta. wsimpl. intros Hfields.
    split; [symmetry; exact Hr|]. split; [reflexivity|].
    split; [exact Hfields|]. split.
    { intros p x Hx. unfold enqueue.
      destruct (pipe_eqb p (urb_pipe (w_urbs w u))); [|exact Hx].
      apply elem_of_cons. right. exact Hx. }
    split.
    { intros _. rewrite enqueue_same. apply elem_of_cons. left. reflexivity. }
    apply (probing_same _ _ _ _ _ _ _ Hpb
             [EvSubmit u (urb_pipe (w_urbs w u)) (transfer_buffer (w_urbs w u))
                (transfer_buffer_length (w_urbs w u)) 0]); try reflexivity.
    + intros x _. wsimpl. destruct (Hfields x) as (H1 & H2 & H3 & _ & H5).
      auto.
    + intros Hnn. wsimpl. rewrite (proj2 (proj2 (proj2 (proj2 (Hfields _))))).
      apply Hpb. exact Hnn.
  - rewrite (usb_submit_urb_fail u w _ eq_refl Hr). wsimpl. intros Hfields.
    split; [reflexivity|]. split; [reflexivity|].
    split; [exact Hfields|]. split; [auto|].
    split; [intros H; contradiction|].
    apply (probing_same _ _ _ _ _ _ _ Hpb
             [EvSubmit u (urb_pipe (w_urbs w u)) (transfer_buffer (w_urbs w u))
                (transfer_buffer_length (w_urbs w u))
                (next_submit_result w)]); try reflexivity.
    + intros x _. repeat split.
    + apply Hpb.
Qed.

(** ** Attach: giving up, and the receive path *)

Lemma probe_error_run (w0 : world) (t : list event)
    (pend us bs os : list ptr) (rv : Z) (w : world) :
  probing w0 t pend us bs os w ->
  let res := probe_error rv w in
  fst res = rv
  /\ w_intfdata (snd res) = false
  /\ w_hd (snd res) = NULL
  /\ w_udev_refs (snd res) = w_udev_refs w0
  /\ w_live (snd res) ≡ₚ pend ++ w_live w0
  /\ exists ev : list event,
       w_trace (snd res) = ev ++ t ++ w_trace w0
       /\ forallb passive ev = true.
Proof.
  intros Hpb. cbn zeta. unfold probe_error, bind, ret.
  pose proof (ap_disconnect_effect w (pb_intf _ _ _ _ _ _ _ Hpb)
                (probing_wf _ _ _ _ _ _ _ Hpb)
                (probing_rx_urbs_ok _ _ _ _ _ _ _ Hpb)) as H.
  cbn zeta in H. destruct (ap_disconnect w) as [[] w']. cbn [fst snd] in *.
  destruct H as (Hl & _ & Hi & Hhd & Hr & _ & ev & Ht & Hp).
  split; [reflexivity|]. split; [exact Hi|]. split; [exact Hhd|].
  split; [rewrite Hr, (pb_refs _ _ _ _ _ _ _ Hpb); lia|].
  split.
  - rewrite Hl. apply release_perm.
    rewrite (pb_live _ _ _ _ _ _ _ Hpb). solve_Permutation.
  - exists (EvPutDev :: EvRemoveHd (w_hd w) :: ev).
    rewrite Ht, (pb_trace _ _ _ _ _ _ _ Hpb). split; [reflexivity|].
    cbn [forallb]. rewrite Hp. reflexivity.
Qed.

Lemma succeeded_no_lost (t : list event) :
  forallb succeeded t = true -> lost_urbs t = [].
Proof.
  induction t as [|e t IH]; [reflexivity|].
  cbn [forallb]. intros H. apply andb_true_iff in H as [He Ht].
  destruct e; cbn [lost_urbs]; try (apply IH; exact Ht).
  rewrite (IH Ht), app_nil_r. cbn [succeeded] in He.
  apply negb_true_iff in He. rewrite He. destruct t as [|[] ?]; reflexivity.
Qed.

Lemma succeeded_last_submit (t : list event) (r : Z) :
  forallb succeeded t = true -> last_submit_result t = Some r -> r = 0.
Proof.
  induction t as [|e t IH]; [discriminate|].
  cbn [forallb]. intros H. apply andb_true_iff in H as [He Ht].
  destruct e; cbn [last_submit_result]; try (apply IH; exact Ht).
  intros [= <-]. cbn [succeeded] in He. apply Z.eqb_eq in He. exact He.
Qed.

Lemma passive_last_submit (ev t : list event) :
  forallb passive ev = true ->
  last_submit_result (ev ++ t) = last_submit_result t.
Proof.
  induction ev as [|e ev IH]; [reflexivity|].
  cbn [forallb]. intros H. apply andb_true_iff in H as [He Hev].
  destruct e; cbn [app last_submit_result]; try (apply IH; exact Hev).
  discriminate He.
Qed.

Lemma passive_lost (ev t : list event) :
  forallb passive ev = true -> lost_urbs (ev ++ t) = lost_urbs t.
Proof.
  induction ev as [|e ev IH]; [reflexivity|].
  cbn [forallb]. intros H. apply andb_true_iff in H as [He Hev].
  destruct e; cbn [app lost_urbs]; try (apply IH; exact Hev).
  unfold passive in He. cbn in He. discriminate He.
Qed.

Lemma receiving_same (ival : Z) (us : list ptr) (w w' : world) :
  receiving ival us w ->
  svc_urb (w_es1 w') = svc_urb (w_es1 w) ->
  svc_buffer (w_es1 w') = svc_buffer (w_es1 w) ->
  svc_endpoint (w_es1 w') = svc_endpoint (w_es1 w) ->
  cport_in_endpoint (w_es1 w') = cport_in_endpoint (w_es1 w) ->
  (let x := svc_urb (w_es1 w) in
   urb_pipe (w_urbs w' x) = urb_pipe (w_urbs w x)
   /\ transfer_buffer (w_urbs w' x) = transfer_buffer (w_urbs w x)
   /\ transfer_buffer_length (w_urbs w' x) =
        transfer_buffer_length (w_urbs w x)
   /\ interval (w_urbs w' x) = interval (w_urbs w x)
   /\ complete (w_urbs w' x) = complete (w_urbs w x)) ->
  (forall (p : pipe) (x : ptr),
     x ∈ w_inflight w p -> x ∈ w_inflight w' p) ->
  receiving ival us w'.
Proof.
  unfold receiving. cbn zeta.
  intros (H1 & H2 & H3 & H4 & H5 & H6 & H7 & H8 & H9) Hsu Hsb Hse Hce
    (F1 & F2 & F3 & F4 & F5) Hq.
  rewrite Hsu, Hsb, Hse, Hce, F1, F2, F3, F4, F5.
  repeat (split; [assumption|]). split; [apply Hq; exact H8|].
  intros u Hu. apply Hq. apply H9. exact Hu.
Qed.

Lemma receiving_snoc (ival : Z) (us : list ptr) (u : ptr) (w : world) :
  receiving ival us w ->
  u ∈ w_inflight w (rcvbulkpipe (cport_in_endpoint (w_es1 w))) ->
  receiving ival (us ++ [u]) w.
Proof.
  unfold receiving. cbn zeta.
  intros (H1 & H2 & H3 & H4 & H5 & H6 & H7 & H8 & H9) Hu.
  repeat (split; [assumption|]).
  intros x Hx. apply elem_of_app in Hx as [Hx|Hx]; [apply H9; exact Hx|].
  apply list_elem_of_singleton in Hx. subst x. exact Hu.
Qed.

(** The SVC urb of a device that is being attached is not a fresh
    address. *)
Lemma probing_svc_below (w0 : world) (t : list event)
    (pend us bs os : list ptr) (w : world) :
  probing w0 t pend us bs os w ->
  svc_urb (w_es1 w) <> NULL ->
  svc_urb (w_es1 w) <> w_heap_next w
  /\ forall p : ptr, p ∈ pend -> svc_urb (w_es1 w) <> p.
Proof.
  intros Hpb Hnn.
  assert (Hheld : svc_urb (w_es1 w) ∈ held w).
  { apply (probing_urb_held _ _ _ _ _ _ _ Hpb). right. auto. }
  split.
  - pose proof (probing_below _ _ _ _ _ _ _ Hpb (svc_urb (w_es1 w))) as Hb.
    specialize (Hb ltac:(apply elem_of_app; right; exact Hheld)). lia.
  - intros p Hp Heq. destruct (pb_objs _ _ _ _ _ _ _ Hpb) as [Hnd _].
    apply NoDup_app in Hnd as (_ & Hdisj & _).
    apply (Hdisj p Hp). rewrite <- Heq. exact Hheld.
Qed.

(** ** Attach: the loops *)

(** The CPort IN loop.  It ends with the four urbs stored, filled and
    queued, or at the first failure: of [usb_alloc_urb], of [kmalloc] (the
    urb just allocated is then in no array) or of [usb_submit_urb]. *)
Lemma probe_cport_in_run (w0 : world) (ival : Z) (n : nat) :
  forall (i : nat) (rv : Z) (w : world) (t : list event) (us bs : list ptr),
    probing w0 t [] us bs [] w ->
    receiving ival us w ->
    forallb succeeded t = true ->
    last_submit_result t = Some rv ->
    length us = i -> (i + n = NUM_CPORT_IN_URB)%nat ->
    let res := probe_cport_in i n rv w in
    exists (t' : list event) (us' bs' : list ptr),
      probing w0 t' (lost_urbs t') us' bs' [] (snd res)
      /\ last_submit_result t' = Some (snd (fst res))
      /\ forallb succeeded (tail t') = true
      /\ (fst (fst res) = true ->
          forallb succeeded t' = true
          /\ length us' = NUM_CPORT_IN_URB
          /\ receiving ival us' (snd res)
          /\ same_endpoints (w_es1 w) (w_es1 (snd res))).
Proof.
  induction n as [|n IH]; intros i rv w t us bs Hpb Hrx Hs Hl Hi Hn;
    cbn zeta.
  - cbn [probe_cport_in ret fst snd]. exists t, us, bs.
    rewrite (succeeded_no_lost t Hs).
    split; [exact Hpb|]. split; [exact Hl|].
    split; [destruct t; [reflexivity|]; cbn [forallb] in Hs;
            apply andb_true_iff in Hs; apply Hs|].
    intros _. split; [exact Hs|]. split; [lia|]. split; [exact Hrx|].
    repeat split.
  - remember (probe_cport_in i (S n) rv w) as res eqn:Hres.
    cbn [probe_cport_in] in Hres. unfold bind at 1 in Hres.
    pose proof (succeeded_no_lost t Hs) as Hlost.
    assert (Hsvc : svc_urb (w_es1 w) <> NULL) by apply Hrx.
    (* usb_alloc_urb *)
    pose proof (usb_alloc_urb_probing _ _ _ _ _ _ _ Hpb) as H1.
    cbn zeta in H1.
    destruct (usb_alloc_urb w) as [u w1]. cbn [fst snd] in H1.
    destruct H1 as (He1 & Hq1 & Hu1 & [[-> Hpb1]|(-> & Hnn & Hpb1 & _)]).
    { cbn [Z.eqb NULL ret] in Hres. subst res. cbn [fst snd].
      exists (EvAllocUrb NULL :: t), us, bs. cbn [lost_urbs]. rewrite Hlost.
      split; [exact Hpb1|]. split; [exact Hl|]. split; [exact Hs|].
      intros H; discriminate H. }
    assert (Hrx1 : receiving ival us w1).
    { apply (receiving_same ival us w); try (rewrite He1; reflexivity);
        [exact Hrx| |rewrite Hq1; auto].
      cbn zeta. rewrite Hu1; [repeat split|].
      apply (proj1 (probing_svc_below _ _ _ _ _ _ _ Hpb Hsvc)). }
    assert (Hnz : (w_heap_next w =? NULL) = false)
      by (apply Z.eqb_neq; exact Hnn).
    rewrite Hnz in Hres. cbn beta iota in Hres. unfold bind at 1 in Hres.
    set (u := w_heap_next w) in *.
    assert (Hs1 : forallb succeeded (EvAllocUrb u :: t) = true).
    { cbn [forallb succeeded]. rewrite Hnz, Hs. reflexivity. }
    clear Hu1 Hq1 Hpb Hrx.
    (* kmalloc *)
    pose proof (kmalloc_probing _ _ _ _ _ _ ES1_GBUF_MSG_SIZE_MAX _ Hpb1) as H2.
    cbn zeta in H2.
    destruct (kmalloc ES1_GBUF_MSG_SIZE_MAX w1) as [b w2]. cbn [fst snd] in H2.
    destruct H2 as (He2 & Hq2 & Hu2 & [[-> Hpb2]|(Hb & Hbn & Hpb2)]).
    { cbn [Z.eqb NULL ret] in Hres. subst res. cbn [fst snd].
      exists (EvKmalloc ES1_GBUF_MSG_SIZE_MAX NULL :: EvAllocUrb u :: t),
        us, bs.
      cbn [lost_urbs Z.eqb NULL]. rewrite Hlost.
      split; [exact Hpb2|]. split; [exact Hl|]. split; [exact Hs1|].
      intros H; discriminate H. }
    assert (Hrx2 : receiving ival us w2).
    { apply (receiving_same ival us w1); try (rewrite He2; reflexivity);
        [exact Hrx1| |rewrite Hq2; auto].
      cbn zeta. rewrite Hu2. repeat split. }
    assert (Hbz : (b =? NULL) = false) by (apply Z.eqb_neq; exact Hbn).
    rewrite Hbz in Hres. cbn beta iota in Hres.
    assert (Hs2 : forallb succeeded
                    (EvKmalloc ES1_GBUF_MSG_SIZE_MAX b :: EvAllocUrb u :: t)
                  = true).
    { cbn [forallb succeeded] in Hs1 |- *. rewrite Hbz, Hs1. reflexivity. }
    assert (Hsvc2 : svc_urb (w_es1 w2) <> NULL) by apply Hrx2.
    pose proof (proj2 (probing_svc_below _ _ _ _ _ _ _ Hpb2 Hsvc2) u
                  ltac:(apply elem_of_cons; right; apply elem_of_cons; left;
                        reflexivity)) as Hsu.
    assert (He12 : w_es1 w2 = w_es1 w) by congruence.
    clear Hb He1 He2 Hu2 Hq2 Hpb1 Hrx1 Hs1 Hsvc Hlost. clearbody u.
    (* filling and storing *)
    unfold usb_fill_bulk_urb, update_urb, modify_es1, bind, get, modify
      in Hres.
    cbn beta iota in Hres.
    match type of Hres with
    | context [usb_submit_urb u ?W] => set (w3 := W) in *
    end.
    assert (Hpb3 : probing w0
                     (EvKmalloc ES1_GBUF_MSG_SIZE_MAX b :: EvAllocUrb u :: t)
                     [] (us ++ [u]) (bs ++ [b]) [] w3).
    { apply (probing_store_in _ _ _ _ _ _ u b w2 w3 Hpb2);
        try reflexivity; try assumption.
      - lia.
      - subst w3 i. reflexivity.
      - subst w3 i. reflexivity.
      - subst w3. wsimpl. rewrite Z.eqb_refl. reflexivity.
      - subst w3. wsimpl. rewrite Z.eqb_refl. reflexivity.
      - subst w3. wsimpl. rewrite Z.eqb_refl. reflexivity.
      - subst w3. wsimpl. rewrite Z.eqb_refl. reflexivity.
      - intros x Hx. subst w3. wsimpl. apply Z.eqb_neq in Hx. rewrite Hx.
        reflexivity. }
    assert (Hrx3 : receiving ival us w3).
    { apply (receiving_same ival us w2); try reflexivity;
        [exact Hrx2| |auto].
      cbn zeta. subst w3. wsimpl. apply Z.eqb_neq in Hsu. rewrite Hsu.
      repeat split. }
    assert (Hpipe : urb_pipe (w_urbs w3 u) =
                    rcvbulkpipe (cport_in_endpoint (w_es1 w3))).
    { subst w3. wsimpl. rewrite Z.eqb_refl. reflexivity. }
    assert (Hep3 : same_endpoints (w_es1 w) (w_es1 w3)).
    { rewrite <- He12. subst w3. repeat split. }
    clearbody w3. clear Hpb2 Hrx2 Hsvc2 Hsu He12.
    (* usb_submit_urb *)
    pose proof (usb_submit_urb_probing _ _ _ _ _ _ u _ Hpb3) as H4.
    cbn zeta in H4.
    destruct (usb_submit_urb u w3) as [r w4]. cbn [fst snd] in H4.
    destruct H4 as (_ & He4 & Hf4 & Hq4 & Hin4 & Hpb4).
    set (ev := EvSubmit u (urb_pipe (w_urbs w3 u))
                 (transfer_buffer (w_urbs w3 u))
                 (transfer_buffer_length (w_urbs w3 u)) r) in *.
    assert (Hrx4 : receiving ival us w4).
    { apply (receiving_same ival us w3); try (rewrite He4; reflexivity);
        [exact Hrx3| |exact Hq4].
      cbn zeta. apply Hf4. }
    destruct (Z.eqb_spec r 0) as [Hr|Hr]; cbn [negb] in Hres; subst res.
    + assert (Hs4 : forallb succeeded
                       (ev :: EvKmalloc ES1_GBUF_MSG_SIZE_MAX b
                           :: EvAllocUrb u :: t) = true).
      { subst ev. cbn [forallb succeeded] in Hs2 |- *. rewrite Hs2.
        apply andb_true_iff. split; [apply Z.eqb_eq; exact Hr|reflexivity]. }
      destruct (IH (S i) r w4 _ (us ++ [u]) (bs ++ [b]) Hpb4
                  ltac:(apply receiving_snoc; [exact Hrx4|];
                        rewrite He4, <- Hpipe; apply Hin4; exact Hr)
                  Hs4 eq_refl
                  ltac:(rewrite length_app; cbn [length]; lia) ltac:(lia))
        as (t' & us' & bs' & G1 & G2 & G3 & G4).
      exists t', us', bs'. split; [exact G1|]. split; [exact G2|].
      split; [exact G3|]. intros Hok.
      destruct (G4 Hok) as (G5 & G6 & G7 & G8).
      split; [exact G5|]. split; [exact G6|]. split; [exact G7|].
      rewrite He4 in G8. unfold same_endpoints in *.
      intuition congruence.
    + cbn [ret fst snd].
      exists (ev :: EvKmalloc ES1_GBUF_MSG_SIZE_MAX b :: EvAllocUrb u :: t),
        (us ++ [u]), (bs ++ [b]).
      assert (Hlost4 : lost_urbs
                (ev :: EvKmalloc ES1_GBUF_MSG_SIZE_MAX b :: EvAllocUrb u :: t)
                = []).
      { subst ev. cbn [lost_urbs]. rewrite Hbz.
        cbn [forallb] in Hs2. apply andb_true_iff in Hs2 as [_ Hs2].
        apply andb_true_iff in Hs2 as [_ Hs2].
        rewrite (succeeded_no_lost t Hs2). reflexivity. }
      rewrite Hlost4.
      split; [exact Hpb4|]. split; [subst ev; reflexivity|].
      split; [exact Hs2|]. intros H; discriminate H.
Qed.

(** The CPort OUT loop: it ends with the eight urbs of the pool stored, or
    at the first failure of [usb_alloc_urb]. *)
Lemma probe_cport_out_run (w0 : world) (ival : Z) (us bs : list ptr)
    (n : nat) :
  forall (i : nat) (w : world) (t : list event) (os : list ptr),
    probing w0 t [] us bs os w ->
    receiving ival us w ->
    forallb succeeded t = true ->
    length os = i -> (i + n = NUM_CPORT_OUT_URB)%nat ->
    let res := probe_cport_out i n w in
    exists (t' : list event) (os' : list ptr),
      probing w0 t' [] us bs os' (snd res)
      /\ last_submit_result t' = last_submit_result t
      /\ forallb succeeded (tail t') = true
      /\ lost_urbs t' = []
      /\ (fst res = true ->
          forallb succeeded t' = true
          /\ length os' = NUM_CPORT_OUT_URB
          /\ receiving ival us (snd res)
          /\ same_endpoints (w_es1 w) (w_es1 (snd res))).
Proof.
  induction n as [|n IH]; intros i w t os Hpb Hrx Hs Hi Hn; cbn zeta.
  - cbn [probe_cport_out ret fst snd]. exists t, os.
    split; [exact Hpb|]. split; [reflexivity|].
    split; [destruct t; [reflexivity|]; cbn [forallb] in Hs;
            apply andb_true_iff in Hs; apply Hs|].
    split; [apply succeeded_no_lost; exact Hs|].
    intros _. split; [exact Hs|]. split; [lia|]. split; [exact Hrx|].
    repeat split.
  - remember (probe_cport_out i (S n) w) as res eqn:Hres.
    cbn [probe_cport_out] in Hres. unfold bind at 1 in Hres.
    pose proof (succeeded_no_lost t Hs) as Hlost.
    assert (Hsvc : svc_urb (w_es1 w) <> NULL) by apply Hrx.
    pose proof (usb_alloc_urb_probing _ _ _ _ _ _ _ Hpb) as H1.
    cbn zeta in H1.
    destruct (usb_alloc_urb w) as [u w1]. cbn [fst snd] in H1.
    destruct H1 as (He1 & Hq1 & Hu1 & [[-> Hpb1]|(-> & Hnn & Hpb1 & _)]).
    { cbn [Z.eqb NULL ret] in Hres. subst res. cbn [fst snd].
      exists (EvAllocUrb NULL :: t), os. cbn [lost_urbs tail].
      split; [exact Hpb1|]. split; [reflexivity|]. split; [exact Hs|].
      split; [exact Hlost|]. intros H; discriminate H. }
    assert (Hrx1 : receiving ival us w1).
    { apply (receiving_same ival us w); try (rewrite He1; reflexivity);
        [exact Hrx| |rewrite Hq1; auto].
      cbn zeta. rewrite Hu1; [repeat split|].
      apply (proj1 (probing_svc_below _ _ _ _ _ _ _ Hpb Hsvc)). }
    assert (Hnz : (w_heap_next w =? NULL) = false)
      by (apply Z.eqb_neq; exact Hnn).
    rewrite Hnz in Hres. cbn beta iota in Hres.
    set (u := w_heap_next w) in *.
    assert (Hs1 : forallb succeeded (EvAllocUrb u :: t) = true).
    { cbn [forallb succeeded]. rewrite Hnz, Hs. reflexivity. }
    clear Hu1 Hq1 Hpb Hrx Hsvc. clearbody u.
    unfold modify_es1, bind, modify in Hres. cbn beta iota in Hres.
    match type of Hres with
    | context [probe_cport_out (S i) n ?W] => set (w2 := W) in *
    end.
    assert (Hpb2 : probing w0 (EvAllocUrb u :: t) [] us bs (os ++ [u]) w2).
    { apply (probing_store_out _ _ _ _ _ _ u w1 w2 Hpb1);
        try reflexivity; try assumption.
      - lia.
      - subst w2 i. reflexivity.
      - subst w2. wsimpl. apply length_insert. }
    assert (Hrx2 : receiving ival us w2).
    { apply (receiving_same ival us w1); try reflexivity;
        [exact Hrx1| |auto].
      cbn zeta. repeat split. }
    assert (Hep2 : same_endpoints (w_es1 w) (w_es1 w2)).
    { rewrite <- He1. subst w2. repeat split. }
    clearbody w2. subst res.
    destruct (IH (S i) w2 _ (os ++ [u]) Hpb2 Hrx2 Hs1
                ltac:(rewrite length_app; cbn [length]; lia) ltac:(lia))
      as (t' & os' & G1 & G2 & G3 & G4 & G5).
    exists t', os'. split; [exact G1|]. split; [rewrite G2; reflexivity|].
    split; [exact G3|]. split; [exact G4|]. intros Hok.
    destruct (G5 Hok) as (G6 & G7 & G8 & G9).
    split; [exact G6|]. split; [exact G7|]. split; [exact G8|].
    unfold same_endpoints in *. intuition congruence.
Qed.

(** ** Attach: the whole of [ap_probe] *)

Lemma last_of_kind_found (kind : usb_endpoint_descriptor -> bool)
    (eps : list usb_endpoint_descriptor) :
  existsb kind eps = true ->
  exists e : usb_endpoint_descriptor, last_of_kind kind eps = Some e.
Proof.
  induction eps as [|a eps IH]; cbn [existsb last_of_kind]; [discriminate|].
  intros H. destruct (last_of_kind kind eps) as [x|]; [eauto|].
  destruct (kind a); [eauto|]. cbn [orb] in H. apply IH. exact H.
Qed.

Lemma passive_no_lost (t : list event) :
  forallb passive t = true -> lost_urbs t = [].
Proof.
  intros H. rewrite <- (app_nil_r t). rewrite (passive_lost t [] H).
  reflexivity.
Qed.

Lemma lost_urbs_kmalloc_passive (size : Z) (p : ptr) (t : list event) :
  forallb passive t = true -> lost_urbs (EvKmalloc size p :: t) = [].
Proof.
  intros H. cbn [lost_urbs]. rewrite (passive_no_lost t H), app_nil_r.
  destruct t as [|[] t]; try reflexivity. cbn in H. discriminate H.
Qed.

Lemma passive_no_submit (t : list event) :
  forallb passive t = true -> last_submit_result t = None.
Proof.
  intros H. rewrite <- (app_nil_r t). rewrite (passive_last_submit t [] H).
  reflexivity.
Qed.

Lemma succeeded_tail (t : list event) :
  forallb succeeded t = true -> forallb succeeded (tail t) = true.
Proof.
  destruct t as [|e t]; [auto|]. cbn [forallb tail]. intros H.
  apply andb_true_iff in H. apply H.
Qed.

(** Leaving [ap_probe] by its [error:] label. *)
Lemma ap_probe_gives_up (w0 : world) (ep0 : Z)
    (eps : list usb_endpoint_descriptor) (t : list event)
    (us bs os : list ptr) (rv : Z) (w : world) :
  probing w0 t (lost_urbs t) us bs os w ->
  rv = default (- ENOMEM) (last_submit_result t) ->
  forallb succeeded (tail t) = true ->
  exists t' : list event,
    fst (probe_error rv w) = default (- ENOMEM) (last_submit_result t')
    /\ forallb succeeded (tail t') = true
    /\ ((forallb succeeded t' = true
         /\ attached w0 ep0 eps t' (snd (probe_error rv w)))
        \/ gave_up w0 t' (snd (probe_error rv w))).
Proof.
  intros Hpb Hrv Hs.
  destruct (probe_error_run _ _ _ _ _ _ rv _ Hpb)
    as (H1 & H2 & H3 & H4 & H5 & H6).
  exists t. split; [rewrite H1; exact Hrv|]. split; [exact Hs|].
  right. unfold gave_up. auto.
Qed.

Lemma ap_probe_run (ep0 : Z) (eps : list usb_endpoint_descriptor)
    (w0 : world) :
  0 < w_heap_next w0 ->
  let res := ap_probe ep0 eps w0 in
  (next_alloc_ok w0 = false
   /\ fst res = - ENOMEM
   /\ w_trace (snd res) = EvPutDev :: EvGetDev :: w_trace w0
   /\ w_live (snd res) = w_live w0
   /\ w_udev_refs (snd res) = w_udev_refs w0
   /\ w_intfdata (snd res) = w_intfdata w0
   /\ w_hd (snd res) = w_hd w0
   /\ w_es1 (snd res) = w_es1 w0)
  \/ (next_alloc_ok w0 = true
      /\ exists t : list event,
           fst res = default (- ENOMEM) (last_submit_result t)
           /\ forallb succeeded (tail t) = true
           /\ ((forallb succeeded t = true
                /\ attached w0 ep0 eps t (snd res))
               \/ gave_up w0 t (snd res))).
Proof.
  intros Hpos. cbn zeta.
  remember (ap_probe ep0 eps w0) as res eqn:Hres.
  unfold ap_probe, usb_get_dev, usb_put_dev, greybus_create_hd, heap_alloc,
    modify_es1 in Hres.
  unfold dev_err, emit, modify, get, bind, ret in Hres.
  cbn beta iota zeta in Hres.
  assert (Hna : forall (x : list event) (y : Z),
            next_alloc_ok (set_trace x (set_udev_refs y w0)) =
            next_alloc_ok w0) by reflexivity.
  rewrite Hna in Hres. clear Hna.
  destruct (next_alloc_ok w0) eqn:Hok.
  2:{ left. cbn [Z.eqb NULL] in Hres. subst res. wsimpl.
      repeat (split; [reflexivity|]). split; [lia|]. repeat split. }
  right. split; [reflexivity|].
  assert (Hnn : (w_heap_next w0 =? NULL) = false)
    by (apply Z.eqb_neq; unfold NULL; lia).
  do 3 (cbn beta iota in Hres; wsimpl; rewrite ?Hnn in Hres).
  match type of Hres with
  | context [probe_endpoints eps ?f0 ?w1] =>
      pose proof (probe_endpoints_run eps f0 w1) as [Hw2 Hival];
      pose proof (probe_endpoints_spec eps f0 w1) as (Hf1 & Hf2 & Hf3 & _);
      destruct (probe_endpoints eps f0 w1) as [f w2]
  end.
  cbn [fst snd] in Hw2, Hival, Hf1, Hf2, Hf3.
  cbn [int_in_found bulk_in_found bulk_out_found svc_interval orb]
    in Hival, Hf1, Hf2, Hf3.
  wsimpl.
  set (hd := w_heap_next w0) in *.
  set (t2 := unknown_endpoint_logs eps ++ [EvCreateHd hd; EvGetDev]).
  destruct (unknown_endpoint_logs_succeeded eps) as [Hls Hlp].
  assert (Hs2 : forallb succeeded t2 = true)
    by (subst t2; rewrite forallb_app, Hls; reflexivity).
  assert (Hp2 : forallb passive t2 = true)
    by (subst t2; rewrite forallb_app, Hlp; reflexivity).
  assert (Hpb2 : probing w0 t2 [] [] [] [] w2).
  { destruct (chunk_pos sizeof_hd) as [Hcp _].
    subst w2 t2. constructor; wsimpl; try reflexivity.
    - lia.
    - rewrite <- app_assoc. reflexivity.
    - cbn [length]. unfold NUM_CPORT_IN_URB, NUM_CPORT_OUT_URB.
      repeat split; lia.
    - constructor.
    - unfold held. wsimpl. cbn. split.
      + apply NoDup_singleton.
      + apply Forall_singleton. subst hd. lia.
    - intros k u b H. rewrite lookup_nil in H. discriminate H.
    - intros H. exfalso. apply H. reflexivity. }
  assert (Hsu2 : svc_urb (w_es1 w2) = NULL) by (subst w2; reflexivity).
  assert (Hsb2 : svc_buffer (w_es1 w2) = NULL) by (subst w2; reflexivity).
  assert (Hep2 : control_endpoint (w_es1 w2) = ep0
                 /\ svc_endpoint (w_es1 w2) =
                      match last_of_kind usb_endpoint_is_int_in eps with
                      | Some e => bEndpointAddress e
                      | None => 0
                      end
                 /\ cport_in_endpoint (w_es1 w2) =
                      match last_of_kind usb_endpoint_is_bulk_in eps with
                      | Some e => bEndpointAddress e
                      | None => 0
                      end
                 /\ cport_out_endpoint (w_es1 w2) =
                      match last_of_kind usb_endpoint_is_bulk_out eps with
                      | Some e => bEndpointAddress e
                      | None => 0
                      end)
    by (subst w2; repeat split).
  clear Hw2.
  destruct (negb (int_in_found f) || negb (bulk_in_found f)
            || negb (bulk_out_found f)) eqn:Hflags.
  { (* an endpoint is missing *)
    subst res.
    apply (ap_probe_gives_up w0 ep0 eps
             (EvLog log_not_enough_endpoints :: t2) [] [] []).
    - rewrite succeeded_no_lost by (cbn [forallb succeeded]; exact Hs2).
      apply (probing_same _ _ _ _ _ _ _ Hpb2 [EvLog log_not_enough_endpoints]);
        try reflexivity.
      + intros x _. repeat split.
      + apply Hpb2.
    - cbn [last_submit_result]. rewrite (passive_no_submit t2 Hp2).
      reflexivity.
    - exact Hs2. }
  rewrite Hf1, Hf2, Hf3 in Hflags.
  apply orb_false_iff in Hflags as [Hflags Hfo].
  apply orb_false_iff in Hflags as [Hfi Hfb].
  apply negb_false_iff in Hfi, Hfb, Hfo.
  destruct (last_of_kind_found _ _ Hfi) as [e_svc Hk1].
  destruct (last_of_kind_found _ _ Hfb) as [e_in Hk2].
  destruct (last_of_kind_found _ _ Hfo) as [e_out Hk3].
  rewrite Hk1, Hk2, Hk3 in Hep2. rewrite Hk1 in Hival.
  clear Hf1 Hf2 Hf3 Hfi Hfb Hfo Hls Hlp.
  cbn beta in Hres.
  (* the SVC buffer *)
  pose proof (kmalloc_probing _ _ _ _ _ _ ES1_SVC_MSG_SIZE _ Hpb2) as H3.
  cbn zeta in H3.
  destruct (kmalloc ES1_SVC_MSG_SIZE w2) as [p w3]. cbn [fst snd] in H3.
  destruct H3 as (He3 & Hq3 & Hu3 & [[-> Hpb3]|(_ & Hpn & Hpb3)]).
  { cbn [Z.eqb NULL] in Hres. subst res.
    apply (ap_probe_gives_up w0 ep0 eps
             (EvKmalloc ES1_SVC_MSG_SIZE NULL :: t2) [] [] []).
    - rewrite (lost_urbs_kmalloc_passive _ _ _ Hp2).
      apply (probing_same _ _ _ _ _ _ _ Hpb3 []); try reflexivity.
      + wsimpl. rewrite He3, Hsb2. reflexivity.
      + intros x _. repeat split.
      + apply Hpb3.
    - cbn [last_submit_result]. rewrite (passive_no_submit t2 Hp2).
      reflexivity.
    - exact Hs2. }
  assert (Hpz : (p =? NULL) = false) by (apply Z.eqb_neq; exact Hpn).
  rewrite Hpz in Hres. cbn beta iota in Hres.
  set (t3 := EvKmalloc ES1_SVC_MSG_SIZE p :: t2) in *.
  assert (Hs3 : forallb succeeded t3 = true).
  { subst t3. cbn [forallb succeeded]. rewrite Hpz, Hs2. reflexivity. }
  assert (Hl3 : last_submit_result t3 = None).
  { subst t3. cbn [last_submit_result]. apply passive_no_submit. exact Hp2. }
  match type of Hres with
  | context [usb_alloc_urb ?W] => set (w3' := W) in *
  end.
  assert (Hpb3' : probing w0 t3 [] [] [] [] w3').
  { apply (probing_store_svc_buffer _ _ _ _ _ _ _ _ Hpb3);
      [rewrite He3; exact Hsb2 | exact Hpn]. }
  assert (Hsu3 : svc_urb (w_es1 w3') = NULL)
    by (subst w3'; wsimpl; rewrite He3; exact Hsu2).
  assert (Hsb3 : svc_buffer (w_es1 w3') = p) by (subst w3'; reflexivity).
  assert (Hep3 : same_endpoints (w_es1 w2) (w_es1 w3')).
  { rewrite <- He3. subst w3'. repeat split. }
  clearbody w3'. clear Hpb2 Hpb3 He3 Hq3 Hu3 Hsu2 Hsb2 Hp2 Hs2 w3.
  (* the SVC urb *)
  pose proof (usb_alloc_urb_probing _ _ _ _ _ _ _ Hpb3') as H4.
  cbn zeta in H4.
  destruct (usb_alloc_urb w3') as [u w4]. cbn [fst snd] in H4.
  destruct H4 as (He4 & Hq4 & Hu4 & [[-> Hpb4]|(_ & Hun & Hpb4 & Hz4)]).
  { cbn [Z.eqb NULL] in Hres. subst res.
    apply (ap_probe_gives_up w0 ep0 eps (EvAllocUrb NULL :: t3) [] [] []).
    - cbn [lost_urbs]. rewrite (succeeded_no_lost t3 Hs3).
      apply (probing_same _ _ _ _ _ _ _ Hpb4 []); try reflexivity.
      + wsimpl. rewrite He4, Hsu3. reflexivity.
      + intros x _. repeat split.
      + apply Hpb4.
    - cbn [last_submit_result]. rewrite Hl3. reflexivity.
    - exact Hs3. }
  assert (Huz : (u =? NULL) = false) by (apply Z.eqb_neq; exact Hun).
  rewrite Huz in Hres. cbn beta iota in Hres.
  set (t4 := EvAllocUrb u :: t3) in *.
  assert (Hs4 : forallb succeeded t4 = true).
  { subst t4. cbn [forallb succeeded]. rewrite Huz, Hs3. reflexivity. }
  assert (Hl4 : last_submit_result t4 = None) by exact Hl3.
  unfold usb_fill_int_urb, update_urb, modify in Hres.
  cbn beta iota in Hres. wsimpl.
  match type of Hres with
  | context [usb_submit_urb u ?W] => set (w5 := W) in *
  end.
  assert (Hpb5 : probing w0 t4 [] [] [] [] w5).
  { assert (Hpb4' : probing w0 t4 [] [] [] []
                      (set_es1 (set_svc (svc_buffer (w_es1 w4)) u (w_es1 w4))
                         w4)).
    { apply (probing_store_svc_urb _ _ _ _ _ _ _ _ Hpb4);
        [rewrite He4; exact Hsu3 | exact Hun |].
      rewrite Hz4. discriminate. }
    apply (probing_same _ _ _ _ _ _ _ Hpb4' []); try reflexivity.
    - intros x Hx. apply elem_of_nil in Hx. contradiction.
    - intros _. subst w5. wsimpl. rewrite Z.eqb_refl. discriminate. }
  assert (Hsu5 : svc_urb (w_es1 w5) = u) by (subst w5; reflexivity).
  assert (Hsb5 : svc_buffer (w_es1 w5) = p)
    by (subst w5; wsimpl; rewrite He4; exact Hsb3).
  assert (Hep5 : same_endpoints (w_es1 w2) (w_es1 w5)).
  { subst w5. unfold same_endpoints in *. wsimpl. rewrite He4. exact Hep3. }
  assert (Hurb5 : urb_pipe (w_urbs w5 u) =
                    rcvintpipe (svc_endpoint (w_es1 w5))
                  /\ transfer_buffer (w_urbs w5 u) = p
                  /\ transfer_buffer_length (w_urbs w5 u) =
                       to_u32 (to_int ES1_SVC_MSG_SIZE)
                  /\ interval (w_urbs w5 u) =
                       int_urb_interval udev_speed (svc_interval f)
                  /\ complete (w_urbs w5 u) = svc_in_callback_fn).
  { subst w5. wsimpl. rewrite Z.eqb_refl, He4, Hsb3. repeat split. }
  clearbody w5.
  clear Hpb3' Hpb4 He4 Hq4 Hu4 Hz4 Hsu3 Hsb3 Hep3 Hs3 Hl3 w3' w4.
  (* submitting it *)
  pose proof (usb_submit_urb_probing _ _ _ _ _ _ u _ Hpb5) as H6.
  cbn zeta in H6.
  destruct (usb_submit_urb u w5) as [r w6]. cbn [fst snd] in H6.
  destruct H6 as (_ & He6 & Hf6 & Hq6 & Hin6 & Hpb6).
  set (t5 := EvSubmit u (urb_pipe (w_urbs w5 u))
               (transfer_buffer (w_urbs w5 u))
               (transfer_buffer_length (w_urbs w5 u)) r :: t4) in *.
  destruct (Z.eqb_spec r 0) as [Hr|Hr]; cbn [negb] in Hres.
  2:{ subst res.
      apply (ap_probe_gives_up w0 ep0 eps t5 [] [] []).
      - subst t5. cbn [lost_urbs]. rewrite (succeeded_no_lost t4 Hs4).
        exact Hpb6.
      - reflexivity.
      - exact Hs4. }
  assert (Hs5 : forallb succeeded t5 = true).
  { subst t5. cbn [forallb succeeded]. rewrite Hs4.
    apply andb_true_iff. split; [apply Z.eqb_eq; exact Hr|reflexivity]. }
  assert (Hrx6 : receiving (int_urb_interval udev_speed (bInterval e_svc))
                   [] w6).
  { rewrite <- Hival. unfold receiving. cbn zeta. rewrite He6, Hsu5, Hsb5.
    destruct (Hf6 u) as (F1 & F2 & F3 & F4 & F5).
    destruct Hurb5 as (U1 & U2 & U3 & U4 & U5).
    rewrite F1, F2, F3, F4, F5, U1, U2, U3, U4, U5.
    repeat (split; [first [assumption | reflexivity]|]).
    split.
    - pose proof (Hin6 Hr) as Hin. rewrite U1 in Hin. exact Hin.
    - intros x Hx. apply elem_of_nil in Hx. contradiction. }
  assert (Hep6 : same_endpoints (w_es1 w2) (w_es1 w6))
    by (rewrite He6; exact Hep5).
  cbn beta in Hres.
  clear Hpb5 Hf6 Hq6 Hin6 Hurb5 Hsu5 Hsb5 Hep5 He6 Hs4 Hl4.
  (* the CPort IN urbs *)
  pose proof (probe_cport_in_run w0
                (int_urb_interval udev_speed (bInterval e_svc))
                NUM_CPORT_IN_URB 0 r w6
                t5 [] [] Hpb6 Hrx6 Hs5 eq_refl eq_refl eq_refl) as H7.
  cbn zeta in H7.
  destruct (probe_cport_in 0 NUM_CPORT_IN_URB r w6) as [[ok rv] w7].
  cbn [fst snd] in H7, Hres.
  destruct H7 as (t7 & us & bs & Hpb7 & Hl7 & Hs7 & Hok7).
  destruct ok; cbn [negb] in Hres.
  2:{ subst res.
      apply (ap_probe_gives_up w0 ep0 eps t7 us bs [] rv w7 Hpb7);
        [rewrite Hl7; reflexivity | exact Hs7]. }
  destruct (Hok7 eq_refl) as (Hs7' & Hlen7 & Hrx7 & Hep7).
  rewrite (succeeded_no_lost t7 Hs7') in Hpb7.
  pose proof (succeeded_last_submit t7 rv Hs7' Hl7) as Hrv.
  cbn beta in Hres.
  clear Hpb6 Hrx6 Hs5 Hok7 Hs7.
  (* the CPort OUT urbs *)
  pose proof (probe_cport_out_run w0
                (int_urb_interval udev_speed (bInterval e_svc)) us bs
                NUM_CPORT_OUT_URB 0 w7 t7 [] Hpb7 Hrx7 Hs7' eq_refl eq_refl)
    as H8.
  cbn zeta in H8.
  destruct (probe_cport_out 0 NUM_CPORT_OUT_URB w7) as [ok w8].
  cbn [fst snd] in H8, Hres.
  destruct H8 as (t8 & os & Hpb8 & Hl8 & Hs8 & Hlost8 & Hok8).
  destruct ok; cbn [negb] in Hres.
  2:{ subst res.
      apply (ap_probe_gives_up w0 ep0 eps t8 us bs os rv w8);
        [rewrite Hlost8; exact Hpb8 | rewrite Hl8, Hl7; reflexivity
        | exact Hs8]. }
  destruct (Hok8 eq_refl) as (Hs8' & Hlen8 & Hrx8 & Hep8).
  subst res. cbn [fst snd]. exists t8.
  split; [rewrite Hl8, Hl7, Hrv; reflexivity|]. split; [exact Hs8|].
  left. split; [exact Hs8'|].
  exists e_svc, e_in, e_out, us, bs, os.
  split; [exact Hk1|]. split; [exact Hk2|]. split; [exact Hk3|].
  unfold same_endpoints in Hep6, Hep7, Hep8.
  destruct Hep2 as (E1 & E2 & E3 & E4).
  destruct Hep6 as (A1 & A2 & A3 & A4).
  destruct Hep7 as (B1 & B2 & B3 & B4).
  destruct Hep8 as (C1 & C2 & C3 & C4).
  split; [congruence|]. split; [congruence|]. split; [congruence|].
  split; [congruence|]. split; [exact Hpb8|]. split; [exact Hlen7|].
  split; [exact Hlen8|exact Hrx8].
Qed.

Lemma probe_error_snd (rv : Z) (w : world) :
  snd (probe_error rv w) = snd (ap_disconnect w).
Proof.
  unfold probe_error, bind, ret. destruct (ap_disconnect w) as [[] w'].
  reflexivity.
Qed.

Lemma succeeded_not_failed (t : list event) :
  forallb succeeded t = true -> existsb failed_alloc t = false.
Proof.
  induction t as [|e t IH]; [reflexivity|].
  cbn [forallb existsb]. intros H. apply andb_true_iff in H as [He Ht].
  rewrite (IH Ht), orb_false_r.
  destruct e; try reflexivity; cbn [succeeded failed_alloc] in *;
    apply negb_true_iff in He; exact He.
Qed.

Lemma passive_not_failed (t : list event) :
  forallb passive t = true ->
  existsb failed_alloc t = false /\ existsb is_submit t = false.
Proof.
  induction t as [|e t IH]; [split; reflexivity|].
  cbn [forallb existsb]. intros H. apply andb_true_iff in H as [He Ht].
  destruct (IH Ht) as [-> ->]. rewrite !orb_false_r.
  destruct e; try (split; reflexivity); cbn in He; discriminate He.
Qed.

Lemma succeeded_submitted (t : list event) :
  forallb succeeded t = true -> existsb is_submit t = true ->
  last_submit_result t = Some 0.
Proof.
  induction t as [|e t IH]; [discriminate|].
  cbn [forallb existsb]. intros H Hsub. apply andb_true_iff in H as [He Ht].
  destruct e; cbn [is_submit orb] in Hsub; cbn [last_submit_result];
    try (apply IH; assumption).
  cbn [succeeded] in He. apply Z.eqb_eq in He. rewrite He. reflexivity.
Qed.

Lemma lost_urbs_at_most_one (t : list event) :
  forallb succeeded (tail t) = true -> (length (lost_urbs t) <= 1)%nat.
Proof.
  destruct t as [|e t]; [cbn; lia|]. cbn [tail]. intros H.
  pose proof (succeeded_no_lost t H) as Ht.
  destruct e; cbn [lost_urbs]; rewrite Ht; cbn [length]; try lia.
  rewrite app_nil_r. destruct t as [|[] ?]; cbn [length]; try lia.
  destruct (p =? NULL); cbn [length]; lia.
Qed.

(** In the valid range of [bInterval] for high-speed and SuperSpeed
    devices the interval stored is [1 << (bInterval - 1)]; for the other
    speeds it is [bInterval] itself. *)
Lemma int_urb_interval_spec (speed : usb_device_speed) (interval : Z) :
  match speed with
  | USB_SPEED_HIGH | USB_SPEED_SUPER | USB_SPEED_SUPER_PLUS =>
      1 <= interval <= 16 ->
      int_urb_interval speed interval = 2 ^ (interval - 1)
  | _ => int_urb_interval speed interval = interval
  end.
Proof.
  destruct speed; cbn [int_urb_interval]; try reflexivity; intros H;
    rewrite Z.shiftl_mul_pow2, Z.mul_1_l by lia; f_equal; lia.
Qed.


(** X13: Attach followed by detach is balanced: after a successful [ap_probe],
    [ap_disconnect] leaves allocated exactly what was allocated before the
    attach, restores the reference count of the USB device, unbinds the
    interface and removes the host device, without allocating or
    submitting anything. *)
Theorem ap_probe_then_disconnect (ep0 : Z)
    (eps : list usb_endpoint_descriptor) (w0 : world) :
  0 < w_heap_next w0 ->
  fst (ap_probe ep0 eps w0) = 0 ->
  w_intfdata (snd (ap_probe ep0 eps w0)) = true ->
  let w := snd (ap_probe ep0 eps w0) in
  let w' := snd (ap_disconnect w) in
  w_live w' ≡ₚ w_live w0
  /\ w_udev_refs w' = w_udev_refs w0
  /\ w_intfdata w' = false
  /\ w_hd w' = NULL
  /\ exists ev : list event,
       w_trace w' = ev ++ w_trace w /\ forallb passive ev = true.
Proof.
  intros Hpos Hret Hintf. cbn zeta.
  destruct (ap_probe_run ep0 eps w0 Hpos)
    as [(_ & Hf & _)|(_ & t & _ & _ & [[Hs Ha]|Hg])].
  - cbn zeta in Hf. rewrite Hf in Hret. discriminate Hret.
  - destruct Ha as (e1 & e2 & e3 & us & bs & os & _ & _ & _ & _ & _ & _ & _
                    & Hpb & _).
    cbn zeta in Hpb.
    destruct (probe_error_run _ _ _ _ _ _ 0 _ Hpb)
      as (_ & H2 & H3 & H4 & H5 & ev & H6 & H7).
    rewrite probe_error_snd in H2, H3, H4, H5, H6.
    split; [exact H5|]. split; [exact H4|]. split; [exact H2|].
    split; [exact H3|]. exists ev.
    rewrite H6, (pb_trace _ _ _ _ _ _ _ Hpb). split; [reflexivity|exact H7].
  - destruct Hg as (Hi & _). cbn zeta in Hi. rewrite Hi in Hintf.
    discriminate Hintf.
Qed.

(** X14: A failed [ap_probe] undoes what it did, except for one urb: when it
    returns without the interface bound, the reference count of the USB
    device is what it was, and what is allocated is what was allocated
    before the call plus the urbs of [lost_urbs], of which there is at most
    one: the CPort IN urb allocated just before a failed [kmalloc] of its
    buffer is stored nowhere and is not freed. *)
Theorem ap_probe_failure_releases (ep0 : Z)
    (eps : list usb_endpoint_descriptor) (w0 : world) :
  0 < w_heap_next w0 ->
  w_intfdata (snd (ap_probe ep0 eps w0)) = false ->
  let w := snd (ap_probe ep0 eps w0) in
  exists new : list event,
    w_trace w = new ++ w_trace w0
    /\ w_live w ≡ₚ lost_urbs new ++ w_live w0
    /\ (length (lost_urbs new) <= 1)%nat
    /\ w_udev_refs w = w_udev_refs w0.
Proof.
  intros Hpos Hintf. cbn zeta.
  destruct (ap_probe_run ep0 eps w0 Hpos)
    as [(_ & _ & Ht & Hl & Hr & _)|(_ & t & _ & Hs & [[_ Ha]|Hg])];
    cbn zeta in *.
  - exists [EvPutDev; EvGetDev]. rewrite Ht, Hl, Hr.
    split; [reflexivity|]. split; [reflexivity|]. split; [cbn; lia|].
    reflexivity.
  - destruct Ha as (e1 & e2 & e3 & us & bs & os & _ & _ & _ & _ & _ & _ & _
                    & Hpb & _).
    rewrite (pb_intf _ _ _ _ _ _ _ Hpb) in Hintf. discriminate Hintf.
  - destruct Hg as (_ & _ & Hr & Hl & ev & Ht & Hp).
    exists (ev ++ t). rewrite (passive_lost ev t Hp).
    split; [rewrite Ht, app_assoc; reflexivity|]. split; [exact Hl|].
    split; [apply lost_urbs_at_most_one; exact Hs|exact Hr].
Qed.

(** X15: What [ap_probe] returns is the result of the last [usb_submit_urb] it
    made, or [-ENOMEM] if it made none: [retval] is assigned nowhere
    else. *)
Theorem ap_probe_return_value (ep0 : Z)
    (eps : list usb_endpoint_descriptor) (w0 : world) :
  0 < w_heap_next w0 ->
  let res := ap_probe ep0 eps w0 in
  exists new : list event,
    w_trace (snd res) = new ++ w_trace w0
    /\ fst res = default (- ENOMEM) (last_submit_result new).
Proof.
  intros Hpos. cbn zeta.
  destruct (ap_probe_run ep0 eps w0 Hpos)
    as [(_ & Hf & Ht & _)|(_ & t & Hf & _ & [[_ Ha]|Hg])];
    cbn zeta in *.
  - exists [EvPutDev; EvGetDev]. rewrite Ht, Hf. split; reflexivity.
  - destruct Ha as (e1 & e2 & e3 & us & bs & os & _ & _ & _ & _ & _ & _ & _
                    & Hpb & _).
    exists t. split; [apply Hpb|exact Hf].
  - destruct Hg as (_ & _ & _ & _ & ev & Ht & Hp).
    exists (ev ++ t). rewrite (passive_last_submit ev t Hp).
    split; [rewrite Ht, app_assoc; reflexivity|exact Hf].
Qed.

(** X16: [ap_probe] can fail and return 0: when an allocation fails after a
    [usb_submit_urb] has been made, the device is torn down (the interface
    is not bound and the host device is gone) and the value returned is 0,
    the result of the last submission. *)
Theorem ap_probe_zero_after_failure (ep0 : Z)
    (eps : list usb_endpoint_descriptor) (w0 : world) (new : list event) :
  0 < w_heap_next w0 ->
  let res := ap_probe ep0 eps w0 in
  w_trace (snd res) = new ++ w_trace w0 ->
  existsb failed_alloc new = true ->
  existsb is_submit new = true ->
  fst res = 0 /\ w_intfdata (snd res) = false /\ w_hd (snd res) = NULL.
Proof.
  intros Hpos. cbn zeta. intros Hnew Hfail Hsub.
  destruct (ap_probe_run ep0 eps w0 Hpos)
    as [(_ & _ & Ht & _)|(_ & t & Hf & Hs & [[Hs' Ha]|Hg])];
    cbn zeta in *.
  - rewrite Ht in Hnew.
    change (EvPutDev :: EvGetDev :: w_trace w0)
      with ([EvPutDev; EvGetDev] ++ w_trace w0) in Hnew.
    apply app_inv_tail in Hnew. subst new. discriminate Hfail.
  - destruct Ha as (e1 & e2 & e3 & us & bs & os & _ & _ & _ & _ & _ & _ & _
                    & Hpb & _).
    rewrite (pb_trace _ _ _ _ _ _ _ Hpb) in Hnew.
    apply app_inv_tail in Hnew. subst new.
    rewrite (succeeded_not_failed t Hs') in Hfail. discriminate Hfail.
  - destruct Hg as (Hi & Hhd & _ & _ & ev & Ht & Hp).
    split; [|split; assumption].
    rewrite Ht, app_assoc in Hnew. apply app_inv_tail in Hnew. subst new.
    destruct (passive_not_failed ev Hp) as [Hpf Hps].
    rewrite existsb_app, Hpf in Hfail. rewrite existsb_app, Hps in Hsub.
    cbn [orb] in Hfail, Hsub.
    destruct t as [|h t]; [discriminate Hfail|].
    cbn [tail] in Hs. cbn [existsb] in Hfail, Hsub.
    rewrite (succeeded_not_failed t Hs), orb_false_r in Hfail.
    rewrite Hf.
    assert (Ht0 : last_submit_result t = Some 0).
    { apply succeeded_submitted; [exact Hs|].
      destruct h; cbn [failed_alloc is_submit orb] in *;
        first [exact Hsub | discriminate Hfail]. }
    destruct h; cbn [failed_alloc] in Hfail; try discriminate Hfail;
      cbn [last_submit_result]; rewrite Ht0; reflexivity.
Qed.

(** ** Attach starts the receive paths *)

Lemma giveback_state (u : ptr) (st actual : Z) (w : world) :
  usb_hcd_giveback_urb u st actual w =
  run_complete u
    (set_urbs (fun x => if x =? u
                        then mk_urb (urb_pipe (w_urbs w u))
                               (transfer_buffer (w_urbs w u))
                               (transfer_buffer_length (w_urbs w u))
                               (to_u32 actual) (to_int st)
                               (interval (w_urbs w u)) (complete (w_urbs w u))
                        else w_urbs w x)
       (set_inflight (dequeue (urb_pipe (w_urbs w u)) u (w_inflight w)) w)).
Proof.
  unfold usb_hcd_giveback_urb, urb_done, update_urb. run_monad. reflexivity.
Qed.

(** X17: After a successful [ap_probe], whatever the memory holds by then,
    the completion with status 0 of any of the four CPort IN urbs, with
    [actual >= 1] bytes in its buffer (the buffer stored in the same slot of
    [cport_in_buffer]), is dispatched to [cport_in_callback]: the first byte
    is handed to [greybus_data_rcvd] as the cport id, with the rest of the
    buffer as data, and the urb is resubmitted on the bulk-in endpoint with
    the full buffer size. *)
Theorem attached_data_delivery (ep0 : Z) (eps : list usb_endpoint_descriptor)
    (w0 : world) (m : Z -> Z) (k : nat) (u : ptr) (actual C : Z)
    (payload : list Z) :
  0 < w_heap_next w0 ->
  fst (ap_probe ep0 eps w0) = 0 ->
  w_intfdata (snd (ap_probe ep0 eps w0)) = true ->
  let w := set_mem m (snd (ap_probe ep0 eps w0)) in
  let b := transfer_buffer (w_urbs w u) in
  cport_in_urb (w_es1 w) !! k = Some u ->
  1 <= actual < 2 ^ 32 ->
  read_bytes m b actual = C :: payload ->
  let w' := snd (usb_hcd_giveback_urb u 0 actual w) in
  cport_in_buffer (w_es1 w) !! k = Some b
  /\ w_trace w' =
       (if next_submit_result w =? 0 then []
        else [EvLog (log_cport_in_submit (next_submit_result w))]) ++
       EvSubmit u (rcvbulkpipe (cport_in_endpoint (w_es1 w))) b
         (to_u32 (to_int ES1_GBUF_MSG_SIZE_MAX)) (next_submit_result w)
       :: EvDataRcvd C (b + 1) (actual - 1) :: w_trace w
  /\ read_bytes (w_mem w') (b + 1) (actual - 1) = payload.
Proof.
  intros Hpos Hret Hintf. cbn zeta.
  destruct (ap_probe_run ep0 eps w0 Hpos)
    as [(_ & Hf & _)|(_ & t & _ & _ & [[_ Ha]|Hg])]; cbn zeta in *.
  { rewrite Hf in Hret. discriminate Hret. }
  2:{ destruct Hg as (Hi & _). rewrite Hi in Hintf. discriminate Hintf. }
  destruct Ha as (e1 & e2 & e3 & us & bs & os & _ & _ & _ & _ & _ & _ & _
                  & Hpb & Hlen & _).
  clear Hret Hintf.
  revert Hpb. generalize (snd (ap_probe ep0 eps w0)). intros w Hpb.
  wsimpl. intros Hu Hact Hbytes.
  destruct (pb_len _ _ _ _ _ _ _ Hpb) as (Hlb & _).
  rewrite (pb_in _ _ _ _ _ _ _ Hpb), Hlen, Nat.sub_diag in Hu.
  cbn [replicate] in Hu. rewrite app_nil_r in Hu.
  assert (Hk : (k < length bs)%nat)
    by (rewrite Hlb; eapply lookup_lt_Some; exact Hu).
  destruct (lookup_lt_is_Some_2 bs k Hk) as [b Hb].
  destruct (pb_rx _ _ _ _ _ _ _ Hpb k u b Hu Hb) as (R1 & R2 & R3 & R4).
  rewrite R2 in *.
  split.
  { rewrite (pb_buf _ _ _ _ _ _ _ Hpb), Hlb, Hlen, Nat.sub_diag.
    cbn [replicate]. rewrite app_nil_r. exact Hb. }
  rewrite giveback_state. unfold run_complete. wsimpl.
  rewrite Z.eqb_refl. cbn [complete]. rewrite R4, R1, R2, R3.
  match goal with
  | |- context [cport_in_callback u ?W] => set (w1 := W)
  end.
  assert (Hst : status (w_urbs w1 u) = 0).
  { subst w1. wsimpl. rewrite Z.eqb_refl. reflexivity. }
  assert (Hal : actual_length (w_urbs w1 u) = actual).
  { subst w1. wsimpl. rewrite Z.eqb_refl. cbn [actual_length].
    unfold to_u32. apply Z.mod_small. lia. }
  assert (Hbuf : transfer_buffer (w_urbs w1 u) = b).
  { subst w1. wsimpl. rewrite Z.eqb_refl. reflexivity. }
  assert (Hpipe : urb_pipe (w_urbs w1 u) =
                  rcvbulkpipe (cport_in_endpoint (w_es1 w))).
  { subst w1. wsimpl. rewrite Z.eqb_refl. reflexivity. }
  assert (Hsize : transfer_buffer_length (w_urbs w1 u) =
                  to_u32 (to_int ES1_GBUF_MSG_SIZE_MAX)).
  { subst w1. wsimpl. rewrite Z.eqb_refl. reflexivity. }
  assert (Hmem : w_mem w1 = m) by reflexivity.
  assert (Htr : w_trace w1 = w_trace w) by reflexivity.
  assert (Hnext : next_submit_result w1 = next_submit_result w)
    by reflexivity.
  clearbody w1.
  pose proof (cport_in_callback_delivers u w1 C payload) as H.
  cbn zeta in H. rewrite Hst, Hal, Hbuf, Hmem, Hpipe, Hsize, Htr, Hnext in H.
  destruct (H eq_refl Hact Hbytes) as (T1 & T2 & _).
  split; [exact T1 | exact T2].
Qed.

(** X18: After a successful [ap_probe], the completion with status 0 of the
    SVC urb is dispatched to [svc_in_callback]: the SVC buffer and the
    number of bytes received are handed to [greybus_svc_in], and the urb is
    resubmitted on the interrupt-in endpoint with the full buffer size. *)
Theorem attached_svc_delivery (ep0 : Z) (eps : list usb_endpoint_descriptor)
    (w0 : world) (actual : Z) :
  0 < w_heap_next w0 ->
  fst (ap_probe ep0 eps w0) = 0 ->
  w_intfdata (snd (ap_probe ep0 eps w0)) = true ->
  0 <= actual < 2 ^ 32 ->
  let w := snd (ap_probe ep0 eps w0) in
  let e := w_es1 w in
  let w' := snd (usb_hcd_giveback_urb (svc_urb e) 0 actual w) in
  svc_urb e <> NULL
  /\ svc_buffer e <> NULL
  /\ w_trace w' =
       (if next_submit_result w =? 0 then []
        else [EvLog (log_svc_in_submit (next_submit_result w))]) ++
       EvSubmit (svc_urb e) (rcvintpipe (svc_endpoint e)) (svc_buffer e)
         (to_u32 (to_int ES1_SVC_MSG_SIZE)) (next_submit_result w)
       :: EvSvcIn (svc_buffer e) actual :: w_trace w.
Proof.
  intros Hpos Hret Hintf Hact. cbn zeta.
  destruct (ap_probe_run ep0 eps w0 Hpos)
    as [(_ & Hf & _)|(_ & t & _ & _ & [[_ Ha]|Hg])]; cbn zeta in *.
  { rewrite Hf in Hret. discriminate Hret. }
  2:{ destruct Hg as (Hi & _). rewrite Hi in Hintf. discriminate Hintf. }
  destruct Ha as (e1 & e2 & e3 & us & bs & os & _ & _ & _ & _ & _ & _ & _
                  & _ & _ & _ & Hrx).
  clear Hret Hintf.
  revert Hrx. generalize (snd (ap_probe ep0 eps w0)). intros w Hrx.
  destruct Hrx as (N1 & N2 & R1 & R2 & R3 & _ & R5 & _).
  split; [exact N1|]. split; [exact N2|].
  set (u := svc_urb (w_es1 w)) in *.
  rewrite giveback_state. unfold run_complete. wsimpl.
  rewrite Z.eqb_refl. cbn [complete]. rewrite R5, R1, R2, R3.
  unfold svc_in_callback, bind. rewrite check_urb_status_eq. cbn zeta.
  wsimpl. rewrite Z.eqb_refl. cbn [status]. change (to_int 0 =? 0) with true.
  run_monad. wsimpl. rewrite Z.eqb_refl. cbn [negb]. cbn beta iota.
  wsimpl. rewrite Z.eqb_refl. cbn [transfer_buffer actual_length].
  rewrite svc_in_exit_trace. wsimpl. rewrite Z.eqb_refl.
  cbn [urb_pipe transfer_buffer transfer_buffer_length actual_length].
  replace (to_u32 actual) with actual
    by (unfold to_u32; symmetry; apply Z.mod_small; lia).
  reflexivity.
Qed.

Lemma pipe_eqb_eq (p q : pipe) : pipe_eqb p q = true -> p = q.
Proof.
  destruct p, q; cbn [pipe_eqb]; intros H; try discriminate H;
    try reflexivity; apply Z.eqb_eq in H; subst; reflexivity.
Qed.

End Proofs.

(** * The properties on the example device *)

Lemma world_attached_ok : dev_ok world_attached.
Proof.
  apply (ap_probe_attached (P := lp64) 0 es2_endpoints world0).
  - reflexivity.
  - reflexivity.
  - intros ep. reflexivity.
  - vm_compute. reflexivity.
  - vm_compute. reflexivity.
Defined.

Lemma world_submit_fails_ok (retval : Z) :
  dev_ok (world_submit_fails retval).
Proof.
  apply (dev_ok_frame world_attached _ world_attached_ok);
    vm_compute; try reflexivity. discriminate.
Defined.

Lemma world_attached_idle : pool_idle world_attached.
Proof.
  apply (ap_probe_attached (P := lp64) 0 es2_endpoints world0).
  - reflexivity.
  - reflexivity.
  - intros ep. reflexivity.
  - vm_compute. reflexivity.
  - vm_compute. reflexivity.
Defined.

Lemma world_attached_slot_free : slot_free world_attached.
Proof. exists 0%nat. vm_compute. reflexivity. Defined.

Lemma example_send_args_ok : send_args_ok (P := lp64) 5 100000 3.
Proof.
  unfold send_args_ok, NULL, INT_MAX, U8_MAX. cbn [CPORT_ID_BAD lp64]. lia.
Defined.

Lemma framing_round_trip_witness :
  dev_ok world_attached
  /\ send_args_ok (P := lp64) 5 100000 3
  /\ (slot_free world_attached \/ next_alloc_ok world_attached = true)
  /\ read_bytes (w_mem (world_rx 0 [7; 170; 187]))
       (transfer_buffer (w_urbs (world_rx 0 [7; 170; 187]) rx_urb))
       (actual_length (w_urbs (world_rx 0 [7; 170; 187]) rx_urb))
     = [7; 170; 187]
  /\ read_bytes
       (w_mem (snd (buffer_send (P := lp64) 5 100000 3 world_attached)))
       (100000 - 1) (3 + 1)
     = 5 :: read_bytes (w_mem world_attached) 100000 3
  /\ (exists (us : ptr) (pre post : list event),
        w_trace (snd (buffer_send (P := lp64) 5 100000 3 world_attached)) =
          post ++ EvSubmit us
                    (sndbulkpipe (cport_out_endpoint (w_es1 world_attached)))
                    (100000 - 1) (3 + 1) (next_submit_result world_attached)
            :: pre ++ w_trace world_attached
        /\ us <> NULL
        /\ submit_calls post = 0%nat
        /\ submit_calls pre = 0%nat
        /\ (next_submit_result world_attached = 0 ->
            post = []
            /\ fst (buffer_send (P := lp64) 5 100000 3 world_attached) =
               conceal_urb us)
        /\ (next_submit_result world_attached <> 0 ->
            fst (buffer_send (P := lp64) 5 100000 3 world_attached) =
            ERR_PTR (next_submit_result world_attached)))
  /\ hd_error
       (w_trace (snd (buffer_send (P := lp64) 5 100000 3 world_attached)))
     = Some (EvSubmit tx_urb (sndbulkpipe 3) 99999 4 0)
  /\ read_bytes
       (w_mem (snd (cport_in_callback rx_urb (world_rx 0 [7; 170; 187]))))
       (transfer_buffer (w_urbs (world_rx 0 [7; 170; 187]) rx_urb) + 1)
       (actual_length (w_urbs (world_rx 0 [7; 170; 187]) rx_urb) - 1)
     = [170; 187].
Proof.
  assert (Hurb : slot_free world_attached
                 \/ next_alloc_ok world_attached = true)
    by (left; exact world_attached_slot_free).
  assert (Hst : status (w_urbs (world_rx 0 [7; 170; 187]) rx_urb) = 0)
    by (vm_compute; reflexivity).
  assert (Hlen : 1 <= actual_length (w_urbs (world_rx 0 [7; 170; 187]) rx_urb)
                 < 2 ^ 32)
    by (vm_compute; split; [intros H; discriminate H | reflexivity]).
  assert (Hbuf : read_bytes (w_mem (world_rx 0 [7; 170; 187]))
                   (transfer_buffer (w_urbs (world_rx 0 [7; 170; 187]) rx_urb))
                   (actual_length (w_urbs (world_rx 0 [7; 170; 187]) rx_urb))
                 = [7; 170; 187])
    by (vm_compute; reflexivity).
  assert (Hsub : hd_error
                   (w_trace (snd (buffer_send (P := lp64) 5 100000 3
                                    world_attached)))
                 = Some (EvSubmit tx_urb (sndbulkpipe 3) 99999 4 0))
    by (vm_compute; reflexivity).
  destruct (framing_round_trip (P := lp64) 5 100000 3 world_attached rx_urb
              (world_rx 0 [7; 170; 187]) 7 [170; 187]
              world_attached_ok example_send_args_ok Hurb Hst Hlen Hbuf)
    as [[_ [Hsend Hsubmit]] [_ [Hrecv _]]].
  split; [exact world_attached_ok|]. split; [exact example_send_args_ok|].
  split; [exact Hurb|]. split; [exact Hbuf|]. split; [exact Hsend|].
  split; [exact Hsubmit|]. split; [exact Hsub|]. exact Hrecv.
Defined.

Lemma pool_before_dynamic_allocation_witness :
  dev_ok world_attached
  /\ pool_idle world_attached
  /\ within_capacity (P := lp64) ten_sends world_attached = true
  /\ alloc_urb_calls (w_trace (run (P := lp64) ten_sends world_attached)) =
     alloc_urb_calls (w_trace world_attached).
Proof.
  assert (Hcap : within_capacity (P := lp64) ten_sends world_attached = true)
    by (vm_compute; reflexivity).
  split; [exact world_attached_ok|]. split; [exact world_attached_idle|].
  split; [exact Hcap|].
  exact (proj2 (proj2 (proj2
           (pool_before_dynamic_allocation (P := lp64) world_attached
              5 100000 3 ten_sends world_attached
              world_attached_ok example_send_args_ok
              world_attached_ok world_attached_idle Hcap)))).
Defined.

Lemma pool_mutual_exclusion_witness :
  dev_ok world_attached
  /\ NoDup (fst (pool_run (P := lp64)
                   [Acquire; Acquire; Release tx_urb; Acquire] []
                   world_attached)).
Proof.
  split; [exact world_attached_ok|].
  exact (proj2 (proj2
           (pool_mutual_exclusion (P := lp64)
              [Acquire; Acquire; Release tx_urb; Acquire] world_attached
              world_attached_ok))).
Defined.

Lemma device_gone_not_resubmitted_witness :
  device_gone_status (status (w_urbs (world_rx (- ESHUTDOWN) []) rx_urb)) = true
  /\ status (w_urbs (world_rx (- ESHUTDOWN) []) rx_urb) <> - EPROTO
  /\ submit_calls
       (w_trace (snd (cport_in_callback rx_urb (world_rx (- ESHUTDOWN) [])))) =
     submit_calls (w_trace (world_rx (- ESHUTDOWN) [])).
Proof.
  assert (Hgone : device_gone_status
                    (status (w_urbs (world_rx (- ESHUTDOWN) []) rx_urb)) = true)
    by (vm_compute; reflexivity).
  assert (Hne : status (w_urbs (world_rx (- ESHUTDOWN) []) rx_urb) <> - EPROTO)
    by (vm_compute; intros H; discriminate H).
  split; [exact Hgone|]. split; [exact Hne|].
  exact (proj1 (device_gone_not_resubmitted rx_urb
                  (world_rx (- ESHUTDOWN) []) Hgone Hne)).
Defined.

Lemma buffer_send_rejects_invalid_witness :
  (100000 = NULL \/ 3 > INT_MAX \/
   65535 = CPORT_ID_BAD (Platform := lp64) \/ 65535 > U8_MAX)
  /\ fst (buffer_send (P := lp64) 65535 100000 3 world_attached) =
     ERR_PTR (- EINVAL).
Proof.
  assert (Hbad : 100000 = NULL \/ 3 > INT_MAX \/
                 65535 = CPORT_ID_BAD (Platform := lp64) \/ 65535 > U8_MAX)
    by (right; right; left; reflexivity).
  split; [exact Hbad|].
  exact (proj1 (buffer_send_rejects_invalid (P := lp64) 65535 100000 3
                  world_attached Hbad)).
Defined.

Lemma submit_failure_releases_urb_witness :
  dev_ok (world_submit_fails (-5))
  /\ send_args_ok (P := lp64) 5 100000 3
  /\ (slot_free (world_submit_fails (-5))
      \/ next_alloc_ok (world_submit_fails (-5)) = true)
  /\ next_submit_result (world_submit_fails (-5)) <> 0
  /\ fst (buffer_send (P := lp64) 5 100000 3 (world_submit_fails (-5))) =
     ERR_PTR (next_submit_result (world_submit_fails (-5)))
  /\ w_es1 (snd (buffer_send (P := lp64) 5 100000 3 (world_submit_fails (-5))))
     = w_es1 (world_submit_fails (-5)).
Proof.
  assert (Hurb : slot_free (world_submit_fails (-5))
                 \/ next_alloc_ok (world_submit_fails (-5)) = true)
    by (right; vm_compute; reflexivity).
  assert (Hret : next_submit_result (world_submit_fails (-5)) <> 0)
    by (vm_compute; intros H; discriminate H).
  destruct (submit_failure_releases_urb (P := lp64) 5 100000 3
              (world_submit_fails (-5)) (world_submit_fails_ok (-5))
              example_send_args_ok Hurb Hret) as (H1 & H2 & _).
  split; [exact (world_submit_fails_ok (-5))|].
  split; [exact example_send_args_ok|]. split; [exact Hurb|].
  split; [exact Hret|]. split; [exact H1 | exact H2].
Defined.

Lemma buffer_cancel_decodes_cookie_witness :
  dev_ok world_attached
  /\ send_args_ok (P := lp64) 5 100000 3
  /\ (slot_free world_attached \/ next_alloc_ok world_attached = true)
  /\ next_submit_result world_attached = 0
  /\ buffer_cancel NULL world_attached = (tt, world_attached)
  /\ reveal_urb (fst (buffer_send (P := lp64) 5 100000 3 world_attached)) =
     tx_urb.
Proof.
  assert (Hret : next_submit_result world_attached = 0)
    by (vm_compute; reflexivity).
  destruct (buffer_cancel_decodes_cookie (P := lp64) 5 100000 3 world_attached
              world_attached_ok example_send_args_ok
              (or_introl world_attached_slot_free) Hret)
    as (Hnull & _ & _).
  split; [exact world_attached_ok|]. split; [exact example_send_args_ok|].
  split; [left; exact world_attached_slot_free|]. split; [exact Hret|].
  split; [exact Hnull|]. vm_compute. reflexivity.
Defined.

Lemma zero_length_dropped_and_resubmitted_witness :
  status (w_urbs (world_rx 0 []) rx_urb) = 0
  /\ actual_length (w_urbs (world_rx 0 []) rx_urb) = 0
  /\ data_rcvd_calls (w_trace (snd (cport_in_callback rx_urb (world_rx 0 []))))
     = data_rcvd_calls (w_trace (world_rx 0 []))
  /\ submit_calls (w_trace (snd (cport_in_callback rx_urb (world_rx 0 []))))
     = S (submit_calls (w_trace (world_rx 0 []))).
Proof.
  assert (Hst : status (w_urbs (world_rx 0 []) rx_urb) = 0)
    by (vm_compute; reflexivity).
  assert (Hlen : actual_length (w_urbs (world_rx 0 []) rx_urb) = 0)
    by (vm_compute; reflexivity).
  destruct (zero_length_dropped_and_resubmitted rx_urb (world_rx 0 [])
              Hst Hlen) as (H1 & H2 & _).
  split; [exact Hst|]. split; [exact Hlen|]. split; [exact H1 | exact H2].
Defined.

Lemma ap_probe_requires_endpoints_witness :
  0 < w_heap_next world0
  /\ existsb usb_endpoint_is_int_in no_bulk_out_endpoints
     && existsb usb_endpoint_is_bulk_in no_bulk_out_endpoints
     && existsb usb_endpoint_is_bulk_out no_bulk_out_endpoints = false
  /\ fst (ap_probe (P := lp64) 0 no_bulk_out_endpoints world0) = - ENOMEM
  /\ w_live (snd (ap_probe (P := lp64) 0 no_bulk_out_endpoints world0)) =
     w_live world0.
Proof.
  assert (Hheap : 0 < w_heap_next world0) by (vm_compute; reflexivity).
  assert (Hmiss : existsb usb_endpoint_is_int_in no_bulk_out_endpoints
                  && existsb usb_endpoint_is_bulk_in no_bulk_out_endpoints
                  && existsb usb_endpoint_is_bulk_out no_bulk_out_endpoints
                  = false) by (vm_compute; reflexivity).
  destruct (proj2 (ap_probe_requires_endpoints (P := lp64) 0
                     no_bulk_out_endpoints world0 Hheap) Hmiss)
    as (H1 & H2 & _).
  split; [exact Hheap|]. split; [exact Hmiss|]. split; [exact H1 | exact H2].
Defined.

(** ** Where the code departs from the claims as first stated *)

(** C2, as first stated, has [buffer_send] return -ENOMEM only when the
    dynamic allocation fails.  Here a pool slot is free, no allocation is
    attempted, [usb_submit_urb] fails with -ENOMEM, and [buffer_send]
    returns [ERR_PTR(-ENOMEM)]. *)
Lemma enomem_without_allocation_failure :
  dev_ok (world_submit_fails (- ENOMEM))
  /\ send_args_ok (P := lp64) 5 100000 3
  /\ slot_free (world_submit_fails (- ENOMEM))
  /\ next_alloc_ok (world_submit_fails (- ENOMEM)) = true
  /\ fst (buffer_send (P := lp64) 5 100000 3 (world_submit_fails (- ENOMEM)))
     = ERR_PTR (- ENOMEM)
  /\ alloc_urb_calls
       (w_trace (snd (buffer_send (P := lp64) 5 100000 3
                        (world_submit_fails (- ENOMEM)))))
     = alloc_urb_calls (w_trace (world_submit_fails (- ENOMEM))).
Proof.
  split; [exact (world_submit_fails_ok (- ENOMEM))|].
  split; [exact example_send_args_ok|].
  split; [exists 0%nat; vm_compute; reflexivity|].
  split; [vm_compute; reflexivity|].
  split; vm_compute; reflexivity.
Qed.

(** C4, as first stated, has every status of the classifier's device-gone
    group end resubmission.  -EPROTO is in that group, is returned as it
    is, and both receive callbacks resubmit the urb. *)
Lemma eproto_is_resubmitted :
  device_gone_status (status (w_urbs (world_rx (- EPROTO) []) rx_urb)) = true
  /\ fst (check_urb_status rx_urb (world_rx (- EPROTO) [])) = - EPROTO
  /\ submit_calls
       (w_trace (snd (cport_in_callback rx_urb (world_rx (- EPROTO) [])))) =
     S (submit_calls (w_trace (world_rx (- EPROTO) [])))
  /\ submit_calls
       (w_trace (snd (svc_in_callback rx_urb (world_rx (- EPROTO) [])))) =
     S (submit_calls (w_trace (world_rx (- EPROTO) []))).
Proof.
  split; [vm_compute; reflexivity|]. split; [vm_compute; reflexivity|].
  split; vm_compute; reflexivity.
Qed.

(** C5, as first stated, has -EOVERFLOW classified as transient and
    resubmitted on the receive path.  The classifier returns -EOVERFLOW,
    not -EAGAIN, and [cport_in_callback] drops the urb without calling
    [usb_submit_urb]. *)
Lemma overflow_is_not_transient :
  fst (check_urb_status rx_urb (world_rx (- EOVERFLOW) [])) = - EOVERFLOW
  /\ fst (check_urb_status rx_urb (world_rx (- EOVERFLOW) [])) <> - EAGAIN
  /\ submit_calls
       (w_trace (snd (cport_in_callback rx_urb (world_rx (- EOVERFLOW) [])))) =
     submit_calls (w_trace (world_rx (- EOVERFLOW) []))
  /\ hd_error
       (w_trace (snd (cport_in_callback rx_urb (world_rx (- EOVERFLOW) [])))) =
     Some (EvLog (log_cport_in_dropped (- EOVERFLOW))).
Proof.
  split; [vm_compute; reflexivity|].
  split; [vm_compute; intros H; discriminate H|].
  split; vm_compute; reflexivity.
Qed.

(** C10, as first stated, has [ap_probe] succeed only with exactly one
    endpoint of each kind.  With two bulk-in endpoints it returns 0, the
    device stays attached and the later endpoint is the one used. *)
Lemma ap_probe_accepts_two_bulk_in :
  length (filter (fun e => usb_endpoint_is_bulk_in e = true)
            two_bulk_in_endpoints) = 2%nat
  /\ fst (ap_probe (P := lp64) 0 two_bulk_in_endpoints world0) = 0
  /\ w_intfdata (snd (ap_probe (P := lp64) 0 two_bulk_in_endpoints world0))
     = true
  /\ cport_in_endpoint
       (w_es1 (snd (ap_probe (P := lp64) 0 two_bulk_in_endpoints world0)))
     = 0x84.
Proof.
  split; [vm_compute; reflexivity|]. split; [vm_compute; reflexivity|].
  split; vm_compute; reflexivity.
Qed.

(** * The further properties on the example device *)

Lemma world_attached_probing :
  exists (t : list event) (us bs os : list ptr),
    probing (P := lp64) world0 t [] us bs os world_attached.
Proof.
  destruct (ap_probe_run (P := lp64) 0 es2_endpoints world0 eq_refl)
    as [(Hbad & _)|(_ & t & _ & _ & [[_ Ha]|Hg])].
  - vm_compute in Hbad. discriminate Hbad.
  - destruct Ha as (e1 & e2 & e3 & us & bs & os & _ & _ & _ & _ & _ & _ & _
                    & Hpb & _).
    exists t, us, bs, os. exact Hpb.
  - destruct Hg as (Hi & _). vm_compute in Hi. discriminate Hi.
Defined.

Lemma submit_svc_result_witness :
  0 < sizeof_svc_msg (Platform := lp64) < 2 ^ 31
  /\ fst (submit_svc (P := lp64) control_msg_sent 100000 world_attached) = 0.
Proof.
  assert (Hsize : 0 < sizeof_svc_msg (Platform := lp64) < 2 ^ 31)
    by (cbn [sizeof_svc_msg lp64]; lia).
  split; [exact Hsize|].
  exact (proj1 (proj2 (submit_svc_result (P := lp64) control_msg_sent 100000
                         world_attached Hsize)) eq_refl).
Defined.

Lemma next_free_urb_first_fit_witness :
  dev_ok world_attached
  /\ cport_out_urb (w_es1 world_attached) !! 0%nat = Some tx_urb
  /\ cport_out_urb_busy (w_es1 world_attached) !! 0%nat = Some false
  /\ fst (next_free_urb (P := lp64) world_attached) = tx_urb.
Proof.
  assert (Hu : cport_out_urb (w_es1 world_attached) !! 0%nat = Some tx_urb)
    by (vm_compute; reflexivity).
  assert (Hb : cport_out_urb_busy (w_es1 world_attached) !! 0%nat
               = Some false)
    by (vm_compute; reflexivity).
  split; [exact world_attached_ok|]. split; [exact Hu|]. split; [exact Hb|].
  rewrite (next_free_urb_first_fit (P := lp64) world_attached 0 tx_urb
             world_attached_ok Hu Hb ltac:(intros k Hk; lia)).
  reflexivity.
Defined.

Lemma svc_in_callback_delivers_witness :
  status (w_urbs (world_svc_rx 0 64) (svc_urb (w_es1 world_attached))) = 0
  /\ w_es1 (snd (svc_in_callback (svc_urb (w_es1 world_attached))
                   (world_svc_rx 0 64)))
     = w_es1 (world_svc_rx 0 64).
Proof.
  assert (Hst : status (w_urbs (world_svc_rx 0 64)
                          (svc_urb (w_es1 world_attached))) = 0)
    by (vm_compute; reflexivity).
  split; [exact Hst|].
  exact (proj2 (proj2 (svc_in_callback_delivers
                         (svc_urb (w_es1 world_attached)) (world_svc_rx 0 64)
                         Hst))).
Defined.

Lemma send_completion_restores_witness :
  dev_ok world_attached
  /\ send_args_ok (P := lp64) 5 100000 3
  /\ slot_free world_attached
  /\ next_submit_result world_attached = 0
  /\ w_es1 (snd (usb_hcd_giveback_urb
                   (reveal_urb
                      (fst (buffer_send (P := lp64) 5 100000 3
                              world_attached)))
                   0 4
                   (snd (buffer_send (P := lp64) 5 100000 3 world_attached))))
     = w_es1 world_attached
  /\ w_trace (snd (usb_hcd_giveback_urb
                     (reveal_urb
                        (fst (buffer_send (P := lp64) 5 100000 3
                                world_attached)))
                     0 4
                     (snd (buffer_send (P := lp64) 5 100000 3
                             world_attached))))
     = EvDataSent 100000 0
         :: w_trace (snd (buffer_send (P := lp64) 5 100000 3 world_attached)).
Proof.
  assert (Hr : next_submit_result world_attached = 0)
    by (vm_compute; reflexivity).
  split; [exact world_attached_ok|]. split; [exact example_send_args_ok|].
  split; [exact world_attached_slot_free|]. split; [exact Hr|].
  destruct (send_completion_restores (P := lp64) 5 100000 3
              world_attached 0 4 world_attached_ok example_send_args_ok
              (or_introl world_attached_slot_free) Hr)
    as (He & _ & _ & post & Ht & Hpool & _).
  split; [exact He|].
  assert (Hc : classified (to_int 0) = 0) by reflexivity.
  assert (Hl : status_logs (to_int 0) (to_u32 4) = []) by reflexivity.
  rewrite (Hpool world_attached_slot_free), Hc, Hl in Ht.
  rewrite !app_nil_l in Ht. exact Ht.
Defined.

Lemma cookie_reused_after_completion_witness :
  dev_ok world_attached
  /\ slot_free world_attached
  /\ send_args_ok (P := lp64) 5 100000 3
  /\ send_args_ok (P := lp64) 6 200000 2
  /\ fst (buffer_send (P := lp64) 6 200000 2
            (snd (usb_hcd_giveback_urb
                    (reveal_urb
                       (fst (buffer_send (P := lp64) 5 100000 3
                               world_attached)))
                    0 4
                    (snd (buffer_send (P := lp64) 5 100000 3
                            world_attached)))))
     = fst (buffer_send (P := lp64) 5 100000 3 world_attached).
Proof.
  assert (Hargs2 : send_args_ok (P := lp64) 6 200000 2).
  { unfold send_args_ok, NULL, INT_MAX, U8_MAX. cbn [CPORT_ID_BAD lp64]. lia. }
  assert (Hr1 : next_submit_result world_attached = 0)
    by (vm_compute; reflexivity).
  assert (Hr2 : next_submit_result
                  (set_submit_script (tl (w_submit_script world_attached))
                     world_attached) = 0)
    by (vm_compute; reflexivity).
  split; [exact world_attached_ok|]. split; [exact world_attached_slot_free|].
  split; [exact example_send_args_ok|]. split; [exact Hargs2|].
  exact (proj1 (cookie_reused_after_completion (P := lp64) 5 100000 3
                  6 200000 2 0 4 world_attached world_attached_ok
                  world_attached_slot_free example_send_args_ok Hargs2
                  Hr1 Hr2)).
Defined.

Lemma send_result_error_or_cookie_witness :
  dev_ok world_attached
  /\ w_heap_next world_attached < 2 ^ 64 - 4096
  /\ - MAX_ERRNO <= next_submit_result world_attached <= 0
  /\ IS_ERR (fst (buffer_send (P := lp64) 5 100000 3 world_attached)) = false.
Proof.
  assert (Hheap : w_heap_next world_attached < 2 ^ 64 - 4096)
    by (vm_compute; reflexivity).
  assert (Hret : - MAX_ERRNO <= next_submit_result world_attached <= 0)
    by (vm_compute; split; intros H; discriminate H).
  assert (Hr : next_submit_result world_attached = 0)
    by (vm_compute; reflexivity).
  split; [exact world_attached_ok|]. split; [exact Hheap|].
  split; [exact Hret|].
  apply (proj1 (send_result_error_or_cookie (P := lp64) 5 100000 3
                  world_attached world_attached_ok ltac:(lia) ltac:(lia)
                  Hheap Hret)).
  split; [exact example_send_args_ok|].
  split; [left; exact world_attached_slot_free | exact Hr].
Defined.

Lemma busy_flags_track_sends_witness :
  dev_ok world_attached
  /\ pool_idle world_attached
  /\ within_capacity (P := lp64) ten_sends world_attached = true
  /\ NoDup (sends_in_flight (run (P := lp64) ten_sends world_attached)).
Proof.
  assert (Hcap : within_capacity (P := lp64) ten_sends world_attached = true)
    by (vm_compute; reflexivity).
  split; [exact world_attached_ok|]. split; [exact world_attached_idle|].
  split; [exact Hcap|].
  exact (proj1 (proj2 (busy_flags_track_sends (P := lp64) ten_sends
                         world_attached world_attached_ok world_attached_idle
                         Hcap))).
Defined.

Lemma ap_disconnect_releases_witness :
  w_intfdata world_attached = true
  /\ es1_wf (w_es1 world_attached)
  /\ rx_urbs_ok world_attached
  /\ w_live world_attached ≡ₚ held world_attached ++ []
  /\ w_live (snd (ap_disconnect world_attached)) ≡ₚ [].
Proof.
  destruct world_attached_probing as (t & us & bs & os & Hpb).
  pose proof (pb_intf _ _ _ _ _ _ _ Hpb) as Hintf.
  pose proof (probing_wf _ _ _ _ _ _ _ Hpb) as Hwf.
  pose proof (probing_rx_urbs_ok _ _ _ _ _ _ _ Hpb) as Hrx.
  assert (Hlive : w_live world_attached ≡ₚ held world_attached ++ []).
  { rewrite (pb_live _ _ _ _ _ _ _ Hpb). reflexivity. }
  split; [exact Hintf|]. split; [exact Hwf|]. split; [exact Hrx|].
  split; [exact Hlive|].
  exact (proj1 (ap_disconnect_releases world_attached []
                  Hintf Hwf Hrx Hlive)).
Defined.

Lemma ap_disconnect_unqueues_witness :
  w_intfdata world_rx_queued = true
  /\ es1_wf (w_es1 world_rx_queued)
  /\ rx_urbs_ok world_rx_queued
  /\ queues_ok world_rx_queued
  /\ rx_urb ∈ killed world_rx_queued
  /\ (rx_urb
      ∉ w_inflight (snd (ap_disconnect world_rx_queued))
          (urb_pipe (w_urbs world_attached rx_urb))).
Proof.
  assert (Hintf : w_intfdata world_rx_queued = true)
    by (vm_compute; reflexivity).
  assert (Hwf : es1_wf (w_es1 world_rx_queued))
    by (vm_compute; repeat split).
  assert (Hrx : rx_urbs_ok world_rx_queued).
  { intros u Hu. apply list_elem_of_In in Hu. vm_compute in Hu.
    repeat (destruct Hu as [<-|Hu];
            [vm_compute; intros H; discriminate H|]).
    contradiction. }
  assert (Hq : queues_ok world_rx_queued).
  { assert (E1 : w_inflight world_rx_queued =
                 fun p => if pipe_eqb p (urb_pipe (w_urbs world_attached rx_urb))
                          then [rx_urb] else [])
      by reflexivity.
    assert (E2 : urb_pipe (w_urbs world_rx_queued rx_urb) =
                 urb_pipe (w_urbs world_attached rx_urb))
      by (vm_compute; reflexivity).
    intros p. rewrite E1.
    destruct (pipe_eqb p (urb_pipe (w_urbs world_attached rx_urb))) eqn:E.
    - split; [apply NoDup_singleton|].
      intros u Hu. apply list_elem_of_singleton in Hu. subst u.
      rewrite E2. symmetry. apply pipe_eqb_eq. exact E.
    - split; [constructor|]. intros u Hu. apply elem_of_nil in Hu.
      contradiction. }
  assert (Hk : rx_urb ∈ killed world_rx_queued).
  { apply list_elem_of_In. vm_compute. tauto. }
  split; [exact Hintf|]. split; [exact Hwf|]. split; [exact Hrx|].
  split; [exact Hq|]. split; [exact Hk|].
  exact (proj1 (ap_disconnect_unqueues world_rx_queued
                  Hintf Hwf Hrx Hq) _ rx_urb Hk).
Defined.


Lemma ap_probe_then_disconnect_witness :
  0 < w_heap_next world0
  /\ fst (ap_probe (P := lp64) 0 es2_endpoints world0) = 0
  /\ w_intfdata (snd (ap_probe (P := lp64) 0 es2_endpoints world0)) = true
  /\ w_live (snd (ap_disconnect
                    (snd (ap_probe (P := lp64) 0 es2_endpoints world0))))
     ≡ₚ w_live world0.
Proof.
  assert (Hret : fst (ap_probe (P := lp64) 0 es2_endpoints world0) = 0)
    by (vm_compute; reflexivity).
  assert (Hintf : w_intfdata (snd (ap_probe (P := lp64) 0 es2_endpoints
                                     world0)) = true)
    by (vm_compute; reflexivity).
  split; [reflexivity|]. split; [exact Hret|]. split; [exact Hintf|].
  exact (proj1 (ap_probe_then_disconnect (P := lp64) 0 es2_endpoints world0
                  eq_refl Hret Hintf)).
Defined.

Lemma ap_probe_failure_releases_witness :
  0 < w_heap_next world_no_in_buffer
  /\ w_intfdata (snd (ap_probe (P := lp64) 0 es2_endpoints
                        world_no_in_buffer)) = false
  /\ w_live (snd (ap_probe (P := lp64) 0 es2_endpoints world_no_in_buffer))
     <> []
  /\ exists new : list event,
       w_trace (snd (ap_probe (P := lp64) 0 es2_endpoints world_no_in_buffer))
       = new ++ w_trace world_no_in_buffer
       /\ w_live (snd (ap_probe (P := lp64) 0 es2_endpoints
                         world_no_in_buffer))
          ≡ₚ lost_urbs new ++ w_live world_no_in_buffer
       /\ (length (lost_urbs new) <= 1)%nat
       /\ w_udev_refs (snd (ap_probe (P := lp64) 0 es2_endpoints
                              world_no_in_buffer))
          = w_udev_refs world_no_in_buffer.
Proof.
  assert (Hintf : w_intfdata (snd (ap_probe (P := lp64) 0 es2_endpoints
                                     world_no_in_buffer)) = false)
    by (vm_compute; reflexivity).
  split; [reflexivity|]. split; [exact Hintf|].
  split; [vm_compute; intros H; discriminate H|].
  exact (ap_probe_failure_releases (P := lp64) 0 es2_endpoints
           world_no_in_buffer eq_refl Hintf).
Defined.

Lemma ap_probe_return_value_witness :
  0 < w_heap_next world_no_in_urb
  /\ exists new : list event,
       w_trace (snd (ap_probe (P := lp64) 0 es2_endpoints world_no_in_urb))
       = new ++ w_trace world_no_in_urb
       /\ fst (ap_probe (P := lp64) 0 es2_endpoints world_no_in_urb)
          = default (- ENOMEM) (last_submit_result new).
Proof.
  split; [reflexivity|].
  exact (ap_probe_return_value (P := lp64) 0 es2_endpoints world_no_in_urb
           eq_refl).
Defined.

Lemma ap_probe_zero_after_failure_witness :
  0 < w_heap_next world_no_in_urb
  /\ existsb failed_alloc
       (w_trace (snd (ap_probe (P := lp64) 0 es2_endpoints world_no_in_urb)))
     = true
  /\ existsb is_submit
       (w_trace (snd (ap_probe (P := lp64) 0 es2_endpoints world_no_in_urb)))
     = true
  /\ fst (ap_probe (P := lp64) 0 es2_endpoints world_no_in_urb) = 0
  /\ w_intfdata (snd (ap_probe (P := lp64) 0 es2_endpoints world_no_in_urb))
     = false.
Proof.
  assert (Hf : existsb failed_alloc
                 (w_trace (snd (ap_probe (P := lp64) 0 es2_endpoints
                                  world_no_in_urb))) = true)
    by (vm_compute; reflexivity).
  assert (Hs : existsb is_submit
                 (w_trace (snd (ap_probe (P := lp64) 0 es2_endpoints
                                  world_no_in_urb))) = true)
    by (vm_compute; reflexivity).
  split; [reflexivity|]. split; [exact Hf|]. split; [exact Hs|].
  destruct (ap_probe_zero_after_failure (P := lp64) 0 es2_endpoints
              world_no_in_urb _ eq_refl (eq_sym (app_nil_r _)) Hf Hs)
    as (H1 & H2 & _).
  split; [exact H1 | exact H2].
Defined.

Lemma attached_data_delivery_witness :
  0 < w_heap_next world0
  /\ fst (ap_probe (P := lp64) 0 es2_endpoints world0) = 0
  /\ w_intfdata (snd (ap_probe (P := lp64) 0 es2_endpoints world0)) = true
  /\ cport_in_urb
       (w_es1 (set_mem rx_memory
                 (snd (ap_probe (P := lp64) 0 es2_endpoints world0))))
     !! 0%nat = Some rx_urb
  /\ read_bytes rx_memory
       (transfer_buffer
          (w_urbs (set_mem rx_memory
                     (snd (ap_probe (P := lp64) 0 es2_endpoints world0)))
             rx_urb)) 3
     = 7 :: [170; 187]
  /\ read_bytes
       (w_mem (snd (usb_hcd_giveback_urb rx_urb 0 3
                      (set_mem rx_memory
                         (snd (ap_probe (P := lp64) 0 es2_endpoints
                                 world0))))))
       (transfer_buffer
          (w_urbs (set_mem rx_memory
                     (snd (ap_probe (P := lp64) 0 es2_endpoints world0)))
             rx_urb) + 1) (3 - 1)
     = [170; 187].
Proof.
  assert (Hret : fst (ap_probe (P := lp64) 0 es2_endpoints world0) = 0)
    by (vm_compute; reflexivity).
  assert (Hintf : w_intfdata (snd (ap_probe (P := lp64) 0 es2_endpoints
                                     world0)) = true)
    by (vm_compute; reflexivity).
  assert (Hu : cport_in_urb
                 (w_es1 (set_mem rx_memory
                           (snd (ap_probe (P := lp64) 0 es2_endpoints
                                   world0))))
               !! 0%nat = Some rx_urb)
    by (vm_compute; reflexivity).
  assert (Hbytes : read_bytes rx_memory
                     (transfer_buffer
                        (w_urbs (set_mem rx_memory
                                   (snd (ap_probe (P := lp64) 0 es2_endpoints
                                           world0)))
                           rx_urb)) 3
                   = 7 :: [170; 187])
    by (vm_compute; reflexivity).
  split; [reflexivity|]. split; [exact Hret|]. split; [exact Hintf|].
  split; [exact Hu|]. split; [exact Hbytes|].
  exact (proj2 (proj2 (attached_data_delivery (P := lp64) 0 es2_endpoints
                         world0 rx_memory 0 rx_urb 3 7 [170; 187]
                         eq_refl Hret Hintf Hu ltac:(lia) Hbytes))).
Defined.

Lemma attached_svc_delivery_witness :
  0 < w_heap_next world0
  /\ fst (ap_probe (P := lp64) 0 es2_endpoints world0) = 0
  /\ w_intfdata (snd (ap_probe (P := lp64) 0 es2_endpoints world0)) = true
  /\ svc_urb (w_es1 (snd (ap_probe (P := lp64) 0 es2_endpoints world0)))
     <> NULL.
Proof.
  assert (Hret : fst (ap_probe (P := lp64) 0 es2_endpoints world0) = 0)
    by (vm_compute; reflexivity).
  assert (Hintf : w_intfdata (snd (ap_probe (P := lp64) 0 es2_endpoints
                                     world0)) = true)
    by (vm_compute; reflexivity).
  split; [reflexivity|]. split; [exact Hret|]. split; [exact Hintf|].
  exact (proj1 (attached_svc_delivery (P := lp64) 0 es2_endpoints world0 64
                  eq_refl Hret Hintf ltac:(lia))).
Defined.
